(** * teleparser: the tagged-blob decoder of [tblob.py]

    A shallow embedding of the decoder of Telegram data structures
    ([tblob.py]) and of its dispatcher [tblob.parse_blob], and of the
    code of [tdb.py], [logger.py] and [utils/build_callbacks.py] that
    works on the decoded records.

    [tblob.py] is written with the [construct] parsing combinators.  The
    library is not part of the repository; the combinators the decoder
    uses ([Struct], [Peek], [IfThenElse], [Switch], ...) are embedded
    here as functions on a parser monad, with the behaviour of
    construct 2.9 / 2.10.  A parser runs on one [BytesIO] stream and can
    raise; the stream position and the records logged survive a raised
    exception, as they do in Python. *)

From Stdlib Require Import ZArith List String Ascii Lia Bool.
From Stdlib Require Import Strings.Byte HexadecimalString.
From stdpp Require Import base option gmap.
Import ListNotations.
Set Warnings "-register-all".
Local Open Scope string_scope.
Local Open Scope list_scope.
Local Open Scope Z_scope.

(** ** Python values *)

(** A Python [str] is the sequence of its code points. *)
Definition pystr := list N.

Definition str (s : string) : pystr :=
  map (fun b => Byte.to_N b) (list_byte_of_string s).

Inductive value : Type :=
| VNone
| VBool (b : bool)
| VInt (z : Z)
| VBytes (bs : list byte)
| VStr (s : pystr)
| VList (l : list value)
| VContainer (fields : list (string * value))
| VStream.

(** A [Container] is an insertion-ordered dictionary with attribute
    access.  [VStream] is the stream of the running parse, the [_io]
    entry of every [Container] a [Struct] returns. *)
Definition container := list (string * value).

Fixpoint dict_get {V : Type} (k : string) (d : list (string * V)) : option V :=
  match d with
  | [] => None
  | (k', v) :: d' => if String.eqb k k' then Some v else dict_get k d'
  end.

Fixpoint dict_set {V : Type} (k : string) (v : V) (d : list (string * V))
  : list (string * V) :=
  match d with
  | [] => [(k, v)]
  | (k', v') :: d' =>
      if String.eqb k k' then (k, v) :: d' else (k', v') :: dict_set k v d'
  end.

Definition keys {V : Type} (d : list (string * V)) : list string := map fst d.

(** A dictionary display [{k1: v1, k2: v2, ...}] with integer keys: a
    repeated key keeps the value written last. *)
Definition dict_display_get {V : Type} (k : Z) (d : list (Z * V)) : option V :=
  fold_left (fun acc kv => if Z.eqb k (fst kv) then Some (snd kv) else acc) d None.

(** Integers and booleans are the operands of Python's arithmetic. *)
Definition as_int (v : value) : option Z :=
  match v with
  | VInt z => Some z
  | VBool b => Some (if b then 1 else 0)
  | _ => None
  end.

(** Truth value testing. *)
Definition truthy (v : value) : bool :=
  match v with
  | VNone => false
  | VBool b => b
  | VInt z => negb (z =? 0)
  | VBytes bs => negb (Nat.eqb (List.length bs) 0)
  | VStr s => negb (Nat.eqb (List.length s) 0)
  | VList l => negb (Nat.eqb (List.length l) 0)
  | VContainer d => negb (Nat.eqb (List.length d) 0)
  | VStream => true
  end.

Definition byte_eqb (a b : byte) : bool := N.eqb (Byte.to_N a) (Byte.to_N b).

Fixpoint list_eqb {A : Type} (eqb : A -> A -> bool) (l1 l2 : list A) : bool :=
  match l1, l2 with
  | [], [] => true
  | x :: l1', y :: l2' => eqb x y && list_eqb eqb l1' l2'
  | _, _ => false
  end.

(** Python's [==] on the values above: numbers compare by value
    ([True == 1]), everything else structurally; [None] equals only
    [None]. *)
Fixpoint py_eq (a b : value) {struct a} : bool :=
  match a, b with
  | VNone, VNone => true
  | VBool x, VBool y => Bool.eqb x y
  | VBool x, VInt y => (if x then 1 else 0) =? y
  | VInt x, VBool y => x =? (if y then 1 else 0)
  | VInt x, VInt y => x =? y
  | VBytes x, VBytes y => list_eqb byte_eqb x y
  | VStr x, VStr y => list_eqb N.eqb x y
  | VList x, VList y =>
      (fix go (l1 l2 : list value) : bool :=
         match l1, l2 with
         | [], [] => true
         | v1 :: l1', v2 :: l2' => py_eq v1 v2 && go l1' l2'
         | _, _ => false
         end) x y
  | VContainer x, VContainer y =>
      (fix go (l1 : list (string * value)) (l2 : list (string * value)) : bool :=
         match l1, l2 with
         | [], [] => true
         | (k1, v1) :: l1', (k2, v2) :: l2' =>
             String.eqb k1 k2 && py_eq v1 v2 && go l1' l2'
         | _, _ => false
         end) x y
  | VStream, VStream => true
  | _, _ => false
  end.

(** ** Exceptions, the stream, the log *)

Inductive exn : Type :=
| StreamError | ConstError | RangeError | PaddingError   (* ConstructError *)
| KeyError | AttributeError | TypeError | ValueError | AssertionError.

Definition is_ConstructError (e : exn) : bool :=
  match e with
  | StreamError | ConstError | RangeError | PaddingError => true
  | _ => false
  end.

Inductive level : Type := DEBUG | INFO | WARNING | ERROR.

(** One call of [logger.<level>(msg, *args)]. *)
Record log_record : Type := mkLog
  { levelname : level; msg : string; args : list value }.

(** [io.BytesIO]: the buffer and the position [tell()] returns. *)
Record BytesIO : Type := mkIO { getvalue : list byte; tell : nat }.

Inductive result (A : Type) : Type :=
| Ok (a : A)
| Raise (e : exn).
Arguments Ok {A} a.
Arguments Raise {A} e.

(** A computation runs on the stream and returns or raises; either way
    it leaves the stream where it got to and the log records it
    emitted.  The log is written, never read. *)
Definition M (A : Type) : Type := BytesIO -> result A * BytesIO * list log_record.

Definition ret {A : Type} (a : A) : M A := fun s => (Ok a, s, []).

Definition raise {A : Type} (e : exn) : M A := fun s => (Raise e, s, []).

(** Put the records [l], emitted earlier, in front of those of [x]. *)
Definition emit {A : Type} (l : list log_record)
    (x : result A * BytesIO * list log_record)
  : result A * BytesIO * list log_record :=
  (fst (fst x), snd (fst x), l ++ snd x).

Definition bind {A B : Type} (m : M A) (k : A -> M B) : M B :=
  fun s =>
    match m s with
    | (Ok a, s', l) => emit l (k a s')
    | (Raise e, s', l) => (Raise e, s', l)
    end.

Notation "x <- m ;; k" := (bind m (fun x => k))
  (at level 100, m at next level, right associativity).
Notation "m ;;; k" := (bind m (fun _ => k))
  (at level 100, right associativity).

Definition log_call (l : level) (m : string) (a : list value) : M unit :=
  fun s => (Ok tt, s, [mkLog l m a]).

Definition stream_tell : M nat := fun s => (Ok (tell s), s, []).

(** [stream.read(n)] returns at most [n] bytes and advances by what it
    returned; construct's [stream_read] raises [StreamError] when fewer
    than [n] came back. *)
Definition stream_read (n : nat) : M (list byte) :=
  fun s =>
    let chunk := firstn n (skipn (tell s) (getvalue s)) in
    let s' := mkIO (getvalue s) (tell s + List.length chunk)%nat in
    if Nat.eqb (List.length chunk) n then (Ok chunk, s', [])
    else (Raise StreamError, s', []).

(** [stream.read()]: everything that is left. *)
Definition stream_read_all : M (list byte) :=
  fun s =>
    let chunk := skipn (tell s) (getvalue s) in
    (Ok chunk, mkIO (getvalue s) (tell s + List.length chunk)%nat, []).

(** [int.from_bytes(bs, 'little')]. *)
Fixpoint int_from_bytes_little (bs : list byte) : Z :=
  match bs with
  | [] => 0
  | b :: bs' => Z.of_N (Byte.to_N b) + 256 * int_from_bytes_little bs'
  end.

(** ** Expressions over the parsing context ([this.<field>], lambdas) *)

(** The context of a [Struct] holds [_io] and the fields parsed so far.
    (Its other bookkeeping entries, [_], [_root], [_index], ..., are
    never referred to by [tblob.py] and are left out.) *)
Definition context := container.

Definition expr := context -> M value.

Definition lift {A : Type} (r : result A) : M A := fun s => (r, s, []).

(** [obj[k]] on a [Container]. *)
Definition getitem (k : string) (v : value) : result value :=
  match v with
  | VContainer d =>
      match dict_get k d with
      | Some x => Ok x
      | None => Raise KeyError
      end
  | _ => Raise TypeError
  end.

Fixpoint path_get (p : list string) (v : value) : result value :=
  match p with
  | [] => Ok v
  | k :: p' =>
      match getitem k v with
      | Ok x => path_get p' x
      | Raise e => Raise e
      end
  end.

(** [this.a.b] is [this ["a"; "b"]]. *)
Definition this (p : list string) : expr :=
  fun ctx => lift (path_get p (VContainer ctx)).

Definition lit (v : value) : expr := fun _ => ret v.

Definition int (z : Z) : expr := lit (VInt z).

Definition int_op (f : Z -> Z -> value) (a b : value) : result value :=
  match as_int a, as_int b with
  | Some x, Some y => Ok (f x y)
  | _, _ => Raise TypeError
  end.

Definition binop (op : value -> value -> result value) (l r : expr) : expr :=
  fun ctx => a <- l ctx ;; b <- r ctx ;; lift (op a b).

Definition ge_ : expr -> expr -> expr := binop (int_op (fun x y => VBool (y <=? x))).
Definition rshift_ : expr -> expr -> expr := binop (int_op (fun x y => VInt (Z.shiftr x y))).
Definition mod_ : expr -> expr -> expr := binop (int_op (fun x y => VInt (x mod y))).
Definition add_ : expr -> expr -> expr := binop (int_op (fun x y => VInt (x + y))).
Definition sub_ : expr -> expr -> expr := binop (int_op (fun x y => VInt (x - y))).
Definition eq_ : expr -> expr -> expr := binop (fun a b => Ok (VBool (py_eq a b))).
Definition ne_ : expr -> expr -> expr := binop (fun a b => Ok (VBool (negb (py_eq a b)))).

Declare Scope expr_scope.
Delimit Scope expr_scope with E.
Notation "a >= b" := (ge_ a b) : expr_scope.
Notation "a >> b" := (rshift_ a b) (at level 33, left associativity) : expr_scope.
Notation "a 'mod' b" := (mod_ a b) : expr_scope.
Notation "a + b" := (add_ a b) : expr_scope.
Notation "a - b" := (sub_ a b) : expr_scope.
Notation "a == b" := (eq_ a b) (at level 70, no associativity) : expr_scope.
Notation "a != b" := (ne_ a b) (at level 70, no associativity) : expr_scope.

(** ** The construct combinators used by [tblob.py] *)

(** A [Construct], seen through [_parsereport(stream, context, path)]. *)
Definition Parser := context -> M value.

(** A subcon of a [Struct]: ['name' / subcon], or a bare subcon. *)
Definition subcon := (option string * Parser)%type.

Notation "n '/:' p" := (Some n%string, p) (at level 75, no associativity).

Definition Pass : Parser := fun _ => ret VNone.

(** Unsigned little-endian [FormatField]s. *)
Definition FormatField_ul (n : nat) : Parser :=
  fun _ => bs <- stream_read n ;; ret (VInt (int_from_bytes_little bs)).

Definition Byte : Parser := FormatField_ul 1.
Definition Int32ul : Parser := FormatField_ul 4.
Definition Int64ul : Parser := FormatField_ul 8.

Definition Bytes (length : expr) : Parser :=
  fun ctx =>
    l <- length ctx ;;
    match as_int l with
    | Some z =>
        if z <? 0 then raise StreamError
        else bs <- stream_read (Z.to_nat z) ;; ret (VBytes bs)
    | None => raise TypeError
    end.

Definition GreedyBytes : Parser :=
  fun _ => bs <- stream_read_all ;; ret (VBytes bs).

Definition Computed (func : expr) : Parser := func.

(** [Peek]: parse, then seek back whatever happened; a [ConstructError]
    of the subcon is swallowed and the result is [None]. *)
Definition Peek (sc : Parser) : Parser :=
  fun ctx s =>
    let fallback := tell s in
    match sc ctx s with
    | (Ok v, s', l) => (Ok v, mkIO (getvalue s') fallback, l)
    | (Raise e, s', l) =>
        (if is_ConstructError e then Ok VNone else Raise e,
         mkIO (getvalue s') fallback, l)
    end.

Definition Const (expected : Z) (sc : Parser) : Parser :=
  fun ctx =>
    obj <- sc ctx ;;
    if py_eq obj (VInt expected) then ret obj else raise ConstError.

(** [Hex] only changes how the integer prints. *)
Definition Hex (sc : Parser) : Parser := sc.

Definition IfThenElse (condfunc : expr) (thensubcon elsesubcon : Parser) : Parser :=
  fun ctx =>
    c <- condfunc ctx ;;
    if truthy c then thensubcon ctx else elsesubcon ctx.

Definition If (condfunc : expr) (sc : Parser) : Parser :=
  IfThenElse condfunc sc Pass.

(** [Padded(length, subcon)] and [Padding(length) = Padded(length, Pass)]:
    the pad bytes are read and dropped, whatever they are. *)
Definition Padded (length : expr) (sc : Parser) : Parser :=
  fun ctx =>
    l <- length ctx ;;
    match as_int l with
    | Some z =>
        if z <? 0 then raise PaddingError
        else
          position1 <- stream_tell ;;
          obj <- sc ctx ;;
          position2 <- stream_tell ;;
          let pad := z - (Z.of_nat position2 - Z.of_nat position1) in
          if pad <? 0 then raise PaddingError
          else stream_read (Z.to_nat pad) ;;; ret obj
    | None => raise TypeError
    end.

Definition Padding (length : expr) : Parser := Padded length Pass.

(** [Switch(keyfunc, cases)]: a key that is not in [cases] selects the
    default, [Pass]. *)
Definition Switch (keyfunc : expr) (cases : list (Z * Parser)) : Parser :=
  fun ctx =>
    k <- keyfunc ctx ;;
    let sc := match k with
              | VInt z => default Pass (dict_display_get z cases)
              | VBool b => default Pass (dict_display_get (if b then 1 else 0) cases)
              | _ => Pass
              end in
    sc ctx.

Definition LazyBound (subconfunc : unit -> Parser) : Parser :=
  fun ctx => subconfunc tt ctx.

Fixpoint Array_items (n : nat) (sc : Parser) (ctx : context) : M (list value) :=
  match n with
  | O => ret []
  | S n' => v <- sc ctx ;; vs <- Array_items n' sc ctx ;; ret (v :: vs)
  end.

Definition Array (count : expr) (sc : Parser) : Parser :=
  fun ctx =>
    c <- count ctx ;;
    match as_int c with
    | Some z =>
        if z <? 0 then raise RangeError
        else vs <- Array_items (Z.to_nat z) sc ctx ;; ret (VList vs)
    | None => raise TypeError
    end.

(** [FlagsEnum(subcon, name=value, ...)]: one boolean per name,
    [obj & value == value], after the marker entry [_flagsenum]. *)
Definition FlagsEnum_decode (obj : Z) (flags : list (string * Z)) : value :=
  VContainer
    (fold_left
       (fun obj2 nv => dict_set (fst nv) (VBool (Z.land obj (snd nv) =? snd nv)) obj2)
       flags [("_flagsenum", VBool true)]).

Definition FlagsEnum (sc : Parser) (flags : list (string * Z)) : Parser :=
  fun ctx =>
    obj <- sc ctx ;;
    match as_int obj with
    | Some z => ret (FlagsEnum_decode z flags)
    | None => raise TypeError
    end.

(** [Struct]: the result starts as a [Container] that holds the stream
    as [_io]; the subcons run in order on the one stream; a named
    subcon's value is stored in the result and in the context under its
    name.  The context of the enclosing [Struct] is not visible to
    [this]. *)
Fixpoint parse_subcons (subcons : list subcon) (obj : container) : M container :=
  match subcons with
  | [] => ret obj
  | (name, sc) :: rest =>
      subobj <- sc obj ;;
      match name with
      | Some n => parse_subcons rest (dict_set n subobj obj)
      | None => parse_subcons rest obj
      end
  end.

Definition Struct (subcons : list subcon) : Parser :=
  fun _ => obj <- parse_subcons subcons [("_io", VStream)] ;; ret (VContainer obj).

(** [construct.parse(data)]: a fresh [BytesIO] over [data].  The [_io]
    of the result is that stream, so its [tell()] is the final
    position. *)
Definition parse (p : Parser) (data : list byte)
  : result value * BytesIO * list log_record :=
  p [] (mkIO data 0).

(** ** Python builtins the decoder calls *)

(** [bytes.decode('utf-8')], strict: [None] stands for
    [UnicodeDecodeError].  Overlong forms, surrogates and code points
    above U+10FFFF are rejected. *)
Definition in_range (lo hi c : N) : bool := (N.leb lo c && N.leb c hi)%bool.

Fixpoint utf8_decode (bs : list byte) : option pystr :=
  match bs with
  | [] => Some []
  | b0 :: r0 =>
      let c0 := Byte.to_N b0 in
      if N.ltb c0 0x80 then option_map (cons c0) (utf8_decode r0)
      else if in_range 0xC2 0xDF c0 then
        match r0 with
        | b1 :: r1 =>
            let c1 := Byte.to_N b1 in
            if in_range 0x80 0xBF c1
            then option_map (cons ((c0 - 0xC0) * 64 + (c1 - 0x80))%N) (utf8_decode r1)
            else None
        | _ => None
        end
      else if in_range 0xE0 0xEF c0 then
        match r0 with
        | b1 :: b2 :: r2 =>
            let c1 := Byte.to_N b1 in
            let c2 := Byte.to_N b2 in
            if (in_range (if N.eqb c0 0xE0 then 0xA0 else 0x80)
                         (if N.eqb c0 0xED then 0x9F else 0xBF) c1
                && in_range 0x80 0xBF c2)%bool
            then option_map
                   (cons ((c0 - 0xE0) * 4096 + (c1 - 0x80) * 64 + (c2 - 0x80))%N)
                   (utf8_decode r2)
            else None
        | _ => None
        end
      else if in_range 0xF0 0xF4 c0 then
        match r0 with
        | b1 :: b2 :: b3 :: r3 =>
            let c1 := Byte.to_N b1 in
            let c2 := Byte.to_N b2 in
            let c3 := Byte.to_N b3 in
            if (in_range (if N.eqb c0 0xF0 then 0x90 else 0x80)
                         (if N.eqb c0 0xF4 then 0x8F else 0xBF) c1
                && in_range 0x80 0xBF c2 && in_range 0x80 0xBF c3)%bool
            then option_map
                   (cons ((c0 - 0xF0) * 262144 + (c1 - 0x80) * 4096
                          + (c2 - 0x80) * 64 + (c3 - 0x80))%N)
                   (utf8_decode r3)
            else None
        | _ => None
        end
      else None
  end.

(** [hex(n)] for [n >= 0]. *)
Definition hex (z : Z) : pystr :=
  str ("0x" ++ NilZero.string_of_uint (N.to_hex_uint (Z.to_N z))).

(** [datetime.datetime.utcfromtimestamp(epoch).isoformat()] for a whole
    number of seconds: [YYYY-MM-DDTHH:MM:SS] in the proleptic Gregorian
    calendar. *)
Definition civil_from_days (days : Z) : Z * Z * Z :=
  let z := days + 719468 in
  let era := z / 146097 in
  let doe := z - era * 146097 in
  let yoe := (doe - doe / 1460 + doe / 36524 - doe / 146096) / 365 in
  let doy := doe - (365 * yoe + yoe / 4 - yoe / 100) in
  let mp := (5 * doy + 2) / 153 in
  let d := doy - (153 * mp + 2) / 5 + 1 in
  let m := if mp <? 10 then mp + 3 else mp - 9 in
  (if m <=? 2 then yoe + era * 400 + 1 else yoe + era * 400, m, d).

Definition digit (z : Z) : N := (48 + Z.to_N (z mod 10))%N.

Definition digits2 (z : Z) : pystr := [digit (z / 10); digit z].

Definition digits4 (z : Z) : pystr :=
  [digit (z / 1000); digit (z / 100); digit (z / 10); digit z].

Definition utc_isoformat (epoch : Z) : pystr :=
  let '(y, m, d) := civil_from_days (epoch / 86400) in
  let secs := epoch mod 86400 in
  (digits4 y ++ str "-" ++ digits2 m ++ str "-" ++ digits2 d ++ str "T"
   ++ digits2 (secs / 3600) ++ str ":" ++ digits2 (secs mod 3600 / 60)
   ++ str ":" ++ digits2 (secs mod 60))%list.

(** ** [tblob.py]: module level and the primitive structures *)

Definition decode_tstring (binarray : list byte) : M value :=
  match utf8_decode binarray with
  | Some str_utf => ret (VStr str_utf)
  | None =>
      log_call ERROR "unable to decode string: %s" [VBytes binarray] ;;;
      ret (VBytes binarray)
  end.

Definition tstring_struct : Parser :=
  Struct
    [ "_sname" /: Computed (lit (VStr (str "tstring")));
      "_check" /: Peek Byte;
      "_pl" /: IfThenElse (this ["_check"] >= int 254)%E Int32ul Byte;
      "_len" /: IfThenElse (this ["_check"] >= int 254)%E
                  (Computed (this ["_pl"] >> int 8)%E)
                  (Computed (this ["_pl"]));
      "_value" /: Bytes (this ["_len"]);
      "string" /: Computed (fun x =>
                     v <- this ["_value"] x ;;
                     match v with
                     | VBytes bs => decode_tstring bs
                     | _ => raise AttributeError
                     end);
      (None,
       IfThenElse (this ["_check"] >= int 254)%E
         (If (this ["_len"] mod int 4)%E
             (Padding (int 4 - (this ["_len"] mod int 4))%E))
         (If ((this ["_len"] + int 1) mod int 4)%E
             (Padding (int 4 - ((this ["_len"] + int 1) mod int 4))%E))) ].

Definition tbytes_struct : Parser :=
  Struct
    [ "_sname" /: Computed (lit (VStr (str "tbytes")));
      "_check" /: Peek Byte;
      "_pl" /: IfThenElse (this ["_check"] >= int 254)%E Int32ul Byte;
      "len" /: IfThenElse (this ["_check"] >= int 254)%E
                 (Computed (this ["_pl"] >> int 8)%E)
                 (Computed (this ["_pl"]));
      "bytes" /: Hex (Bytes (this ["len"]));
      (None,
       IfThenElse (this ["_check"] >= int 254)%E
         (If (this ["len"] mod int 4)%E
             (Padding (int 4 - (this ["len"] mod int 4))%E))
         (If ((this ["len"] + int 1) mod int 4)%E
             (Padding (int 4 - ((this ["len"] + int 1) mod int 4))%E))) ].

Definition tbool_struct : Parser :=
  Struct
    [ "sname" /: Computed (lit (VStr (str "boolean")));
      "_signature" /: Int32ul;
      "value" /: IfThenElse (this ["_signature"] == int 0xbc799737)%E
                   (Computed (lit (VStr (str "false"))))
                   (IfThenElse (this ["_signature"] == int 0x997275b5)%E
                      (Computed (lit (VStr (str "true"))))
                      (Computed (lit (VStr (str "ERROR"))))) ].

Definition ttimestamp_struct : Parser :=
  Struct
    [ "epoch" /: Int32ul;
      "date" /: Computed (fun this_ =>
                   e <- this ["epoch"] this_ ;;
                   match e with
                   | VInt z => ret (VStr (utc_isoformat z))
                   | _ => raise TypeError
                   end) ].

(** ** [tblob.py]: record structures

    Every [*_struct] method builds a fresh [Struct]; [self] only gives
    access to the other methods and to the class-level primitives, so
    the methods are plain definitions here.  A [*_structures(name)]
    method is the tag-dispatched union: peek the tag, [Switch] on it. *)

Definition text (s : string) : expr := lit (VStr (str s)).

Definition file_location_struct : Parser :=
  Struct [ "sname" /: Computed (text "file_location");
           "signature" /: Hex (Const 0x53d69076 Int32ul);
           "dc_id" /: Int32ul;
           "volume_id" /: Int64ul;
           "local_id" /: Int32ul;
           "secret" /: Int64ul ].

Definition file_encrypted_location_struct : Parser :=
  Struct [ "sname" /: Computed (text "file_encrypted_location");
           "signature" /: Hex (Const 0x55555554 Int32ul);
           "dc_id" /: Int32ul;
           "volume_id" /: Int64ul;
           "local_id" /: Int32ul;
           "secret" /: Int64ul;
           "key" /: tbytes_struct;
           "iv" /: tbytes_struct ].

Definition file_location_unavailable_struct : Parser :=
  Struct [ "sname" /: Computed (text "file_location_unavailable");
           "signature" /: Hex (Const 0x7c596b46 Int32ul);
           "volume_id" /: Int64ul;
           "local_id" /: Int32ul;
           "secret" /: Int64ul ].

Definition file_location_layer82_struct : Parser :=
  Struct [ "sname" /: Computed (text "file_location");
           "signature" /: Hex (Const 0x53d69076 Int32ul);
           "dc_id" /: Int32ul;
           "volume_id" /: Int64ul;
           "local_id" /: Int32ul;
           "secret" /: Int64ul ].

Definition file_location_layer97_struct : Parser :=
  Struct [ "sname" /: Computed (text "file_location_layer97");
           "signature" /: Hex (Const 0x091d11eb Int32ul);
           "dc_id" /: Int32ul;
           "volume_id" /: Int64ul;
           "local_id" /: Int32ul;
           "secret" /: Int64ul;
           "file_reference" /: tbytes_struct ].

Definition file_location_to_be_deprecated_struct : Parser :=
  Struct [ "sname" /: Computed (text "file_location_to_be_deprecated");
           "signature" /: Hex (Const 0xbc7fc6cd Int32ul);
           "volume_id" /: Int64ul;
           "local_id" /: Int32ul ].

Definition file_location_structures (name : string) : Parser :=
  let tag_map :=
    [ (0xbc7fc6cd, LazyBound (fun _ => file_location_to_be_deprecated_struct));
      (0x091d11eb, LazyBound (fun _ => file_location_layer97_struct));
      (0x53d69076, LazyBound (fun _ => file_location_layer82_struct));
      (0x55555554, LazyBound (fun _ => file_encrypted_location_struct));
      (0x7c596b46, LazyBound (fun _ => file_location_unavailable_struct)) ] in
  Struct [ "_signature" /: Peek Int32ul;
           name /: Switch (this ["_signature"]) tag_map ].

Definition restriction_reason_struct : Parser :=
  Struct [ "sname" /: Computed (text "restriction_reason");
           "signature" /: Hex (Const 0xd072acb4 Int32ul);
           "platform" /: tstring_struct;
           "reason" /: tstring_struct;
           "text" /: tstring_struct ].

Definition user_profile_photo_empty_struct : Parser :=
  Struct [ "sname" /: Computed (text "user_profile_photo_empty");
           "signature" /: Hex (Const 0x4f11bae1 Int32ul) ].

Definition user_profile_photo_layer97_struct : Parser :=
  Struct [ "sname" /: Computed (text "user_profile_photo_layer97");
           "signature" /: Hex (Const 0xd559d8c8 Int32ul);
           "photo_id" /: Int64ul;
           "photo_small" /: file_location_structures "photo_small";
           "photo_big" /: file_location_structures "photo_big" ].

Definition user_profile_photo_old_struct : Parser :=
  Struct [ "sname" /: Computed (text "user_profile_photo_old");
           "signature" /: Hex (Const 0x990d1493 Int32ul);
           "photo_small" /: file_location_structures "photo_small";
           "photo_big" /: file_location_structures "photo_big" ].

Definition user_profile_photo_layer115_struct : Parser :=
  Struct [ "sname" /: Computed (text "user_profile_photo_layer115");
           "signature" /: Hex (Const 0xecd75d8c Int32ul);
           "photo_id" /: Int64ul;
           "photo_small" /: file_location_structures "photo_small";
           "photo_big" /: file_location_structures "photo_big";
           "dc_id" /: Int32ul ].

Definition user_profile_photo_struct : Parser :=
  Struct [ "sname" /: Computed (text "user_profile_photo");
           "signature" /: Hex (Const 0x69d3ab26 Int32ul);
           "flags" /: FlagsEnum Int32ul [ ("has_video", 1) ];
           "photo_id" /: Int64ul;
           "photo_small" /: file_location_structures "photo_small";
           "photo_big" /: file_location_structures "photo_big";
           "dc_id" /: Int32ul ].

Definition user_profile_photo_structures (name : string) : Parser :=
  let tag_map :=
    [ (0x69d3ab26, LazyBound (fun _ => user_profile_photo_struct));
      (0xecd75d8c, LazyBound (fun _ => user_profile_photo_layer115_struct));
      (0xd559d8c8, LazyBound (fun _ => user_profile_photo_layer97_struct));
      (0x4f11bae1, LazyBound (fun _ => user_profile_photo_empty_struct));
      (0x990d1493, LazyBound (fun _ => user_profile_photo_old_struct)) ] in
  Struct [ "_signature" /: Peek Int32ul;
           name /: Switch (this ["_signature"]) tag_map ].

Definition user_status_recently_struct : Parser :=
  Struct [ "sname" /: Computed (text "user_status_recently");
           "signature" /: Hex (Const 0xe26f42f1 Int32ul) ].

Definition user_status_online_struct : Parser :=
  Struct [ "sname" /: Computed (text "user_status_online");
           "signature" /: Hex (Const 0xedb93949 Int32ul);
           "expires" /: Int32ul ].

Definition user_status_offline_struct : Parser :=
  Struct [ "sname" /: Computed (text "user_status_offline");
           "signature" /: Hex (Const 0x008c703f Int32ul);
           "expires" /: Int32ul ].

Definition user_status_last_week_struct : Parser :=
  Struct [ "sname" /: Computed (text "user_status_last_week");
           "signature" /: Hex (Const 0x07bf09fc Int32ul) ].

Definition user_status_last_month_struct : Parser :=
  Struct [ "sname" /: Computed (text "user_status_last_month");
           "signature" /: Hex (Const 0x77ebc742 Int32ul) ].

Definition user_status_empty_struct : Parser :=
  Struct [ "sname" /: Computed (text "user_status_empty");
           "signature" /: Hex (Const 0x09d05049 Int32ul) ].

Definition user_status_structures (name : string) : Parser :=
  let tag_map :=
    [ (0xe26f42f1, LazyBound (fun _ => user_status_recently_struct));
      (0xedb93949, LazyBound (fun _ => user_status_online_struct));
      (0x008c703f, LazyBound (fun _ => user_status_offline_struct));
      (0x07bf09fc, LazyBound (fun _ => user_status_last_week_struct));
      (0x09d05049, LazyBound (fun _ => user_status_empty_struct));
      (0x77ebc742, LazyBound (fun _ => user_status_last_month_struct)) ] in
  Struct [ "_signature" /: Peek Int32ul;
           name /: Switch (this ["_signature"]) tag_map ].

Definition user_empty_struct : Parser :=
  Struct [ "sname" /: Computed (text "user_empty");
           "signature" /: Hex (Const 0x200250ba Int32ul);
           "id" /: Int32ul ].

(** The keyword arguments of the [FlagsEnum] of [user_struct]. *)
Definition user_struct_flags : list (string * Z) :=
  [ ("has_access_hash", 1);
    ("has_first_name", 2);
    ("has_last_name", 4);
    ("has_username", 8);
    ("has_phone", 16);
    ("has_profile_photo", 32);
    ("has_status", 64);
    ("is_self", 1024);
    ("is_contact", 2048);
    ("is_mutual_contact", 4096);
    ("is_deleted", 8192);
    ("is_bot", 16384);
    ("is_bot_chat_history", 32768);
    ("is_bot_no_chats", 65536);
    ("is_min", 1048576);
    ("is_verified", 131072);
    ("is_bot_inline_geo", 2097152);
    ("is_restricted", 262144);
    ("is_support", 8388608) ].

(** The [Struct] of the [restrictions] field of [user_struct]. *)
Definition user_struct_restrictions : Parser :=
  Struct [ "_vector_sig" /: Hex (Const 0x1cb5c415 Int32ul);
           "restrictions_num" /: Int32ul;
           "restrictions_array" /:
             Array (this ["restrictions_num"]) restriction_reason_struct ].

Definition user_struct : Parser :=
  Struct [ "sname" /: Computed (text "user_struct");
           "signature" /: Hex (Const 0x938458c1 Int32ul);
           "flags" /: FlagsEnum Int32ul user_struct_flags;
           "id" /: Int32ul;
           "access_hash" /: If (this ["flags"; "has_access_hash"]) Int64ul;
           "first_name" /: If (this ["flags"; "has_first_name"]) tstring_struct;
           "last_name" /: If (this ["flags"; "has_last_name"]) tstring_struct;
           "username" /: If (this ["flags"; "has_username"]) tstring_struct;
           "phone" /: If (this ["flags"; "has_phone"]) tstring_struct;
           "photo" /: If (this ["flags"; "has_profile_photo"])
                         (user_profile_photo_structures "photo");
           "status" /: If (this ["flags"; "has_status"])
                          (user_status_structures "status");
           "bot_info_version" /: If (this ["flags"; "is_bot"]) Int32ul;
           "restrictions" /: If (this ["flags"; "is_restricted"])
                               user_struct_restrictions ].

Definition peer_channel_struct : Parser :=
  Struct [ "sname" /: Computed (text "peer_channel");
           "signature" /: Hex (Const 0xbddde532 Int32ul);
           "channel_id" /: Int32ul ].

Definition peer_chat_struct : Parser :=
  Struct [ "sname" /: Computed (text "peer_chat");
           "signature" /: Hex (Const 0xbad0e5bb Int32ul);
           "chat_id" /: Int32ul ].

Definition peer_user_struct : Parser :=
  Struct [ "sname" /: Computed (text "peer_user");
           "signature" /: Hex (Const 0x9db1bc6d Int32ul);
           "user_id" /: Int32ul ].

Definition peer_structures (name : string) : Parser :=
  let tag_map :=
    [ (0xbddde532, LazyBound (fun _ => peer_channel_struct));
      (0xbad0e5bb, LazyBound (fun _ => peer_chat_struct));
      (0x9db1bc6d, LazyBound (fun _ => peer_user_struct)) ] in
  Struct [ "_signature" /: Peek Int32ul;
           name /: Switch (this ["_signature"]) tag_map ].

Definition message_action_empty_struct : Parser :=
  Struct [ "sname" /: Computed (text "message_action_empty");
           "signature" /: Hex (Const 0xb6aef7b0 Int32ul) ].

(** ** The registry *)

(** An entry of [tdss_callbacks]: the decoder method (by name) or
    [None], the canonical name and, in the entries written with three
    components, the flag. *)
Inductive blob_tuple : Type :=
| Tuple3 (blob_parser : option string) (name : string) (beautify : value)
| Tuple2 (blob_parser : option string) (name : string).

(** The dictionary display of [tblob.tdss_callbacks], entry by entry in
    source order. *)
Definition tdss_callbacks : list (Z * blob_tuple) :=
  [ (0xb8d0afdf, Tuple3 (None) "account_days_ttl" VNone);
    (0xe7027c94, Tuple3 (None) "account_accept_authorization" VNone);
    (0xad2e1cd8, Tuple3 (None) "account_authorization_form" VNone);
    (0x1250abde, Tuple3 (None) "account_authorizations" VNone);
    (0x63cacf26, Tuple3 (None) "account_auto_download_settings" VNone);
    (0xc1cbd5b6, Tuple3 (None) "account_cancel_password_email" VNone);
    (0x70c32edb, Tuple3 (None) "account_change_phone" VNone);
    (0x2714d86c, Tuple3 (None) "account_check_username" VNone);
    (0x8fdf1920, Tuple3 (None) "account_confirm_password_email" VNone);
    (0x5f2178c3, Tuple3 (None) "account_confirm_phone" VNone);
    (0x8432c21f, Tuple3 (None) "account_create_theme" VNone);
    (0x418d4e0b, Tuple3 (None) "account_delete_account" VNone);
    (0xb880bc4b, Tuple3 (None) "account_delete_secure_value" VNone);
    (0x08fc711d, Tuple3 (None) "account_get_account_ttl" VNone);
    (0xb288bc7d, Tuple3 (None) "account_get_all_secure_values" VNone);
    (0xb86ba8e1, Tuple3 (None) "account_get_authorization_form" VNone);
    (0xe320c158, Tuple3 (None) "account_get_authorizations" VNone);
    (0x56da0b3f, Tuple3 (None) "account_get_auto_download_settings" VNone);
    (0x9f07c728, Tuple3 (None) "account_get_contact_sign_up_notification" VNone);
    (0xeb2b4cf6, Tuple3 (None) "account_get_global_privacy_settings" VNone);
    (0x65ad71dc, Tuple3 (None) "account_get_multi_wall_papers" VNone);
    (0x53577479, Tuple3 (None) "account_get_notify_exceptions" VNone);
    (0x12b3ad31, Tuple3 (None) "account_get_notify_settings" VNone);
    (0x548a30f5, Tuple3 (None) "account_get_password" VNone);
    (0x9cd4eaf9, Tuple3 (None) "account_get_password_settings" VNone);
    (0xdadbc950, Tuple3 (None) "account_get_privacy" VNone);
    (0x73665bc2, Tuple3 (None) "account_get_secure_value" VNone);
    (0x8d9d742b, Tuple3 (None) "account_get_theme" VNone);
    (0x285946f8, Tuple3 (None) "account_get_themes" VNone);
    (0x449e0b51, Tuple3 (None) "account_get_tmp_password" VNone);
    (0xfc8ddbea, Tuple3 (None) "account_get_wall_paper" VNone);
    (0xaabb1763, Tuple3 (None) "account_get_wall_papers" VNone);
    (0xc04cfac2, Tuple2 (None) "account_get_wall_papers_v_0_1_317");
    (0x182e6d6f, Tuple3 (None) "account_get_web_authorizations" VNone);
    (0x7ae43737, Tuple3 (None) "account_install_theme" VNone);
    (0xfeed5769, Tuple3 (None) "account_install_wall_paper" VNone);
    (0xad2641f8, Tuple3 (None) "account_password" VNone);
    (0xc23727c9, Tuple3 (None) "account_password_input_settings" VNone);
    (0x9a5c33e5, Tuple3 (None) "account_password_settings" VNone);
    (0x50a04e45, Tuple3 (None) "account_privacy_rules" VNone);
    (0x68976c6f, Tuple3 (None) "account_register_device" VNone);
    (0x554abb6f, Tuple3 (None) "account_privacy_rules_v_5_6_2" VNone);
    (0x446c712c, Tuple3 (None) "account_register_device_v_0_1_317" VNone);
    (0x5cbea590, Tuple3 (None) "account_register_device_v_5_6_2" VNone);
    (0xae189d5f, Tuple3 (None) "account_report_peer" VNone);
    (0x7a7f2a15, Tuple3 (None) "account_resend_password_email" VNone);
    (0xdf77f3bc, Tuple3 (None) "account_reset_authorization" VNone);
    (0xdb7e1747, Tuple3 (None) "account_reset_notify_settings" VNone);
    (0xbb3b9804, Tuple3 (None) "account_reset_wall_papers" VNone);
    (0x2d01b9ef, Tuple3 (None) "account_reset_web_authorization" VNone);
    (0x682d2594, Tuple3 (None) "account_reset_web_authorizations" VNone);
    (0x76f36233, Tuple3 (None) "account_save_auto_download_settings" VNone);
    (0x899fe31d, Tuple3 (None) "account_save_secure_value" VNone);
    (0xf257106c, Tuple3 (None) "account_save_theme" VNone);
    (0x6c5a5b37, Tuple3 (None) "account_save_wall_paper" VNone);
    (0x82574ae5, Tuple3 (None) "account_send_change_phone_code" VNone);
    (0x1b3faa88, Tuple3 (None) "account_send_confirm_phone_code" VNone);
    (0x7011509f, Tuple3 (None) "account_send_verify_email_code" VNone);
    (0xa5a356f9, Tuple3 (None) "account_send_verify_phone_code" VNone);
    (0x811f854f, Tuple3 (None) "account_sent_email_code" VNone);
    (0x2442485e, Tuple3 (None) "account_set_account_ttl" VNone);
    (0xcff43f61, Tuple3 (None) "account_set_contact_sign_up_notification" VNone);
    (0x1edaaac2, Tuple3 (None) "account_set_global_privacy_settings" VNone);
    (0xc9f81ce8, Tuple3 (None) "account_set_privacy" VNone);
    (0x7f676421, Tuple3 (None) "account_themes" VNone);
    (0xf41eb622, Tuple3 (None) "account_themes_not_modified" VNone);
    (0xdb64fd34, Tuple3 (None) "account_tmp_password" VNone);
    (0x3076c4bf, Tuple3 (None) "account_unregister_device" VNone);
    (0x65c55b40, Tuple2 (None) "account_unregister_device_v_0_1_317");
    (0x38df3532, Tuple3 (None) "account_update_device_locked" VNone);
    (0x84be5b93, Tuple3 (None) "account_update_notify_settings" VNone);
    (0xa59b102f, Tuple3 (None) "account_update_password_settings" VNone);
    (0x78515775, Tuple3 (None) "account_update_profile" VNone);
    (0xf0888d68, Tuple2 (None) "account_update_profile_v_0_1_317");
    (0x6628562c, Tuple3 (None) "account_update_status" VNone);
    (0x5cb367d5, Tuple3 (None) "account_update_theme" VNone);
    (0x3e0bdd7c, Tuple3 (None) "account_update_username" VNone);
    (0x1c3db333, Tuple3 (None) "account_upload_theme" VNone);
    (0xdd853661, Tuple3 (None) "account_upload_wall_paper" VNone);
    (0xecba39db, Tuple3 (None) "account_verify_email" VNone);
    (0x4dd3a7f6, Tuple3 (None) "account_verify_phone" VNone);
    (0x702b65a9, Tuple3 (None) "account_wall_papers" VNone);
    (0x1c199183, Tuple3 (None) "account_wall_papers_not_modified" VNone);
    (0xed56c9fc, Tuple3 (None) "account_web_authorizations" VNone);
    (0x586988d8, Tuple3 (Some "audio_empty_layer45_struct") "audio_empty_layer45" VNone);
    (0x555555f6, Tuple3 (Some "audio_encrypted_struct") "audio_encrypted" VNone);
    (0xf9e35055, Tuple3 (Some "audio_layer45_struct") "audio_layer45" VNone);
    (0x427425e7, Tuple3 (Some "audio_old_struct") "audio_old" VNone);
    (0xc7ac6496, Tuple3 (Some "audio_old2_struct") "audio_old2" VNone);
    (0xe894ad4d, Tuple3 (None) "auth_accept_login_token" VNone);
    (0xcd050916, Tuple3 (None) "auth_authorization" VNone);
    (0x44747e9a, Tuple3 (None) "auth_authorization_sign_up_required" VNone);
    (0xf6b673a4, Tuple2 (None) "auth_authorization_v_0_1_317");
    (0x1f040578, Tuple3 (None) "auth_cancel_code" VNone);
    (0xd18b4d16, Tuple3 (None) "auth_check_password" VNone);
    (0x6fe51dfb, Tuple3 (None) "auth_check_phone_v_5_6_2" VNone);
    (0x811ea28e, Tuple3 (None) "auth_checked_phone_v_5_6_2" VNone);
    (0xe300cc3b, Tuple2 (None) "auth_checked_phone_v_0_1_317");
    (0x741cd3e3, Tuple3 (None) "auth_code_type_call" VNone);
    (0x226ccefb, Tuple3 (None) "auth_code_type_flash_call" VNone);
    (0x72a3158c, Tuple3 (None) "auth_code_type_sms" VNone);
    (0xe5bfffcd, Tuple3 (None) "auth_export_authorization" VNone);
    (0xdf969c2d, Tuple3 (None) "auth_exported_authorization" VNone);
    (0xb1b41517, Tuple3 (None) "auth_export_login_token" VNone);
    (0xe3ef9613, Tuple3 (None) "auth_import_authorization" VNone);
    (0x95ac5ce4, Tuple3 (None) "auth_import_login_token" VNone);
    (0x5717da40, Tuple3 (None) "auth_log_out" VNone);
    (0x629f1980, Tuple3 (None) "auth_login_token" VNone);
    (0x068e9916, Tuple3 (None) "auth_login_token_migrate_to" VNone);
    (0x390d5c5e, Tuple3 (None) "auth_login_token_success" VNone);
    (0x137948a5, Tuple3 (None) "auth_password_recovery" VNone);
    (0x4ea56e92, Tuple3 (None) "auth_recover_password" VNone);
    (0xd897bc66, Tuple3 (None) "auth_request_password_recovery" VNone);
    (0x3ef1a9bf, Tuple3 (None) "auth_resend_code" VNone);
    (0x9fab0d1a, Tuple3 (None) "auth_reset_authorizations" VNone);
    (0x03c51564, Tuple2 (None) "auth_send_call_v_0_1_317");
    (0xa677244f, Tuple3 (None) "auth_send_code" VNone);
    (0x768d5f4d, Tuple2 (None) "auth_send_code_v_0_1_317");
    (0x771c1d97, Tuple2 (None) "auth_send_invites_v_0_1_317");
    (0x5e002502, Tuple3 (None) "auth_sent_code" VNone);
    (0x38faab5f, Tuple3 (None) "auth_sent_code_v_5_6_2" VNone);
    (0x2215bcbd, Tuple2 (None) "auth_sent_code_v_0_1_317");
    (0x3dbb5986, Tuple3 (None) "auth_sent_code_type_app" VNone);
    (0x5353e5a7, Tuple3 (None) "auth_sent_code_type_call" VNone);
    (0xab03c6d9, Tuple3 (None) "auth_sent_code_type_flash_call" VNone);
    (0xc000bba2, Tuple3 (None) "auth_sent_code_type_sms" VNone);
    (0xbcd51581, Tuple3 (None) "auth_sign_in" VNone);
    (0x80eee427, Tuple3 (None) "auth_sign_up" VNone);
    (0x1b067634, Tuple3 (None) "auth_sign_up_v_5_6_2" VNone);
    (0xad01d61d, Tuple3 (None) "authorization" VNone);
    (0xe04232f3, Tuple3 (None) "auto_download_settings" VNone);
    (0xd246fd47, Tuple3 (None) "auto_download_settings_v_5_6_2" VNone);
    (0xa7eff811, Tuple2 (None) "bad_msg_notification_v_0_1_317");
    (0xedab447b, Tuple2 (None) "bad_server_salt_v_0_1_317");
    (0xf568028a, Tuple3 (None) "bank_card_open_url" VNone);
    (0x5b11125a, Tuple3 (Some "base_theme_arctic_struct") "base_theme_arctic" VNone);
    (0xc3a12462, Tuple3 (Some "base_theme_classic_struct") "base_theme_classic" VNone);
    (0xfbd81688, Tuple3 (Some "base_theme_day_struct") "base_theme_day" VNone);
    (0xb7b31ea8, Tuple3 (Some "base_theme_night_struct") "base_theme_night" VNone);
    (0x6d5f77ee, Tuple3 (Some "base_theme_tinted_struct") "base_theme_tinted" VNone);
    (0xbc799737, Tuple3 (None) "bool_false" VNone);
    (0x997275b5, Tuple3 (None) "bool_true" VNone);
    (0xc27ac8c7, Tuple3 (Some "bot_command_struct") "bot_command" VNone);
    (0x98e81d3a, Tuple3 (Some "bot_info_struct") "bot_info" VNone);
    (0xbb2e37ce, Tuple3 (Some "bot_info_empty_layer48_struct") "bot_info_empty_layer48" VNone);
    (0x09cf585d, Tuple3 (Some "bot_info_layer48_struct") "bot_info_layer48" VNone);
    (0x17db940b, Tuple3 (None) "bot_inline_media_result" VNone);
    (0x764cf810, Tuple3 (None) "bot_inline_message_media_auto" VNone);
    (0x0a74b15b, Tuple3 (None) "bot_inline_message_media_auto_layer74" VNone);
    (0x18d1cdc2, Tuple3 (None) "bot_inline_message_media_contact" VNone);
    (0x35edb4d4, Tuple3 (None) "bot_inline_message_media_contact_layer81" VNone);
    (0xb722de65, Tuple3 (None) "bot_inline_message_media_geo" VNone);
    (0x3a8fd8b8, Tuple3 (None) "bot_inline_message_media_geo_layer71" VNone);
    (0x8a86659c, Tuple3 (None) "bot_inline_message_media_venue" VNone);
    (0x4366232e, Tuple3 (None) "bot_inline_message_media_venue_layer77" VNone);
    (0x8c7f65e2, Tuple3 (None) "bot_inline_message_text" VNone);
    (0x11965f3a, Tuple3 (None) "bot_inline_result" VNone);
    (0xd31a961e, Tuple3 (Some "channel_struct") "channel" VNone);
    (0x3b5a3e40, Tuple3 (None) "channel_admin_log_event" VNone);
    (0x55188a2e, Tuple3 (None) "channel_admin_log_event_action_change_about" VNone);
    (0xa26f881b, Tuple3 (None) "channel_admin_log_event_action_change_linked_chat" VNone);
    (0x0e6b76ae, Tuple3 (None) "channel_admin_log_event_action_change_location" VNone);
    (0x434bd2af, Tuple2 (None) "channel_admin_log_event_action_change_photo");
    (0xb82f55c3, Tuple3 (None) "channel_admin_log_event_action_change_photo_v_5_5_0" VNone);
    (0xb1c3caa7, Tuple3 (None) "channel_admin_log_event_action_change_sticker_set" VNone);
    (0xe6dfb825, Tuple3 (None) "channel_admin_log_event_action_change_title" VNone);
    (0x6a4afc38, Tuple3 (None) "channel_admin_log_event_action_change_username" VNone);
    (0x2df5fc0a, Tuple3 (None) "channel_admin_log_event_action_default_banned_rights" VNone);
    (0x42e047bb, Tuple3 (None) "channel_admin_log_event_action_delete_message" VNone);
    (0x709b2405, Tuple3 (None) "channel_admin_log_event_action_edit_message" VNone);
    (0xe31c34d8, Tuple3 (None) "channel_admin_log_event_action_participant_invite" VNone);
    (0x183040d3, Tuple3 (None) "channel_admin_log_event_action_participant_join" VNone);
    (0xf89777f2, Tuple3 (None) "channel_admin_log_event_action_participant_leave" VNone);
    (0xd5676710, Tuple3 (None) "channel_admin_log_event_action_participant_toggle_admin" VNone);
    (0xe6d83d7e, Tuple3 (None) "channel_admin_log_event_action_participant_toggle_ban" VNone);
    (0x8f079643, Tuple3 (None) "channel_admin_log_event_action_stop_poll" VNone);
    (0x1b7907ae, Tuple3 (None) "channel_admin_log_event_action_toggle_invites" VNone);
    (0x5f5c95f1, Tuple3 (None) "channel_admin_log_event_action_toggle_pre_history_hidden" VNone);
    (0x26ae0971, Tuple3 (None) "channel_admin_log_event_action_toggle_signatures" VNone);
    (0x53909779, Tuple3 (None) "channel_admin_log_event_action_toggle_slow_mode" VNone);
    (0xe9e82c18, Tuple3 (None) "channel_admin_log_event_action_update_pinned" VNone);
    (0xea107ae4, Tuple3 (None) "channel_admin_log_events_filter" VNone);
    (0x5d7ceba5, Tuple3 (Some "channel_admin_rights_layer92_struct") "channel_admin_rights_layer92" VNone);
    (0x58cf4249, Tuple3 (Some "channel_banned_rights_layer92_struct") "channel_banned_rights_layer92" VNone);
    (0x289da732, Tuple3 (Some "channel_forbidden_struct") "channel_forbidden" VNone);
    (0x2d85832c, Tuple3 (Some "channel_forbidden_layer52_struct") "channel_forbidden_layer52" VNone);
    (0x8537784f, Tuple3 (Some "channel_forbidden_layer67_struct") "channel_forbidden_layer67" VNone);
    (0xf0e6672a, Tuple3 (None) "channel_full" VNone);
    (0x9e341ddf, Tuple3 (None) "channel_full_layer48" VNone);
    (0x97bee562, Tuple3 (None) "channel_full_layer52" VNone);
    (0xc3d5512f, Tuple3 (None) "channel_full_layer67" VNone);
    (0x95cb5f57, Tuple3 (None) "channel_full_layer70" VNone);
    (0x17f45fcf, Tuple3 (None) "channel_full_layer71" VNone);
    (0x76af5481, Tuple3 (None) "channel_full_layer72" VNone);
    (0xcbb62890, Tuple3 (None) "channel_full_layer89" VNone);
    (0x1c87a71a, Tuple3 (None) "channel_full_layer98" VNone);
    (0x03648977, Tuple3 (None) "channel_full_layer99" VNone);
    (0x9882e516, Tuple3 (None) "channel_full_layer101" VNone);
    (0x10916653, Tuple3 (None) "channel_full_layer103" VNone);
    (0x2d895c74, Tuple3 (None) "channel_full_layer110" VNone);
    (0xfab31aa3, Tuple3 (None) "channel_full_old" VNone);
    (0x209b82db, Tuple3 (None) "channel_location" VNone);
    (0xbfb5ad8b, Tuple3 (None) "channel_location_empty" VNone);
    (0x630e61be, Tuple2 (None) "chat_full_v_0_1_317");
    (0xcd77d957, Tuple3 (None) "channel_messages_filter" VNone);
    (0x94d42ee7, Tuple3 (None) "channel_messages_filter_empty" VNone);
    (0x15ebac1d, Tuple3 (None) "channel_participant" VNone);
    (0xccbebbaf, Tuple3 (None) "channel_participant_admin" VNone);
    (0x5daa6e23, Tuple3 (None) "channel_participant_admin_layer103" VNone);
    (0xa82fa898, Tuple3 (None) "channel_participant_admin_layer92" VNone);
    (0x1c0facaf, Tuple3 (None) "channel_participant_banned" VNone);
    (0x222c1886, Tuple3 (None) "channel_participant_banned_layer92" VNone);
    (0x808d15a4, Tuple3 (None) "channel_participant_creator" VNone);
    (0xe3e2e1f9, Tuple3 (None) "channel_participant_creator_layer103" VNone);
    (0x98192d61, Tuple3 (None) "channel_participant_editor_layer67" VNone);
    (0x8cc5e69a, Tuple3 (None) "channel_participant_kicked_layer67" VNone);
    (0x91057fef, Tuple3 (None) "channel_participant_moderator_layer67" VNone);
    (0xa3289a6d, Tuple3 (None) "channel_participant_self" VNone);
    (0xb4608969, Tuple3 (None) "channel_participants_admins" VNone);
    (0x1427a5e1, Tuple3 (None) "channel_participants_banned" VNone);
    (0xb0d1865b, Tuple3 (None) "channel_participants_bots" VNone);
    (0xbb6ae88d, Tuple3 (None) "channel_participants_contacts" VNone);
    (0xa3b54985, Tuple3 (None) "channel_participants_kicked" VNone);
    (0xde3f3c79, Tuple3 (None) "channel_participants_recent" VNone);
    (0x0656ac4b, Tuple3 (None) "channel_participants_search" VNone);
    (0x4df30834, Tuple3 (Some "channel_layer104_struct") "channel_layer104" VNone);
    (0x4b1b7506, Tuple3 (Some "channel_layer48_struct") "channel_layer48" VNone);
    (0xa14dca52, Tuple3 (Some "channel_layer67_struct") "channel_layer67" VNone);
    (0x0cb44b1c, Tuple3 (Some "channel_layer72_struct") "channel_layer72" VNone);
    (0x450b7115, Tuple3 (Some "channel_layer77_struct") "channel_layer77" VNone);
    (0xc88974ac, Tuple3 (Some "channel_layer92_struct") "channel_layer92" VNone);
    (0x678e9587, Tuple3 (Some "channel_old_struct") "channel_old" VNone);
    (0xed8af74d, Tuple3 (None) "channels_admin_log_results" VNone);
    (0xd0d9b163, Tuple3 (None) "channels_channel_participant" VNone);
    (0xf56ee2a8, Tuple3 (None) "channels_channel_participants" VNone);
    (0xf0173fe9, Tuple3 (None) "channels_channel_participants_not_modified" VNone);
    (0x10e6bd2c, Tuple3 (None) "channels_check_username" VNone);
    (0x3d5fb10f, Tuple3 (None) "channels_create_channel" VNone);
    (0xf4893d7f, Tuple3 (None) "channels_create_channel_v_5_6_2" VNone);
    (0xc0111fe3, Tuple3 (None) "channels_delete_channel" VNone);
    (0xaf369d42, Tuple3 (None) "channels_delete_history" VNone);
    (0x84c1fd4e, Tuple3 (None) "channels_delete_messages" VNone);
    (0xd10dd71b, Tuple3 (None) "channels_delete_user_history" VNone);
    (0xd33c8902, Tuple3 (None) "channels_edit_admin" VNone);
    (0x70f893ba, Tuple3 (None) "channels_edit_admin_v_5_6_2" VNone);
    (0x72796912, Tuple3 (None) "channels_edit_banned" VNone);
    (0x8f38cd1f, Tuple3 (None) "channels_edit_creator" VNone);
    (0x58e63f6d, Tuple3 (None) "channels_edit_location" VNone);
    (0xf12e57c9, Tuple3 (None) "channels_edit_photo" VNone);
    (0x566decd0, Tuple3 (None) "channels_edit_title" VNone);
    (0xc846d22d, Tuple3 (None) "channels_export_message_link" VNone);
    (0x33ddf480, Tuple3 (None) "channels_get_admin_log" VNone);
    (0xf8b036af, Tuple3 (None) "channels_get_admined_public_channels" VNone);
    (0x8d8d82d7, Tuple3 (None) "channels_get_admined_public_channels_v_5_6_2" VNone);
    (0x0a7f6bbb, Tuple3 (None) "channels_get_channels" VNone);
    (0x08736a09, Tuple3 (None) "channels_get_full_channel" VNone);
    (0xf5dad378, Tuple3 (None) "channels_get_groups_for_discussion" VNone);
    (0x11e831ee, Tuple3 (None) "channels_get_inactive_channels" VNone);
    (0x93d7b347, Tuple3 (None) "channels_get_messages" VNone);
    (0x546dd7a6, Tuple3 (None) "channels_get_participant" VNone);
    (0x123e05e9, Tuple3 (None) "channels_get_participants" VNone);
    (0x199f3a6c, Tuple3 (None) "channels_invite_to_channel" VNone);
    (0x24b524c5, Tuple3 (None) "channels_join_channel" VNone);
    (0xf836aa95, Tuple3 (None) "channels_leave_channel" VNone);
    (0xcc104937, Tuple3 (None) "channels_read_history" VNone);
    (0xeab5dc38, Tuple3 (None) "channels_read_message_contents" VNone);
    (0xfe087810, Tuple3 (None) "channels_report_spam" VNone);
    (0x43a0a7e2, Tuple3 (None) "channels_search_posts" VNone);
    (0x40582bb2, Tuple3 (None) "channels_set_discussion_group" VNone);
    (0xea8ca4f9, Tuple3 (None) "channels_set_stickers" VNone);
    (0xeabbb94c, Tuple3 (None) "channels_toggle_pre_history_hidden" VNone);
    (0x1f69b606, Tuple3 (None) "channels_toggle_signatures" VNone);
    (0xedd49ef0, Tuple3 (None) "channels_toggle_slow_mode" VNone);
    (0x3514b3de, Tuple3 (None) "channels_update_username" VNone);
    (0x3bda1bde, Tuple3 (Some "chat_struct") "chat" VNone);
    (0x5fb224d5, Tuple3 (Some "chat_admin_rights_struct") "chat_admin_rights" VNone);
    (0x9f120418, Tuple3 (Some "chat_banned_rights_struct") "chat_banned_rights" VNone);
    (0x9ba2d800, Tuple3 (Some "chat_empty_struct") "chat_empty" VNone);
    (0x07328bdb, Tuple3 (Some "chat_forbidden_struct") "chat_forbidden" VNone);
    (0xfb0ccc41, Tuple3 (Some "chat_forbidden_old_struct") "chat_forbidden_old" VNone);
    (0x1b7c9db3, Tuple3 (None) "chat_full" VNone);
    (0x2e02a614, Tuple3 (None) "chat_full_layer87" VNone);
    (0xedd2a791, Tuple3 (None) "chat_full_layer92" VNone);
    (0x22a235da, Tuple3 (None) "chat_full_layer98" VNone);
    (0xdfc2f58e, Tuple3 (None) "chat_invite" VNone);
    (0x5a686d7c, Tuple3 (None) "chat_invite_already" VNone);
    (0x69df3769, Tuple3 (None) "chat_invite_empty" VNone);
    (0xfc2e05bc, Tuple3 (None) "chat_invite_exported" VNone);
    (0x61695cb0, Tuple3 (None) "chat_invite_peek" VNone);
    (0xdb74f558, Tuple3 (None) "chat_invite_v_5_5_0" VNone);
    (0xd91cdd54, Tuple3 (Some "chat_layer92_struct") "chat_layer92" VNone);
    (0x3631cf4c, Tuple3 (None) "chat_located" VNone);
    (0xf041e250, Tuple3 (None) "chat_onlines" VNone);
    (0xc8d7493e, Tuple3 (None) "chat_participant" VNone);
    (0xe2d6e436, Tuple3 (None) "chat_participant_admin" VNone);
    (0xda13538a, Tuple3 (None) "chat_participant_creator" VNone);
    (0x3f460fed, Tuple3 (None) "chat_participants" VNone);
    (0xfc900c2b, Tuple3 (None) "chat_participants_forbidden" VNone);
    (0x0fd2bb8a, Tuple3 (None) "chat_participants_forbidden_old" VNone);
    (0x7841b415, Tuple3 (None) "chat_participants_old" VNone);
    (0xd20b9f3c, Tuple3 (Some "chat_photo_struct") "chat_photo" VNone);
    (0x475cdbd5, Tuple2 (Some "chat_photo_layer115_struct") "chat_photo_layer115");
    (0x6153276a, Tuple3 (Some "chat_photo_layer97_struct") "chat_photo_layer97" VNone);
    (0x37c1011c, Tuple3 (Some "chat_photo_empty_struct") "chat_photo_empty" VNone);
    (0x6e9c9bc7, Tuple3 (Some "chat_old_struct") "chat_old" VNone);
    (0x7312bc48, Tuple3 (Some "chat_old2_struct") "chat_old2" VNone);
    (0x6643b654, Tuple2 (None) "client_dh_inner_data_v_0_1_317");
    (0xdebebe83, Tuple3 (None) "code_settings" VNone);
    (0x302f59f3, Tuple3 (None) "code_settings_v_5_6_2" VNone);
    (0x330b4067, Tuple3 (None) "config" VNone);
    (0x232d5905, Tuple2 (None) "config_v_0_1_317");
    (0xe6ca25f6, Tuple3 (None) "config_v_5_5_0" VNone);
    (0xf911c994, Tuple3 (None) "contact" VNone);
    (0x561bc879, Tuple3 (None) "contact_blocked" VNone);
    (0xea879f95, Tuple3 (None) "contact_found" VNone);
    (0xd502c2d0, Tuple3 (Some "contact_link_contact_struct") "contact_link_contact" VNone);
    (0x268f3f59, Tuple3 (Some "contact_link_has_phone_struct") "contact_link_has_phone" VNone);
    (0xfeedd3ad, Tuple3 (Some "contact_link_none_struct") "contact_link_none" VNone);
    (0x5f4f9247, Tuple3 (Some "contact_link_unknown_struct") "contact_link_unknown" VNone);
    (0xd3680c61, Tuple3 (None) "contact_status" VNone);
    (0xaa77b873, Tuple2 (None) "contact_status_v_0_1_317");
    (0x3de191a1, Tuple2 (None) "contact_suggested_v_0_1_317");
    (0xf831a20f, Tuple3 (None) "contacts_accept_contact" VNone);
    (0xe8f463d0, Tuple3 (None) "contacts_add_contact" VNone);
    (0x332b49fc, Tuple3 (None) "contacts_block" VNone);
    (0x1c138d15, Tuple3 (None) "contacts_blocked" VNone);
    (0x900802a1, Tuple3 (None) "contacts_blocked_slice" VNone);
    (0xeae87e42, Tuple3 (None) "contacts_contacts" VNone);
    (0x6f8b8cb2, Tuple2 (None) "contacts_contacts_v_0_1_317");
    (0xb74ba9d2, Tuple3 (None) "contacts_contacts_not_modified" VNone);
    (0x1013fd9e, Tuple3 (None) "contacts_delete_by_phones" VNone);
    (0x8e953744, Tuple3 (None) "contacts_delete_contact" VNone);
    (0x096a0e00, Tuple3 (None) "contacts_delete_contacts" VNone);
    (0x59ab389e, Tuple3 (None) "contacts_delete_contacts_v_5_6_2" VNone);
    (0x84e53737, Tuple3 (None) "contacts_export_card" VNone);
    (0x1bea8ce1, Tuple2 (None) "contacts_foreign_link_mutual_v_0_1_317");
    (0xa7801f47, Tuple2 (None) "contacts_foreign_link_requested_v_0_1_317");
    (0x133421f8, Tuple2 (None) "contacts_foreign_link_unknown_v_0_1_317");
    (0xb3134d9d, Tuple3 (None) "contacts_found" VNone);
    (0x0566000e, Tuple2 (None) "contacts_found_v_0_1_317");
    (0xf57c350f, Tuple3 (None) "contacts_get_blocked" VNone);
    (0xc023849f, Tuple3 (None) "contacts_get_contacts" VNone);
    (0x22c6aa08, Tuple2 (None) "contacts_get_contacts_v_0_1_317");
    (0xd348bc44, Tuple3 (None) "contacts_get_located" VNone);
    (0xc4a353ee, Tuple3 (None) "contacts_get_statuses" VNone);
    (0xcd773428, Tuple2 (None) "contacts_get_suggested_v_0_1_317");
    (0xd4982db5, Tuple3 (None) "contacts_get_top_peers" VNone);
    (0x4fe196fe, Tuple3 (None) "contacts_import_card" VNone);
    (0x2c800be5, Tuple3 (None) "contacts_import_contacts" VNone);
    (0xda30b32d, Tuple2 (None) "contacts_import_contacts_v_0_1_317");
    (0x77d01c3b, Tuple3 (None) "contacts_imported_contacts" VNone);
    (0xd1cd0a4c, Tuple2 (None) "contacts_imported_contacts_v_0_1_317");
    (0x3ace484c, Tuple3 (Some "contacts_link_layer101_struct") "contacts_link_layer101" VNone);
    (0xeccea3f5, Tuple2 (None) "contacts_link_v_0_317");
    (0xc240ebd9, Tuple2 (None) "contacts_my_link_contact_v_0_1_317");
    (0xd22a1c60, Tuple2 (None) "contacts_my_link_empty_v_0_1_317");
    (0x6c69efee, Tuple2 (None) "contacts_my_link_requested_v_0_1_317");
    (0x879537f1, Tuple3 (None) "contacts_reset_saved" VNone);
    (0x1ae373ac, Tuple3 (None) "contacts_reset_top_peer_rating" VNone);
    (0xf93ccba3, Tuple3 (None) "contacts_resolve_username" VNone);
    (0x7f077ad9, Tuple3 (None) "contacts_resolved_peer" VNone);
    (0x11f812d8, Tuple3 (None) "contacts_search" VNone);
    (0x5649dcc5, Tuple2 (None) "contacts_suggested_v_0_1_317");
    (0x8514bdda, Tuple3 (None) "contacts_toggle_top_peers" VNone);
    (0x70b772a8, Tuple3 (None) "contacts_top_peers" VNone);
    (0xb52c939d, Tuple3 (None) "contacts_top_peers_disabled" VNone);
    (0xde266ef5, Tuple3 (None) "contacts_top_peers_not_modified" VNone);
    (0xe54100bd, Tuple3 (None) "contacts_unblock" VNone);
    (0x7d748d04, Tuple3 (None) "data_json" VNone);
    (0x18b7a10d, Tuple3 (None) "dc_option" VNone);
    (0x2ec2a43c, Tuple2 (None) "dc_option_v_0_1_317");
    (0x91cc4674, Tuple3 (None) "decrypted_message" VNone);
    (0xdd05ec6b, Tuple3 (Some "decrypted_message_action_abort_key_struct") "decrypted_message_action_abort_key" VNone);
    (0x6fe1735b, Tuple3 (Some "decrypted_message_action_accept_key_struct") "decrypted_message_action_accept_key" VNone);
    (0xec2e0b9b, Tuple3 (Some "decrypted_message_action_commit_key_struct") "decrypted_message_action_commit_key" VNone);
    (0x65614304, Tuple3 (Some "decrypted_message_action_delete_messages_struct") "decrypted_message_action_delete_messages" VNone);
    (0x6719e45c, Tuple3 (Some "decrypted_message_action_flush_history_struct") "decrypted_message_action_flush_history" VNone);
    (0xa82fdd63, Tuple3 (Some "decrypted_message_action_noop_struct") "decrypted_message_action_noop" VNone);
    (0xf3048883, Tuple3 (Some "decrypted_message_action_notify_layer_struct") "decrypted_message_action_notify_layer" VNone);
    (0x0c4f40be, Tuple3 (Some "decrypted_message_action_read_messages_struct") "decrypted_message_action_read_messages" VNone);
    (0xf3c9611b, Tuple3 (Some "decrypted_message_action_request_key_struct") "decrypted_message_action_request_key" VNone);
    (0x511110b0, Tuple3 (Some "decrypted_message_action_resend_struct") "decrypted_message_action_resend" VNone);
    (0x8ac1f475, Tuple3 (Some "decrypted_message_action_screenshot_messages_struct") "decrypted_message_action_screenshot_messages" VNone);
    (0xa1733aec, Tuple3 (Some "decrypted_message_action_set_message_ttl_struct") "decrypted_message_action_set_message_ttl" VNone);
    (0xccb27641, Tuple3 (Some "decrypted_message_action_typing_struct") "decrypted_message_action_typing" VNone);
    (0x1be31789, Tuple3 (None) "decrypted_message_layer" VNone);
    (0x99a438cf, Tuple2 (None) "decrypted_message_layer_v_0_1_317");
    (0x57e0a9cb, Tuple3 (None) "decrypted_message_media_audio" VNone);
    (0x6080758f, Tuple3 (None) "decrypted_message_media_audio_layer8" VNone);
    (0x588a0a97, Tuple3 (None) "decrypted_message_media_contact" VNone);
    (0x7afe8ae2, Tuple3 (None) "decrypted_message_media_document" VNone);
    (0xb095434b, Tuple3 (None) "decrypted_message_media_document_layer8" VNone);
    (0x089f5c4a, Tuple3 (None) "decrypted_message_media_empty" VNone);
    (0xfa95b0dd, Tuple3 (None) "decrypted_message_media_external_document" VNone);
    (0x35480a59, Tuple3 (None) "decrypted_message_media_geo_point" VNone);
    (0xf1fa8d78, Tuple3 (None) "decrypted_message_media_photo" VNone);
    (0x32798a8c, Tuple3 (None) "decrypted_message_media_photo_layer8" VNone);
    (0x8a0df56f, Tuple3 (None) "decrypted_message_media_venue" VNone);
    (0x970c8c0e, Tuple3 (None) "decrypted_message_media_video" VNone);
    (0x524a415d, Tuple3 (None) "decrypted_message_media_video_layer17" VNone);
    (0x4cee6ef3, Tuple3 (None) "decrypted_message_media_video_layer8" VNone);
    (0xe50511d8, Tuple3 (None) "decrypted_message_media_web_page" VNone);
    (0x73164160, Tuple3 (None) "decrypted_message_service" VNone);
    (0xaa48327d, Tuple3 (None) "decrypted_message_service_layer8" VNone);
    (0x204d3878, Tuple3 (None) "decrypted_message_layer17" VNone);
    (0x36b091de, Tuple3 (None) "decrypted_message_layer45" VNone);
    (0x1f814f1f, Tuple3 (None) "decrypted_message_layer8" VNone);
    (0xe7512126, Tuple2 (None) "destroy_session_v_0_1_317");
    (0xa13dc52f, Tuple2 (None) "destroy_sessions_v_0_1_317");
    (0x62d350c9, Tuple2 (None) "destroy_session_none_v_0_1_317");
    (0xe22045fc, Tuple2 (None) "destroy_session_ok_v_0_1_317");
    (0xfb95abcd, Tuple2 (None) "destroy_sessions_res_v_0_1_317");
    (0xa69dae02, Tuple2 (None) "dh_gen_fail_v_0_1_317");
    (0x3bcbf734, Tuple2 (None) "dh_gen_ok_v_0_1_317");
    (0x46dc1fb9, Tuple2 (None) "dh_gen_retry_v_0_1_317");
    (0x2c171f72, Tuple3 (None) "dialog" VNone);
    (0x7438f7e8, Tuple3 (None) "dialog_filter" VNone);
    (0x77744d4a, Tuple3 (None) "dialog_filter_suggested" VNone);
    (0x14f9162c, Tuple3 (None) "dialog_filter_v_5_15_0" VNone);
    (0x71bd134c, Tuple3 (None) "dialog_folder" VNone);
    (0x214a8cdf, Tuple2 (None) "dialog_v_0_1_317");
    (0xe4def5db, Tuple3 (None) "dialog_v_5_5_0" VNone);
    (0xe56dbf05, Tuple3 (None) "dialog_peer" VNone);
    (0xda429411, Tuple3 (None) "dialog_peer_feed_v_5_5_0" VNone);
    (0x514519e2, Tuple3 (None) "dialog_peer_folder" VNone);
    (0x1e87342b, Tuple3 (Some "document_struct") "document" VNone);
    (0x11b58939, Tuple3 (Some "document_attribute_animated_struct") "document_attribute_animated" VNone);
    (0x9852f9c6, Tuple3 (Some "document_attribute_audio_struct") "document_attribute_audio" VNone);
    (0xded218e0, Tuple3 (Some "document_attribute_audio_layer45_struct") "document_attribute_audio_layer45" VNone);
    (0x051448e5, Tuple3 (Some "document_attribute_audio_old_struct") "document_attribute_audio_old" VNone);
    (0x15590068, Tuple3 (Some "document_attribute_filename_struct") "document_attribute_filename" VNone);
    (0x9801d2f7, Tuple3 (Some "document_attribute_has_stickers_struct") "document_attribute_has_stickers" VNone);
    (0x6c37c15c, Tuple3 (Some "document_attribute_image_size_struct") "document_attribute_image_size" VNone);
    (0x6319d612, Tuple3 (Some "document_attribute_sticker_struct") "document_attribute_sticker" VNone);
    (0x3a556302, Tuple3 (Some "document_attribute_sticker_layer55_struct") "document_attribute_sticker_layer55" VNone);
    (0xfb0a5727, Tuple3 (Some "document_attribute_sticker_old_struct") "document_attribute_sticker_old" VNone);
    (0x994c9882, Tuple3 (Some "document_attribute_sticker_old2_struct") "document_attribute_sticker_old2" VNone);
    (0x0ef02ce6, Tuple3 (Some "document_attribute_video_struct") "document_attribute_video" VNone);
    (0x5910cccb, Tuple3 (Some "document_attribute_video_layer65_struct") "document_attribute_video_layer65" VNone);
    (0x36f8c871, Tuple3 (Some "document_empty_struct") "document_empty" VNone);
    (0x55555558, Tuple3 (Some "document_encrypted_struct") "document_encrypted" VNone);
    (0x55555556, Tuple3 (Some "document_encrypted_old_struct") "document_encrypted_old" VNone);
    (0x9ba29cc1, Tuple3 (Some "document_layer113_struct") "document_layer113" VNone);
    (0xf9a39f4f, Tuple3 (Some "document_layer53_struct") "document_layer53" VNone);
    (0x87232bc7, Tuple3 (Some "document_layer82_struct") "document_layer82" VNone);
    (0x59534e4c, Tuple3 (Some "document_layer92_struct") "document_layer92" VNone);
    (0x9efc6326, Tuple3 (Some "document_old_struct") "document_old" VNone);
    (0xfd8e711f, Tuple3 (None) "draft_message" VNone);
    (0x1b0c841a, Tuple3 (None) "draft_message_empty" VNone);
    (0xba4baec5, Tuple3 (None) "draft_message_empty_layer81" VNone);
    (0xd5b3b9f9, Tuple3 (None) "emoji_keyword" VNone);
    (0x236df622, Tuple3 (None) "emoji_keyword_deleted" VNone);
    (0x5cc761bd, Tuple3 (None) "emoji_keywords_difference" VNone);
    (0xb3fb5361, Tuple3 (None) "emoji_language" VNone);
    (0xa575739d, Tuple3 (None) "emoji_url" VNone);
    (0xfa56ce36, Tuple3 (Some "encrypted_chat_struct") "encrypted_chat" VNone);
    (0x13d6dd27, Tuple3 (Some "encrypted_chat_discarded_struct") "encrypted_chat_discarded" VNone);
    (0xab7ec0a0, Tuple3 (Some "encrypted_chat_empty_struct") "encrypted_chat_empty" VNone);
    (0x62718a82, Tuple3 (Some "encrypted_chat_requested_struct") "encrypted_chat_requested" VNone);
    (0xc878527e, Tuple3 (Some "encrypted_chat_requested_layer115_struct") "encrypted_chat_requested_layer115" VNone);
    (0xfda9a7b7, Tuple3 (Some "encrypted_chat_requested_old_struct") "encrypted_chat_requested_old" VNone);
    (0x3bf703dc, Tuple3 (Some "encrypted_chat_waiting_struct") "encrypted_chat_waiting" VNone);
    (0x6601d14f, Tuple3 (Some "encrypted_chat_old_struct") "encrypted_chat_old" VNone);
    (0x4a70994c, Tuple3 (None) "encrypted_file" VNone);
    (0xc21f497e, Tuple3 (None) "encrypted_file_empty" VNone);
    (0xed18c118, Tuple3 (None) "encrypted_message" VNone);
    (0x23734b06, Tuple3 (None) "encrypted_message_service" VNone);
    (0xc4b9f9bb, Tuple3 (None) "error" VNone);
    (0x5dab1af4, Tuple3 (None) "exported_message_link" VNone);
    (0x55555554, Tuple3 (Some "file_encrypted_location_struct") "file_encrypted_location" VNone);
    (0x6242c773, Tuple3 (None) "file_hash" VNone);
    (0xbc7fc6cd, Tuple3 (Some "file_location_to_be_deprecated_struct") "file_location_to_be_deprecated" VNone);
    (0x53d69076, Tuple3 (Some "file_location_layer82_struct") "file_location_layer82" VNone);
    (0x091d11eb, Tuple3 (Some "file_location_layer97_struct") "file_location_layer97" VNone);
    (0x7c596b46, Tuple3 (Some "file_location_unavailable_struct") "file_location_unavailable" VNone);
    (0xff544e65, Tuple3 (None) "folder" VNone);
    (0xe9baa668, Tuple3 (None) "folder_peer" VNone);
    (0x1c295881, Tuple3 (None) "folders_delete_folder" VNone);
    (0x6847d0ab, Tuple3 (None) "folders_edit_peer_folders" VNone);
    (0x162ecc1f, Tuple3 (None) "found_gif" VNone);
    (0x9c750409, Tuple3 (None) "found_gif_cached" VNone);
    (0x0949d9dc, Tuple2 (None) "future_salt_v_0_1_317");
    (0xae500895, Tuple2 (None) "futuresalts_v_0_1_317");
    (0xbdf9653b, Tuple3 (Some "game_struct") "game" VNone);
    (0x75eaea5a, Tuple2 (None) "geo_chat_v_0_1_317");
    (0x4505f8e1, Tuple2 (None) "geo_chat_message_v_0_1_317");
    (0x60311a9b, Tuple2 (None) "geo_chat_message_empty_v_0_1_317");
    (0xd34fa24e, Tuple2 (None) "geo_chat_message_service_v_0_1_317");
    (0x0296f104, Tuple3 (Some "geo_point_struct") "geo_point" VNone);
    (0x1117dd5f, Tuple3 (Some "geo_point_empty_struct") "geo_point_empty" VNone);
    (0x2049d70c, Tuple3 (Some "geo_point_layer81_struct") "geo_point_layer81" VNone);
    (0x55b3e8fb, Tuple2 (None) "geochats_checkin_v_0_1_317");
    (0x0e092e16, Tuple2 (None) "geochats_create_geo_chat_v_0_1_317");
    (0x35d81a95, Tuple2 (None) "geochats_edit_chat_photo_v_0_1_317");
    (0x4c8e2273, Tuple2 (None) "geochats_edit_chat_title_v_0_1_317");
    (0x6722dd6f, Tuple2 (None) "geochats_get_full_chat_v_0_1_317");
    (0xb53f7a68, Tuple2 (None) "geochats_get_history_v_0_1_317");
    (0x7f192d8f, Tuple2 (None) "geochats_get_located_v_0_1_317");
    (0xe1427e6f, Tuple2 (None) "geochats_get_recents_v_0_1_317");
    (0x48feb267, Tuple2 (None) "geochats_located_v_0_1_317");
    (0xd1526db1, Tuple2 (None) "geochats_messages_v_0_1_317");
    (0xbc5863e8, Tuple2 (None) "geochats_messages_slice_v_0_1_317");
    (0xcfcdc44d, Tuple2 (None) "geochats_search_v_0_1_317");
    (0xb8f0deff, Tuple2 (None) "geochats_send_media_v_0_1_317");
    (0x061b0044, Tuple2 (None) "geochats_send_message_v_0_1_317");
    (0x08b8a729, Tuple2 (None) "geochats_set_typing_v_0_1_317");
    (0x17b1578b, Tuple2 (None) "geochats_stated_message_v_0_1_317");
    (0xb921bd04, Tuple2 (None) "get_future_salts_v_0_1_317");
    (0xbea2f424, Tuple3 (None) "global_privacy_settings" VNone);
    (0x0a8f1624, Tuple3 (None) "group_call" VNone);
    (0x40732163, Tuple3 (None) "group_call_connection" VNone);
    (0x7780bcb4, Tuple3 (None) "group_call_discarded" VNone);
    (0x589db397, Tuple3 (None) "group_call_participant" VNone);
    (0x4f0b39b8, Tuple3 (None) "group_call_participant_admin" VNone);
    (0x377496f0, Tuple3 (None) "group_call_participant_invited" VNone);
    (0x419b0df2, Tuple3 (None) "group_call_participant_left" VNone);
    (0x6d0b1604, Tuple3 (None) "group_call_private" VNone);
    (0x3072cfa1, Tuple2 (None) "gzip_packed_v_0_1_317");
    (0xee72f79a, Tuple3 (None) "help_accept_terms_of_service" VNone);
    (0x1da7158f, Tuple3 (None) "help_app_update" VNone);
    (0x8987f311, Tuple2 (None) "help_app_update_v_0_1_317");
    (0xc812ac7e, Tuple2 (None) "help_get_app_update_v_0_1_317");
    (0x6a4ee832, Tuple3 (None) "help_deep_link_info" VNone);
    (0x66afa166, Tuple3 (None) "help_deep_link_info_empty" VNone);
    (0x077fa99f, Tuple3 (None) "help_dismiss_suggestion" VNone);
    (0x66b91b70, Tuple3 (None) "help_edit_user_info" VNone);
    (0x9010ef6f, Tuple3 (None) "help_get_app_changelog" VNone);
    (0x98914110, Tuple3 (None) "help_get_app_config" VNone);
    (0x522d5a7d, Tuple3 (None) "help_get_app_update" VNone);
    (0xc4f9186b, Tuple3 (None) "help_get_config" VNone);
    (0x3fedc75f, Tuple3 (None) "help_get_deep_link_info" VNone);
    (0x4d392343, Tuple3 (None) "help_get_invite_text" VNone);
    (0xa4a95186, Tuple2 (None) "help_get_invite_text_v_0_1_317");
    (0x1fb33026, Tuple3 (None) "help_get_nearest_dc" VNone);
    (0xc661ad08, Tuple3 (None) "help_get_passport_config" VNone);
    (0xc0977421, Tuple3 (None) "help_get_promo_data" VNone);
    (0x3d7758e1, Tuple3 (None) "help_get_proxy_data" VNone);
    (0x3dc0f114, Tuple3 (None) "help_get_recent_me_urls" VNone);
    (0x9cdf08cd, Tuple3 (None) "help_get_support" VNone);
    (0xd360e72c, Tuple3 (None) "help_get_support_name" VNone);
    (0x2ca51fd1, Tuple3 (None) "help_get_terms_of_service_update" VNone);
    (0x038a08d3, Tuple3 (None) "help_get_user_info" VNone);
    (0x1e251c95, Tuple3 (None) "help_hide_promo_data" VNone);
    (0x18cb9f78, Tuple3 (None) "help_invite_text" VNone);
    (0xc45a6536, Tuple3 (None) "help_no_app_update" VNone);
    (0xa098d6af, Tuple3 (None) "help_passport_config" VNone);
    (0xbfb9f457, Tuple3 (None) "help_passport_config_not_modified" VNone);
    (0x98f6ac75, Tuple3 (None) "help_promo_data_empty" VNone);
    (0x8c39793f, Tuple3 (None) "help_promo_data" VNone);
    (0xe09e1fb8, Tuple3 (None) "help_proxy_data_empty" VNone);
    (0x2bf7ee23, Tuple3 (None) "help_proxy_data_promo" VNone);
    (0x0e0310d7, Tuple3 (None) "help_recent_me_urls" VNone);
    (0x6f02f748, Tuple3 (None) "help_save_app_log" VNone);
    (0xec22cfcd, Tuple3 (None) "help_set_bot_updates_status" VNone);
    (0x17c6b5f6, Tuple3 (None) "help_support" VNone);
    (0x8c05f1c9, Tuple3 (None) "help_support_name" VNone);
    (0x780a0310, Tuple3 (None) "help_terms_of_service" VNone);
    (0x28ecf961, Tuple3 (None) "help_terms_of_service_update" VNone);
    (0xe3309f7f, Tuple3 (None) "help_terms_of_service_update_empty" VNone);
    (0x01eb3758, Tuple3 (None) "help_user_info" VNone);
    (0xf3ae2eed, Tuple3 (None) "help_user_info_empty" VNone);
    (0x58fffcd0, Tuple3 (None) "high_score" VNone);
    (0x9299359f, Tuple2 (None) "http_wait_v_0_1_317");
    (0xd0028438, Tuple3 (None) "imported_contact" VNone);
    (0x69796de9, Tuple2 (None) "init_connection_v_0_1_317");
    (0x3c20629f, Tuple3 (None) "inline_bot_switch_p_m" VNone);
    (0x1d1b1245, Tuple3 (None) "input_app_event" VNone);
    (0x770656a8, Tuple2 (None) "input_app_event_v_0_1_317");
    (0x77d440ff, Tuple2 (None) "input_audio_v_0_1_317");
    (0xd95adc84, Tuple2 (None) "input_audio_empty_v_0_1_317");
    (0x74dc404d, Tuple2 (None) "input_audio_file_location_v_0_1_317");
    (0x890c3d89, Tuple3 (None) "input_bot_inline_message_id" VNone);
    (0xafeb712e, Tuple3 (Some "input_channel_struct") "input_channel" VNone);
    (0xee8c1e86, Tuple3 (Some "input_channel_empty_struct") "input_channel_empty" VNone);
    (0x2a286531, Tuple3 (None) "input_channel_from_message" VNone);
    (0x8953ad37, Tuple3 (None) "input_chat_photo" VNone);
    (0xb2e1bf08, Tuple2 (None) "input_chat_photo_v_0_1_317");
    (0x1ca48f57, Tuple3 (None) "input_chat_photo_empty" VNone);
    (0xc642724e, Tuple3 (None) "input_chat_uploaded_photo" VNone);
    (0x927c55b4, Tuple3 (None) "input_chat_uploaded_photo_v_5_15_0" VNone);
    (0x94254732, Tuple2 (None) "input_chat_uploaded_photo_v_0_1_317");
    (0x9880f658, Tuple3 (None) "input_check_password_empty" VNone);
    (0xd27ff082, Tuple3 (None) "input_check_password_s_r_p" VNone);
    (0xfcaafeb7, Tuple3 (None) "input_dialog_peer" VNone);
    (0x2c38b8cf, Tuple3 (None) "input_dialog_peer_feed_v_5_5_0" VNone);
    (0x64600527, Tuple3 (None) "input_dialog_peer_folder" VNone);
    (0x1abfb575, Tuple3 (None) "input_document" VNone);
    (0x72f0eaae, Tuple3 (None) "input_document_empty" VNone);
    (0xbad07584, Tuple3 (None) "input_document_file_location" VNone);
    (0x4e45abe9, Tuple2 (None) "input_document_file_location_v_0_1_317");
    (0x196683d9, Tuple3 (None) "input_document_file_location_v_5_5_0" VNone);
    (0x18798952, Tuple2 (None) "input_document_v_0_1_317");
    (0xf141b5e1, Tuple3 (None) "input_encrypted_chat" VNone);
    (0x5a17b5e5, Tuple3 (None) "input_encrypted_file" VNone);
    (0x2dc173c8, Tuple3 (None) "input_encrypted_file_big_uploaded" VNone);
    (0x1837c364, Tuple3 (None) "input_encrypted_file_empty" VNone);
    (0xf5235d55, Tuple3 (None) "input_encrypted_file_location" VNone);
    (0x64bd0306, Tuple3 (None) "input_encrypted_file_uploaded" VNone);
    (0xf52ff27f, Tuple3 (None) "input_file" VNone);
    (0xfa4f0bb5, Tuple3 (None) "input_file_big" VNone);
    (0xdfdaabe1, Tuple3 (None) "input_file_location" VNone);
    (0x14637196, Tuple2 (None) "input_file_location_v_0_1_317");
    (0xfbd2c296, Tuple3 (None) "input_folder_peer" VNone);
    (0x032c3e77, Tuple3 (None) "input_game_id" VNone);
    (0xc331e80a, Tuple3 (None) "input_game_short_name" VNone);
    (0x74d456fa, Tuple2 (None) "input_geo_chat_v_0_1_317");
    (0xf3b7acc9, Tuple3 (None) "input_geo_point" VNone);
    (0xe4c123d6, Tuple3 (None) "input_geo_point_empty" VNone);
    (0xd8aa840f, Tuple3 (Some "input_group_call_struct") "input_group_call" VNone);
    (0xd02e7fd4, Tuple3 (None) "input_keyboard_button_url_auth" VNone);
    (0x89938781, Tuple2 (None) "input_media_audio_v_0_1_317");
    (0xf8ab7dfb, Tuple3 (None) "input_media_contact" VNone);
    (0xa6e45987, Tuple2 (None) "input_media_contact_v_0_1_317");
    (0xe66fbf7b, Tuple3 (None) "input_media_dice" VNone);
    (0x23ab23d2, Tuple3 (None) "input_media_document" VNone);
    (0xfb52dc99, Tuple3 (None) "input_media_document_external" VNone);
    (0xd184e841, Tuple2 (None) "input_media_document_v_0_1_317");
    (0x9664f57f, Tuple3 (None) "input_media_empty" VNone);
    (0xd33f43f3, Tuple3 (None) "input_media_game" VNone);
    (0xce4e82fd, Tuple3 (None) "input_media_geo_live" VNone);
    (0xf9c44144, Tuple3 (None) "input_media_geo_point" VNone);
    (0x4843b0fd, Tuple3 (None) "input_media_gif_external" VNone);
    (0xb3ba0635, Tuple3 (None) "input_media_photo" VNone);
    (0xe5bbfe1a, Tuple3 (None) "input_media_photo_external" VNone);
    (0x8f2ab2ec, Tuple2 (None) "input_media_photo_v_0_1_317");
    (0x0f94e5f1, Tuple3 (None) "input_media_poll" VNone);
    (0xabe9ca25, Tuple3 (None) "input_media_poll_v_5_15_0" VNone);
    (0x06b3765b, Tuple3 (None) "input_media_poll_v_5_6_2" VNone);
    (0x61a6d436, Tuple2 (None) "input_media_uploaded_audio_v_0_1_317");
    (0x5b38c6c1, Tuple3 (None) "input_media_uploaded_document" VNone);
    (0x34e794bd, Tuple2 (None) "input_media_uploaded_document_v_0_1_317");
    (0x1e287d04, Tuple3 (None) "input_media_uploaded_photo" VNone);
    (0x2dc53a7d, Tuple2 (None) "input_media_uploaded_photo_v_0_1_317");
    (0x3e46de5d, Tuple2 (None) "input_media_uploaded_thumb_document_v_0_1_317");
    (0xe628a145, Tuple2 (None) "input_media_uploaded_thumb_video_v_0_1_317");
    (0x4847d92a, Tuple2 (None) "input_media_uploaded_video_v_0_1_317");
    (0xc13d1c11, Tuple3 (None) "input_media_venue" VNone);
    (0x7f023ae6, Tuple2 (None) "input_media_video_v_0_1_317");
    (0x208e68c9, Tuple3 (Some "input_message_entity_mention_name_struct") "input_message_entity_mention_name" VNone);
    (0x3a20ecb8, Tuple3 (None) "input_messages_filter_chat_photos" VNone);
    (0xe062db83, Tuple3 (None) "input_messages_filter_contacts" VNone);
    (0x9eddf188, Tuple3 (None) "input_messages_filter_document" VNone);
    (0x57e2f66c, Tuple3 (None) "input_messages_filter_empty" VNone);
    (0xe7026d0d, Tuple3 (None) "input_messages_filter_geo" VNone);
    (0xffc86587, Tuple3 (None) "input_messages_filter_gif" VNone);
    (0x3751b49e, Tuple3 (None) "input_messages_filter_music" VNone);
    (0xc1f8e69a, Tuple3 (None) "input_messages_filter_my_mentions" VNone);
    (0x80c99768, Tuple3 (None) "input_messages_filter_phone_calls" VNone);
    (0x56e9f0e4, Tuple3 (None) "input_messages_filter_photo_video" VNone);
    (0xd95e73bb, Tuple3 (None) "input_messages_filter_photo_video_documents" VNone);
    (0x9609a51c, Tuple3 (None) "input_messages_filter_photos" VNone);
    (0xb549da53, Tuple3 (None) "input_messages_filter_round_video" VNone);
    (0x7a7c17a4, Tuple3 (None) "input_messages_filter_round_voice" VNone);
    (0x7ef0dd87, Tuple3 (None) "input_messages_filter_url" VNone);
    (0x9fc00e65, Tuple3 (None) "input_messages_filter_video" VNone);
    (0x50f5c392, Tuple3 (None) "input_messages_filter_voice" VNone);
    (0xa429b886, Tuple2 (None) "input_notify_all_v_0_1_317");
    (0xb1db7c7e, Tuple3 (None) "input_notify_broadcasts" VNone);
    (0x4a95e84e, Tuple3 (None) "input_notify_chats" VNone);
    (0x4d8ddec8, Tuple2 (None) "input_notify_geo_chat_peer_v_0_1_317");
    (0xb8bc5b0c, Tuple3 (None) "input_notify_peer" VNone);
    (0x193b4417, Tuple3 (None) "input_notify_users" VNone);
    (0x3417d728, Tuple3 (None) "input_payment_credentials" VNone);
    (0xca05d50e, Tuple3 (None) "input_payment_credentials_android_pay" VNone);
    (0xc10eb2cf, Tuple3 (None) "input_payment_credentials_saved" VNone);
    (0x20adaef8, Tuple3 (None) "input_peer_channel" VNone);
    (0x9c95f7bb, Tuple3 (None) "input_peer_channel_from_message" VNone);
    (0x179be863, Tuple3 (None) "input_peer_chat" VNone);
    (0x1023dbe8, Tuple2 (None) "input_peer_contact_v_0_1_317");
    (0x7f3b18ea, Tuple3 (None) "input_peer_empty" VNone);
    (0x9b447325, Tuple2 (None) "input_peer_foreign_v_0_1_317");
    (0xe86a2c74, Tuple2 (None) "input_peer_notify_events_all_v_0_1_317");
    (0xf03064d8, Tuple2 (None) "input_peer_notify_events_empty_v_0_1_317");
    (0x9c3d198e, Tuple3 (None) "input_peer_notify_settings" VNone);
    (0x46a2ce98, Tuple2 (None) "input_peer_notify_settings_v_0_1_317");
    (0x27d69997, Tuple3 (None) "input_peer_photo_file_location" VNone);
    (0x7da07ec9, Tuple3 (None) "input_peer_self" VNone);
    (0x7b8e7de6, Tuple3 (None) "input_peer_user" VNone);
    (0x17bae2e6, Tuple3 (None) "input_peer_user_from_message" VNone);
    (0x1e36fded, Tuple3 (None) "input_phone_call" VNone);
    (0xf392b7f4, Tuple3 (None) "input_phone_contact" VNone);
    (0x3bb3b94a, Tuple3 (None) "input_photo" VNone);
    (0xd9915325, Tuple2 (None) "input_photo_crop_v_0_1_317");
    (0xade6b004, Tuple2 (None) "input_photo_crop_auto_v_0_1_317");
    (0x1cd7bf0d, Tuple3 (None) "input_photo_empty" VNone);
    (0x40181ffe, Tuple3 (None) "input_photo_file_location" VNone);
    (0xfb95c6c4, Tuple2 (None) "input_photo_v_0_1_317");
    (0xd1219bdd, Tuple3 (None) "input_privacy_key_added_by_phone" VNone);
    (0xbdfb0426, Tuple3 (None) "input_privacy_key_chat_invite" VNone);
    (0xa4dd4c08, Tuple3 (None) "input_privacy_key_forwards" VNone);
    (0xfabadc5f, Tuple3 (None) "input_privacy_key_phone_call" VNone);
    (0x0352dafa, Tuple3 (None) "input_privacy_key_phone_number" VNone);
    (0xdb9e70d2, Tuple3 (None) "input_privacy_key_phone_p2_p" VNone);
    (0x5719bacc, Tuple3 (None) "input_privacy_key_profile_photo" VNone);
    (0x4f96cb18, Tuple3 (None) "input_privacy_key_status_timestamp" VNone);
    (0x184b35ce, Tuple3 (None) "input_privacy_value_allow_all" VNone);
    (0x4c81c1ba, Tuple3 (None) "input_privacy_value_allow_chat_participants" VNone);
    (0x0d09e07b, Tuple3 (None) "input_privacy_value_allow_contacts" VNone);
    (0x131cc67f, Tuple3 (None) "input_privacy_value_allow_users" VNone);
    (0xd66b66c9, Tuple3 (None) "input_privacy_value_disallow_all" VNone);
    (0xd82363af, Tuple3 (None) "input_privacy_value_disallow_chat_participants" VNone);
    (0x0ba52007, Tuple3 (None) "input_privacy_value_disallow_contacts" VNone);
    (0x90110467, Tuple3 (None) "input_privacy_value_disallow_users" VNone);
    (0xadf44ee3, Tuple3 (None) "input_report_reason_child_abuse" VNone);
    (0x9b89f93a, Tuple3 (None) "input_report_reason_copyright" VNone);
    (0xdbd4feed, Tuple3 (None) "input_report_reason_geo_irrelevant" VNone);
    (0xe1746d0a, Tuple3 (None) "input_report_reason_other" VNone);
    (0x2e59d922, Tuple3 (None) "input_report_reason_pornography" VNone);
    (0x58dbcab8, Tuple3 (None) "input_report_reason_spam" VNone);
    (0x1e22c78d, Tuple3 (None) "input_report_reason_violence" VNone);
    (0x5367e5be, Tuple3 (None) "input_secure_file" VNone);
    (0xcbc7ee28, Tuple3 (None) "input_secure_file_location" VNone);
    (0x3334b0f0, Tuple3 (None) "input_secure_file_uploaded" VNone);
    (0xdb21d0a7, Tuple3 (None) "input_secure_value" VNone);
    (0x1cc6e91f, Tuple3 (None) "input_single_media" VNone);
    (0x028703c8, Tuple3 (Some "input_sticker_set_animated_emoji_struct") "input_sticker_set_animated_emoji" VNone);
    (0xe67f520e, Tuple3 (Some "input_sticker_set_dice_struct") "input_sticker_set_dice" VNone);
    (0xffb62b95, Tuple3 (Some "input_sticker_set_empty_struct") "input_sticker_set_empty" VNone);
    (0x9de7a269, Tuple3 (Some "input_sticker_set_id_struct") "input_sticker_set_id" VNone);
    (0x861cc8a0, Tuple3 (Some "input_sticker_set_short_name_struct") "input_sticker_set_short_name" VNone);
    (0x0dbaeae9, Tuple3 (None) "input_sticker_set_thumb" VNone);
    (0x0438865b, Tuple3 (None) "input_stickered_media_document" VNone);
    (0x4a992157, Tuple3 (None) "input_stickered_media_photo" VNone);
    (0x3c5693e9, Tuple3 (None) "input_theme" VNone);
    (0xbd507cd1, Tuple3 (None) "input_theme_settings" VNone);
    (0xf5890df1, Tuple3 (None) "input_theme_slug" VNone);
    (0xd8292816, Tuple3 (Some "input_user_struct") "input_user" VNone);
    (0x86e94f65, Tuple2 (None) "input_user_contact_v_0_1_317");
    (0xb98886cf, Tuple3 (Some "input_user_empty_struct") "input_user_empty" VNone);
    (0x655e74ff, Tuple2 (None) "input_user_foreign_v_0_1_317");
    (0x2d117597, Tuple3 (None) "input_user_from_message" VNone);
    (0xf7c1b13f, Tuple3 (None) "input_user_self" VNone);
    (0xee579652, Tuple2 (None) "input_video_v_0_1_317");
    (0x5508ec75, Tuple2 (None) "input_video_empty_v_0_1_317");
    (0x3d0364ec, Tuple2 (None) "input_video_file_location_v_0_1_317");
    (0xe630b979, Tuple3 (None) "input_wall_paper" VNone);
    (0x8427bbac, Tuple3 (None) "input_wall_paper_no_file" VNone);
    (0x72091c80, Tuple3 (None) "input_wall_paper_slug" VNone);
    (0x9bed434d, Tuple3 (None) "input_web_document" VNone);
    (0x9f2221c9, Tuple3 (None) "input_web_file_geo_point_location" VNone);
    (0xc239d686, Tuple3 (None) "input_web_file_location" VNone);
    (0xc30aa358, Tuple3 (None) "invoice" VNone);
    (0xcb9f372d, Tuple2 (None) "invoke_after_msg_v_0_1_317");
    (0xa6b88fdf, Tuple2 (None) "invoke_with_layer11_v_0_1_317");
    (0xf7444763, Tuple3 (None) "json_array" VNone);
    (0xc7345e6a, Tuple3 (None) "json_bool" VNone);
    (0x3f6d7b68, Tuple3 (None) "json_null" VNone);
    (0x2be0dfa4, Tuple3 (None) "json_number" VNone);
    (0x99c1d49d, Tuple3 (None) "json_object" VNone);
    (0xc0de1bd9, Tuple3 (None) "json_object_value" VNone);
    (0xb71e767a, Tuple3 (None) "json_string" VNone);
    (0xa2fa4880, Tuple3 (Some "keyboard_button_struct") "keyboard_button" VNone);
    (0xafd93fbb, Tuple3 (Some "keyboard_button_buy_struct") "keyboard_button_buy" VNone);
    (0x683a5e46, Tuple3 (Some "keyboard_button_callback_struct") "keyboard_button_callback" VNone);
    (0x50f41ccf, Tuple3 (Some "keyboard_button_game_struct") "keyboard_button_game" VNone);
    (0xfc796b3f, Tuple3 (Some "keyboard_button_request_geo_location_struct") "keyboard_button_request_geo_location" VNone);
    (0xb16a6c29, Tuple3 (Some "keyboard_button_request_phone_struct") "keyboard_button_request_phone" VNone);
    (0xbbc7515d, Tuple3 (Some "keyboard_button_request_poll_struct") "keyboard_button_request_poll" VNone);
    (0x77608b83, Tuple3 (Some "keyboard_button_row_struct") "keyboard_button_row" VNone);
    (0x0568a748, Tuple3 (Some "keyboard_button_switch_inline_struct") "keyboard_button_switch_inline" VNone);
    (0x258aff05, Tuple3 (Some "keyboard_button_url_struct") "keyboard_button_url" VNone);
    (0x10b78d29, Tuple3 (Some "keyboard_button_url_auth_struct") "keyboard_button_url_auth" VNone);
    (0xcb296bf8, Tuple3 (None) "labeled_price" VNone);
    (0xf385c1f6, Tuple3 (None) "lang_pack_difference" VNone);
    (0xeeca5ce3, Tuple3 (None) "lang_pack_language" VNone);
    (0xcad181f6, Tuple3 (None) "lang_pack_string" VNone);
    (0x2979eeb2, Tuple3 (None) "lang_pack_string_deleted" VNone);
    (0x6c47ac9f, Tuple3 (None) "lang_pack_string_pluralized" VNone);
    (0xcd984aa5, Tuple3 (None) "langpack_get_difference" VNone);
    (0x9ab5c58e, Tuple3 (None) "langpack_get_lang_pack" VNone);
    (0x6a596502, Tuple3 (None) "langpack_get_language" VNone);
    (0x800fd57d, Tuple3 (None) "langpack_get_languages" VNone);
    (0x2e1ee318, Tuple3 (None) "langpack_get_strings" VNone);
    (0xaed6dbb2, Tuple3 (Some "mask_coords_struct") "mask_coords" VNone);
    (0x452c0e65, Tuple3 (Some "message_struct") "message" VNone);
    (0xabe9affe, Tuple3 (Some "message_action_bot_allowed_struct") "message_action_bot_allowed" VNone);
    (0x95d2ac92, Tuple3 (Some "message_action_channel_create_struct") "message_action_channel_create" VNone);
    (0xb055eaee, Tuple3 (Some "message_action_channel_migrate_from_struct") "message_action_channel_migrate_from" VNone);
    (0x488a7337, Tuple3 (Some "message_action_chat_add_user_struct") "message_action_chat_add_user" VNone);
    (0x5e3cfc4b, Tuple3 (Some "message_action_chat_add_user_old_struct") "message_action_chat_add_user_old" VNone);
    (0xa6638b9a, Tuple3 (Some "message_action_chat_create_struct") "message_action_chat_create" VNone);
    (0xb2ae9b0c, Tuple3 (Some "message_action_chat_delete_user_struct") "message_action_chat_delete_user" VNone);
    (0x95e3fbef, Tuple3 (Some "message_action_chat_delete_photo_struct") "message_action_chat_delete_photo" VNone);
    (0x7fcb13a8, Tuple3 (Some "message_action_chat_edit_photo_struct") "message_action_chat_edit_photo" VNone);
    (0xb5a1ce5a, Tuple3 (Some "message_action_chat_edit_title_struct") "message_action_chat_edit_title" VNone);
    (0xf89cf5e8, Tuple3 (Some "message_action_chat_joined_by_link_struct") "message_action_chat_joined_by_link" VNone);
    (0x51bdb021, Tuple3 (Some "message_action_chat_migrate_to_struct") "message_action_chat_migrate_to" VNone);
    (0xf3f25f76, Tuple3 (Some "message_action_contact_sign_up_struct") "message_action_contact_sign_up" VNone);
    (0x55555557, Tuple3 (Some "message_action_created_broadcast_list_struct") "message_action_created_broadcast_list" VNone);
    (0xfae69f56, Tuple3 (Some "message_action_custom_action_struct") "message_action_custom_action" VNone);
    (0xb6aef7b0, Tuple3 (Some "message_action_empty_struct") "message_action_empty" VNone);
    (0x92a72876, Tuple3 (Some "message_action_game_score_struct") "message_action_game_score" VNone);
    (0x0c7d53de, Tuple2 (None) "message_action_geo_chat_checkin_v_0_1_317");
    (0x6f038ebc, Tuple2 (None) "message_action_geo_chat_create_v_0_1_317");
    (0x7a0d7f42, Tuple3 (Some "message_action_group_call_struct") "message_action_group_call" VNone);
    (0x9fbab604, Tuple3 (Some "message_action_history_clear_struct") "message_action_history_clear" VNone);
    (0x555555f5, Tuple3 (Some "message_action_login_unknown_location_struct") "message_action_login_unknown_location" VNone);
    (0x40699cd0, Tuple3 (Some "message_action_payment_sent_struct") "message_action_payment_sent" VNone);
    (0x80e11a7f, Tuple3 (Some "message_action_phone_call_struct") "message_action_phone_call" VNone);
    (0x94bd38ed, Tuple3 (Some "message_action_pin_message_struct") "message_action_pin_message" VNone);
    (0x4792929b, Tuple3 (Some "message_action_screenshot_taken_struct") "message_action_screenshot_taken" VNone);
    (0xd95c6154, Tuple3 (Some "message_action_secure_values_sent_struct") "message_action_secure_values_sent" VNone);
    (0x55555552, Tuple3 (Some "message_action_ttl_change_struct") "message_action_ttl_change" VNone);
    (0x55555550, Tuple3 (Some "message_action_user_joined_struct") "message_action_user_joined" VNone);
    (0x55555551, Tuple3 (Some "message_action_user_updated_photo_struct") "message_action_user_updated_photo" VNone);
    (0x83e5de54, Tuple3 (Some "message_empty_struct") "message_empty" VNone);
    (0x555555f7, Tuple3 (Some "message_encrypted_action_struct") "message_encrypted_action" VNone);
    (0x761e6af4, Tuple3 (Some "message_entity_bank_card_struct") "message_entity_bank_card" VNone);
    (0x020df5d0, Tuple3 (Some "message_entity_blockquote_struct") "message_entity_blockquote" VNone);
    (0xbd610bc9, Tuple3 (Some "message_entity_bold_struct") "message_entity_bold" VNone);
    (0x6cef8ac7, Tuple3 (Some "message_entity_bot_command_struct") "message_entity_bot_command" VNone);
    (0x4c4e743f, Tuple3 (Some "message_entity_cashtag_struct") "message_entity_cashtag" VNone);
    (0x28a20571, Tuple3 (Some "message_entity_code_struct") "message_entity_code" VNone);
    (0x64e475c2, Tuple3 (Some "message_entity_email_struct") "message_entity_email" VNone);
    (0x6f635b0d, Tuple3 (Some "message_entity_hashtag_struct") "message_entity_hashtag" VNone);
    (0x826f8b60, Tuple3 (Some "message_entity_italic_struct") "message_entity_italic" VNone);
    (0xfa04579d, Tuple3 (Some "message_entity_mention_struct") "message_entity_mention" VNone);
    (0x352dca58, Tuple3 (Some "message_entity_mention_name_struct") "message_entity_mention_name" VNone);
    (0x9b69e34b, Tuple3 (Some "message_entity_phone_struct") "message_entity_phone" VNone);
    (0x73924be0, Tuple3 (Some "message_entity_pre_struct") "message_entity_pre" VNone);
    (0xbf0693d4, Tuple3 (Some "message_entity_strike_struct") "message_entity_strike" VNone);
    (0x76a6d327, Tuple3 (Some "message_entity_text_url_struct") "message_entity_text_url" VNone);
    (0x9c4e7e8b, Tuple3 (Some "message_entity_underline_struct") "message_entity_underline" VNone);
    (0xbb92ba95, Tuple3 (Some "message_entity_unknown_struct") "message_entity_unknown" VNone);
    (0x6ed02538, Tuple3 (Some "message_entity_url_struct") "message_entity_url" VNone);
    (0x05f46804, Tuple3 (Some "message_forwarded_old_struct") "message_forwarded_old" VNone);
    (0xa367e716, Tuple3 (Some "message_forwarded_old2_struct") "message_forwarded_old2" VNone);
    (0x353a686b, Tuple3 (Some "message_fwd_header_struct") "message_fwd_header" VNone);
    (0xec338270, Tuple3 (Some "message_fwd_header_layer112_struct") "message_fwd_header_layer112" VNone);
    (0xc786ddcb, Tuple3 (Some "message_fwd_header_layer68_struct") "message_fwd_header_layer68" VNone);
    (0xfadff4ac, Tuple3 (Some "message_fwd_header_layer72_struct") "message_fwd_header_layer72" VNone);
    (0x559ebe6d, Tuple3 (Some "message_fwd_header_layer96_struct") "message_fwd_header_layer96" VNone);
    (0xad4fc9bd, Tuple3 (None) "message_interaction_counters" VNone);
    (0xc6b68300, Tuple3 (Some "message_media_audio_layer45_struct") "message_media_audio_layer45" VNone);
    (0xcbf24940, Tuple3 (Some "message_media_contact_struct") "message_media_contact" VNone);
    (0x5e7d2f39, Tuple3 (Some "message_media_contact_layer81_struct") "message_media_contact_layer81" VNone);
    (0x3f7ee58b, Tuple3 (Some "message_media_dice_struct") "message_media_dice" VNone);
    (0x638fe46b, Tuple3 (Some "message_media_dice_layer111_struct") "message_media_dice_layer111" VNone);
    (0x9cb070d7, Tuple3 (Some "message_media_document_struct") "message_media_document" VNone);
    (0xf3e02ea8, Tuple3 (Some "message_media_document_layer68_struct") "message_media_document_layer68" VNone);
    (0x7c4414d3, Tuple3 (Some "message_media_document_layer74_struct") "message_media_document_layer74" VNone);
    (0x2fda2204, Tuple3 (Some "message_media_document_old_struct") "message_media_document_old" VNone);
    (0x3ded6320, Tuple3 (Some "message_media_empty_struct") "message_media_empty" VNone);
    (0xfdb19008, Tuple3 (Some "message_media_game_struct") "message_media_game" VNone);
    (0x56e0d474, Tuple3 (Some "message_media_geo_struct") "message_media_geo" VNone);
    (0x7c3c2609, Tuple3 (Some "message_media_geo_live_struct") "message_media_geo_live" VNone);
    (0x84551347, Tuple3 (Some "message_media_invoice_struct") "message_media_invoice" VNone);
    (0x695150d7, Tuple3 (Some "message_media_photo_struct") "message_media_photo" VNone);
    (0x3d8ce53d, Tuple3 (Some "message_media_photo_layer68_struct") "message_media_photo_layer68" VNone);
    (0xb5223b0f, Tuple3 (Some "message_media_photo_layer74_struct") "message_media_photo_layer74" VNone);
    (0xc8c45a2a, Tuple3 (Some "message_media_photo_old_struct") "message_media_photo_old" VNone);
    (0x4bd6e798, Tuple3 (Some "message_media_poll_struct") "message_media_poll" VNone);
    (0x9f84f49e, Tuple3 (Some "message_media_unsupported_struct") "message_media_unsupported" VNone);
    (0x29632a36, Tuple3 (Some "message_media_unsupported_old_struct") "message_media_unsupported_old" VNone);
    (0x2ec0533f, Tuple3 (Some "message_media_venue_struct") "message_media_venue" VNone);
    (0x7912b71f, Tuple3 (Some "message_media_venue_layer71_struct") "message_media_venue_layer71" VNone);
    (0x5bcf1675, Tuple3 (Some "message_media_video_layer45_struct") "message_media_video_layer45" VNone);
    (0xa2d24290, Tuple3 (Some "message_media_video_old_struct") "message_media_video_old" VNone);
    (0xa32dd600, Tuple3 (Some "message_media_web_page_struct") "message_media_web_page" VNone);
    (0x0ae30253, Tuple3 (None) "message_range" VNone);
    (0xb87a24d1, Tuple3 (Some "message_reactions_struct") "message_reactions" VNone);
    (0xe3ae6108, Tuple3 (None) "message_reactions_list" VNone);
    (0x9e19a1f6, Tuple3 (Some "message_service_struct") "message_service" VNone);
    (0xc06b9607, Tuple3 (Some "message_service_layer48_struct") "message_service_layer48" VNone);
    (0x9f8d60bb, Tuple3 (Some "message_service_old_struct") "message_service_old" VNone);
    (0x1d86f70e, Tuple3 (None) "message_service_old2" VNone);
    (0xd267dcbc, Tuple3 (None) "message_user_reaction" VNone);
    (0xa28e5559, Tuple3 (None) "message_user_vote" VNone);
    (0x36377430, Tuple3 (None) "message_user_vote_input_option" VNone);
    (0x0e8fe0de, Tuple3 (None) "message_user_vote_multiple" VNone);
    (0x44f9b43d, Tuple3 (Some "message_layer104_struct") "message_layer104" VNone);
    (0x1c9b1027, Tuple3 (Some "message_layer104_2_struct") "message_layer104_2" VNone);
    (0x9789dac4, Tuple3 (Some "message_layer104_3_struct") "message_layer104_3" VNone);
    (0xc992e15c, Tuple3 (None) "message_layer47" VNone);
    (0xc09be45f, Tuple3 (Some "message_layer68_struct") "message_layer68" VNone);
    (0x90dddc11, Tuple3 (Some "message_layer72_struct") "message_layer72" VNone);
    (0x22eb6aba, Tuple3 (None) "message_old" VNone);
    (0x567699b3, Tuple3 (None) "message_old2" VNone);
    (0xa7ab1991, Tuple3 (Some "message_old3_struct") "message_old3" VNone);
    (0xc3060325, Tuple3 (Some "message_old4_struct") "message_old4" VNone);
    (0xf07814c8, Tuple3 (Some "message_old5_struct") "message_old5" VNone);
    (0x2bebfa86, Tuple3 (None) "message_old6" VNone);
    (0x5ba66c13, Tuple3 (None) "message_old7" VNone);
    (0x555555fa, Tuple3 (Some "message_secret_struct") "message_secret" VNone);
    (0x555555f9, Tuple3 (None) "message_secret_layer72" VNone);
    (0x555555f8, Tuple3 (None) "message_secret_old" VNone);
    (0x3dbc0415, Tuple3 (None) "messages_accept_encryption" VNone);
    (0xf729ea98, Tuple3 (None) "messages_accept_url_auth" VNone);
    (0xf9a0aa09, Tuple3 (None) "messages_add_chat_user" VNone);
    (0x2ee9ee9e, Tuple2 (None) "messages_add_chat_user_v_0_1_317");
    (0xb45c69d1, Tuple3 (None) "messages_affected_history" VNone);
    (0xb7de36f2, Tuple2 (None) "messages_affected_history_v_0_1_317");
    (0x84d19185, Tuple3 (None) "messages_affected_messages" VNone);
    (0xedfd405f, Tuple3 (None) "messages_all_stickers" VNone);
    (0xe86602c3, Tuple3 (None) "messages_all_stickers_not_modified" VNone);
    (0x4fcba9c8, Tuple3 (None) "messages_archived_stickers" VNone);
    (0x36585ea4, Tuple3 (None) "messages_bot_callback_answer" VNone);
    (0x947ca848, Tuple3 (None) "messages_bot_results" VNone);
    (0xccd3563d, Tuple3 (None) "messages_bot_results_layer71" VNone);
    (0x99262e37, Tuple3 (None) "messages_channel_messages" VNone);
    (0x40e9002a, Tuple2 (None) "messages_chat_v_0_1_317");
    (0xe5d7d19c, Tuple3 (None) "messages_chat_full" VNone);
    (0x64ff9fd5, Tuple3 (None) "messages_chats" VNone);
    (0x8150cbd8, Tuple2 (None) "messages_chats_v_0_1_317");
    (0x9cd81144, Tuple3 (None) "messages_chats_slice" VNone);
    (0x3eadb1bb, Tuple3 (None) "messages_check_chat_invite" VNone);
    (0x7e58ee9c, Tuple3 (None) "messages_clear_all_drafts" VNone);
    (0x8999602d, Tuple3 (None) "messages_clear_recent_stickers" VNone);
    (0x09cb126e, Tuple3 (None) "messages_create_chat" VNone);
    (0x419d9aee, Tuple2 (None) "messages_create_chat_v_0_1_317");
    (0xe0611f16, Tuple3 (None) "messages_delete_chat_user" VNone);
    (0xc3c5cd23, Tuple2 (None) "messages_delete_chat_user_v_0_1_317");
    (0x1c015b09, Tuple3 (None) "messages_delete_history" VNone);
    (0xf4f8fb61, Tuple2 (None) "messages_delete_history_v_0_1_317");
    (0xe58e95d2, Tuple3 (None) "messages_delete_messages" VNone);
    (0x59ae2b16, Tuple3 (None) "messages_delete_scheduled_messages" VNone);
    (0x14f2dd0a, Tuple2 (None) "messages_delete_messages_v_0_1_317");
    (0x2c221edd, Tuple3 (None) "messages_dh_config" VNone);
    (0xc0e24635, Tuple3 (None) "messages_dh_config_not_modified" VNone);
    (0x15ba6c40, Tuple3 (None) "messages_dialogs" VNone);
    (0xf0e3e596, Tuple3 (None) "messages_dialogs_not_modified" VNone);
    (0x71e094f3, Tuple3 (None) "messages_dialogs_slice" VNone);
    (0xedd923c5, Tuple3 (None) "messages_discard_encryption" VNone);
    (0xdef60797, Tuple3 (None) "messages_edit_chat_about" VNone);
    (0xa9e69f2e, Tuple3 (None) "messages_edit_chat_admin" VNone);
    (0xa5866b41, Tuple3 (None) "messages_edit_chat_default_banned_rights" VNone);
    (0xca4c79d8, Tuple3 (None) "messages_edit_chat_photo" VNone);
    (0xd881821d, Tuple2 (None) "messages_edit_chat_photo_v_0_1_317");
    (0xdc452855, Tuple3 (None) "messages_edit_chat_title" VNone);
    (0xb4bc68b5, Tuple2 (None) "messages_edit_chat_title_v_0_1_317");
    (0x48f71778, Tuple3 (None) "messages_edit_message" VNone);
    (0xd116f31e, Tuple3 (None) "messages_edit_message_v_5_6_2" VNone);
    (0x0df7534c, Tuple3 (None) "messages_export_chat_invite" VNone);
    (0xb9ffc55b, Tuple3 (None) "messages_fave_sticker" VNone);
    (0xf37f2f16, Tuple3 (None) "messages_faved_stickers" VNone);
    (0x9e8fa6d3, Tuple3 (None) "messages_faved_stickers_not_modified" VNone);
    (0xb6abc341, Tuple3 (None) "messages_featured_stickers" VNone);
    (0xc6dc0c66, Tuple3 (None) "messages_featured_stickers_not_modified" VNone);
    (0xf89d88e5, Tuple3 (None) "messages_featured_stickers_v_5_15_0" VNone);
    (0x04ede3cf, Tuple3 (None) "messages_featured_stickers_not_modified_v_5_15_0" VNone);
    (0x33963bf9, Tuple3 (None) "messages_forward_message" VNone);
    (0x03f3f4f2, Tuple2 (None) "messages_forward_message_v_0_1_317");
    (0xd9fee60e, Tuple3 (None) "messages_forward_messages" VNone);
    (0x514cd10f, Tuple2 (None) "messages_forward_messages_v_0_1_317");
    (0x708e0195, Tuple3 (None) "messages_forward_messages_v_5_6_2" VNone);
    (0x450a1c0a, Tuple3 (None) "messages_found_gifs" VNone);
    (0x5108d648, Tuple3 (None) "messages_found_sticker_sets" VNone);
    (0x0d54b65d, Tuple3 (None) "messages_found_sticker_sets_not_modified" VNone);
    (0xeba80ff0, Tuple3 (None) "messages_get_all_chats" VNone);
    (0x6a3f8d65, Tuple3 (None) "messages_get_all_drafts" VNone);
    (0x1c9618b1, Tuple3 (None) "messages_get_all_stickers" VNone);
    (0x57f17692, Tuple3 (None) "messages_get_archived_stickers" VNone);
    (0xcc5b67cc, Tuple3 (None) "messages_get_attached_stickers" VNone);
    (0x810a9fec, Tuple3 (None) "messages_get_bot_callback_answer" VNone);
    (0x3c6aa187, Tuple3 (None) "messages_get_chats" VNone);
    (0x0d0a48c4, Tuple3 (None) "messages_get_common_chats" VNone);
    (0x26cf8950, Tuple3 (None) "messages_get_dh_config" VNone);
    (0xf19ed96d, Tuple3 (None) "messages_get_dialog_filters" VNone);
    (0x22e24e22, Tuple3 (None) "messages_get_dialog_unread_marks" VNone);
    (0xa0ee3b73, Tuple3 (None) "messages_get_dialogs" VNone);
    (0xb098aee6, Tuple3 (None) "messages_get_dialogs_v_5_5_0" VNone);
    (0xeccf1df6, Tuple2 (None) "messages_get_dialogs_v_0_1_317");
    (0x338e2464, Tuple3 (None) "messages_get_document_by_hash" VNone);
    (0x35a0e062, Tuple3 (None) "messages_get_emoji_keywords" VNone);
    (0x1508b6af, Tuple3 (None) "messages_get_emoji_keywords_difference" VNone);
    (0x4e9963b2, Tuple3 (None) "messages_get_emoji_keywords_languages" VNone);
    (0xd5b10c26, Tuple3 (None) "messages_get_emoji_url" VNone);
    (0x21ce0b0e, Tuple3 (None) "messages_get_faved_stickers" VNone);
    (0x2dacca4f, Tuple3 (None) "messages_get_featured_stickers" VNone);
    (0x3b831c66, Tuple3 (None) "messages_get_full_chat" VNone);
    (0xe822649d, Tuple3 (None) "messages_get_game_high_scores" VNone);
    (0xafa92846, Tuple3 (None) "messages_get_history" VNone);
    (0x92a1df2f, Tuple2 (None) "messages_get_history_v_0_1_317");
    (0x514e999d, Tuple3 (None) "messages_get_inline_bot_results" VNone);
    (0x0f635e1b, Tuple3 (None) "messages_get_inline_game_high_scores" VNone);
    (0x65b8c79f, Tuple3 (None) "messages_get_mask_stickers" VNone);
    (0xfda68d36, Tuple3 (None) "messages_get_message_edit_data" VNone);
    (0x15b1376a, Tuple3 (None) "messages_get_message_reactions_list" VNone);
    (0x4222fa74, Tuple3 (None) "messages_get_messages" VNone);
    (0x8bba90e6, Tuple3 (None) "messages_get_messages_reactions" VNone);
    (0xc4c8a55d, Tuple3 (None) "messages_get_messages_views" VNone);
    (0x5fe7025b, Tuple3 (None) "messages_get_old_featured_stickers" VNone);
    (0x6e2be050, Tuple3 (None) "messages_get_onlines" VNone);
    (0xe470bcfd, Tuple3 (None) "messages_get_peer_dialogs" VNone);
    (0x3672e09c, Tuple3 (None) "messages_get_peer_settings" VNone);
    (0xd6b94df2, Tuple3 (None) "messages_get_pinned_dialogs" VNone);
    (0xe254d64e, Tuple3 (None) "messages_get_pinned_dialogs_v_5_5_0" VNone);
    (0x73bb643b, Tuple3 (None) "messages_get_poll_results" VNone);
    (0xb86e380e, Tuple3 (None) "messages_get_poll_votes" VNone);
    (0xbbc45b09, Tuple3 (None) "messages_get_recent_locations" VNone);
    (0x5ea192c9, Tuple3 (None) "messages_get_recent_stickers" VNone);
    (0x83bf3d52, Tuple3 (None) "messages_get_saved_gifs" VNone);
    (0xe2c2685b, Tuple3 (None) "messages_get_scheduled_history" VNone);
    (0xbdbb0464, Tuple3 (None) "messages_get_scheduled_messages" VNone);
    (0x732eef00, Tuple3 (None) "messages_get_search_counters" VNone);
    (0x812c2ae6, Tuple3 (None) "messages_get_stats_url" VNone);
    (0x2619a90e, Tuple3 (None) "messages_get_sticker_set" VNone);
    (0x043d4f2c, Tuple3 (None) "messages_get_stickers" VNone);
    (0xa29cd42c, Tuple3 (None) "messages_get_suggested_dialog_filters" VNone);
    (0x46578472, Tuple3 (None) "messages_get_unread_mentions" VNone);
    (0x32ca8f91, Tuple3 (None) "messages_get_web_page" VNone);
    (0x8b68b0cc, Tuple3 (None) "messages_get_web_page_preview" VNone);
    (0x4facb138, Tuple3 (None) "messages_hide_peer_settings_bar" VNone);
    (0xa8f1709b, Tuple3 (None) "messages_hide_report_spam_v_5_6_2" VNone);
    (0x9a3bfd99, Tuple3 (None) "messages_high_scores" VNone);
    (0x6c50051c, Tuple3 (None) "messages_import_chat_invite" VNone);
    (0xa927fec5, Tuple3 (None) "messages_inactive_chats" VNone);
    (0xc78fe460, Tuple3 (None) "messages_install_sticker_set" VNone);
    (0xc286d98f, Tuple3 (None) "messages_mark_dialog_unread" VNone);
    (0x26b5dde6, Tuple3 (None) "messages_message_edit_data" VNone);
    (0x3f4e0648, Tuple3 (None) "messages_message_empty" VNone);
    (0xff90c417, Tuple2 (None) "messages_message_v_0_1_317");
    (0x8c718e87, Tuple3 (None) "messages_messages" VNone);
    (0x74535f21, Tuple3 (None) "messages_messages_not_modified" VNone);
    (0xc8edce1e, Tuple3 (None) "messages_messages_slice" VNone);
    (0x0b446ae3, Tuple2 (None) "messages_messages_slice_v_0_1_317");
    (0xa6c47aaa, Tuple3 (None) "messages_messages_slice_v_5_6_2" VNone);
    (0x15a3b8e3, Tuple3 (None) "messages_migrate_chat" VNone);
    (0x3371c354, Tuple3 (None) "messages_peer_dialogs" VNone);
    (0x7f4b690a, Tuple3 (None) "messages_read_encrypted_history" VNone);
    (0x5b118126, Tuple3 (None) "messages_read_featured_stickers" VNone);
    (0x0e306d3a, Tuple3 (None) "messages_read_history" VNone);
    (0xb04f2510, Tuple2 (None) "messages_read_history_v_0_1_317");
    (0x0f0189d3, Tuple3 (None) "messages_read_mentions" VNone);
    (0x36a73f77, Tuple3 (None) "messages_read_message_contents" VNone);
    (0x05a954c0, Tuple3 (None) "messages_received_messages" VNone);
    (0x28abcb68, Tuple2 (None) "messages_received_messages_v_0_1_317");
    (0x55a5bb66, Tuple3 (None) "messages_received_queue" VNone);
    (0x22f3afb3, Tuple3 (None) "messages_recent_stickers" VNone);
    (0x0b17f890, Tuple3 (None) "messages_recent_stickers_not_modified" VNone);
    (0x3b1adf37, Tuple3 (None) "messages_reorder_pinned_dialogs" VNone);
    (0x5b51d63f, Tuple3 (None) "messages_reorder_pinned_dialogs_v_5_5_0" VNone);
    (0x78337739, Tuple3 (None) "messages_reorder_sticker_sets" VNone);
    (0xbd82b658, Tuple3 (None) "messages_report" VNone);
    (0x4b0c8c0f, Tuple3 (None) "messages_report_encrypted_spam" VNone);
    (0xcf1592db, Tuple3 (None) "messages_report_spam" VNone);
    (0xf64daf43, Tuple3 (None) "messages_request_encryption" VNone);
    (0xe33f5613, Tuple3 (None) "messages_request_url_auth" VNone);
    (0x395f9d7e, Tuple2 (None) "messages_restore_messages_v_0_1_317");
    (0xbc39e14b, Tuple3 (None) "messages_save_draft" VNone);
    (0x327a30cb, Tuple3 (None) "messages_save_gif" VNone);
    (0x392718f8, Tuple3 (None) "messages_save_recent_sticker" VNone);
    (0x2e0709a5, Tuple3 (None) "messages_saved_gifs" VNone);
    (0xe8025ca2, Tuple3 (None) "messages_saved_gifs_not_modified" VNone);
    (0x8614ef68, Tuple3 (None) "messages_search" VNone);
    (0xe844ebff, Tuple3 (None) "messages_search_counter" VNone);
    (0x07e9f2ab, Tuple2 (None) "messages_search_v_0_1_317");
    (0xbf9a776b, Tuple3 (None) "messages_search_gifs" VNone);
    (0xbf7225a4, Tuple3 (None) "messages_search_global" VNone);
    (0x9e3cacb0, Tuple3 (None) "messages_search_global_v_5_6_2" VNone);
    (0xc2b7d08b, Tuple3 (None) "messages_search_sticker_sets" VNone);
    (0xbf73f4da, Tuple3 (None) "messages_send_broadcast_v_5_6_2" VNone);
    (0x41bb0972, Tuple2 (None) "messages_send_broadcast_v_0_1_317");
    (0xa9776773, Tuple3 (None) "messages_send_encrypted" VNone);
    (0x9a901b66, Tuple3 (None) "messages_send_encrypted_file" VNone);
    (0xcacacaca, Tuple3 (None) "messages_send_encrypted_multi_media" VNone);
    (0x32d439a4, Tuple3 (None) "messages_send_encrypted_service" VNone);
    (0x220815b0, Tuple3 (None) "messages_send_inline_bot_result" VNone);
    (0xb16e06fe, Tuple3 (None) "messages_send_inline_bot_result_v_5_6_2" VNone);
    (0x3491eba9, Tuple3 (None) "messages_send_media" VNone);
    (0xa3c85d76, Tuple2 (None) "messages_send_media_v_0_1_317");
    (0xb8d1262b, Tuple3 (None) "messages_send_media_v_5_6_2" VNone);
    (0x520c3870, Tuple3 (None) "messages_send_message" VNone);
    (0x4cde0aab, Tuple2 (None) "messages_send_message_v_0_1_317");
    (0xfa88427a, Tuple3 (None) "messages_send_message_v_5_6_2" VNone);
    (0x2095512f, Tuple3 (None) "messages_send_multi_media_v_5_6_2" VNone);
    (0x25690ce4, Tuple3 (None) "messages_send_reaction" VNone);
    (0xbd38850a, Tuple3 (None) "messages_send_scheduled_messages" VNone);
    (0xc97df020, Tuple3 (None) "messages_send_screenshot_notification" VNone);
    (0x10ea6184, Tuple3 (None) "messages_send_vote" VNone);
    (0xd1f4d35c, Tuple2 (None) "messages_sent_message_v_0_1_317");
    (0xe9db4a3f, Tuple2 (None) "messages_sent_message_link_v_0_1_317");
    (0x9493ff32, Tuple3 (None) "messages_sent_encrypted_file" VNone);
    (0x560f8935, Tuple3 (None) "messages_sent_encrypted_message" VNone);
    (0xd58f130a, Tuple3 (None) "messages_set_bot_callback_answer" VNone);
    (0x791451ed, Tuple3 (None) "messages_set_encrypted_typing" VNone);
    (0x8ef8ecc0, Tuple3 (None) "messages_set_game_score" VNone);
    (0x15ad9f64, Tuple3 (None) "messages_set_inline_game_score" VNone);
    (0xa3825e50, Tuple3 (None) "messages_set_typing" VNone);
    (0x719839e9, Tuple2 (None) "messages_set_typing_v_0_1_317");
    (0xe6df7378, Tuple3 (None) "messages_start_bot" VNone);
    (0xd07ae726, Tuple2 (None) "messages_stated_message_v_0_1_317");
    (0xa9af2881, Tuple2 (None) "messages_stated_message_link_v_0_1_317");
    (0x969478bb, Tuple2 (None) "messages_stated_messages_v_0_1_317");
    (0x3e74f5c6, Tuple2 (None) "messages_stated_messages_links_v_0_1_317");
    (0xb60a24a6, Tuple3 (None) "messages_sticker_set" VNone);
    (0x35e410a8, Tuple3 (None) "messages_sticker_set_install_result_archive" VNone);
    (0x38641628, Tuple3 (None) "messages_sticker_set_install_result_success" VNone);
    (0xe4599bbd, Tuple3 (None) "messages_stickers" VNone);
    (0xf1749a22, Tuple3 (None) "messages_stickers_not_modified" VNone);
    (0xa731e257, Tuple3 (None) "messages_toggle_dialog_pin" VNone);
    (0xb5052fea, Tuple3 (None) "messages_toggle_sticker_sets" VNone);
    (0xf96e55de, Tuple3 (None) "messages_uninstall_sticker_set" VNone);
    (0x1ad4a04a, Tuple3 (None) "messages_update_dialog_filter" VNone);
    (0xc563c1e4, Tuple3 (None) "messages_update_dialog_filters_order" VNone);
    (0xd2aaf7ec, Tuple3 (None) "messages_update_pinned_message" VNone);
    (0x5057c497, Tuple3 (None) "messages_upload_encrypted_file" VNone);
    (0x519bc2b1, Tuple3 (None) "messages_upload_media" VNone);
    (0x0823f649, Tuple3 (None) "messages_votes_list" VNone);
    (0x73f1f8dc, Tuple2 (None) "msg_container_v_0_1_317");
    (0xe06046b2, Tuple2 (None) "msg_copy_v_0_1_317");
    (0x276d3ec6, Tuple2 (None) "msg_detailed_info_v_0_1_317");
    (0x809db6df, Tuple2 (None) "msg_new_detailed_info_v_0_1_317");
    (0x7d861a08, Tuple2 (None) "msg_resend_req_v_0_1_317");
    (0x62d6b459, Tuple2 (None) "msgs_ack_v_0_1_317");
    (0x8cc0d131, Tuple2 (None) "msgs_all_info_v_0_1_317");
    (0x04deb57d, Tuple2 (None) "msgs_state_info_v_0_1_317");
    (0xda69fb52, Tuple2 (None) "msgs_state_req_v_0_1_317");
    (0x8e1a1775, Tuple3 (None) "nearest_dc" VNone);
    (0x9ec20908, Tuple2 (None) "new_session_created_v_0_1_317");
    (0xd612e8ef, Tuple3 (None) "notify_broadcasts" VNone);
    (0xc007cec3, Tuple3 (None) "notify_chats" VNone);
    (0x9fd40bd8, Tuple3 (None) "notify_peer" VNone);
    (0xb4c83b4c, Tuple3 (None) "notify_users" VNone);
    (0x56730bcc, Tuple3 (None) "null" VNone);
    (0x83c95aec, Tuple2 (None) "p_q_inner_data_v_0_1_317");
    (0x98657f0d, Tuple3 (Some "page_struct") "page" VNone);
    (0xce0d37b0, Tuple3 (Some "page_block_anchor_struct") "page_block_anchor" VNone);
    (0x804361ea, Tuple3 (Some "page_block_audio_struct") "page_block_audio" VNone);
    (0x31b81a7f, Tuple3 (Some "page_block_audio_layer82_struct") "page_block_audio_layer82" VNone);
    (0xbaafe5e0, Tuple3 (Some "page_block_author_date_struct") "page_block_author_date" VNone);
    (0x3d5b64f2, Tuple3 (Some "page_block_author_date_layer60_struct") "page_block_author_date_layer60" VNone);
    (0x263d7c26, Tuple3 (Some "page_block_blockquote_struct") "page_block_blockquote" VNone);
    (0xef1751b5, Tuple3 (Some "page_block_channel_struct") "page_block_channel" VNone);
    (0x65a0fa4d, Tuple3 (Some "page_block_collage_struct") "page_block_collage" VNone);
    (0x08b31c4f, Tuple3 (Some "page_block_collage_layer82_struct") "page_block_collage_layer82" VNone);
    (0x39f23300, Tuple3 (Some "page_block_cover_struct") "page_block_cover" VNone);
    (0x76768bed, Tuple3 (Some "page_block_details_struct") "page_block_details" VNone);
    (0xdb20b188, Tuple3 (Some "page_block_divider_struct") "page_block_divider" VNone);
    (0xa8718dc5, Tuple3 (Some "page_block_embed_struct") "page_block_embed" VNone);
    (0xf259a80b, Tuple3 (Some "page_block_embed_post_struct") "page_block_embed_post" VNone);
    (0x292c7be9, Tuple3 (Some "page_block_embed_post_layer82_struct") "page_block_embed_post_layer82" VNone);
    (0xd935d8fb, Tuple3 (Some "page_block_embed_layer60_struct") "page_block_embed_layer60" VNone);
    (0xcde200d1, Tuple3 (Some "page_block_embed_layer82_struct") "page_block_embed_layer82" VNone);
    (0x48870999, Tuple3 (Some "page_block_footer_struct") "page_block_footer" VNone);
    (0xbfd064ec, Tuple3 (Some "page_block_header_struct") "page_block_header" VNone);
    (0x1e148390, Tuple3 (Some "page_block_kicker_struct") "page_block_kicker" VNone);
    (0xe4e88011, Tuple3 (Some "page_block_list_struct") "page_block_list" VNone);
    (0x3a58c7f4, Tuple3 (Some "page_block_list_layer82_struct") "page_block_list_layer82" VNone);
    (0xa44f3ef6, Tuple3 (Some "page_block_map_struct") "page_block_map" VNone);
    (0x9a8ae1e1, Tuple3 (Some "page_block_ordered_list_struct") "page_block_ordered_list" VNone);
    (0x467a0766, Tuple3 (Some "page_block_paragraph_struct") "page_block_paragraph" VNone);
    (0x1759c560, Tuple3 (Some "page_block_photo_struct") "page_block_photo" VNone);
    (0xe9c69982, Tuple3 (Some "page_block_photo_layer82_struct") "page_block_photo_layer82" VNone);
    (0xc070d93e, Tuple3 (Some "page_block_preformatted_struct") "page_block_preformatted" VNone);
    (0x4f4456d3, Tuple3 (Some "page_block_pullquote_struct") "page_block_pullquote" VNone);
    (0x16115a96, Tuple3 (Some "page_block_related_articles_struct") "page_block_related_articles" VNone);
    (0x031f9590, Tuple3 (Some "page_block_slideshow_struct") "page_block_slideshow" VNone);
    (0x130c8963, Tuple3 (Some "page_block_slideshow_layer82_struct") "page_block_slideshow_layer82" VNone);
    (0xf12bb6e1, Tuple3 (Some "page_block_subheader_struct") "page_block_subheader" VNone);
    (0x8ffa9a1f, Tuple3 (Some "page_block_subtitle_struct") "page_block_subtitle" VNone);
    (0xbf4dea82, Tuple3 (Some "page_block_table_struct") "page_block_table" VNone);
    (0x70abc3fd, Tuple3 (Some "page_block_title_struct") "page_block_title" VNone);
    (0x13567e8a, Tuple3 (Some "page_block_unsupported_struct") "page_block_unsupported" VNone);
    (0x7c8fe7b6, Tuple3 (Some "page_block_video_struct") "page_block_video" VNone);
    (0xd9d71866, Tuple3 (Some "page_block_video_layer82_struct") "page_block_video_layer82" VNone);
    (0x6f747657, Tuple3 (Some "page_caption_struct") "page_caption" VNone);
    (0xd7a19d69, Tuple3 (Some "page_full_layer67_struct") "page_full_layer67" VNone);
    (0x556ec7aa, Tuple3 (Some "page_full_layer82_struct") "page_full_layer82" VNone);
    (0xae891bec, Tuple3 (Some "page_layer110_struct") "page_layer110" VNone);
    (0x25e073fc, Tuple3 (Some "page_list_item_blocks_struct") "page_list_item_blocks" VNone);
    (0xb92fb6cd, Tuple3 (Some "page_list_item_text_struct") "page_list_item_text" VNone);
    (0x98dd8936, Tuple3 (Some "page_list_ordered_item_blocks_struct") "page_list_ordered_item_blocks" VNone);
    (0x5e068047, Tuple3 (Some "page_list_ordered_item_text_struct") "page_list_ordered_item_text" VNone);
    (0x8dee6c44, Tuple3 (Some "page_part_layer67_struct") "page_part_layer67" VNone);
    (0x8e3f9ebe, Tuple3 (Some "page_part_layer82_struct") "page_part_layer82" VNone);
    (0xb390dc08, Tuple3 (Some "page_related_article_struct") "page_related_article" VNone);
    (0x34566b6a, Tuple3 (Some "page_table_cell_struct") "page_table_cell" VNone);
    (0xe0c0c5e5, Tuple3 (Some "page_table_row_struct") "page_table_row" VNone);
    (0x3a912d4a, Tuple3 (None) "password_kdf_algo_sha256_sha256_pbkdf2_hmac_sha512iter100000_sha256_mod_pow" VNone);
    (0xd45ab096, Tuple3 (None) "password_kdf_algo_unknown" VNone);
    (0x909c3f94, Tuple3 (None) "payment_requested_info" VNone);
    (0xcdc27a1f, Tuple3 (None) "payment_saved_credentials_card" VNone);
    (0x3e24e573, Tuple3 (None) "payments_bank_card_data" VNone);
    (0xd83d70c1, Tuple3 (None) "payments_clear_saved_info" VNone);
    (0x2e79d779, Tuple3 (None) "payments_get_bank_card_data" VNone);
    (0x99f09745, Tuple3 (None) "payments_get_payment_form" VNone);
    (0xa092a980, Tuple3 (None) "payments_get_payment_receipt" VNone);
    (0x227d824b, Tuple3 (None) "payments_get_saved_info" VNone);
    (0x3f56aea3, Tuple3 (None) "payments_payment_form" VNone);
    (0x500911e1, Tuple3 (None) "payments_payment_receipt" VNone);
    (0x4e5f810d, Tuple3 (None) "payments_payment_result" VNone);
    (0xd8411139, Tuple3 (None) "payments_payment_verification_needed" VNone);
    (0x6b56b921, Tuple3 (None) "payments_payment_verfication_needed_v_5_6_2" VNone);
    (0xfb8fe43c, Tuple3 (None) "payments_saved_info" VNone);
    (0x2b8879b3, Tuple3 (None) "payments_send_payment_form" VNone);
    (0x770a8e74, Tuple3 (None) "payments_validate_requested_info" VNone);
    (0xd1451883, Tuple3 (None) "payments_validated_requested_info" VNone);
    (0xbddde532, Tuple3 (Some "peer_channel_struct") "peer_channel" VNone);
    (0xbad0e5bb, Tuple3 (Some "peer_chat_struct") "peer_chat" VNone);
    (0xca461b5d, Tuple3 (None) "peer_located" VNone);
    (0x6d1ded88, Tuple2 (None) "peer_notify_events_all_v_0_1_317");
    (0xadd53cb3, Tuple2 (None) "peer_notify_events_empty_v_0_1_317");
    (0xaf509d20, Tuple3 (Some "peer_notify_settings_struct") "peer_notify_settings" VNone);
    (0x70a68512, Tuple3 (Some "peer_notify_settings_empty_layer77_struct") "peer_notify_settings_empty_layer77" VNone);
    (0x8d5e11ee, Tuple3 (Some "peer_notify_settings_layer47_struct") "peer_notify_settings_layer47" VNone);
    (0x9acda4c0, Tuple3 (Some "peer_notify_settings_layer77_struct") "peer_notify_settings_layer77" VNone);
    (0xf8ec284b, Tuple3 (None) "peer_self_located" VNone);
    (0x733f2961, Tuple3 (Some "peer_settings_struct") "peer_settings" VNone);
    (0x818426cd, Tuple3 (Some "peer_settings_v_5_15_0_struct") "peer_settings_v_5_15_0" VNone);
    (0x9db1bc6d, Tuple3 (Some "peer_user_struct") "peer_user" VNone);
    (0x8742ae7f, Tuple3 (None) "phone_call" VNone);
    (0xe6f9ddf3, Tuple3 (None) "phone_call_v_5_5_0" VNone);
    (0x997c454a, Tuple3 (None) "phone_call_accepted" VNone);
    (0x6d003d3f, Tuple3 (None) "phone_call_accepted_v_5_5_0" VNone);
    (0xafe2b839, Tuple3 (Some "phone_call_discard_reason_allow_group_call_struct") "phone_call_discard_reason_allow_group_call" VNone);
    (0xfaf7e8c9, Tuple3 (Some "phone_call_discard_reason_busy_struct") "phone_call_discard_reason_busy" VNone);
    (0xe095c1a0, Tuple3 (Some "phone_call_discard_reason_disconnect_struct") "phone_call_discard_reason_disconnect" VNone);
    (0x57adc690, Tuple3 (Some "phone_call_discard_reason_hangup_struct") "phone_call_discard_reason_hangup" VNone);
    (0x85e42301, Tuple3 (Some "phone_call_discard_reason_missed_struct") "phone_call_discard_reason_missed" VNone);
    (0x50ca4de1, Tuple3 (Some "phone_call_discarded_struct") "phone_call_discarded" VNone);
    (0x5366c915, Tuple3 (None) "phone_call_empty" VNone);
    (0xfc878fc8, Tuple3 (None) "phone_call_protocol" VNone);
    (0xa2bb35cb, Tuple3 (None) "phone_call_protocol_layer110" VNone);
    (0x87eabb53, Tuple3 (None) "phone_call_requested" VNone);
    (0x83761ce4, Tuple3 (None) "phone_call_requested_v_5_5_0" VNone);
    (0x1b8f4ad1, Tuple3 (None) "phone_call_waiting" VNone);
    (0xffe6ab67, Tuple3 (None) "phone_call_layer86_v_5_5_0" VNone);
    (0x9d4c17c0, Tuple3 (None) "phone_connection" VNone);
    (0x3bd2b4a0, Tuple3 (None) "phone_accept_call" VNone);
    (0x2efe1722, Tuple3 (None) "phone_confirm_call" VNone);
    (0x8504e5b6, Tuple3 (None) "phone_create_group_call" VNone);
    (0xb2cbc1c0, Tuple3 (None) "phone_discard_call" VNone);
    (0x78d413a6, Tuple3 (None) "phone_discard_call_v_5_5_0" VNone);
    (0x7a777135, Tuple3 (None) "phone_discard_group_call" VNone);
    (0x46659be4, Tuple3 (None) "phone_edit_group_call_member" VNone);
    (0x8adb4f79, Tuple3 (None) "phone_get_call" VNone);
    (0x55451fa9, Tuple3 (None) "phone_get_call_config" VNone);
    (0x0c7cb017, Tuple3 (None) "phone_get_group_call" VNone);
    (0x6737ffb7, Tuple3 (None) "phone_group_call" VNone);
    (0xcc92a6dc, Tuple3 (None) "phone_invite_group_call_members" VNone);
    (0x09db32d7, Tuple3 (None) "phone_join_group_call" VNone);
    (0x60e98e5f, Tuple3 (None) "phone_leave_group_call" VNone);
    (0xec82e140, Tuple3 (None) "phone_phone_call" VNone);
    (0x17d54f61, Tuple3 (None) "phone_received_call" VNone);
    (0x42ff96ed, Tuple3 (None) "phone_request_call" VNone);
    (0x5b95b3d4, Tuple3 (None) "phone_request_call_v_5_5_0" VNone);
    (0x277add7e, Tuple3 (None) "phone_save_call_debug" VNone);
    (0x59ead627, Tuple3 (None) "phone_set_call_rating" VNone);
    (0x1c536a34, Tuple3 (None) "phone_set_call_rating_v_5_5_0" VNone);
    (0x98e3cdba, Tuple3 (None) "phone_upgrade_phone_call" VNone);
    (0xfb197a65, Tuple3 (Some "photo_struct") "photo" VNone);
    (0xe9a734fa, Tuple3 (Some "photo_cached_size_struct") "photo_cached_size" VNone);
    (0x2331b22d, Tuple3 (Some "photo_empty_struct") "photo_empty" VNone);
    (0xd07504a5, Tuple3 (Some "photo_layer115_struct") "photo_layer115" VNone);
    (0x77bfb61b, Tuple3 (Some "photo_size_struct") "photo_size" VNone);
    (0x0e17e23c, Tuple3 (Some "photo_size_empty_struct") "photo_size_empty" VNone);
    (0xcded42fe, Tuple3 (Some "photo_layer55_struct") "photo_layer55" VNone);
    (0x9288dd29, Tuple3 (Some "photo_layer82_struct") "photo_layer82" VNone);
    (0x9c477dd8, Tuple3 (Some "photo_layer97_struct") "photo_layer97" VNone);
    (0x22b56751, Tuple3 (Some "photo_old_struct") "photo_old" VNone);
    (0xc3838076, Tuple3 (Some "photo_old2_struct") "photo_old2" VNone);
    (0xe0b0bc2e, Tuple3 (Some "photo_stripped_size_struct") "photo_stripped_size" VNone);
    (0x87cf7f2f, Tuple3 (None) "photos_delete_photos" VNone);
    (0x91cd32a8, Tuple3 (None) "photos_get_user_photos" VNone);
    (0xb7ee553c, Tuple2 (None) "photos_get_user_photos_v_0_1_317");
    (0x20212ca8, Tuple3 (None) "photos_photo" VNone);
    (0x8dca6aa5, Tuple3 (None) "photos_photos" VNone);
    (0x15051f54, Tuple3 (None) "photos_photos_slice" VNone);
    (0x72d4742c, Tuple3 (None) "photos_update_profile_photo" VNone);
    (0xeef579a0, Tuple2 (None) "photos_update_profile_photo_v_0_1_317");
    (0xf0bb5152, Tuple3 (None) "photos_update_profile_photo_v_5_15_0" VNone);
    (0x89f30f69, Tuple3 (None) "photos_upload_profile_photo" VNone);
    (0xd50f9c88, Tuple2 (None) "photos_upload_profile_photo_v_0_1_317");
    (0x4f32c098, Tuple3 (None) "photos_upload_profile_photo_v_5_15_0" VNone);
    (0x7abe77ec, Tuple2 (None) "ping_v_0_1_317");
    (0x86e18161, Tuple3 (Some "poll_struct") "poll" VNone);
    (0x6ca9c2e9, Tuple3 (Some "poll_answer_struct") "poll_answer" VNone);
    (0x3b6ddad2, Tuple3 (Some "poll_answer_voters_struct") "poll_answer_voters" VNone);
    (0xd5529d06, Tuple3 (Some "poll_layer111_struct") "poll_layer111" VNone);
    (0xbadcc1a3, Tuple3 (Some "poll_results_struct") "poll_results" VNone);
    (0x5755785a, Tuple3 (Some "poll_results_layer108_struct") "poll_results_layer108" VNone);
    (0xc87024a2, Tuple3 (Some "poll_results_layer111_struct") "poll_results_layer111" VNone);
    (0xaf746786, Tuple3 (Some "poll_to_delete_struct") "poll_to_delete" VNone);
    (0x347773c5, Tuple2 (None) "pong_v_0_1_317");
    (0x5ce14175, Tuple3 (None) "popular_contact" VNone);
    (0x1e8caaeb, Tuple3 (None) "post_address" VNone);
    (0x42ffd42b, Tuple3 (None) "privacy_key_added_by_phone" VNone);
    (0x500e6dfa, Tuple3 (None) "privacy_key_chat_invite" VNone);
    (0x69ec56a3, Tuple3 (None) "privacy_key_forwards" VNone);
    (0x3d662b7b, Tuple3 (None) "privacy_key_phone_call" VNone);
    (0xd19ae46d, Tuple3 (None) "privacy_key_phone_number" VNone);
    (0x39491cc8, Tuple3 (None) "privacy_key_phone_p2p" VNone);
    (0x96151fed, Tuple3 (None) "privacy_key_profile_photo" VNone);
    (0xbc2eab30, Tuple3 (None) "privacy_key_status_timestamp" VNone);
    (0x65427b82, Tuple3 (None) "privacy_value_allow_all" VNone);
    (0x18be796b, Tuple3 (None) "privacy_value_allow_chat_participants" VNone);
    (0xfffe1bac, Tuple3 (None) "privacy_value_allow_contacts" VNone);
    (0x4d5bbe0c, Tuple3 (None) "privacy_value_allow_users" VNone);
    (0x8b73e763, Tuple3 (None) "privacy_value_disallow_all" VNone);
    (0xacae0690, Tuple3 (None) "privacy_value_disallow_chat_participants" VNone);
    (0xf888fa1a, Tuple3 (None) "privacy_value_disallow_contacts" VNone);
    (0x0c7f49b7, Tuple3 (None) "privacy_value_disallow_users" VNone);
    (0x5bb8e511, Tuple2 (None) "proto_message_v_0_1_317");
    (0x6fb250d1, Tuple3 (Some "reaction_count_struct") "reaction_count" VNone);
    (0xa384b779, Tuple3 (None) "received_notify_message" VNone);
    (0xa01b22f9, Tuple3 (None) "recent_me_url_chat" VNone);
    (0xeb49081d, Tuple3 (None) "recent_me_url_chat_invite" VNone);
    (0xbc0a57dc, Tuple3 (None) "recent_me_url_sticker_set" VNone);
    (0x46e1d13d, Tuple3 (None) "recent_me_url_unknown" VNone);
    (0x8dbc3336, Tuple3 (None) "recent_me_url_user" VNone);
    (0x48a30254, Tuple3 (Some "reply_inline_markup_struct") "reply_inline_markup" VNone);
    (0xf4108aa0, Tuple3 (Some "reply_keyboard_force_reply_struct") "reply_keyboard_force_reply" VNone);
    (0xa03e5b85, Tuple3 (Some "reply_keyboard_hide_struct") "reply_keyboard_hide" VNone);
    (0x3502758c, Tuple3 (Some "reply_keyboard_markup_struct") "reply_keyboard_markup" VNone);
    (0xd712e4be, Tuple2 (None) "req_dh_params_v_0_1_317");
    (0x60469778, Tuple2 (None) "req_pq_v_0_1_317");
    (0x05162463, Tuple2 (None) "res_pq_v_0_1_317");
    (0xd072acb4, Tuple3 (Some "restriction_reason_struct") "restriction_reason" VNone);
    (0xa43ad8b7, Tuple2 (None) "rpc_answer_dropped_v_0_1_317");
    (0xcd78e586, Tuple2 (None) "rpc_answer_dropped_running_v_0_1_317");
    (0x5e2ad36e, Tuple2 (None) "rpc_answer_unknown_v_0_1_317");
    (0x58e4a740, Tuple2 (None) "rpc_drop_answer_v_0_1_317");
    (0x2144ca19, Tuple2 (None) "rpc_error_v_0_1_317");
    (0x7ae432f5, Tuple2 (None) "rpc_req_error_v_0_1_317");
    (0xf35c6d01, Tuple2 (None) "rpc_result_v_0_1_317");
    (0x33f0ea47, Tuple3 (None) "secure_credentials_encrypted" VNone);
    (0x8aeabec3, Tuple3 (None) "secure_data" VNone);
    (0xe0277a62, Tuple3 (None) "secure_file" VNone);
    (0x64199744, Tuple3 (None) "secure_file_empty" VNone);
    (0xbbf2dda0, Tuple3 (None) "secure_password_kdf_algo_pbkdf2_hmac_sha512_iter100000" VNone);
    (0x86471d92, Tuple3 (None) "secure_password_kdf_algo_sha512" VNone);
    (0x004a8537, Tuple3 (None) "secure_password_kdf_algo_unknown" VNone);
    (0x21ec5a5f, Tuple3 (None) "secure_plain_email" VNone);
    (0x7d6099dd, Tuple3 (None) "secure_plain_phone" VNone);
    (0x829d99da, Tuple3 (None) "secure_required_type" VNone);
    (0x027477b4, Tuple3 (None) "secure_required_type_one_of" VNone);
    (0x1527bcac, Tuple3 (None) "secure_secret_settings" VNone);
    (0x187fa0ca, Tuple3 (None) "secure_value" VNone);
    (0x869d758f, Tuple3 (None) "secure_value_error" VNone);
    (0xe8a40bd9, Tuple3 (None) "secure_value_error_data" VNone);
    (0x7a700873, Tuple3 (None) "secure_value_error_file" VNone);
    (0x666220e9, Tuple3 (None) "secure_value_error_files" VNone);
    (0x00be3dfa, Tuple3 (None) "secure_value_error_front_side" VNone);
    (0x868a2aa5, Tuple3 (None) "secure_value_error_reverse_side" VNone);
    (0xe537ced6, Tuple3 (None) "secure_value_error_selfie" VNone);
    (0xa1144770, Tuple3 (None) "secure_value_error_translation_file" VNone);
    (0x34636dd8, Tuple3 (None) "secure_value_error_translation_files" VNone);
    (0xed1ecdb0, Tuple3 (None) "secure_value_hash" VNone);
    (0xcbe31e26, Tuple3 (Some "secure_value_type_address_struct") "secure_value_type_address" VNone);
    (0x89137c0d, Tuple3 (Some "secure_value_type_bank_statement_struct") "secure_value_type_bank_statement" VNone);
    (0x06e425c4, Tuple3 (Some "secure_value_type_driver_license_struct") "secure_value_type_driver_license" VNone);
    (0x8e3ca7ee, Tuple3 (Some "secure_value_type_email_struct") "secure_value_type_email" VNone);
    (0xa0d0744b, Tuple3 (Some "secure_value_type_identity_card_struct") "secure_value_type_identity_card" VNone);
    (0x99a48f23, Tuple3 (Some "secure_value_type_internal_passport_struct") "secure_value_type_internal_passport" VNone);
    (0x3dac6a00, Tuple3 (Some "secure_value_type_passport_struct") "secure_value_type_passport" VNone);
    (0x99e3806a, Tuple3 (Some "secure_value_type_passport_registration_struct") "secure_value_type_passport_registration" VNone);
    (0x9d2a81e3, Tuple3 (Some "secure_value_type_personal_details_struct") "secure_value_type_personal_details" VNone);
    (0xb320aadb, Tuple3 (Some "secure_value_type_phone_struct") "secure_value_type_phone" VNone);
    (0x8b883488, Tuple3 (Some "secure_value_type_rental_agreement_struct") "secure_value_type_rental_agreement" VNone);
    (0xea02ec33, Tuple3 (Some "secure_value_type_temporary_registration_struct") "secure_value_type_temporary_registration" VNone);
    (0xfc36954e, Tuple3 (Some "secure_value_type_utility_bill_struct") "secure_value_type_utility_bill" VNone);
    (0xfd5ec8f5, Tuple3 (Some "send_message_cancel_action_struct") "send_message_cancel_action" VNone);
    (0x628cbc6f, Tuple3 (Some "send_message_choose_contact_action_struct") "send_message_choose_contact_action" VNone);
    (0xdd6a8f48, Tuple3 (Some "send_message_game_play_action_struct") "send_message_game_play_action" VNone);
    (0x176f8ba1, Tuple3 (Some "send_message_geo_location_action_struct") "send_message_geo_location_action" VNone);
    (0xd52f73f7, Tuple3 (Some "send_message_record_audio_action_struct") "send_message_record_audio_action" VNone);
    (0x88f27fbc, Tuple3 (Some "send_message_record_round_action_struct") "send_message_record_round_action" VNone);
    (0xa187d66f, Tuple3 (Some "send_message_record_video_action_struct") "send_message_record_video_action" VNone);
    (0x16bf744e, Tuple3 (Some "send_message_typing_action_struct") "send_message_typing_action" VNone);
    (0xf351d7ab, Tuple3 (Some "send_message_upload_audio_action_struct") "send_message_upload_audio_action" VNone);
    (0xe6ac8a6f, Tuple3 (Some "send_message_upload_audio_action_old_struct") "send_message_upload_audio_action_old" VNone);
    (0xaa0cd9e4, Tuple3 (Some "send_message_upload_document_action_struct") "send_message_upload_document_action" VNone);
    (0x8faee98e, Tuple3 (Some "send_message_upload_document_action_old_struct") "send_message_upload_document_action_old" VNone);
    (0xd1d34a26, Tuple3 (Some "send_message_upload_photo_action_struct") "send_message_upload_photo_action" VNone);
    (0x990a3c1a, Tuple3 (Some "send_message_upload_photo_action_old_struct") "send_message_upload_photo_action_old" VNone);
    (0x243e1c66, Tuple3 (Some "send_message_upload_round_action_struct") "send_message_upload_round_action" VNone);
    (0xe9763aec, Tuple3 (Some "send_message_upload_video_action_struct") "send_message_upload_video_action" VNone);
    (0x92042ff7, Tuple3 (Some "send_message_upload_video_action_old_struct") "send_message_upload_video_action_old" VNone);
    (0xb5890dba, Tuple2 (None) "server_dh_inner_data_v_0_1_317");
    (0x79cb045d, Tuple2 (None) "server_dh_params_fail_v_0_1_317");
    (0xd0e8075c, Tuple2 (None) "server_dh_params_ok_v_0_1_317");
    (0xf5045f1f, Tuple2 (None) "set_client_dh_params_v_0_1_317");
    (0xb6213cdf, Tuple3 (None) "shipping_option" VNone);
    (0xcb43acde, Tuple3 (None) "stats_abs_value_and_prev" VNone);
    (0xbdf78394, Tuple3 (None) "stats_broadcast_stats" VNone);
    (0xb637edaf, Tuple3 (None) "stats_date_range_days" VNone);
    (0xab42441a, Tuple3 (None) "stats_get_broadcast_stats" VNone);
    (0xdcdf8607, Tuple3 (None) "stats_get_megagroup_stats" VNone);
    (0x4a27eb2d, Tuple3 (None) "stats_graph_async" VNone);
    (0xbedc9822, Tuple3 (None) "stats_graph_error" VNone);
    (0x8ea464b6, Tuple3 (None) "stats_graph" VNone);
    (0x6014f412, Tuple3 (None) "stats_group_top_admin" VNone);
    (0x31962a4c, Tuple3 (None) "stats_group_top_inviter" VNone);
    (0x18f3d0f7, Tuple3 (None) "stats_group_top_poster" VNone);
    (0x621d5fa0, Tuple3 (None) "stats_load_async_graph" VNone);
    (0xef7ff916, Tuple3 (None) "stats_megagroup_stats" VNone);
    (0xcbce2fe0, Tuple3 (None) "stats_percent_value" VNone);
    (0x47a971e0, Tuple3 (None) "stats_url" VNone);
    (0x12b299d4, Tuple3 (None) "sticker_pack" VNone);
    (0xeeb46f27, Tuple3 (None) "sticker_set" VNone);
    (0x6410a5d2, Tuple3 (None) "sticker_set_covered" VNone);
    (0x3407e51b, Tuple3 (None) "sticker_set_multi_covered" VNone);
    (0xcd303b41, Tuple3 (None) "sticker_set_layer75" VNone);
    (0x5585a139, Tuple3 (None) "sticker_set_layer96" VNone);
    (0x6a90bcb7, Tuple3 (None) "sticker_set_layer97" VNone);
    (0xa7a43b17, Tuple3 (None) "sticker_set_old" VNone);
    (0xcae1aadf, Tuple3 (None) "storage_file_gif" VNone);
    (0x007efe0e, Tuple3 (None) "storage_file_jpeg" VNone);
    (0x4b09ebbc, Tuple3 (None) "storage_file_mov" VNone);
    (0x528a0677, Tuple3 (None) "storage_file_mp3" VNone);
    (0xb3cea0e4, Tuple3 (None) "storage_file_mp4" VNone);
    (0x40bc6f52, Tuple3 (None) "storage_file_partial" VNone);
    (0xae1e508d, Tuple3 (None) "storage_file_pdf" VNone);
    (0x0a4f63c0, Tuple3 (None) "storage_file_png" VNone);
    (0xaa963b05, Tuple3 (None) "storage_file_unknown" VNone);
    (0x1081464c, Tuple3 (None) "storage_file_webp" VNone);
    (0x35553762, Tuple3 (Some "text_anchor_struct") "text_anchor" VNone);
    (0x6724abc4, Tuple3 (Some "text_bold_struct") "text_bold" VNone);
    (0x7e6260d7, Tuple3 (Some "text_concat_struct") "text_concat" VNone);
    (0xde5a0dd6, Tuple3 (Some "text_email_struct") "text_email" VNone);
    (0xdc3d824f, Tuple3 (Some "text_empty_struct") "text_empty" VNone);
    (0x6c3f19b9, Tuple3 (Some "text_fixed_struct") "text_fixed" VNone);
    (0x081ccf4f, Tuple3 (Some "text_image_struct") "text_image" VNone);
    (0xd912a59c, Tuple3 (Some "text_italic_struct") "text_italic" VNone);
    (0x034b8621, Tuple3 (Some "text_marked_struct") "text_marked" VNone);
    (0x1ccb966a, Tuple3 (Some "text_phone_struct") "text_phone" VNone);
    (0x744694e0, Tuple3 (Some "text_plain_struct") "text_plain" VNone);
    (0x9bf8bb95, Tuple3 (Some "text_strike_struct") "text_strike" VNone);
    (0xed6a8504, Tuple3 (Some "text_subscript_struct") "text_subscript" VNone);
    (0xc7fb5e01, Tuple3 (Some "text_superscript_struct") "text_superscript" VNone);
    (0xc12622c4, Tuple3 (Some "text_underline_struct") "text_underline" VNone);
    (0x3c2884c1, Tuple3 (Some "text_url_struct") "text_url" VNone);
    (0x028f1114, Tuple3 (None) "theme" VNone);
    (0x483d270c, Tuple3 (None) "theme_document_not_modified_layer106" VNone);
    (0x9c14984a, Tuple3 (Some "theme_settings_struct") "theme_settings" VNone);
    (0xf7d90ce0, Tuple3 (None) "theme_layer106" VNone);
    (0xedcdc05b, Tuple3 (None) "top_peer" VNone);
    (0x148677e2, Tuple3 (None) "top_peer_category_bots_inline" VNone);
    (0xab661b5b, Tuple3 (None) "top_peer_category_bots_p_m" VNone);
    (0x161d9628, Tuple3 (None) "top_peer_category_channels" VNone);
    (0x0637b7ed, Tuple3 (None) "top_peer_category_correspondents" VNone);
    (0xfbeec0f0, Tuple3 (None) "top_peer_category_forward_chats" VNone);
    (0xa8406ca9, Tuple3 (None) "top_peer_category_forward_users" VNone);
    (0xbd17a14a, Tuple3 (None) "top_peer_category_groups" VNone);
    (0xfb834291, Tuple3 (None) "top_peer_category_peers" VNone);
    (0x1e76a78c, Tuple3 (None) "top_peer_category_phone_calls" VNone);
    (0x6f690963, Tuple2 (None) "update_activation_v_0_1_317");
    (0xb6d45656, Tuple3 (None) "update_channel" VNone);
    (0x70db6837, Tuple3 (None) "update_channel_available_messages" VNone);
    (0x98a12b4b, Tuple3 (None) "update_channel_message_views" VNone);
    (0x65d2b464, Tuple3 (None) "update_channel_participant" VNone);
    (0x98592475, Tuple3 (None) "update_channel_pinned_message" VNone);
    (0x89893b45, Tuple3 (None) "update_channel_read_messages_contents" VNone);
    (0xeb0467fb, Tuple3 (None) "update_channel_too_long" VNone);
    (0x40771900, Tuple3 (None) "update_channel_web_page" VNone);
    (0x54c01850, Tuple3 (None) "update_chat_default_banned_rights" VNone);
    (0xea4b0e5c, Tuple3 (None) "update_chat_participant_add" VNone);
    (0x3a0eeb22, Tuple2 (None) "update_chat_participant_add_v_0_1_317");
    (0xb6901959, Tuple3 (None) "update_chat_participant_admin" VNone);
    (0x6e5f8c22, Tuple3 (None) "update_chat_participant_delete" VNone);
    (0x07761198, Tuple3 (None) "update_chat_participants" VNone);
    (0xe10db349, Tuple3 (None) "update_chat_pinned_message" VNone);
    (0x9a65ea1f, Tuple3 (None) "update_chat_user_typing" VNone);
    (0x3c46cfe6, Tuple2 (None) "update_chat_user_typing_v_0_1_317");
    (0xa229dd06, Tuple3 (None) "update_config" VNone);
    (0x9d2e67c5, Tuple3 (None) "update_contact_link" VNone);
    (0x51a48a9a, Tuple2 (None) "update_contact_link_v_0_1_317");
    (0x2575bbb9, Tuple2 (None) "update_contact_registered_v_0_1_317");
    (0x7084a7be, Tuple3 (None) "update_contacts_reset" VNone);
    (0x8e5e9873, Tuple3 (None) "update_dc_options" VNone);
    (0xc37521c9, Tuple3 (None) "update_delete_channel_messages" VNone);
    (0xa20db0e5, Tuple3 (None) "update_delete_messages" VNone);
    (0xa92bfe26, Tuple2 (None) "update_delete_messages_v_0_1_317");
    (0x90866cee, Tuple3 (None) "update_delete_scheduled_messages" VNone);
    (0x26ffde7d, Tuple3 (None) "update_dialog_filter" VNone);
    (0xa5d72105, Tuple3 (None) "update_dialog_filter_order" VNone);
    (0x3504914f, Tuple3 (None) "update_dialog_filters" VNone);
    (0x6e6fe51c, Tuple3 (None) "update_dialog_pinned" VNone);
    (0x19d27f3c, Tuple3 (None) "update_dialog_pinned_v_5_5_0" VNone);
    (0xe16459c3, Tuple3 (None) "update_dialog_unread_mark" VNone);
    (0xee2bb969, Tuple3 (None) "update_draft_message" VNone);
    (0x1b3f4df7, Tuple3 (None) "update_edit_channel_message" VNone);
    (0xe40370a3, Tuple3 (None) "update_edit_message" VNone);
    (0x1710f156, Tuple3 (None) "update_encrypted_chat_typing" VNone);
    (0x38fe25b7, Tuple3 (None) "update_encrypted_messages_read" VNone);
    (0xb4a2e88d, Tuple3 (None) "update_encryption" VNone);
    (0xe511996d, Tuple3 (None) "update_faved_stickers" VNone);
    (0x19360dc0, Tuple3 (None) "update_folder_peers" VNone);
    (0x871fb939, Tuple3 (None) "update_geo_live_viewed" VNone);
    (0x85fe86ed, Tuple3 (None) "update_group_call" VNone);
    (0x057eaec8, Tuple3 (None) "update_group_call_participant" VNone);
    (0x56022f4d, Tuple3 (None) "update_lang_pack" VNone);
    (0x46560264, Tuple3 (None) "update_lang_pack_too_long" VNone);
    (0x564fe691, Tuple3 (None) "update_login_token" VNone);
    (0x4e90bfd6, Tuple3 (None) "update_message_i_d" VNone);
    (0xaca1657b, Tuple3 (None) "update_message_poll" VNone);
    (0x154798c3, Tuple3 (None) "update_message_reactions" VNone);
    (0x8f06529a, Tuple2 (None) "update_new_authorization_v_0_1_317");
    (0x62ba04d9, Tuple3 (None) "update_new_channel_message" VNone);
    (0x12bcbd9a, Tuple3 (None) "update_new_encrypted_message" VNone);
    (0x5a68e3f7, Tuple2 (None) "update_new_geo_chat_message_v_0_1_317");
    (0x1f2b0afd, Tuple3 (None) "update_new_message" VNone);
    (0x013abdb3, Tuple2 (None) "update_new_message_v_0_1_317");
    (0x39a51dfb, Tuple3 (None) "update_new_scheduled_message" VNone);
    (0x688a30aa, Tuple3 (None) "update_new_sticker_set" VNone);
    (0xbec268ef, Tuple3 (None) "update_notify_settings" VNone);
    (0xb4afcfb0, Tuple3 (None) "update_peer_located" VNone);
    (0x6a7e7366, Tuple3 (None) "update_peer_settings" VNone);
    (0xab0f6b1e, Tuple3 (None) "update_phone_call" VNone);
    (0x2661bf09, Tuple3 (None) "update_phone_call_signaling_data" VNone);
    (0xfa0f3ca2, Tuple3 (None) "update_pinned_dialogs" VNone);
    (0xea4cb65b, Tuple3 (None) "update_pinned_dialogs_v_5_5_0" VNone);
    (0xee3b272a, Tuple3 (None) "update_privacy" VNone);
    (0x330b5424, Tuple3 (None) "update_read_channel_inbox" VNone);
    (0x4214f37f, Tuple3 (None) "update_read_channel_inbox_v_5_5_0" VNone);
    (0x25d6c9c7, Tuple3 (None) "update_read_channel_outbox" VNone);
    (0x571d2742, Tuple3 (None) "update_read_featured_stickers" VNone);
    (0x9c974fdf, Tuple3 (None) "update_read_history_inbox" VNone);
    (0x9961fd5c, Tuple3 (None) "update_read_history_inbox_v_5_5_0" VNone);
    (0x2f2f21bf, Tuple3 (None) "update_read_history_outbox" VNone);
    (0x68c13933, Tuple3 (None) "update_read_messages_contents" VNone);
    (0xc6649e31, Tuple2 (None) "update_read_messages_v_0_1_317");
    (0x9a422c20, Tuple3 (None) "update_recent_stickers" VNone);
    (0xd15de04d, Tuple2 (None) "update_restore_messages_v_0_1_317");
    (0x9375341e, Tuple3 (None) "update_saved_gifs" VNone);
    (0xebe46819, Tuple3 (None) "update_service_notification" VNone);
    (0x78d4dec1, Tuple3 (None) "update_short" VNone);
    (0x16812688, Tuple3 (None) "update_short_chat_message" VNone);
    (0x2b2fbd4e, Tuple2 (None) "update_short_chat_message_v_0_1_317");
    (0x914fbf11, Tuple3 (None) "update_short_message" VNone);
    (0xd3f45784, Tuple2 (None) "update_short_message_v_0_1_317");
    (0x11f1331c, Tuple3 (None) "update_short_sent_message" VNone);
    (0x43ae3dec, Tuple3 (None) "update_sticker_sets" VNone);
    (0x0bb2d201, Tuple3 (None) "update_sticker_sets_order" VNone);
    (0x8216fba3, Tuple3 (None) "update_theme" VNone);
    (0x80ece81a, Tuple3 (None) "update_user_blocked" VNone);
    (0xa7332b73, Tuple3 (None) "update_user_name" VNone);
    (0xda22d9ad, Tuple2 (None) "update_user_name_v_0_1_317");
    (0x12b9417b, Tuple3 (None) "update_user_phone" VNone);
    (0x95313b0c, Tuple3 (None) "update_user_photo" VNone);
    (0x4c43da18, Tuple3 (None) "update_user_pinned_message" VNone);
    (0x1bfbd823, Tuple3 (None) "update_user_status" VNone);
    (0x5c486927, Tuple3 (None) "update_user_typing" VNone);
    (0x6baa8508, Tuple2 (None) "update_user_typing_v_0_1_317");
    (0x7f891213, Tuple3 (None) "update_web_page" VNone);
    (0x74ae4240, Tuple3 (None) "updates" VNone);
    (0x725b04c3, Tuple3 (None) "updates_combined" VNone);
    (0xe317af7e, Tuple3 (None) "updates_too_long" VNone);
    (0x2064674e, Tuple3 (None) "updates_channel_difference" VNone);
    (0x3e11affb, Tuple3 (None) "updates_channel_difference_empty" VNone);
    (0xa4bcc6fe, Tuple3 (None) "updates_channel_difference_too_long" VNone);
    (0x6a9d7b35, Tuple3 (None) "updates_channel_difference_too_long_v_5_5_0" VNone);
    (0x00f49ca0, Tuple3 (None) "updates_difference" VNone);
    (0x5d75a138, Tuple3 (None) "updates_difference_empty" VNone);
    (0xa8fb1981, Tuple3 (None) "updates_difference_slice" VNone);
    (0x4afe8f6d, Tuple3 (None) "updates_difference_too_long" VNone);
    (0x03173d78, Tuple3 (None) "updates_get_channel_difference" VNone);
    (0x25939651, Tuple3 (None) "updates_get_difference" VNone);
    (0x0a041495, Tuple2 (None) "updates_get_difference_v_0_1_317");
    (0xedd4882a, Tuple3 (None) "updates_get_state" VNone);
    (0xa56c2a3e, Tuple3 (None) "updates_state" VNone);
    (0xa99fca4f, Tuple3 (None) "upload_cdn_file" VNone);
    (0xeea8e46e, Tuple3 (None) "upload_cdn_file_reupload_needed" VNone);
    (0x096a18d5, Tuple3 (None) "upload_file" VNone);
    (0xf18cda44, Tuple3 (None) "upload_file_cdn_redirect" VNone);
    (0x2000bcc3, Tuple3 (None) "upload_get_cdn_file" VNone);
    (0x4da54231, Tuple3 (None) "upload_get_cdn_file_hashes" VNone);
    (0xb15a9afc, Tuple3 (None) "upload_get_file" VNone);
    (0xe3a6cfb5, Tuple3 (None) "upload_get_file_v_5_6_2" VNone);
    (0xc7025931, Tuple3 (None) "upload_get_file_hashes" VNone);
    (0x24e6818d, Tuple3 (None) "upload_get_web_file" VNone);
    (0x9b2754a8, Tuple3 (None) "upload_reupload_cdn_file" VNone);
    (0xde7b673d, Tuple3 (None) "upload_save_big_file_part" VNone);
    (0xb304a621, Tuple3 (None) "upload_save_file_part" VNone);
    (0x21e753bc, Tuple3 (None) "upload_web_file" VNone);
    (0x8f8c0e4e, Tuple3 (None) "url_auth_result_accepted" VNone);
    (0xa9d6db1f, Tuple3 (None) "url_auth_result_default" VNone);
    (0x92d33a0e, Tuple3 (None) "url_auth_result_request" VNone);
    (0x938458c1, Tuple3 (Some "user_struct") "user" VNone);
    (0xf2fb8319, Tuple3 (Some "user_contact_old_struct") "user_contact_old" VNone);
    (0xcab35e18, Tuple3 (Some "user_contact_old2_struct") "user_contact_old2" VNone);
    (0xb29ad7cc, Tuple3 (Some "user_deleted_old_struct") "user_deleted_old" VNone);
    (0xd6016d7a, Tuple3 (Some "user_deleted_old2_struct") "user_deleted_old2" VNone);
    (0x200250ba, Tuple3 (Some "user_empty_struct") "user_empty" VNone);
    (0x5214c89d, Tuple3 (Some "user_foreign_old_struct") "user_foreign_old" VNone);
    (0x075cf7a8, Tuple3 (Some "user_foreign_old2_struct") "user_foreign_old2" VNone);
    (0xedf17c12, Tuple3 (Some "user_full_struct") "user_full" VNone);
    (0x745559cc, Tuple3 (Some "user_full_layer101_struct") "user_full_layer101" VNone);
    (0x8ea4a881, Tuple3 (Some "user_full_layer98_struct") "user_full_layer98" VNone);
    (0x771095da, Tuple2 (None) "user_full_v_0_1_317");
    (0x2e13f4c3, Tuple3 (Some "user_layer104_struct") "user_layer104" VNone);
    (0xd10d979a, Tuple3 (Some "user_layer65_struct") "user_layer65" VNone);
    (0x69d3ab26, Tuple3 (Some "user_profile_photo_struct") "user_profile_photo" VNone);
    (0x4f11bae1, Tuple3 (Some "user_profile_photo_empty_struct") "user_profile_photo_empty" VNone);
    (0xd559d8c8, Tuple3 (Some "user_profile_photo_layer97_struct") "user_profile_photo_layer97" VNone);
    (0xecd75d8c, Tuple3 (Some "user_profile_photo_layer115_struct") "user_profile_photo_layer115" VNone);
    (0x990d1493, Tuple3 (Some "user_profile_photo_old_struct") "user_profile_photo_old" VNone);
    (0x22e8ceb0, Tuple3 (Some "user_request_old_struct") "user_request_old" VNone);
    (0xd9ccc4ef, Tuple3 (Some "user_request_old2_struct") "user_request_old2" VNone);
    (0x720535ec, Tuple3 (Some "user_self_old_struct") "user_self_old" VNone);
    (0x7007b451, Tuple3 (Some "user_self_old2_struct") "user_self_old2" VNone);
    (0x1c60e608, Tuple3 (Some "user_self_old3_struct") "user_self_old3" VNone);
    (0x09d05049, Tuple3 (Some "user_status_empty_struct") "user_status_empty" VNone);
    (0x77ebc742, Tuple3 (Some "user_status_last_month_struct") "user_status_last_month" VNone);
    (0x07bf09fc, Tuple3 (Some "user_status_last_week_struct") "user_status_last_week" VNone);
    (0x008c703f, Tuple3 (Some "user_status_offline_struct") "user_status_offline" VNone);
    (0xedb93949, Tuple3 (Some "user_status_online_struct") "user_status_online" VNone);
    (0xe26f42f1, Tuple3 (Some "user_status_recently_struct") "user_status_recently" VNone);
    (0x22e49072, Tuple3 (Some "user_old_struct") "user_old" VNone);
    (0xca30a5b1, Tuple3 (None) "users_get_full_user" VNone);
    (0x0d91a548, Tuple3 (None) "users_get_users" VNone);
    (0xc10658a8, Tuple3 (Some "video_empty_layer45_struct") "video_empty_layer45" VNone);
    (0x55555553, Tuple3 (Some "video_encrypted_struct") "video_encrypted" VNone);
    (0xf72887d3, Tuple3 (Some "video_layer45_struct") "video_layer45" VNone);
    (0x5a04a49f, Tuple3 (Some "video_old_struct") "video_old" VNone);
    (0x388fa391, Tuple3 (Some "video_old2_struct") "video_old2" VNone);
    (0xee9f4a4d, Tuple3 (Some "video_old3_struct") "video_old3" VNone);
    (0xe831c556, Tuple3 (Some "video_size_struct") "video_size" VNone);
    (0x435bb987, Tuple3 (Some "video_size_layer115_struct") "video_size_layer115" VNone);
    (0xa437c3ed, Tuple3 (Some "wall_paper_struct") "wall_paper" VNone);
    (0xf04f91ec, Tuple3 (Some "wall_paper_layer94_struct") "wall_paper_layer94" VNone);
    (0x8af40b25, Tuple3 (Some "wall_paper_no_file_struct") "wall_paper_no_file" VNone);
    (0x05086cf8, Tuple3 (Some "wall_paper_settings_struct") "wall_paper_settings" VNone);
    (0xa12f40b8, Tuple3 (Some "wall_paper_settings_layer106_struct") "wall_paper_settings_layer106" VNone);
    (0x63117f24, Tuple2 (None) "wall_paper_solid_v_0_1_317");
    (0xccb03657, Tuple2 (None) "wall_paper_v_0_1_317");
    (0x0b57f346, Tuple3 (None) "wallet_get_key_secret_salt" VNone);
    (0x764386d7, Tuple3 (None) "wallet_lite_response" VNone);
    (0xdd484d64, Tuple3 (None) "wallet_secret_salt" VNone);
    (0xe2c9d33e, Tuple3 (None) "wallet_send_lite_request" VNone);
    (0xcac943f2, Tuple3 (None) "web_authorization" VNone);
    (0x1c570ed1, Tuple3 (Some "web_document_struct") "web_document" VNone);
    (0xf9c8bcc6, Tuple3 (Some "web_document_no_proxy_struct") "web_document_no_proxy" VNone);
    (0xc61acbd8, Tuple3 (Some "web_document_layer81_struct") "web_document_layer81" VNone);
    (0xe89c45b2, Tuple3 (Some "web_page_struct") "web_page" VNone);
    (0x54b56617, Tuple3 (Some "web_page_attribute_theme_struct") "web_page_attribute_theme" VNone);
    (0xeb1477e8, Tuple3 (Some "web_page_empty_struct") "web_page_empty" VNone);
    (0x5f07b4bc, Tuple3 (Some "web_page_layer104_struct") "web_page_layer104" VNone);
    (0xfa64e172, Tuple3 (Some "web_page_layer107_struct") "web_page_layer107" VNone);
    (0xca820ed7, Tuple3 (Some "web_page_layer58_struct") "web_page_layer58" VNone);
    (0x7311ca11, Tuple3 (Some "web_page_not_modified_struct") "web_page_not_modified" VNone);
    (0x85849473, Tuple3 (Some "web_page_not_modified_layer110_struct") "web_page_not_modified_layer110" VNone);
    (0xc586da1c, Tuple3 (Some "web_page_pending_struct") "web_page_pending" VNone);
    (0xd41a5167, Tuple3 (Some "web_page_url_pending_struct") "web_page_url_pending" VNone);
    (0xa31ea0b5, Tuple3 (Some "web_page_old_struct") "web_page_old" VNone);
    (0x1cb5c415, Tuple3 (None) "_vector" VNone) ].

(** ** Message structures and the dispatcher *)

Section Decoder.

(** The [tag_map] dictionaries of [message_action_structures],
    [message_fwd_header_structures], [message_media_structures],
    [reply_markup_structures] and [message_entity_structures]: the
    structures they point to are not embedded, and everything below
    holds whatever they parse. *)
Variable message_action_tag_map : list (Z * Parser).
Variable message_fwd_header_tag_map : list (Z * Parser).
Variable message_media_tag_map : list (Z * Parser).
Variable reply_markup_tag_map : list (Z * Parser).
Variable message_entity_tag_map : list (Z * Parser).

(** The object
    [IfThenElse(this.to_id.user_id != 0,
                'from_id_adjusted' / this.to_id.user_id,
                'from_id_adjusted' / this.to_id.channel_id * -1)]
    of the two message structures below.  Its branches are not subcons:
    [this.to_id.user_id] is an expression, and a string divided by an
    expression is again an expression.  What construct does with such
    operands is left open: [inl e] when building the object raises [e]
    (then so does the method that builds the [Struct]), [inr p] when the
    object is built and parses like [p]. *)
Variable from_id_adjusted_switch : exn + Parser.

(** The decoder methods of the registry that are not embedded in this
    file, by method name. *)
Variable other_struct : string -> Parser.

Definition message_action_structures (name : string) : Parser :=
  Struct [ "_signature" /: Peek Int32ul;
           name /: Switch (this ["_signature"]) message_action_tag_map ].

Definition message_fwd_header_structures (name : string) : Parser :=
  Struct [ "_signature" /: Peek Int32ul;
           name /: Switch (this ["_signature"]) message_fwd_header_tag_map ].

Definition message_media_structures (name : string) : Parser :=
  Struct [ "_signature" /: Peek Int32ul;
           name /: Switch (this ["_signature"]) message_media_tag_map ].

Definition reply_markup_structures (name : string) : Parser :=
  Struct [ "_signature" /: Peek Int32ul;
           name /: Switch (this ["_signature"]) reply_markup_tag_map ].

Definition message_entity_structures (name : string) : Parser :=
  Struct [ "_signature" /: Peek Int32ul;
           name /: Switch (this ["_signature"]) message_entity_tag_map ].

(** The keyword arguments of the [FlagsEnum] of the two message
    structures. *)
Definition message_service_layer48_flags : list (string * Z) :=
  [ ("unread", 1);
    ("out", 2);
    ("mentioned", 16);
    ("media_unread", 32);
    ("has_from_id", 256);
    ("is_via_bot", 2048);
    ("post", 16384);
    ("silent", 8192);
    ("is_grouped_id", 131072) ].

Definition message_layer68_flags : list (string * Z) :=
  [ ("unread", 1);
    ("out", 2);
    ("forwarded", 4);
    ("is_reply_to_msg_id", 8);
    ("mentioned", 16);
    ("media_unread", 32);
    ("has_reply_markup", 64);
    ("has_entities", 128);
    ("has_from_id", 256);
    ("has_media", 512);
    ("has_views", 1024);
    ("is_via_bot", 2048);
    ("post", 16384);
    ("is_edited", 32768);
    ("silent", 8192);
    ("with_my_score", 1073741824) ].

Definition message_service_layer48_struct : result Parser :=
  match from_id_adjusted_switch with
  | inl e => Raise e
  | inr adjusted =>
      Ok (Struct
            [ "sname" /: Computed (text "message_service_layer48");
              "signature" /: Hex (Const 0xc06b9607 Int32ul);
              "flags" /: FlagsEnum Int32ul message_service_layer48_flags;
              "id" /: Int32ul;
              "from_id" /: If (this ["flags"; "has_from_id"]) Int32ul;
              "to_id" /: peer_structures "to_id";
              "from_id_adjusted" /: If (this ["from_id"] == int 0)%E adjusted;
              "date" /: ttimestamp_struct;
              "action" /: message_action_structures "action" ])
  end.

Definition message_layer68_struct : result Parser :=
  match from_id_adjusted_switch with
  | inl e => Raise e
  | inr adjusted =>
      Ok (Struct
            [ "sname" /: Computed (text "message_layer68");
              "signature" /: Hex (Const 0xc09be45f Int32ul);
              "flags" /: FlagsEnum Int32ul message_layer68_flags;
              "id" /: Int32ul;
              "from_id" /: If (this ["flags"; "has_from_id"]) Int32ul;
              "to_id" /: peer_structures "to_id";
              "from_id_adjusted" /: If (this ["from_id"] == int 0)%E adjusted;
              "fwd_from" /: If (this ["flags"; "forwarded"])
                               (message_fwd_header_structures "fwd_from");
              "via_bot_id" /: If (this ["flags"; "is_via_bot"]) Int32ul;
              "reply_to_msg_id" /: If (this ["flags"; "is_reply_to_msg_id"]) Int32ul;
              "date" /: ttimestamp_struct;
              "message" /: tstring_struct;
              "media" /: If (this ["flags"; "has_media"])
                            (message_media_structures "media");
              "_media_ttl" /: Computed (text "ignored");
              "_media_caption_legacy" /: Computed (text "ignored");
              "reply_markup" /: If (this ["flags"; "has_reply_markup"])
                                   (reply_markup_structures "reply_markup");
              "entities" /: If (this ["flags"; "has_entities"])
                               (Struct
                                  [ "_vector_sig" /: Hex (Const 0x1cb5c415 Int32ul);
                                    "message_entity_num" /: Int32ul;
                                    "message_entity_array" /:
                                      Array (this ["message_entity_num"])
                                            (message_entity_structures "message_entity") ]);
              "views" /: If (this ["flags"; "has_views"]) Int32ul;
              "edit_timestamp" /: If (this ["flags"; "is_edited"]) Int32ul ])
  end.

(** The methods embedded above, by name: what [blob_parser(self)]
    evaluates to. *)
Definition embedded_structs : list (string * result Parser) :=
  [ ("file_location_to_be_deprecated_struct", Ok file_location_to_be_deprecated_struct);
    ("file_location_layer82_struct", Ok file_location_layer82_struct);
    ("file_location_layer97_struct", Ok file_location_layer97_struct);
    ("file_location_unavailable_struct", Ok file_location_unavailable_struct);
    ("message_service_layer48_struct", message_service_layer48_struct);
    ("message_layer68_struct", message_layer68_struct);
    ("peer_channel_struct", Ok peer_channel_struct);
    ("peer_chat_struct", Ok peer_chat_struct);
    ("peer_user_struct", Ok peer_user_struct);
    ("restriction_reason_struct", Ok restriction_reason_struct);
    ("user_struct", Ok user_struct);
    ("user_empty_struct", Ok user_empty_struct);
    ("user_profile_photo_struct", Ok user_profile_photo_struct);
    ("user_profile_photo_empty_struct", Ok user_profile_photo_empty_struct);
    ("user_profile_photo_layer97_struct", Ok user_profile_photo_layer97_struct);
    ("user_profile_photo_layer115_struct", Ok user_profile_photo_layer115_struct);
    ("user_profile_photo_old_struct", Ok user_profile_photo_old_struct);
    ("user_status_empty_struct", Ok user_status_empty_struct);
    ("user_status_last_month_struct", Ok user_status_last_month_struct);
    ("user_status_last_week_struct", Ok user_status_last_week_struct);
    ("user_status_offline_struct", Ok user_status_offline_struct);
    ("user_status_online_struct", Ok user_status_online_struct);
    ("user_status_recently_struct", Ok user_status_recently_struct) ].

Definition call_blob_parser (blob_parser : string) : result Parser :=
  match dict_get blob_parser embedded_structs with
  | Some p => p
  | None => Ok (other_struct blob_parser)
  end.

(** A [tblob] instance: its one attribute. *)
Record tblob : Type := mk_tblob { _callbacks : gmap Z blob_tuple }.

Definition blob_tuple_name (t : blob_tuple) : string :=
  match t with
  | Tuple3 _ n _ => n
  | Tuple2 _ n => n
  end.

(** [tblob.__init__]: copy the class-level table, entry by entry, into
    the instance, logging each entry at debug level. *)
Definition __init__ : tblob * list log_record :=
  let start := (∅ : gmap Z blob_tuple, [mkLog DEBUG "building callbacks ..." []]) in
  let built :=
    fold_left
      (fun acc kv =>
         (<[fst kv := snd kv]> (fst acc),
          snd acc ++ [mkLog DEBUG "adding callback %s (%s)"
                            [VStr (hex (fst kv)); VStr (str (blob_tuple_name (snd kv)))]]))
      tdss_callbacks start in
  (mk_tblob (fst built),
   snd built ++ [mkLog DEBUG "building callbacks ended" []]).

(** [len(obj)]. *)
Definition py_len (v : value) : result Z :=
  match v with
  | VBytes bs => Ok (Z.of_nat (List.length bs))
  | VStr s => Ok (Z.of_nat (List.length s))
  | VList l => Ok (Z.of_nat (List.length l))
  | VContainer d => Ok (Z.of_nat (List.length d))
  | _ => Raise TypeError
  end.

(** [getattr(obj, name, None)]. *)
Definition getattr_or_None (v : value) (name : string) : value :=
  match v with
  | VContainer d => default VNone (dict_get name d)
  | _ => VNone
  end.

(** The checks of [parse_blob] once the decoder has returned [pblob]
    and left the stream at [object_len]: the warning about a non-empty
    [UNPARSED], the error about a length mismatch.  A [pblob] without
    the stream as [_io] has no [_io.tell()]. *)
Definition after_parse (name : string) (signature : Z) (data : list byte)
    (pblob : value) (object_len : nat)
  : result value * list log_record :=
  let unparsed := getattr_or_None pblob "UNPARSED" in
  let checked : result (list log_record) :=
    if truthy unparsed then
      match py_len unparsed with
      | Ok unparsed_len =>
          Ok (if negb (unparsed_len =? 0)
              then [mkLog WARNING
                      "Object: %s [0x%x] contains unparsed data [%d bytes], see UPARSED field"
                      [VStr (str name); VInt signature; VInt unparsed_len]]
              else [])
      | Raise e => Raise e
      end
    else Ok [] in
  match checked with
  | Raise e => (Raise e, [])
  | Ok logs1 =>
      let data_len := List.length data in
      (* object_len = pblob._io.tell() *)
      match getattr_or_None pblob "_io" with
      | VStream =>
          (Ok pblob,
           if negb (Nat.eqb data_len object_len)
           then logs1 ++ [mkLog ERROR
                            "Not all data parsed for object: %s [0x%x], input: %d, parsed: %d, missed: %s"
                            [VStr (str name); VInt signature;
                             VInt (Z.of_nat data_len); VInt (Z.of_nat object_len);
                             VBytes (skipn object_len data)]]
           else logs1)
      | _ => (Raise AttributeError, logs1)
      end
  end.

(** [tblob.parse_blob]: what it returns or raises, and the records it
    logs.  The result [VNone] is Python's [None]: no record.  Nothing
    is assigned to [self]. *)
Definition parse_blob (self : tblob) (data : list byte)
  : result value * list log_record :=
  let signature := int_from_bytes_little (firstn 4 data) in
  if bool_decide (_callbacks self = ∅) then (Raise AssertionError, [])
  else
    match _callbacks self !! signature with
    | Some (Tuple3 blob_parser name beautify) =>
        match blob_parser with
        | Some f =>
            match call_blob_parser f with
            | Ok p =>
                match parse p data with
                | (Ok pblob, s, l) =>
                    let '(r, l') := after_parse name signature data pblob (tell s) in
                    (r, l ++ l')
                | (Raise e, s, l) => (Raise e, l)
                end
            | Raise e => (Raise e, [])
            end
        | None =>
            (Ok VNone,
             [mkLog WARNING "blob '%s' [%s] not supported"
                [VStr (str name); VStr (hex signature)]])
        end
    | Some (Tuple2 _ _) => (Raise ValueError, [])
    | None =>
        (Ok VNone, [mkLog ERROR "unknown signature %s" [VStr (hex signature)]])
    end.


(** ** [tblob.py]: sticker sets and the secret message *)

Definition input_sticker_set_animated_emoji_struct : Parser :=
  Struct [ "sname" /: Computed (text "input_sticker_set_animated_emoji") ].

Definition input_sticker_set_dice_struct : Parser :=
  Struct [ "sname" /: Computed (text "input_sticker_set_dice");
           "signature" /: Hex (Const 0xe67f520e Int32ul);
           "emoticon" /: tstring_struct ].

Definition input_sticker_set_empty_struct : Parser :=
  Struct [ "sname" /: Computed (text "input_sticker_set_empty");
           "signature" /: Hex (Const 0xffb62b95 Int32ul) ].

Definition input_sticker_set_id_struct : Parser :=
  Struct [ "sname" /: Computed (text "input_sticker_set_id");
           "signature" /: Hex (Const 0x9de7a269 Int32ul);
           "id" /: Int64ul;
           "access_hash" /: Int64ul ].

Definition input_sticker_set_short_name_struct : Parser :=
  Struct [ "sname" /: Computed (text "input_sticker_set_short_name");
           "signature" /: Hex (Const 0x861cc8a0 Int32ul);
           "short_name" /: tstring_struct ].

Definition input_sticker_set_structures (name : string) : Parser :=
  let tag_map :=
    [ (0x028703c8, LazyBound (fun _ => input_sticker_set_animated_emoji_struct));
      (0xe67f520e, LazyBound (fun _ => input_sticker_set_dice_struct));
      (0xffb62b95, LazyBound (fun _ => input_sticker_set_empty_struct));
      (0x9de7a269, LazyBound (fun _ => input_sticker_set_id_struct));
      (0x861cc8a0, LazyBound (fun _ => input_sticker_set_short_name_struct)) ] in
  Struct [ "_signature" /: Peek Int32ul;
           name /: Switch (this ["_signature"]) tag_map ].

(** The keyword arguments of the [FlagsEnum] of [message_secret_struct]. *)
Definition message_secret_flags : list (string * Z) :=
  [ ("unread", 1);
    ("out", 2);
    ("is_reply_to_random_id", 8);
    ("mentioned", 16);
    ("media_unread", 32);
    ("has_via_bot_name", 2048);
    ("has_grouped_id", 131072) ].

(** The subcons of [message_secret_struct] before its last one,
    [UNPARSED]. *)
Definition message_secret_fields : list subcon :=
  [ "sname" /: Computed (text "message_secret");
    "signature" /: Hex (Const 0x555555fa Int32ul);
    "flags" /: FlagsEnum Int32ul message_secret_flags;
    "id" /: Int32ul;
    "ttl" /: Int32ul;
    "from_id" /: Int32ul;
    "to_id" /: peer_structures "to_id";
    "date" /: ttimestamp_struct;
    "message" /: tstring_struct;
    "media" /: message_media_structures "media";
    "_vector_sig" /: Hex (Const 0x1cb5c415 Int32ul);
    "message_entity_num" /: Int32ul;
    "message_entity_array" /:
      Array (this ["message_entity_num"]) (message_entity_structures "message_entity");
    "via_bot_name" /: If (this ["flags"; "has_via_bot_name"]) tstring_struct;
    "reply_to_random_id" /: If (this ["flags"; "is_reply_to_random_id"]) Int64ul;
    "grouped_id" /: If (this ["flags"; "has_grouped_id"]) Int64ul ].

Definition message_secret_struct : Parser :=
  Struct (message_secret_fields ++ [ "UNPARSED" /: GreedyBytes ]).

(** * [tdb.py]: the tables and the timeline *)

(** Code outside a parser returns or raises; nothing is read. *)
Definition and_then {A B : Type} (r : result A) (k : A -> result B) : result B :=
  match r with
  | Ok a => k a
  | Raise e => Raise e
  end.

Notation "x <~ r ;; k" := (and_then r (fun x => k))
  (at level 100, r at next level, right associativity).

(** [obj.name] on the values a decoder returns, for the field names
    [tdb.py] reads ([flags], [id], [string], [to_id], ...): the entry of
    a [Container], [AttributeError] where there is none, and
    [AttributeError] on [None], integers and bytes. *)
Definition getattr (v : value) (name : string) : result value :=
  match v with
  | VContainer d =>
      match dict_get name d with
      | Some x => Ok x
      | None => Raise AttributeError
      end
  | _ => Raise AttributeError
  end.

Definition TYPE_MSG_TO_CHANNEL : pystr := str "channel".
Definition TYPE_MSG_TO_USER : pystr := str "chat".

(** [s.strip(chars)], [s.replace(old, new)] for one-character [old] and
    [new], on the code points of [s]. *)
Fixpoint str_lstrip (chars : list N) (s : pystr) : pystr :=
  match s with
  | [] => []
  | c :: s' => if existsb (N.eqb c) chars then str_lstrip chars s' else s
  end.

Definition str_rstrip (chars : list N) (s : pystr) : pystr :=
  rev (str_lstrip chars (rev s)).

Definition str_strip (chars : list N) (s : pystr) : pystr :=
  str_rstrip chars (str_lstrip chars s).

Definition str_replace (old new : N) (s : pystr) : pystr :=
  map (fun c => if N.eqb c old then new else c) s.

(** The double quote and the apostrophe. *)
Definition dquote : N := 34%N.
Definition squote : N := 39%N.

(** [escape_csv_string(instr)].  Of the values a record holds only a
    [str] has the [strip] that takes a [str]: [bytes.strip] raises
    [TypeError] on it, the other values have no [strip] (an entry
    [strip] of a [Container] is not callable). *)
Definition escape_csv_string (instr : value) : result pystr :=
  if truthy instr then
    match instr with
    | VStr s =>
        let instr := str_strip [dquote; squote] s in
        Ok ([dquote] ++ str_replace dquote squote instr ++ [dquote])
    | VBytes _ => Raise TypeError
    | VContainer d =>
        match dict_get "strip" d with
        | Some _ => Raise TypeError
        | None => Raise AttributeError
        end
    | _ => Raise AttributeError
    end
  else Ok [].

(** [to_date(epoch)].  [utcfromtimestamp] takes a number and raises
    outside the years 1 to 9999 ([ValueError], or [OverflowError] past
    the platform's [time_t]: [ValueError] stands for both). *)
Definition to_date (epoch : value) : result pystr :=
  if truthy epoch then
    match as_int epoch with
    | Some z =>
        if (-62135596800 <=? z) && (z <=? 253402300799) then Ok (utc_isoformat z)
        else Raise ValueError
    | None => Raise TypeError
    end
  else Ok [].

(** [int.bit_length()]: the bits of the absolute value. *)
Definition bit_length (z : Z) : Z :=
  if z =? 0 then 0 else Z.log2 (Z.abs z) + 1.

(** A [tmessage]: the attributes [__init__] sets, the numbers after
    [int()]. *)
Record tmessage : Type := mk_tmessage
  { tmessage_mid : Z; tmessage_uid : Z; tmessage_read_state : Z;
    tmessage_send_state : Z; tmessage_date : Z; tmessage_blob : value;
    tmessage_out : Z; tmessage_ttl : Z; tmessage_table_media : Z;
    tmessage_blob_reply : value; tmessage_imp : Z; tmessage_mention : Z }.

(** [tmessage.to_id_and_type]. *)
Definition to_id_and_type (self : tmessage) : result (value * value) :=
  to_id <~ getattr (tmessage_blob self) "to_id" ;;
  to_id_c <~ getattr to_id "to_id" ;;
  sname <~ getattr to_id_c "sname" ;;
  if py_eq sname (VStr (str "peer_channel")) then
    channel_id <~ getattr to_id_c "channel_id" ;;
    Ok (channel_id, VStr TYPE_MSG_TO_CHANNEL)
  else
    sname <~ getattr to_id_c "sname" ;;
    if py_eq sname (VStr (str "peer_user")) then
      user_id <~ getattr to_id_c "user_id" ;;
      Ok (user_id, VStr TYPE_MSG_TO_USER)
    else Ok (VNone, VNone).

(** [tmessage.message_content]. *)
Definition message_content (self : tmessage) : result pystr :=
  let msg := getattr_or_None (tmessage_blob self) "message" in
  if truthy msg then
    string <~ getattr msg "string" ;;
    escape_csv_string string
  else Ok [].

(** [tmessage.message_date_from_blob]. *)
Definition message_date_from_blob (self : tmessage) : value :=
  let date := getattr_or_None (tmessage_blob self) "date" in
  if truthy date then getattr_or_None date "epoch" else VNone.

(** [tmessage.dialog_and_sequence]. *)
Definition dialog_and_sequence (self : tmessage) : result (Z * Z) :=
  if 32 <? bit_length (tmessage_mid self) then
    let dialog := Z.land (Z.shiftr (tmessage_mid self) 32) 0xFFFFFFFF in
    let msg_seq := Z.land (tmessage_mid self) 0xFFFFFFFF in
    if negb (tmessage_uid self <? 0) then Raise AssertionError
    else if negb (dialog =? -1 * tmessage_uid self) then Raise AssertionError
    else Ok (dialog, msg_seq)
  else
    if tmessage_uid self =? 0 then Raise AssertionError
    else
      let dialog :=
        if 32 <? bit_length (tmessage_uid self) then Z.land (Z.shiftr (tmessage_uid self) 32) 0xFFFFFFFF
        else if tmessage_uid self <? 0 then -1 * tmessage_uid self
        else tmessage_uid self in
      let msg_seq :=
        if 0 <? tmessage_mid self then tmessage_mid self
        else (tmessage_mid self * -1) - 210000 in
      Ok (dialog, msg_seq).

(** A [tuser]: the attributes [__init__] sets. *)
Record tuser : Type := mk_tuser
  { tuser_uid : Z; tuser_name : value; tuser_status : Z; tuser_blob : value }.

(** The properties [first_name], [last_name], [username] and [phone]
    of a [tuser] differ in the flag and in the field only. *)
Definition flagged_string (flag field : string) (self : tuser) : result value :=
  flags <~ getattr (tuser_blob self) "flags" ;;
  has <~ getattr flags flag ;;
  if truthy has then
    f <~ getattr (tuser_blob self) field ;;
    getattr f "string"
  else Ok (VStr []).

Definition first_name : tuser -> result value := flagged_string "has_first_name" "first_name".
Definition last_name : tuser -> result value := flagged_string "has_last_name" "last_name".
Definition username : tuser -> result value := flagged_string "has_username" "username".
Definition phone : tuser -> result value := flagged_string "has_phone" "phone".

(** [tuser.dict_id]: the dictionary in insertion order. *)
Definition dict_id (self : tuser) : result (list (string * value)) :=
  let dictid := [] in
  u <~ username self ;;
  dictid <~ (if truthy u then u <~ username self ;; Ok (dict_set "username" u dictid)
             else Ok dictid) ;;
  f <~ first_name self ;;
  dictid <~ (if truthy f then f <~ first_name self ;; Ok (dict_set "firstname" f dictid)
             else Ok dictid) ;;
  l <~ last_name self ;;
  dictid <~ (if truthy l then l <~ last_name self ;; Ok (dict_set "lastname" l dictid)
             else Ok dictid) ;;
  p <~ phone self ;;
  (if truthy p then p <~ phone self ;; Ok (dict_set "phone" p dictid)
   else Ok dictid).

(** [tuser.is_self]. *)
Definition is_self (self : tuser) : value :=
  let flags := getattr_or_None (tuser_blob self) "flags" in
  if truthy flags then
    let user_self := getattr_or_None flags "is_self" in
    if truthy user_self then user_self else VBool false
  else VBool false.

(** A [tchat]: the attributes [__init__] sets. *)
Record tchat : Type := mk_tchat
  { tchat_uid : Z; tchat_name : value; tchat_blob : value }.

(** [tchat.chat_type]. *)
Definition chat_type (self : tchat) : result pystr :=
  let ct := [] in
  let flags := getattr_or_None (tchat_blob self) "flags" in
  if truthy flags then
    let left := getattr_or_None flags "left" in
    let has_username := getattr_or_None flags "has_username" in
    let broadcast := getattr_or_None flags "broadcast" in
    let megagroup := getattr_or_None flags "megagroup" in
    ct <~ (if truthy broadcast then
             if truthy megagroup then Raise AssertionError else Ok (str "1-N")
           else if truthy megagroup then
             if truthy broadcast then Raise AssertionError else Ok (str "N-N")
           else Ok (str "?-?")) ;;
    let ct := if truthy has_username then ct ++ str " pub" else ct ++ str " prv" in
    let ct := if truthy left then ct ++ str " left" else ct in
    Ok ct
  else Ok ct.

(** ** The [users] table *)

Section Tables.

(** [int(x)] for a [str] or a [bytes] argument [x] is left open. *)
Variable int_of_text : value -> result Z.

(** [int(x)]. *)
Definition py_int (x : value) : result Z :=
  match x with
  | VInt z => Ok z
  | VBool b => Ok (if b then 1 else 0)
  | VStr _ | VBytes _ => int_of_text x
  | _ => Raise TypeError
  end.

(** [tuser.__init__]: the attributes, then the defensive check. *)
Definition tuser__init__ (uid : Z) (name : value) (status : Z) (blob : value)
  : result tuser :=
  id <~ getattr blob "id" ;;
  id <~ py_int id ;;
  if uid =? id then Ok (mk_tuser uid name status blob) else Raise AssertionError.

(** A row of the table [users]: integer [uid] and [status], the [name]
    and the blob [data]. *)
Record users_row : Type := mk_users_row
  { row_uid : Z; row_name : value; row_status : Z; row_data : list byte }.

(** One round of the loop of [tdb.__parse_table_users] on the state
    [(self._table_users, user_self_set)]: the new state, or what is
    raised, and the records logged. *)
Definition users_entry (blob_parser : tblob) (st : gmap Z tuser * bool)
    (entry : users_row)
  : result (gmap Z tuser * bool) * list log_record :=
  let '(table_users, user_self_set) := st in
  let uid := row_uid entry in
  if uid =? 0 then (Raise AssertionError, [])
  else if bool_decide (is_Some (table_users !! uid)) then (Raise AssertionError, [])
  else
    let info := mkLog INFO "parsing users, entry uid: %s" [VInt uid] in
    match parse_blob blob_parser (row_data entry) with
    | (Raise e, l) => (Raise e, info :: l)
    | (Ok blob, l) =>
        match tuser__init__ uid (row_name entry) (row_status entry) blob with
        | Raise e => (Raise e, info :: l)
        | Ok user =>
            if truthy (is_self user) then
              if user_self_set then (Raise AssertionError, info :: l)
              else (Ok (<[uid := user]> table_users, true), info :: l)
            else (Ok (<[uid := user]> table_users, user_self_set), info :: l)
        end
    end.

(** The loop: it stops at the first round that raises and leaves the
    table as that round found it. *)
Fixpoint users_entries (blob_parser : tblob) (st : gmap Z tuser * bool)
    (entries : list users_row)
  : result unit * (gmap Z tuser * bool) * list log_record :=
  match entries with
  | [] => (Ok tt, st, [])
  | entry :: rest =>
      match users_entry blob_parser st entry with
      | (Raise e, l) => (Raise e, st, l)
      | (Ok st', l) =>
          let '(r, st'', l') := users_entries blob_parser st' rest in
          (r, st'', l ++ l')
      end
  end.

(** [tdb.__parse_table_users] on the rows [entries] that the query
    returned: what it returns or raises, [self._table_users] afterwards
    and the records logged. *)
Definition __parse_table_users (blob_parser : tblob) (table_users : gmap Z tuser)
    (entries : list users_row)
  : result unit * gmap Z tuser * list log_record :=
  let user_self_set := false in
  let '(r, (table_users, user_self_set), l) :=
    users_entries blob_parser (table_users, user_self_set) entries in
  match r with
  | Raise e => (Raise e, table_users, l)
  | Ok _ =>
      if user_self_set then (Ok tt, table_users, l)
      else (Raise AssertionError, table_users, l)
  end.

End Tables.

(** * [logger.py] and [utils/build_callbacks.py] *)

(** The numbers of the levels in [logging]. *)
Definition levelno (l : level) : Z :=
  match l with
  | DEBUG => 10
  | INFO => 20
  | WARNING => 30
  | ERROR => 40
  end.

(** The level [configure_logging(verbosity)] sets on the logger and on
    its handler; [verbosity] is the count of [-v] options, [None]
    without one. *)
Definition configure_logging (verbosity : option Z) : level :=
  let log_level := DEBUG in
  match verbosity with
  | None => ERROR
  | Some v =>
      if v =? 0 then ERROR
      else if v =? 1 then WARNING
      else if v =? 2 then INFO
      else if 3 <=? v then DEBUG
      else log_level
  end.

(** [build_callbacks.py]: the registry key the generator writes for the
    Java constant [value]. *)
Definition value_hex (value : Z) : Z :=
  (value + Z.shiftl 1 32) mod (Z.shiftl 1 32).

(** * Vocabulary of the further statements *)

(** A string that starts with none of [chars]. *)
Definition starts_clean (chars : list N) (s : pystr) : Prop :=
  match s with
  | [] => True
  | c :: _ => existsb (N.eqb c) chars = false
  end.

(** What a [*_structures(name)] method returns when it reads nothing:
    the peeked tag and [None] under [name]. *)
Definition skipped (name : string) (sig : value) (data : list byte) (pos : nat)
  : result value * BytesIO * list log_record :=
  (Ok (VContainer (dict_set name VNone [("_io", VStream); ("_signature", sig)])),
   mkIO data pos, []).

(** The record of a structure made of a tag and one 4-byte number. *)
Definition id_record (sname field : string) (sig id : Z) : value :=
  VContainer [ ("_io", VStream); ("sname", VStr (str sname));
               ("signature", VInt sig); (field, VInt id) ].

(** The three peers: tag, name and the field of the id. *)
Definition peer_tags : list (Z * string * string) :=
  [ (0xbddde532, "peer_channel", "channel_id");
    (0xbad0e5bb, "peer_chat", "chat_id");
    (0x9db1bc6d, "peer_user", "user_id") ].

(** The decoder method of an entry of the registry. *)
Definition blob_tuple_parser (t : blob_tuple) : option string :=
  match t with
  | Tuple3 p _ _ => p
  | Tuple2 p _ => p
  end.

(** The [tuser] that [__parse_table_users] makes of a row whose blob
    [parse_blob] decodes, and whether it is the owner of the account. *)
Definition row_user (blob_parser : tblob) (entry : users_row) : option tuser :=
  match parse_blob blob_parser (row_data entry) with
  | (Ok blob, _) =>
      Some (mk_tuser (row_uid entry) (row_name entry) (row_status entry) blob)
  | (Raise _, _) => None
  end.

Definition row_is_self (blob_parser : tblob) (entry : users_row) : bool :=
  match row_user blob_parser entry with
  | Some user => truthy (is_self user)
  | None => false
  end.

(** No string occurs twice in the list. *)
Fixpoint nodupb (l : list string) : bool :=
  match l with
  | [] => true
  | x :: l' => negb (existsb (String.eqb x) l') && nodupb l'
  end.
(** ** Vocabulary of the statements *)

(** [bytes([z1, z2, ...])]. *)
Definition bytes_of (l : list Z) : list byte :=
  map (fun z => default x00 (Byte.of_N (Z.to_N z))) l.

(** The first byte of a length-prefixed value and the 4-byte
    little-endian word it starts. *)
Definition first_byte (data : list byte) (pos : nat) : option Z :=
  option_map (fun b => Z.of_N (Byte.to_N b)) (nth_error data pos).

Definition word_at (data : list byte) (pos : nat) : Z :=
  int_from_bytes_little (firstn 4 (skipn pos data)).

(** Payload length and total size of a length-prefixed value, as the
    specification words them: first byte [c] below 254 is the length
    itself, otherwise the length is the word shifted right by 8. *)
Definition prefixed_length (data : list byte) (pos : nat) (c : Z) : Z :=
  if c <? 254 then c else Z.shiftr (word_at data pos) 8.

Definition prefixed_size (c L : Z) : Z :=
  if c <? 254 then 1 + L + (4 - (1 + L) mod 4) mod 4
  else 4 + L + (4 - L mod 4) mod 4.

Definition payload_at (data : list byte) (pos : nat) (c L : Z) : list byte :=
  firstn (Z.to_nat L) (skipn (pos + (if c <? 254 then 1 else 4)) data).

(** What [decode_tstring] makes of a payload. *)
Definition decoded_text (payload : list byte) : value :=
  match utf8_decode payload with
  | Some s => VStr s
  | None => VBytes payload
  end.

Definition decode_log (payload : list byte) : list log_record :=
  match utf8_decode payload with
  | Some _ => []
  | None => [mkLog ERROR "unable to decode string: %s" [VBytes payload]]
  end.

(** The [Container]s [tstring_struct] and [tbytes_struct] return for a
    value that starts at [pos] with first byte [c]. *)
Definition tstring_record (data : list byte) (pos : nat) (c : Z) : value :=
  let L := prefixed_length data pos c in
  VContainer
    [ ("_io", VStream); ("_sname", VStr (str "tstring"));
      ("_check", VInt c);
      ("_pl", VInt (if c <? 254 then c else word_at data pos));
      ("_len", VInt L);
      ("_value", VBytes (payload_at data pos c L));
      ("string", decoded_text (payload_at data pos c L)) ].

Definition tbytes_record (data : list byte) (pos : nat) (c : Z) : value :=
  let L := prefixed_length data pos c in
  VContainer
    [ ("_io", VStream); ("_sname", VStr (str "tbytes"));
      ("_check", VInt c);
      ("_pl", VInt (if c <? 254 then c else word_at data pos));
      ("len", VInt L);
      ("bytes", VBytes (payload_at data pos c L)) ].

(** A decoder [sc] of length-prefixed values: whenever the buffer holds
    the whole value, [sc] returns [record] and stops right after the
    padding; and no successful run of [sc] stops anywhere else. *)
Definition decodes_prefixed (sc : Parser)
    (record : list byte -> nat -> Z -> value) : Prop :=
  forall (data : list byte) (pos : nat) (ctx : context) (c : Z),
    first_byte data pos = Some c ->
    let size := prefixed_size c (prefixed_length data pos c) in
    (Z.of_nat pos + size <= Z.of_nat (List.length data) ->
     exists l, sc ctx (mkIO data pos)
               = (Ok (record data pos c), mkIO data (pos + Z.to_nat size), l))
    /\ (forall v s' l,
          sc ctx (mkIO data pos) = (Ok v, s', l) ->
          v = record data pos c
          /\ Z.of_nat (tell s') = Z.of_nat pos + size).

(** The boolean a signature word stands for. *)
Definition tbool_value (word : Z) : string :=
  if word =? 0x997275b5 then "true"
  else if word =? 0xbc799737 then "false"
  else "ERROR".

Definition tbool_record (word : Z) : value :=
  VContainer
    [ ("_io", VStream); ("sname", VStr (str "boolean"));
      ("_signature", VInt word);
      ("value", VStr (str (tbool_value word))) ].

(** The optional fields of [user_struct] in declaration order: the
    field, the flag that gates it, the flag's bit, the field's subcon. *)
Definition user_struct_optional : list (string * string * Z * Parser) :=
  [ ("access_hash", "has_access_hash", 1, Int64ul);
    ("first_name", "has_first_name", 2, tstring_struct);
    ("last_name", "has_last_name", 4, tstring_struct);
    ("username", "has_username", 8, tstring_struct);
    ("phone", "has_phone", 16, tstring_struct);
    ("photo", "has_profile_photo", 32, user_profile_photo_structures "photo");
    ("status", "has_status", 64, user_status_structures "status");
    ("bot_info_version", "is_bot", 16384, Int32ul);
    ("restrictions", "is_restricted", 262144, user_struct_restrictions) ].

(** Flag-gated decoding as the specification words it: go through the
    optional fields in order; read a field from the stream, where the
    previous one stopped, if and only if its bit is set in the flags
    word; otherwise the field is [None] and the stream stays put. *)
Fixpoint decode_gated (flags : Z) (fields : list (string * string * Z * Parser))
    (obj : container) : M container :=
  match fields with
  | [] => ret obj
  | (name, _, mask, sc) :: rest =>
      v <- (if Z.land flags mask =? mask then sc obj else ret VNone) ;;
      decode_gated flags rest (dict_set name v obj)
  end.

(** The subcon never returns [None]. *)
Definition never_None (sc : Parser) : Prop :=
  forall ctx s v s' l, sc ctx s = (Ok v, s', l) -> v <> VNone.

(** The fixed fields [user_struct] has read when it reaches the optional
    ones, 12 bytes after its start. *)
Definition user_struct_fixed (data : list byte) (pos : nat) : container :=
  [ ("_io", VStream); ("sname", VStr (str "user_struct"));
    ("signature", VInt 0x938458c1);
    ("flags", FlagsEnum_decode (word_at data (pos + 4)) user_struct_flags);
    ("id", VInt (word_at data (pos + 8))) ].

(** Closed instances of the statements need values for what the section
    leaves open: the tag maps of the message structures, the ill-formed
    [IfThenElse] and the decoders that are not embedded.  These samples
    are used for that only; the theorems hold for every value.  The tag
    map is the [message_action_empty] entry of [message_action_structures];
    the ill-formed [IfThenElse] is taken as built, and raising when it
    is run. *)
Definition sample_tag_map : list (Z * Parser) :=
  [ (0xb6aef7b0, LazyBound (fun _ => message_action_empty_struct)) ].

Definition sample_adjusted : exn + Parser := inr (fun _ => raise AttributeError).

Definition sample_other_struct (blob_parser : string) : Parser :=
  fun _ => raise AttributeError.

(** * Properties *)

Set Default Proof Using "Type".

(** Propositional reasoning that leaves the section's variables alone. *)
Ltac prop :=
  try clear other_struct; try clear from_id_adjusted_switch;
  try clear message_action_tag_map; try clear message_fwd_header_tag_map;
  try clear message_media_tag_map; try clear reply_markup_tag_map;
  try clear message_entity_tag_map;
  tauto.

Ltac not_in_names :=
  let H := fresh in
  cbn; intros H; repeat (destruct H as [H|H]; [discriminate H|]); exact H.

(** ** Dictionaries *)

Arguments stream_read : simpl never.

Lemma dict_get_set_eq {V : Type} (k : string) (v : V) (d : list (string * V)) :
  dict_get k (dict_set k v d) = Some v.
Proof.
  induction d as [|[k' v'] d IH]; cbn.
  - rewrite String.eqb_refl. reflexivity.
  - destruct (String.eqb k k') eqn:E; cbn.
    + rewrite String.eqb_refl. reflexivity.
    + rewrite E. exact IH.
Qed.

Lemma dict_get_set_ne {V : Type} (k k' : string) (v : V) (d : list (string * V)) :
  k <> k' -> dict_get k (dict_set k' v d) = dict_get k d.
Proof.
  intros Hne. apply String.eqb_neq in Hne.
  induction d as [|[k2 v2] d IH]; cbn.
  - rewrite Hne. reflexivity.
  - destruct (String.eqb k' k2) eqn:E; cbn.
    + apply String.eqb_eq in E. subst k2. rewrite Hne. reflexivity.
    + destruct (String.eqb k k2); [reflexivity | exact IH].
Qed.

(** ** Running parsers *)

Lemma emit_nil {A : Type} (x : result A * BytesIO * list log_record) :
  emit [] x = x.
Proof. destruct x as [[r s] l]. reflexivity. Qed.

Lemma stream_read_enough data pos n :
  (pos + n <= List.length data)%nat ->
  stream_read n (mkIO data pos)
  = (Ok (firstn n (skipn pos data)), mkIO data (pos + n), []).
Proof.
  intros H. unfold stream_read. cbn [tell getvalue].
  assert (E : List.length (firstn n (skipn pos data)) = n)
    by (rewrite length_firstn, length_skipn; lia).
  rewrite E, Nat.eqb_refl. reflexivity.
Qed.

Lemma stream_read_short data pos n :
  (List.length data - pos < n)%nat ->
  exists p', stream_read n (mkIO data pos) = (Raise StreamError, mkIO data p', []).
Proof.
  intros H. unfold stream_read. cbn [tell getvalue].
  assert (E : List.length (firstn n (skipn pos data)) <> n)
    by (rewrite length_firstn, length_skipn; lia).
  apply Nat.eqb_neq in E. rewrite E. eauto.
Qed.

Lemma bind_Ok {A B : Type} (m : M A) (k : A -> M B) s a s' :
  m s = (Ok a, s', []) -> bind m k s = k a s'.
Proof. intros H. unfold bind. rewrite H. apply emit_nil. Qed.

Lemma bind_Ok_emit {A B : Type} (m : M A) (k : A -> M B) s a s' l :
  m s = (Ok a, s', l) -> bind m k s = emit l (k a s').
Proof. intros H. unfold bind. rewrite H. reflexivity. Qed.

Lemma bind_Raise {A B : Type} (m : M A) (k : A -> M B) s e s' l :
  m s = (Raise e, s', l) -> bind m k s = (Raise e, s', l).
Proof. intros H. unfold bind. rewrite H. reflexivity. Qed.

Lemma parse_subcons_named n sc rest obj s v s' :
  sc obj s = (Ok v, s', []) ->
  parse_subcons ((Some n, sc) :: rest) obj s
  = parse_subcons rest (dict_set n v obj) s'.
Proof.
  intros H. cbn [parse_subcons]. unfold bind. rewrite H. apply emit_nil.
Qed.

Lemma parse_subcons_named_emit n sc rest obj s v s' l :
  sc obj s = (Ok v, s', l) ->
  parse_subcons ((Some n, sc) :: rest) obj s
  = emit l (parse_subcons rest (dict_set n v obj) s').
Proof. intros H. cbn [parse_subcons]. unfold bind. rewrite H. reflexivity. Qed.

Lemma parse_subcons_anon sc rest obj s v s' :
  sc obj s = (Ok v, s', []) ->
  parse_subcons ((None, sc) :: rest) obj s = parse_subcons rest obj s'.
Proof.
  intros H. cbn [parse_subcons]. unfold bind. rewrite H. apply emit_nil.
Qed.

Lemma parse_subcons_Raise name sc rest obj s e s' l :
  sc obj s = (Raise e, s', l) ->
  parse_subcons ((name, sc) :: rest) obj s = (Raise e, s', l).
Proof. intros H. cbn [parse_subcons]. unfold bind. rewrite H. reflexivity. Qed.

Lemma Struct_run subcons ctx s :
  Struct subcons ctx s
  = match parse_subcons subcons [("_io", VStream)] s with
    | (Ok obj, s', l) => (Ok (VContainer obj), s', l)
    | (Raise e, s', l) => (Raise e, s', l)
    end.
Proof.
  unfold Struct, bind. destruct (parse_subcons subcons [("_io", VStream)] s) as [[[obj|e] s'] l].
  - unfold emit, ret. cbn [fst snd]. rewrite app_nil_r. reflexivity.
  - reflexivity.
Qed.

Lemma FormatField_ul_enough n ctx data pos :
  (pos + n <= List.length data)%nat ->
  FormatField_ul n ctx (mkIO data pos)
  = (Ok (VInt (int_from_bytes_little (firstn n (skipn pos data)))),
     mkIO data (pos + n), []).
Proof.
  intros H. unfold FormatField_ul.
  erewrite bind_Ok by (apply stream_read_enough, H). reflexivity.
Qed.

Lemma FormatField_ul_short n ctx data pos :
  (List.length data - pos < n)%nat ->
  exists p', FormatField_ul n ctx (mkIO data pos) = (Raise StreamError, mkIO data p', []).
Proof.
  intros H. destruct (stream_read_short data pos n H) as [p' E].
  exists p'. unfold FormatField_ul. erewrite bind_Raise by exact E. reflexivity.
Qed.

Lemma byte_at data pos (b0 : byte) :
  nth_error data pos = Some b0 ->
  firstn 1 (skipn pos data) = [b0] /\ (pos + 1 <= List.length data)%nat.
Proof.
  revert pos. induction data as [|x xs IH]; intros [|p] H; cbn in *; try discriminate.
  - inversion H; subst. split; [reflexivity | lia].
  - destruct (IH p H) as [E L]. split; [exact E | lia].
Qed.

Lemma int_from_bytes_little_bounds bs :
  0 <= int_from_bytes_little bs < 256 ^ Z.of_nat (List.length bs).
Proof.
  induction bs as [|b bs IH].
  - cbn. lia.
  - cbn [int_from_bytes_little List.length].
    rewrite Nat2Z.inj_succ, Z.pow_succ_r by lia.
    pose proof (Byte.to_N_bounded b) as Hb.
    lia.
Qed.

Lemma first_byte_range data pos c :
  first_byte data pos = Some c -> 0 <= c < 256.
Proof.
  unfold first_byte. destruct (nth_error data pos) as [b|]; [|discriminate].
  cbn. intros [= <-]. pose proof (Byte.to_N_bounded b). lia.
Qed.

Lemma first_byte_fits data pos c :
  first_byte data pos = Some c -> (pos + 1 <= List.length data)%nat.
Proof.
  unfold first_byte. destruct (nth_error data pos) as [b|] eqn:H; [|discriminate].
  intros _. apply byte_at in H. apply H.
Qed.

Lemma Byte_at ctx data pos c :
  first_byte data pos = Some c ->
  Byte ctx (mkIO data pos) = (Ok (VInt c), mkIO data (pos + 1), []).
Proof.
  unfold first_byte. destruct (nth_error data pos) as [b|] eqn:H; [|discriminate].
  cbn [option_map]. intros [= <-].
  destruct (byte_at _ _ _ H) as [E L].
  unfold Byte. rewrite FormatField_ul_enough by exact L.
  rewrite E. cbn. rewrite Z.add_0_r. reflexivity.
Qed.

Lemma Peek_Byte_at ctx data pos c :
  first_byte data pos = Some c ->
  Peek Byte ctx (mkIO data pos) = (Ok (VInt c), mkIO data pos, []).
Proof.
  intros H. unfold Peek. rewrite (Byte_at ctx data pos c H). reflexivity.
Qed.

Lemma Peek_Byte_eof ctx data pos :
  first_byte data pos = None ->
  Peek Byte ctx (mkIO data pos) = (Ok VNone, mkIO data pos, []).
Proof.
  unfold first_byte. destruct (nth_error data pos) as [b|] eqn:H; [discriminate|].
  intros _. apply nth_error_None in H.
  destruct (FormatField_ul_short 1 ctx data pos) as [p' E]; [lia|].
  unfold Peek, Byte. rewrite E. reflexivity.
Qed.

Lemma Int32ul_at ctx data pos :
  (pos + 4 <= List.length data)%nat ->
  Int32ul ctx (mkIO data pos) = (Ok (VInt (word_at data pos)), mkIO data (pos + 4), []).
Proof. intros H. unfold Int32ul, word_at. apply FormatField_ul_enough, H. Qed.

Lemma Bytes_enough len ctx data pos L :
  (forall s, len ctx s = (Ok (VInt L), s, [])) ->
  0 <= L ->
  (pos + Z.to_nat L <= List.length data)%nat ->
  Bytes len ctx (mkIO data pos)
  = (Ok (VBytes (firstn (Z.to_nat L) (skipn pos data))), mkIO data (pos + Z.to_nat L), []).
Proof.
  intros Hlen HL H. unfold Bytes.
  erewrite bind_Ok by apply Hlen. cbn [as_int].
  destruct (L <? 0) eqn:E; [apply Z.ltb_lt in E; lia|].
  erewrite bind_Ok by (apply stream_read_enough, H). reflexivity.
Qed.

Lemma Bytes_short len ctx data pos L :
  (forall s, len ctx s = (Ok (VInt L), s, [])) ->
  0 <= L ->
  (List.length data - pos < Z.to_nat L)%nat ->
  exists p', Bytes len ctx (mkIO data pos) = (Raise StreamError, mkIO data p', []).
Proof.
  intros Hlen HL H. unfold Bytes.
  erewrite bind_Ok by apply Hlen. cbn [as_int].
  destruct (L <? 0) eqn:E; [apply Z.ltb_lt in E; lia|].
  destruct (stream_read_short data pos _ H) as [p' E'].
  exists p'. erewrite bind_Raise by exact E'. reflexivity.
Qed.

(** The alignment step [If(r, Padding(4 - r))] for a remainder [r]. *)
Lemma If_Padding_run cond len ctx data pos r :
  (forall s, cond ctx s = (Ok (VInt r), s, [])) ->
  (forall s, len ctx s = (Ok (VInt (4 - r)), s, [])) ->
  0 <= r < 4 ->
  let pad := Z.to_nat ((4 - r) mod 4) in
  ((pos + pad <= List.length data)%nat ->
   If cond (Padding len) ctx (mkIO data pos) = (Ok VNone, mkIO data (pos + pad), []))
  /\ ((List.length data - pos < pad)%nat ->
      exists p', If cond (Padding len) ctx (mkIO data pos)
                 = (Raise StreamError, mkIO data p', [])).
Proof.
  intros Hcond Hlen Hr pad. unfold If, IfThenElse.
  erewrite bind_Ok by apply Hcond. cbn [truthy].
  destruct (r =? 0) eqn:E0; cbn [negb].
  - apply Z.eqb_eq in E0. subst r. subst pad. cbn.
    rewrite Nat.add_0_r. split; [reflexivity | ].
    change (Z.to_nat ((4 - 0) mod 4)) with 0%nat. lia.
  - apply Z.eqb_neq in E0.
    assert (Hp : (4 - r) mod 4 = 4 - r) by (apply Z.mod_small; lia).
    subst pad. rewrite Hp.
    unfold Padding, Padded.
    erewrite bind_Ok by apply Hlen. cbn [as_int].
    destruct (4 - r <? 0) eqn:E1; [apply Z.ltb_lt in E1; lia|].
    unfold stream_tell, Pass.
    erewrite bind_Ok by reflexivity.
    erewrite bind_Ok by reflexivity.
    erewrite bind_Ok by reflexivity.
    cbn [tell].
    replace (4 - r - (Z.of_nat pos - Z.of_nat pos)) with (4 - r) by lia.
    rewrite E1.
    split; intros H.
    + erewrite bind_Ok by (apply stream_read_enough, H). reflexivity.
    + destruct (stream_read_short data pos (Z.to_nat (4 - r))) as [p' E']; [lia|].
      exists p'. erewrite bind_Raise by exact E'. reflexivity.
Qed.

Lemma decode_tstring_run payload s :
  decode_tstring payload s = (Ok (decoded_text payload), s, decode_log payload).
Proof.
  unfold decode_tstring, decoded_text, decode_log.
  destruct (utf8_decode payload); reflexivity.
Qed.

Tactic Notation "named" tactic3(t) :=
  erewrite parse_subcons_named by t; simpl (dict_set _ _ _).

Lemma this_field (k : string) (obj : context) (v : value) (s : BytesIO) :
  dict_get k obj = Some v -> this [k] obj s = (Ok v, s, []).
Proof. intros H. unfold this, lift. cbn. rewrite H. reflexivity. Qed.

(** The last, unnamed subcon of [tstring_struct] and [tbytes_struct]:
    pad on [len] in the long form, on [len + 1] in the short form. *)
Lemma align_run (len_name : string) obj data pos c L :
  dict_get "_check" obj = Some (VInt c) ->
  dict_get len_name obj = Some (VInt L) ->
  let pad := Z.to_nat (if c <? 254 then (4 - (1 + L) mod 4) mod 4
                       else (4 - L mod 4) mod 4) in
  let align :=
    IfThenElse (this ["_check"] >= int 254)%E
      (If (this [len_name] mod int 4)%E
          (Padding (int 4 - (this [len_name] mod int 4))%E))
      (If ((this [len_name] + int 1) mod int 4)%E
          (Padding (int 4 - ((this [len_name] + int 1) mod int 4))%E)) in
  ((pos + pad <= List.length data)%nat ->
   align obj (mkIO data pos) = (Ok VNone, mkIO data (pos + pad), []))
  /\ ((List.length data - pos < pad)%nat ->
      exists p', align obj (mkIO data pos) = (Raise StreamError, mkIO data p', [])).
Proof.
  intros Hcheck Hlen pad align.
  assert (Hc : forall s, (this ["_check"] >= int 254)%E obj s
                         = (Ok (VBool (254 <=? c)), s, [])).
  { intros s. unfold ge_, binop, int, lit.
    erewrite bind_Ok by (apply this_field, Hcheck).
    erewrite bind_Ok by reflexivity. reflexivity. }
  assert (Hmod : forall s, (this [len_name] mod int 4)%E obj s
                           = (Ok (VInt (L mod 4)), s, [])).
  { intros s. unfold mod_, binop, int, lit.
    erewrite bind_Ok by (apply this_field, Hlen).
    erewrite bind_Ok by reflexivity. reflexivity. }
  assert (Hmod1 : forall s, ((this [len_name] + int 1) mod int 4)%E obj s
                            = (Ok (VInt ((L + 1) mod 4)), s, [])).
  { intros s. unfold mod_, add_, binop, int, lit.
    erewrite bind_Ok.
    2:{ erewrite bind_Ok by (apply this_field, Hlen).
        erewrite bind_Ok by reflexivity. reflexivity. }
    erewrite bind_Ok by reflexivity. reflexivity. }
  assert (Hsub : forall s, (int 4 - (this [len_name] mod int 4))%E obj s
                           = (Ok (VInt (4 - L mod 4)), s, [])).
  { intros s. unfold sub_, binop at 1. unfold int at 1. unfold lit.
    erewrite bind_Ok by reflexivity.
    erewrite bind_Ok by apply Hmod. reflexivity. }
  assert (Hsub1 : forall s, (int 4 - ((this [len_name] + int 1) mod int 4))%E obj s
                            = (Ok (VInt (4 - (L + 1) mod 4)), s, [])).
  { intros s. unfold sub_, binop at 1. unfold int at 1. unfold lit.
    erewrite bind_Ok by reflexivity.
    erewrite bind_Ok by apply Hmod1. reflexivity. }
  assert (Halign : forall s,
             align obj s
             = if c <? 254
               then If ((this [len_name] + int 1) mod int 4)%E
                       (Padding (int 4 - ((this [len_name] + int 1) mod int 4))%E) obj s
               else If (this [len_name] mod int 4)%E
                       (Padding (int 4 - (this [len_name] mod int 4))%E) obj s).
  { intros s. subst align. unfold IfThenElse at 1.
    erewrite bind_Ok by apply Hc. cbn [truthy].
    destruct (c <? 254) eqn:Ec.
    - apply Z.ltb_lt in Ec.
      replace (254 <=? c) with false by (symmetry; apply Z.leb_gt; lia).
      reflexivity.
    - apply Z.ltb_ge in Ec.
      replace (254 <=? c) with true by (symmetry; apply Z.leb_le; lia).
      reflexivity. }
  subst pad. destruct (c <? 254).
  - replace (1 + L) with (L + 1) by lia.
    destruct (If_Padding_run _ _ obj data pos _ Hmod1 Hsub1) as [P1 P2].
    { apply Z.mod_pos_bound. lia. }
    split; intros H; rewrite Halign; auto.
  - destruct (If_Padding_run _ _ obj data pos _ Hmod Hsub) as [P1 P2].
    { apply Z.mod_pos_bound. lia. }
    split; intros H; rewrite Halign; auto.
Qed.

(** The subcons [_check], [_pl] and the length of both structures: the
    prefix is one byte, or four when the first byte is 254 or 255. *)
Lemma prefix_run (len_name : string) rest obj data pos c :
  first_byte data pos = Some c ->
  let L := prefixed_length data pos c in
  let hdr := if c <? 254 then 1%nat else 4%nat in
  let subcons :=
    ("_check" /: Peek Byte)
    :: ("_pl" /: IfThenElse (this ["_check"] >= int 254)%E Int32ul Byte)
    :: (len_name /: IfThenElse (this ["_check"] >= int 254)%E
                      (Computed (this ["_pl"] >> int 8)%E)
                      (Computed (this ["_pl"])))
    :: rest in
  ((pos + hdr <= List.length data)%nat ->
   parse_subcons subcons obj (mkIO data pos)
   = parse_subcons rest
       (dict_set len_name (VInt L)
          (dict_set "_pl" (VInt (if c <? 254 then c else word_at data pos))
             (dict_set "_check" (VInt c) obj)))
       (mkIO data (pos + hdr)))
  /\ ((List.length data < pos + hdr)%nat ->
      exists p', parse_subcons subcons obj (mkIO data pos)
                 = (Raise StreamError, mkIO data p', [])).
Proof.
  intros Hc L hdr subcons. subst subcons.
  erewrite parse_subcons_named by (apply Peek_Byte_at; exact Hc).
  set (obj1 := dict_set "_check" (VInt c) obj).
  assert (Hcheck : forall s, (this ["_check"] >= int 254)%E obj1 s
                             = (Ok (VBool (254 <=? c)), s, [])).
  { intros s. unfold ge_, binop, int, lit.
    erewrite bind_Ok.
    2:{ apply this_field. subst obj1. apply dict_get_set_eq. }
    erewrite bind_Ok by reflexivity. reflexivity. }
  assert (Hcheck2 : forall v s, (this ["_check"] >= int 254)%E (dict_set "_pl" v obj1) s
                             = (Ok (VBool (254 <=? c)), s, [])).
  { intros v s. unfold ge_, binop, int, lit.
    erewrite bind_Ok.
    2:{ apply this_field. rewrite dict_get_set_ne by discriminate.
        subst obj1. apply dict_get_set_eq. }
    erewrite bind_Ok by reflexivity. reflexivity. }
  subst L hdr. unfold prefixed_length.
  destruct (c <? 254) eqn:Ec.
  - apply Z.ltb_lt in Ec.
    assert (E254 : (254 <=? c) = false) by (apply Z.leb_gt; lia).
    erewrite parse_subcons_named.
    2:{ unfold IfThenElse. erewrite bind_Ok by apply Hcheck.
        cbn [truthy]. rewrite E254. apply Byte_at, Hc. }
    erewrite parse_subcons_named.
    2:{ unfold IfThenElse. erewrite bind_Ok by apply Hcheck2.
        cbn [truthy]. rewrite E254.
        unfold Computed. apply this_field, dict_get_set_eq. }
    split; [reflexivity|].
    intros H. apply first_byte_fits in Hc. lia.
  - apply Z.ltb_ge in Ec.
    assert (E254 : (254 <=? c) = true) by (apply Z.leb_le; lia).
    split; intros H.
    + erewrite parse_subcons_named.
      2:{ unfold IfThenElse. erewrite bind_Ok by apply Hcheck.
          cbn [truthy]. rewrite E254. apply Int32ul_at, H. }
      erewrite parse_subcons_named.
      2:{ unfold IfThenElse. erewrite bind_Ok by apply Hcheck2.
          cbn [truthy]. rewrite E254.
          unfold Computed, rshift_, binop, int, lit.
          erewrite bind_Ok by (apply this_field, dict_get_set_eq).
          erewrite bind_Ok by reflexivity. reflexivity. }
      reflexivity.
    + destruct (FormatField_ul_short 4 obj1 data pos) as [p' E]; [lia|].
      exists p'. apply parse_subcons_Raise.
      unfold IfThenElse. erewrite bind_Ok by apply Hcheck.
      cbn [truthy]. rewrite E254. exact E.
Qed.

Lemma prefixed_length_nonneg data pos c :
  0 <= c -> 0 <= prefixed_length data pos c.
Proof.
  intros Hc. unfold prefixed_length. destruct (c <? 254); [exact Hc|].
  apply Z.shiftr_nonneg. unfold word_at.
  apply int_from_bytes_little_bounds.
Qed.

Lemma prefixed_size_split c L :
  0 <= L ->
  Z.to_nat (prefixed_size c L)
  = ((if (c <? 254)%Z then 1 else 4) + Z.to_nat L
     + Z.to_nat (if c <? 254 then (4 - (1 + L) mod 4) mod 4
                 else (4 - L mod 4) mod 4)%Z)%nat.
Proof.
  intros HL. unfold prefixed_size. destruct (c <? 254).
  - pose proof (Z.mod_pos_bound (4 - (1 + L) mod 4) 4 ltac:(lia)). lia.
  - pose proof (Z.mod_pos_bound (4 - L mod 4) 4 ltac:(lia)). lia.
Qed.

Lemma prefixed_size_nonneg c L : 0 <= L -> 0 <= prefixed_size c L.
Proof.
  intros HL. unfold prefixed_size. destruct (c <? 254).
  - pose proof (Z.mod_pos_bound (4 - (1 + L) mod 4) 4 ltac:(lia)). lia.
  - pose proof (Z.mod_pos_bound (4 - L mod 4) 4 ltac:(lia)). lia.
Qed.

Lemma tstring_struct_run ctx data pos c :
  first_byte data pos = Some c ->
  let L := prefixed_length data pos c in
  let size := prefixed_size c L in
  let payload := payload_at data pos c L in
  (Z.of_nat pos + size <= Z.of_nat (List.length data) ->
   tstring_struct ctx (mkIO data pos)
   = (Ok (VContainer
            [ ("_io", VStream); ("_sname", VStr (str "tstring"));
              ("_check", VInt c);
              ("_pl", VInt (if c <? 254 then c else word_at data pos));
              ("_len", VInt L);
              ("_value", VBytes payload);
              ("string", decoded_text payload) ]),
      mkIO data (pos + Z.to_nat size), decode_log payload))
  /\ (Z.of_nat (List.length data) < Z.of_nat pos + size ->
      exists e s' l, tstring_struct ctx (mkIO data pos) = (Raise e, s', l)).
Proof.
  intros Hc L size payload.
  pose proof (first_byte_range _ _ _ Hc) as Hrange.
  assert (HL : 0 <= L) by (apply prefixed_length_nonneg; lia).
  pose proof (prefixed_size_split c L HL) as Hsplit. fold size in Hsplit.
  pose proof (prefixed_size_nonneg c L HL) as Hsize. fold size in Hsize.
  set (hdr := if c <? 254 then 1%nat else 4%nat) in *.
  set (pad := Z.to_nat (if c <? 254 then (4 - (1 + L) mod 4) mod 4
                        else (4 - L mod 4) mod 4)) in *.
  unfold tstring_struct. rewrite Struct_run.
  named reflexivity.
  match goal with
  | |- context [parse_subcons (_ :: _ :: _ :: ?rest) ?obj _] =>
      destruct (prefix_run "_len" rest obj data pos c Hc) as [P1 P2]
  end.
  fold L hdr in P1, P2. cbv zeta in P1, P2.
  destruct (le_lt_dec (pos + hdr) (List.length data)) as [Hh|Hh].
  2:{ split; [lia|]. intros _. destruct (P2 Hh) as [p' E].
      rewrite E. eauto. }
  rewrite (P1 Hh). simpl (dict_set _ _ _).
  destruct (le_lt_dec (pos + hdr + Z.to_nat L) (List.length data)) as [Hp|Hp].
  2:{ split; [lia|]. intros _.
      destruct (Bytes_short (this ["_len"])
                  [("_io", VStream); ("_sname", VStr (str "tstring")); ("_check", VInt c);
                   ("_pl", VInt (if c <? 254 then c else word_at data pos));
                   ("_len", VInt L)] data (pos + hdr) L) as [p' E];
        [reflexivity | exact HL | lia |].
      erewrite parse_subcons_Raise by exact E. eauto. }
  named (apply Bytes_enough with (L := L); [reflexivity | exact HL | exact Hp]).
  erewrite parse_subcons_named_emit.
  2:{ unfold Computed. erewrite bind_Ok by reflexivity. apply decode_tstring_run. }
  simpl (dict_set _ _ _).
  match goal with
  | |- context [parse_subcons [(None, _)] ?obj (mkIO _ ?p)] =>
      destruct (align_run "_len" obj data p c L) as [A1 A2];
        [reflexivity | reflexivity |]
  end.
  fold pad in A1, A2. cbv zeta in A1, A2.
  assert (Epay : payload = firstn (Z.to_nat L) (skipn (pos + hdr) data)) by reflexivity.
  rewrite <- Epay in *.
  destruct (le_lt_dec (pos + hdr + Z.to_nat L + pad) (List.length data)) as [Ha|Ha].
  - erewrite parse_subcons_anon by (apply A1; exact Ha).
    cbn [parse_subcons ret emit fst snd].
    split; [intros _ | lia].
    replace (pos + Z.to_nat size)%nat with (pos + hdr + Z.to_nat L + pad)%nat by lia.
    rewrite app_nil_r. reflexivity.
  - split; [lia|]. intros _.
    destruct A2 as [p' E]; [lia|].
    erewrite parse_subcons_Raise by exact E. cbn [emit fst snd]. eauto.
Qed.

Lemma tbytes_struct_run ctx data pos c :
  first_byte data pos = Some c ->
  let L := prefixed_length data pos c in
  let size := prefixed_size c L in
  let payload := payload_at data pos c L in
  (Z.of_nat pos + size <= Z.of_nat (List.length data) ->
   tbytes_struct ctx (mkIO data pos)
   = (Ok (VContainer
            [ ("_io", VStream); ("_sname", VStr (str "tbytes"));
              ("_check", VInt c);
              ("_pl", VInt (if c <? 254 then c else word_at data pos));
              ("len", VInt L);
              ("bytes", VBytes payload) ]),
      mkIO data (pos + Z.to_nat size), []))
  /\ (Z.of_nat (List.length data) < Z.of_nat pos + size ->
      exists e s' l, tbytes_struct ctx (mkIO data pos) = (Raise e, s', l)).
Proof.
  intros Hc L size payload.
  pose proof (first_byte_range _ _ _ Hc) as Hrange.
  assert (HL : 0 <= L) by (apply prefixed_length_nonneg; lia).
  pose proof (prefixed_size_split c L HL) as Hsplit. fold size in Hsplit.
  pose proof (prefixed_size_nonneg c L HL) as Hsize. fold size in Hsize.
  set (hdr := if c <? 254 then 1%nat else 4%nat) in *.
  set (pad := Z.to_nat (if c <? 254 then (4 - (1 + L) mod 4) mod 4
                        else (4 - L mod 4) mod 4)) in *.
  unfold tbytes_struct. rewrite Struct_run.
  named reflexivity.
  match goal with
  | |- context [parse_subcons (_ :: _ :: _ :: ?rest) ?obj _] =>
      destruct (prefix_run "len" rest obj data pos c Hc) as [P1 P2]
  end.
  fold L hdr in P1, P2. cbv zeta in P1, P2.
  destruct (le_lt_dec (pos + hdr) (List.length data)) as [Hh|Hh].
  2:{ split; [lia|]. intros _. destruct (P2 Hh) as [p' E].
      rewrite E. eauto. }
  rewrite (P1 Hh). simpl (dict_set _ _ _).
  destruct (le_lt_dec (pos + hdr + Z.to_nat L) (List.length data)) as [Hp|Hp].
  2:{ split; [lia|]. intros _.
      destruct (Bytes_short (this ["len"])
                  [("_io", VStream); ("_sname", VStr (str "tbytes")); ("_check", VInt c);
                   ("_pl", VInt (if c <? 254 then c else word_at data pos));
                   ("len", VInt L)] data (pos + hdr) L) as [p' E];
        [reflexivity | exact HL | lia |].
      unfold Hex. erewrite parse_subcons_Raise by exact E. eauto. }
  unfold Hex.
  named (apply Bytes_enough with (L := L); [reflexivity | exact HL | exact Hp]).
  match goal with
  | |- context [parse_subcons [(None, _)] ?obj (mkIO _ ?p)] =>
      destruct (align_run "len" obj data p c L) as [A1 A2];
        [reflexivity | reflexivity |]
  end.
  fold pad in A1, A2. cbv zeta in A1, A2.
  assert (Epay : payload = firstn (Z.to_nat L) (skipn (pos + hdr) data)) by reflexivity.
  rewrite <- Epay in *.
  destruct (le_lt_dec (pos + hdr + Z.to_nat L + pad) (List.length data)) as [Ha|Ha].
  - erewrite parse_subcons_anon by (apply A1; exact Ha).
    cbn [parse_subcons ret].
    split; [intros _ | lia].
    replace (pos + Z.to_nat size)%nat with (pos + hdr + Z.to_nat L + pad)%nat by lia.
    reflexivity.
  - split; [lia|]. intros _.
    destruct A2 as [p' E]; [lia|].
    erewrite parse_subcons_Raise by exact E. eauto.
Qed.


(** ** Length-prefixed strings and bytes *)

Lemma prefixed_ok_inv (sc : Parser) ctx data pos v0 s0 l0 :
  sc ctx (mkIO data pos) = (Ok v0, s0, l0) ->
  forall v s' l, sc ctx (mkIO data pos) = (Ok v, s', l) ->
  v = v0 /\ s' = s0.
Proof. intros E v s' l E'. rewrite E in E'. inversion E'. auto. Qed.

Lemma tstring_struct_decodes_prefixed : decodes_prefixed tstring_struct tstring_record.
Proof.
  intros data pos ctx c Hc size.
  destruct (tstring_struct_run ctx data pos c Hc) as [Hok Hshort].
  cbv zeta in Hok, Hshort. fold size in Hok, Hshort.
  split.
  - intros H. eexists. apply Hok, H.
  - intros v s' l E.
    destruct (Z_le_gt_dec (Z.of_nat pos + size) (Z.of_nat (List.length data))) as [H|H].
    + rewrite (Hok H) in E. inversion E; subst. split; [reflexivity|].
      cbn [tell]. pose proof (prefixed_length_nonneg data pos c) as HL.
      pose proof (first_byte_range _ _ _ Hc).
      pose proof (prefixed_size_nonneg c (prefixed_length data pos c)).
      fold size in H1. lia.
    + destruct Hshort as (e & s1 & l1 & E1); [lia|]. rewrite E1 in E. discriminate.
Qed.

Lemma tbytes_struct_decodes_prefixed : decodes_prefixed tbytes_struct tbytes_record.
Proof.
  intros data pos ctx c Hc size.
  destruct (tbytes_struct_run ctx data pos c Hc) as [Hok Hshort].
  cbv zeta in Hok, Hshort. fold size in Hok, Hshort.
  split.
  - intros H. eexists. apply Hok, H.
  - intros v s' l E.
    destruct (Z_le_gt_dec (Z.of_nat pos + size) (Z.of_nat (List.length data))) as [H|H].
    + rewrite (Hok H) in E. inversion E; subst. split; [reflexivity|].
      cbn [tell]. pose proof (prefixed_length_nonneg data pos c) as HL.
      pose proof (first_byte_range _ _ _ Hc).
      pose proof (prefixed_size_nonneg c (prefixed_length data pos c)).
      fold size in H1. lia.
    + destruct Hshort as (e & s1 & l1 & E1); [lia|]. rewrite E1 in E. discriminate.
Qed.

(** Where there is no byte to peek, neither decoder returns: the
    comparison [None >= 254] raises. *)
Lemma prefixed_eof ctx data pos :
  first_byte data pos = None ->
  tstring_struct ctx (mkIO data pos) = (Raise TypeError, mkIO data pos, [])
  /\ tbytes_struct ctx (mkIO data pos) = (Raise TypeError, mkIO data pos, []).
Proof.
  intros H. split.
  - unfold tstring_struct. rewrite Struct_run.
    named reflexivity.
    named (apply Peek_Byte_eof; exact H).
    erewrite parse_subcons_Raise; reflexivity.
  - unfold tbytes_struct. rewrite Struct_run.
    named reflexivity.
    named (apply Peek_Byte_eof; exact H).
    erewrite parse_subcons_Raise; reflexivity.
Qed.

(** C1. A length-prefixed value whose first byte [c] is below 254 has
    payload length [L = c] and takes [1 + L + (4 - (1 + L) mod 4) mod 4]
    bytes; otherwise [L] is the four-byte little-endian word shifted
    right by 8 and the value takes [4 + L + (4 - L mod 4) mod 4] bytes.
    Both [tstring_struct] and [tbytes_struct] return that length and
    payload and consume exactly that many bytes whenever the buffer
    holds them, and never return having consumed anything else.  The
    buffer [05 'hello' 00 00] decodes to the string [hello] with 8 bytes
    consumed. *)
Theorem length_prefixed_consumption :
  decodes_prefixed tstring_struct tstring_record
  /\ decodes_prefixed tbytes_struct tbytes_record
  /\ parse tstring_struct (bytes_of [0x05; 0x68; 0x65; 0x6c; 0x6c; 0x6f; 0x00; 0x00])
     = (Ok (VContainer
              [ ("_io", VStream); ("_sname", VStr (str "tstring"));
                ("_check", VInt 5);
                ("_pl", VInt 5);
                ("_len", VInt 5);
                ("_value", VBytes (bytes_of [0x68; 0x65; 0x6c; 0x6c; 0x6f]));
                ("string", VStr (str "hello")) ]),
        mkIO (bytes_of [0x05; 0x68; 0x65; 0x6c; 0x6c; 0x6f; 0x00; 0x00]) 8,
        []).
Proof.
  split; [exact tstring_struct_decodes_prefixed|].
  split; [exact tbytes_struct_decodes_prefixed|].
  vm_compute. reflexivity.
Qed.

(** ** UTF-8 *)

Example utf8_decode_two_bytes : utf8_decode (bytes_of [0xc3; 0xa9]) = Some [233%N].
Proof. reflexivity. Qed.

Example utf8_decode_three_bytes :
  utf8_decode (bytes_of [0xe2; 0x82; 0xac]) = Some [0x20ac%N].
Proof. reflexivity. Qed.

Example utf8_decode_four_bytes :
  utf8_decode (bytes_of [0xf0; 0x9f; 0x98; 0x80]) = Some [0x1f600%N].
Proof. reflexivity. Qed.

Example utf8_decode_rejects :
  utf8_decode (bytes_of [0xc3; 0x28]) = None
  /\ utf8_decode (bytes_of [0x80]) = None
  /\ utf8_decode (bytes_of [0xc0; 0x80]) = None
  /\ utf8_decode (bytes_of [0xe2; 0x82]) = None
  /\ utf8_decode (bytes_of [0xed; 0xa0; 0x80]) = None
  /\ utf8_decode (bytes_of [0xf4; 0x90; 0x80; 0x80]) = None
  /\ utf8_decode (bytes_of [0xff]) = None.
Proof. repeat split; reflexivity. Qed.

Lemma utf8_decode_ascii bs :
  Forall (fun b => (Byte.to_N b < 0x80)%N) bs ->
  utf8_decode bs = Some (map Byte.to_N bs).
Proof.
  induction 1 as [|b bs Hb _ IH]; [reflexivity|].
  cbn [utf8_decode map]. apply N.ltb_lt in Hb. rewrite Hb, IH. reflexivity.
Qed.

(** C6. [decode_tstring] returns the text of a valid UTF-8 payload; for
    an invalid one it logs an error and returns the raw bytes.  Either
    way [tstring_struct] returns its record, with that value as
    [string], and stops right after the padding, and a [Struct] that
    contains it goes on with its remaining subcons from there. *)
Theorem invalid_utf8_is_not_fatal :
  (forall (payload : list byte) (s : BytesIO),
      decode_tstring payload s
      = (Ok (match utf8_decode payload with
             | Some text => VStr text
             | None => VBytes payload
             end),
         s,
         match utf8_decode payload with
         | Some _ => []
         | None => [mkLog ERROR "unable to decode string: %s" [VBytes payload]]
         end))
  /\ (forall (data : list byte) (pos : nat) (ctx : context) (c : Z),
         first_byte data pos = Some c ->
         let L := prefixed_length data pos c in
         let size := prefixed_size c L in
         let payload := payload_at data pos c L in
         Z.of_nat pos + size <= Z.of_nat (List.length data) ->
         tstring_struct ctx (mkIO data pos)
         = (Ok (tstring_record data pos c), mkIO data (pos + Z.to_nat size),
            decode_log payload)
         /\ getitem "string" (tstring_record data pos c) = Ok (decoded_text payload)
         /\ forall (n : string) (rest : list subcon) (obj : container),
             parse_subcons ((n /: tstring_struct) :: rest) obj (mkIO data pos)
             = emit (decode_log payload)
                 (parse_subcons rest (dict_set n (tstring_record data pos c) obj)
                    (mkIO data (pos + Z.to_nat size))))
  /\ parse restriction_reason_struct
       (bytes_of [0xb4; 0xac; 0x72; 0xd0;  0x02; 0xc3; 0x28; 0x00;
                  0x01; 0x61; 0x00; 0x00;  0x01; 0x62; 0x00; 0x00])
     = (Ok (VContainer
              [ ("_io", VStream); ("sname", VStr (str "restriction_reason"));
                ("signature", VInt 0xd072acb4);
                ("platform",
                 VContainer
                   [ ("_io", VStream); ("_sname", VStr (str "tstring")); ("_check", VInt 2);
                     ("_pl", VInt 2); ("_len", VInt 2);
                     ("_value", VBytes (bytes_of [0xc3; 0x28]));
                     ("string", VBytes (bytes_of [0xc3; 0x28])) ]);
                ("reason",
                 VContainer
                   [ ("_io", VStream); ("_sname", VStr (str "tstring")); ("_check", VInt 1);
                     ("_pl", VInt 1); ("_len", VInt 1);
                     ("_value", VBytes (bytes_of [0x61]));
                     ("string", VStr (str "a")) ]);
                ("text",
                 VContainer
                   [ ("_io", VStream); ("_sname", VStr (str "tstring")); ("_check", VInt 1);
                     ("_pl", VInt 1); ("_len", VInt 1);
                     ("_value", VBytes (bytes_of [0x62]));
                     ("string", VStr (str "b")) ]) ]),
        mkIO (bytes_of [0xb4; 0xac; 0x72; 0xd0;  0x02; 0xc3; 0x28; 0x00;
                        0x01; 0x61; 0x00; 0x00;  0x01; 0x62; 0x00; 0x00]) 16,
        [mkLog ERROR "unable to decode string: %s" [VBytes (bytes_of [0xc3; 0x28])]]).
Proof.
  split; [|split].
  - intros payload s. unfold decode_tstring.
    destruct (utf8_decode payload); reflexivity.
  - intros data pos ctx c Hc L size payload Henough.
    destruct (tstring_struct_run ctx data pos c Hc) as [Hok _].
    specialize (Hok Henough).
    split; [exact Hok|]. split; [reflexivity|].
    intros n rest obj. apply parse_subcons_named_emit. exact Hok.
  - vm_compute. reflexivity.
Qed.

(** ** The boolean *)

(** C7. [tbool_struct] reads one 4-byte little-endian word; its value is
    [true] for 0x997275b5, [false] for 0xbc799737 and [ERROR] for any
    other word, and in each case it returns, so that a [Struct] which
    contains it goes on with its remaining subcons.  The four bytes of
    0x997275b5 decode to [true] and nothing is left. *)
Theorem tbool_struct_decodes :
  (forall (data : list byte) (pos : nat) (ctx : context),
      (pos + 4 <= List.length data)%nat ->
      tbool_struct ctx (mkIO data pos)
      = (Ok (tbool_record (word_at data pos)), mkIO data (pos + 4), [])
      /\ forall (n : string) (rest : list subcon) (obj : container),
          parse_subcons ((n /: tbool_struct) :: rest) obj (mkIO data pos)
          = parse_subcons rest (dict_set n (tbool_record (word_at data pos)) obj)
              (mkIO data (pos + 4)))
  /\ parse tbool_struct (bytes_of [0xb5; 0x75; 0x72; 0x99])
     = (Ok (VContainer
              [ ("_io", VStream); ("sname", VStr (str "boolean"));
                ("_signature", VInt 0x997275b5);
                ("value", VStr (str "true")) ]),
        mkIO (bytes_of [0xb5; 0x75; 0x72; 0x99]) 4, [])
  /\ List.length (bytes_of [0xb5; 0x75; 0x72; 0x99]) = 4%nat.
Proof.
  split; [|split; vm_compute; reflexivity].
  intros data pos ctx H.
  assert (E : tbool_struct ctx (mkIO data pos)
              = (Ok (tbool_record (word_at data pos)), mkIO data (pos + 4), [])).
  { unfold tbool_struct. rewrite Struct_run.
    named reflexivity.
    named (apply Int32ul_at; exact H).
    assert (Hcond : forall k s,
               (this ["_signature"] == int k)%E
                 [("_io", VStream); ("sname", VStr (str "boolean"));
                  ("_signature", VInt (word_at data pos))] s
               = (Ok (VBool (word_at data pos =? k)), s, []))
      by (intros; reflexivity).
    erewrite (parse_subcons_named _ _ _ _ _ (VStr (str (tbool_value (word_at data pos))))).
    2:{ unfold tbool_value. unfold IfThenElse at 1.
        erewrite bind_Ok by apply Hcond. cbn [truthy].
        destruct (word_at data pos =? 3162085175) eqn:Efalse.
        - apply Z.eqb_eq in Efalse. rewrite Efalse. reflexivity.
        - unfold IfThenElse.
          erewrite bind_Ok by apply Hcond. cbn [truthy].
          destruct (word_at data pos =? 2574415285) eqn:Etrue; reflexivity. }
    reflexivity. }
  split; [exact E|].
  intros n rest obj. apply parse_subcons_named. exact E.
Qed.


(** ** Flag-gated structures *)

Lemma bind_ext {A B : Type} (m : M A) (k1 k2 : A -> M B) s :
  (forall a s', k1 a s' = k2 a s') -> bind m k1 s = bind m k2 s.
Proof.
  intros H. unfold bind. destruct (m s) as [[[a|e] s'] l]; [|reflexivity].
  rewrite H. reflexivity.
Qed.

Lemma emit_Ok_inv {A : Type} l0 (x : result A * BytesIO * list log_record) a s l :
  emit l0 x = (Ok a, s, l) -> exists l1, x = (Ok a, s, l1) /\ l = l0 ++ l1.
Proof.
  destruct x as [[r s1] l1]. unfold emit. cbn [fst snd].
  intros [= -> -> <-]. eauto.
Qed.

Lemma bind_Ok_inv {A B : Type} (m : M A) (k : A -> M B) s b s' l :
  bind m k s = (Ok b, s', l) ->
  exists a s1 l1 l2, m s = (Ok a, s1, l1) /\ k a s1 = (Ok b, s', l2) /\ l = l1 ++ l2.
Proof.
  unfold bind. destruct (m s) as [[[a|e] s1] l1]; [|discriminate].
  intros H. apply emit_Ok_inv in H. destruct H as (l2 & H & ->).
  exists a, s1, l1, l2. auto.
Qed.

Lemma parse_subcons_cons_inv name sc rest obj s obj' s' l :
  parse_subcons ((name, sc) :: rest) obj s = (Ok obj', s', l) ->
  exists v s1 l1 l2,
    sc obj s = (Ok v, s1, l1)
    /\ parse_subcons rest (match name with Some n => dict_set n v obj | None => obj end) s1
       = (Ok obj', s', l2)
    /\ l = l1 ++ l2.
Proof.
  cbn [parse_subcons]. intros H. apply bind_Ok_inv in H.
  destruct H as (v & s1 & l1 & l2 & H1 & H2 & ->).
  exists v, s1, l1, l2. destruct name; auto.
Qed.

(** A [Struct] keeps what it stored under names that no later subcon
    uses. *)
Lemma parse_subcons_preserves rest :
  forall obj s obj' s' l k,
    parse_subcons rest obj s = (Ok obj', s', l) ->
    ~ In (Some k) (map fst rest) ->
    dict_get k obj' = dict_get k obj.
Proof.
  induction rest as [|[name sc] rest IH]; intros obj s obj' s' l k H Hk.
  - cbn in H. inversion H. reflexivity.
  - apply parse_subcons_cons_inv in H.
    destruct H as (v & s1 & l1 & l2 & _ & H2 & _).
    cbn [map fst In] in Hk.
    rewrite (IH _ _ _ _ _ k H2) by prop.
    destruct name as [n|]; [|reflexivity].
    apply dict_get_set_ne. intros ->. prop.
Qed.

Lemma Struct_returns_container subcons ctx s v s' l :
  Struct subcons ctx s = (Ok v, s', l) -> exists obj, v = VContainer obj.
Proof.
  rewrite Struct_run. destruct (parse_subcons subcons [("_io", VStream)] s) as [[[obj|e] s1] l1].
  - intros [= <- _ _]. eauto.
  - discriminate.
Qed.

Lemma FormatField_ul_returns_int n ctx s v s' l :
  FormatField_ul n ctx s = (Ok v, s', l) -> exists z, v = VInt z.
Proof.
  unfold FormatField_ul. intros H. apply bind_Ok_inv in H.
  destruct H as (bs & s1 & l1 & l2 & _ & H & _). inversion H. eauto.
Qed.

(** The four fixed subcons that open [user_struct] and the message
    structures: name, tag, flags word, id. *)
Lemma header_run (sname : string) (sig : Z) (flags : list (string * Z))
    (rest : list subcon) data pos :
  let subcons :=
    ("sname" /: Computed (text sname))
    :: ("signature" /: Hex (Const sig Int32ul))
    :: ("flags" /: FlagsEnum Int32ul flags)
    :: ("id" /: Int32ul)
    :: rest in
  (((pos + 12 <= List.length data)%nat /\ word_at data pos = sig) ->
   parse_subcons subcons [("_io", VStream)] (mkIO data pos)
   = parse_subcons rest
       [ ("_io", VStream); ("sname", VStr (str sname));
         ("signature", VInt sig);
         ("flags", FlagsEnum_decode (word_at data (pos + 4)) flags);
         ("id", VInt (word_at data (pos + 8))) ]
       (mkIO data (pos + 12)))
  /\ (~ ((pos + 12 <= List.length data)%nat /\ word_at data pos = sig) ->
      exists e s' l, parse_subcons subcons [("_io", VStream)] (mkIO data pos) = (Raise e, s', l)).
Proof.
  intros subcons. subst subcons.
  erewrite parse_subcons_named by reflexivity. simpl (dict_set _ _ _).
  destruct (le_lt_dec (pos + 4) (List.length data)) as [H4|H4].
  2:{ split; [lia|]. intros _.
      destruct (FormatField_ul_short 4 [("_io", VStream); ("sname", VStr (str sname))] data pos)
        as [p' E]; [lia|].
      erewrite parse_subcons_Raise; [eauto|].
      unfold Hex, Const. erewrite bind_Raise by exact E. reflexivity. }
  destruct (Z.eqb_spec (word_at data pos) sig) as [Hsig|Hsig].
  2:{ split; [prop|]. intros _.
      erewrite parse_subcons_Raise; [eauto|].
      unfold Hex, Const. erewrite bind_Ok by (apply Int32ul_at; exact H4).
      cbn [py_eq]. apply Z.eqb_neq in Hsig. rewrite Hsig. reflexivity. }
  erewrite parse_subcons_named.
  2:{ unfold Hex, Const. erewrite bind_Ok by (apply Int32ul_at; exact H4).
      cbn [py_eq]. rewrite Hsig, Z.eqb_refl. reflexivity. }
  cbn [dict_set String.eqb Ascii.eqb Bool.eqb].
  destruct (le_lt_dec (pos + 4 + 4) (List.length data)) as [H8|H8].
  2:{ split; [lia|]. intros _.
      destruct (FormatField_ul_short 4
                  [("_io", VStream); ("sname", VStr (str sname)); ("signature", VInt sig)]
                  data (pos + 4)) as [p' E]; [lia|].
      erewrite parse_subcons_Raise; [eauto|].
      unfold FlagsEnum. erewrite bind_Raise by exact E. reflexivity. }
  erewrite parse_subcons_named.
  2:{ unfold FlagsEnum. erewrite bind_Ok by (apply Int32ul_at; exact H8).
      reflexivity. }
  cbn [dict_set String.eqb Ascii.eqb Bool.eqb].
  destruct (le_lt_dec (pos + 4 + 4 + 4) (List.length data)) as [H12|H12].
  2:{ split; [lia|]. intros _.
      match goal with
      | |- context [parse_subcons (_ :: _) ?obj _] =>
          destruct (FormatField_ul_short 4 obj data (pos + 4 + 4)) as [p' E]; [lia|]
      end.
      erewrite parse_subcons_Raise; [eauto|]. exact E. }
  erewrite parse_subcons_named by (apply Int32ul_at; exact H12).
  cbn [dict_set String.eqb Ascii.eqb Bool.eqb].
  split; [|intros Hn; exfalso; apply Hn; split; [lia | exact Hsig]]. intros _.
  replace (pos + 4 + 4 + 4)%nat with (pos + 12)%nat by lia.
  replace (pos + 4 + 4)%nat with (pos + 8)%nat by lia.
  reflexivity.
Qed.

(** A subcon [If(this.flags.<flag>, sc)]. *)
Lemma If_flag_run (flag : string) (sc : Parser) obj fl (b : bool) s :
  dict_get "flags" obj = Some (VContainer fl) ->
  dict_get flag fl = Some (VBool b) ->
  If (this ["flags"; flag]) sc obj s = if b then sc obj s else (Ok VNone, s, []).
Proof.
  intros Hflags Hflag. unfold If, IfThenElse.
  erewrite bind_Ok.
  2:{ unfold this, lift. cbn [path_get getitem]. rewrite Hflags. cbn [getitem].
      rewrite Hflag. reflexivity. }
  cbn [truthy]. destruct b; reflexivity.
Qed.

(** The optional subcons of a flag-gated [Struct] do what the
    specification says of flag-gated decoding. *)
Lemma parse_subcons_gated (flags : Z) fl (table : list (string * string * Z * Parser)) :
  (forall name flag mask sc,
      In (name, flag, mask, sc) table ->
      dict_get flag fl = Some (VBool (Z.land flags mask =? mask)) /\ name <> "flags") ->
  forall obj s,
    dict_get "flags" obj = Some (VContainer fl) ->
    parse_subcons
      (map (fun '(name, flag, _, sc) => (Some name, If (this ["flags"; flag]) sc)) table)
      obj s
    = decode_gated flags table obj s.
Proof.
  induction table as [|[[[name flag] mask] sc] table IH]; intros Htable obj s Hobj.
  - reflexivity.
  - cbn [map parse_subcons decode_gated].
    destruct (Htable name flag mask sc (or_introl eq_refl)) as [Hflag Hname].
    unfold bind.
    rewrite (If_flag_run flag sc obj fl _ s Hobj Hflag).
    assert (Hk : forall v s1,
               parse_subcons
                 (map (fun '(name, flag, _, sc) =>
                         (Some name, If (this ["flags"; flag]) sc)) table)
                 (dict_set name v obj) s1
               = decode_gated flags table (dict_set name v obj) s1).
    { intros v s1. apply IH.
      - intros n f m c Hin. apply (Htable n f m c). right. exact Hin.
      - rewrite dict_get_set_ne by congruence. exact Hobj. }
    destruct (Z.land flags mask =? mask).
    + destruct (sc obj s) as [[[v|e] s1] l1]; [|reflexivity].
      rewrite Hk. reflexivity.
    + unfold ret. rewrite Hk. reflexivity.
Qed.

Lemma keys_dict_set_fresh {V : Type} (k : string) (v : V) (d : list (string * V)) :
  dict_get k d = None -> keys (dict_set k v d) = keys d ++ [k].
Proof.
  induction d as [|[k' v'] d IH]; cbn; [reflexivity|].
  destruct (String.eqb k k'); [discriminate|].
  intros H. cbn. f_equal. apply IH, H.
Qed.

Lemma decode_gated_spec (flags : Z) (table : list (string * string * Z * Parser)) :
  NoDup (map (fun e => fst (fst (fst e))) table) ->
  (forall name flag mask sc, In (name, flag, mask, sc) table -> never_None sc) ->
  forall obj s obj' s' l,
    (forall name flag mask sc, In (name, flag, mask, sc) table -> dict_get name obj = None) ->
    decode_gated flags table obj s = (Ok obj', s', l) ->
    keys obj' = keys obj ++ map (fun e => fst (fst (fst e))) table
    /\ (forall k v, dict_get k obj = Some v -> dict_get k obj' = Some v)
    /\ (forall name flag mask sc,
           In (name, flag, mask, sc) table ->
           exists x, dict_get name obj' = Some x
                     /\ (x = VNone <-> Z.land flags mask <> mask)).
Proof.
  induction table as [|[[[name flag] mask] sc] table IH];
    intros Hnodup Hnever obj s obj' s' l Hfresh H.
  - cbn in H. inversion H; subst. cbn. rewrite app_nil_r.
    split; [reflexivity|]. split; [auto|]. intros ? ? ? ? [].
  - cbn [decode_gated] in H. apply bind_Ok_inv in H.
    destruct H as (v & s1 & l1 & l2 & Hv & Hrest & ->).
    cbn [map fst] in Hnodup. apply NoDup_cons in Hnodup.
    destruct Hnodup as [Hnotin Hnodup].
    assert (Hname : dict_get name obj = None)
      by (apply (Hfresh name flag mask sc); left; reflexivity).
    destruct (IH Hnodup
                (fun n f m c Hin => Hnever n f m c (or_intror Hin))
                (dict_set name v obj) s1 obj' s' l2) as (Hkeys & Hkeep & Hopt).
    { intros n f m c Hin. rewrite dict_get_set_ne.
      - apply (Hfresh n f m c). right. exact Hin.
      - intros ->. apply Hnotin. apply list_elem_of_In.
        apply (in_map (fun e => fst (fst (fst e))) _ _ Hin). }
    { exact Hrest. }
    split; [|split].
    + rewrite Hkeys, keys_dict_set_fresh by exact Hname.
      cbn [map fst]. rewrite <- app_assoc. reflexivity.
    + intros k x Hk. apply Hkeep. rewrite dict_get_set_ne; [exact Hk|].
      intros ->. congruence.
    + intros n f m c [Hin|Hin].
      * inversion Hin; subst n f m c.
        exists v. split; [apply Hkeep, dict_get_set_eq|].
        destruct (Z.eqb_spec (Z.land flags mask) mask) as [E|E].
        -- split; [|prop]. intros ->.
           exfalso. exact (Hnever name flag mask sc (or_introl eq_refl) _ _ _ _ _ Hv eq_refl).
        -- inversion Hv; subst. prop.
      * apply (Hopt n f m c Hin).
Qed.

Lemma never_None_FormatField_ul n : never_None (FormatField_ul n).
Proof.
  intros ctx s v s' l H. apply FormatField_ul_returns_int in H.
  destruct H as [z ->]. discriminate.
Qed.

Lemma never_None_Struct subcons : never_None (Struct subcons).
Proof.
  intros ctx s v s' l H. apply Struct_returns_container in H.
  destruct H as [obj ->]. discriminate.
Qed.

Lemma user_struct_optional_never_None name flag mask sc :
  In (name, flag, mask, sc) user_struct_optional -> never_None sc.
Proof.
  unfold user_struct_optional. cbn [In].
  intros H.
  repeat (destruct H as [H|H];
          [inversion H; subst;
           first [apply never_None_FormatField_ul | apply never_None_Struct]|]).
  destruct H.
Qed.

Lemma user_struct_flags_lookup (z : Z) name flag mask sc :
  In (name, flag, mask, sc) user_struct_optional ->
  dict_get flag
    (fold_left
       (fun obj2 nv => dict_set (fst nv) (VBool (Z.land z (snd nv) =? snd nv)) obj2)
       user_struct_flags [("_flagsenum", VBool true)])
  = Some (VBool (Z.land z mask =? mask))
  /\ name <> "flags".
Proof.
  unfold user_struct_optional. cbn [In].
  intros H.
  repeat (destruct H as [H|H];
          [inversion H; subst; split; [reflexivity | discriminate]|]).
  destruct H.
Qed.

Lemma classic_header data pos :
  ((pos + 12 <= List.length data)%nat /\ word_at data pos = 0x938458c1)
  \/ ~ ((pos + 12 <= List.length data)%nat /\ word_at data pos = 0x938458c1).
Proof.
  destruct (le_lt_dec (pos + 12) (List.length data));
    destruct (Z.eq_dec (word_at data pos) 0x938458c1);
    [left; split; assumption | right; intros [_ ?]; contradiction
     | right; intros [? _]; lia | right; intros [? _]; lia].
Qed.

Lemma user_struct_run ctx data pos :
  ((pos + 12 <= List.length data)%nat /\ word_at data pos = 0x938458c1 ->
   user_struct ctx (mkIO data pos)
   = (obj <- decode_gated (word_at data (pos + 4)) user_struct_optional
               (user_struct_fixed data pos) ;;
      ret (VContainer obj)) (mkIO data (pos + 12)))
  /\ (~ ((pos + 12 <= List.length data)%nat /\ word_at data pos = 0x938458c1) ->
      exists e s' l, user_struct ctx (mkIO data pos) = (Raise e, s', l)).
Proof.
  unfold user_struct, Struct.
  match goal with
  | |- context [parse_subcons (_ :: _ :: _ :: _ :: ?rest) [("_io", VStream)]] =>
      destruct (header_run "user_struct" 0x938458c1 user_struct_flags rest data pos)
        as [Hok Hbad]
  end.
  split; intros H.
  - unfold bind at 1. rewrite (Hok H).
    change (parse_subcons _ _ (mkIO data (pos + 12)))
      with (parse_subcons
              (map (fun '(name, flag, _, sc) => (Some name, If (this ["flags"; flag]) sc))
                   user_struct_optional)
              (user_struct_fixed data pos) (mkIO data (pos + 12))).
    erewrite parse_subcons_gated.
    + reflexivity.
    + intros name flag mask sc Hin.
      exact (user_struct_flags_lookup (word_at data (pos + 4)) name flag mask sc Hin).
    + reflexivity.
  - destruct (Hbad H) as (e & s' & l & E).
    exists e, s', l. unfold bind. rewrite E. reflexivity.
Qed.


(** The same twelve bytes after the fixed fields, read under two flags
    words: with only [has_first_name] set the name starts right after
    the id; with [has_access_hash] set as well it starts eight bytes
    later. *)
Example user_struct_offsets :
  let tail := [0x02; 0x61; 0x62; 0x00;  0x02; 0x63; 0x64; 0x00;  0x02; 0x65; 0x66; 0x00] in
  let one := bytes_of ([0xc1; 0x58; 0x84; 0x93;  0x02; 0; 0; 0;  0x07; 0; 0; 0] ++ tail) in
  let two := bytes_of ([0xc1; 0x58; 0x84; 0x93;  0x03; 0; 0; 0;  0x07; 0; 0; 0] ++ tail) in
  (exists v l, parse user_struct one = (Ok v, mkIO one 16, l)
               /\ getitem "access_hash" v = Ok VNone
               /\ path_get ["first_name"; "string"] v = Ok (VStr (str "ab")))
  /\ (exists v l, parse user_struct two = (Ok v, mkIO two 24, l)
                  /\ getitem "access_hash" v = Ok (VInt 0x0064630200626102)
                  /\ path_get ["first_name"; "string"] v = Ok (VStr (str "ef"))).
Proof.
  split; eexists; eexists; (split; [vm_compute; reflexivity|]);
    split; vm_compute; reflexivity.
Qed.

(** ** The derived sender of the message structures *)

(** A message [Struct]: the four fixed subcons, [from_id], [to_id],
    [from_id_adjusted], then whatever follows. *)
Lemma message_from_id_adjusted_run (sname : string) (sig : Z)
    (flags : list (string * Z)) (adjusted : Parser) (rest : list subcon)
    (data : list byte) (v : value) (s : BytesIO) (l : list log_record) :
  (forall z,
      dict_get "has_from_id"
        (fold_left
           (fun obj2 nv => dict_set (fst nv) (VBool (Z.land z (snd nv) =? snd nv)) obj2)
           flags [("_flagsenum", VBool true)])
      = Some (VBool (Z.land z 256 =? 256))) ->
  ~ In (Some "from_id") (map fst rest) ->
  ~ In (Some "from_id_adjusted") (map fst rest) ->
  parse
    (Struct
       (("sname" /: Computed (text sname))
        :: ("signature" /: Hex (Const sig Int32ul))
        :: ("flags" /: FlagsEnum Int32ul flags)
        :: ("id" /: Int32ul)
        :: ("from_id" /: If (this ["flags"; "has_from_id"]) Int32ul)
        :: ("to_id" /: peer_structures "to_id")
        :: ("from_id_adjusted" /: If (this ["from_id"] == int 0)%E adjusted)
        :: rest))
    data
  = (Ok v, s, l) ->
  Z.land (word_at data 4) 256 <> 256 ->
  getitem "from_id" v = Ok VNone /\ getitem "from_id_adjusted" v = Ok VNone.
Proof.
  intros Hflag Hrest1 Hrest2 Hparse Hbit.
  unfold parse in Hparse. rewrite Struct_run in Hparse.
  match type of Hparse with
  | context [parse_subcons (_ :: _ :: _ :: _ :: ?tail) [("_io", VStream)] _] =>
      destruct (header_run sname sig flags tail data 0) as [Hok Hbad]
  end.
  destruct (le_lt_dec (0 + 12) (List.length data)) as [H12|H12];
    [destruct (Z.eq_dec (word_at data 0) sig) as [Hsig|Hsig]|].
  2:{ destruct Hbad as (e & s1 & l1 & E); [intros [_ ?]; contradiction|].
      rewrite E in Hparse. discriminate. }
  2:{ destruct Hbad as (e & s1 & l1 & E); [intros [? _]; lia|].
      rewrite E in Hparse. discriminate. }
  rewrite (Hok (conj H12 Hsig)) in Hparse. clear Hok Hbad.
  assert (Eb : (Z.land (word_at data 4) 256 =? 256) = false)
    by (apply Z.eqb_neq; exact Hbit).
  erewrite parse_subcons_named in Hparse.
  2:{ erewrite If_flag_run; [|reflexivity|apply Hflag].
      cbn [Nat.add]. rewrite Eb. reflexivity. }
  simpl (dict_set _ _ _) in Hparse.
  destruct (parse_subcons _ _ _) as [[[obj|e] s1] l1] eqn:Hsub; [|discriminate].
  inversion Hparse; subst v s l. clear Hparse.
  apply parse_subcons_cons_inv in Hsub.
  destruct Hsub as (to_id & s2 & l2 & l3 & _ & Hsub & _).
  apply parse_subcons_cons_inv in Hsub.
  destruct Hsub as (adj & s3 & l4 & l5 & Hadj & Hsub & _).
  assert (Hnone : adj = VNone).
  { unfold If, IfThenElse in Hadj.
    erewrite bind_Ok in Hadj.
    2:{ unfold eq_, binop, int, lit.
        erewrite bind_Ok.
        2:{ apply this_field. rewrite dict_get_set_ne by discriminate. reflexivity. }
        erewrite bind_Ok by reflexivity. reflexivity. }
    cbn [py_eq truthy] in Hadj. unfold Pass, ret in Hadj.
    inversion Hadj. reflexivity. }
  subst adj.
  cbn [getitem].
  rewrite (parse_subcons_preserves _ _ _ _ _ _ "from_id" Hsub Hrest1).
  rewrite (parse_subcons_preserves _ _ _ _ _ _ "from_id_adjusted" Hsub Hrest2).
  rewrite dict_get_set_eq.
  rewrite dict_get_set_ne by discriminate.
  rewrite dict_get_set_ne by discriminate.
  split; reflexivity.
Qed.


(** ** The registry and the dispatcher *)

Lemma fold_insert_fst {A : Type} (f : A -> Z * blob_tuple -> A)
    (l : list (Z * blob_tuple)) (m : gmap Z blob_tuple) (a : A) :
  fst (fold_left (fun acc kv => (<[fst kv := snd kv]> (fst acc), f (snd acc) kv)) l (m, a))
  = fold_left (fun cb kv => <[fst kv := snd kv]> cb) l m.
Proof.
  revert m a. induction l as [|kv l IH]; intros m a; [reflexivity|].
  cbn [fold_left fst snd]. apply IH.
Qed.

Lemma fold_insert_lookup (l : list (Z * blob_tuple)) (m : gmap Z blob_tuple) (k : Z) :
  fold_left (fun cb kv => <[fst kv := snd kv]> cb) l m !! k
  = fold_left (fun acc kv => if Z.eqb k (fst kv) then Some (snd kv) else acc) l (m !! k).
Proof.
  revert m. induction l as [|[k' t] l IH]; intros m; [reflexivity|].
  cbn [fold_left fst snd]. rewrite IH. f_equal.
  destruct (Z.eqb_spec k k') as [->|Hne].
  - apply lookup_insert_eq.
  - apply lookup_insert_ne. congruence.
Qed.

(** The instance's registry is the class-level table: a lookup finds
    what the dictionary display holds for the key. *)
Lemma callbacks_lookup (signature : Z) :
  _callbacks (fst __init__) !! signature = dict_display_get signature tdss_callbacks.
Proof.
  unfold __init__. cbn [fst _callbacks].
  rewrite (fold_insert_fst
             (fun lg kv => lg ++ [mkLog DEBUG "adding callback %s (%s)"
                                    [VStr (hex (fst kv));
                                     VStr (str (blob_tuple_name (snd kv)))]])).
  rewrite fold_insert_lookup. rewrite lookup_empty. reflexivity.
Qed.

Lemma callbacks_nonempty (self : tblob) (signature : Z) (t : blob_tuple) :
  _callbacks self !! signature = Some t ->
  bool_decide (_callbacks self = ∅) = false.
Proof.
  intros H. apply bool_decide_eq_false. intros E.
  rewrite E, lookup_empty in H. discriminate.
Qed.

Lemma init_callbacks_nonempty : bool_decide (_callbacks (fst __init__) = ∅) = false.
Proof.
  apply (callbacks_nonempty _ 0x1cb5c415 (Tuple3 None "_vector" VNone)).
  rewrite callbacks_lookup. vm_compute. reflexivity.
Qed.

(** No key is written twice in the table. *)
Lemma tdss_callbacks_keys_NoDup : NoDup (map fst tdss_callbacks).
Proof. apply (bool_decide_unpack _). vm_compute. exact I. Qed.

(** What [parse_blob] does by the kind of registry entry. *)
Lemma parse_blob_unknown (self : tblob) (data : list byte) :
  _callbacks self <> ∅ ->
  _callbacks self !! int_from_bytes_little (firstn 4 data) = None ->
  parse_blob self data
  = (Ok VNone,
     [mkLog ERROR "unknown signature %s"
        [VStr (hex (int_from_bytes_little (firstn 4 data)))]]).
Proof.
  intros Hne H. unfold parse_blob.
  rewrite (bool_decide_eq_false_2 _ Hne), H. reflexivity.
Qed.

Lemma parse_blob_unsupported (self : tblob) (data : list byte) name beautify :
  _callbacks self !! int_from_bytes_little (firstn 4 data)
  = Some (Tuple3 None name beautify) ->
  parse_blob self data
  = (Ok VNone,
     [mkLog WARNING "blob '%s' [%s] not supported"
        [VStr (str name); VStr (hex (int_from_bytes_little (firstn 4 data)))]]).
Proof.
  intros H. unfold parse_blob.
  rewrite (callbacks_nonempty _ _ _ H), H. reflexivity.
Qed.

Lemma parse_blob_pair (self : tblob) (data : list byte) blob_parser name :
  _callbacks self !! int_from_bytes_little (firstn 4 data)
  = Some (Tuple2 blob_parser name) ->
  parse_blob self data = (Raise ValueError, []).
Proof.
  intros H. unfold parse_blob.
  rewrite (callbacks_nonempty _ _ _ H), H. reflexivity.
Qed.

Lemma parse_blob_decoder (self : tblob) (data : list byte) f name beautify p :
  _callbacks self !! int_from_bytes_little (firstn 4 data)
  = Some (Tuple3 (Some f) name beautify) ->
  call_blob_parser f = Ok p ->
  parse_blob self data
  = match parse p data with
    | (Ok pblob, s, l) =>
        let '(r, l') := after_parse name (int_from_bytes_little (firstn 4 data))
                          data pblob (tell s) in
        (r, l ++ l')
    | (Raise e, s, l) => (Raise e, l)
    end.
Proof.
  intros H Hp. unfold parse_blob.
  rewrite (callbacks_nonempty _ _ _ H), H, Hp. reflexivity.
Qed.

(** C2. The registry entry of 0x6643b654 has no decoder and is written
    with two components, [(None, 'client_dh_inner_data_v_0_1_317')]:
    for a buffer with that tag [parse_blob] raises [ValueError] when it
    unpacks the entry into three names; it neither returns [None] nor
    logs the name and the tag.  (A tag that is not in the registry, such
    as 0xdeadbeef, and an entry [(None, name, None)] do give [None] and
    the logged report.) *)
Theorem parse_blob_pair_without_decoder_raises :
  dict_display_get 0x6643b654 tdss_callbacks
  = Some (Tuple2 None "client_dh_inner_data_v_0_1_317")
  /\ parse_blob (fst __init__) (bytes_of [0x54; 0xb6; 0x43; 0x66]) = (Raise ValueError, [])
  /\ parse_blob (fst __init__) (bytes_of [0xef; 0xbe; 0xad; 0xde])
     = (Ok VNone, [mkLog ERROR "unknown signature %s" [VStr (str "0xdeadbeef")]])
  /\ (forall (self : tblob) (data : list byte),
         _callbacks self <> ∅ ->
         _callbacks self !! int_from_bytes_little (firstn 4 data) = None ->
         parse_blob self data
         = (Ok VNone,
            [mkLog ERROR "unknown signature %s"
               [VStr (hex (int_from_bytes_little (firstn 4 data)))]]))
  /\ (forall (self : tblob) (data : list byte) (name : string) (beautify : value),
         _callbacks self !! int_from_bytes_little (firstn 4 data)
         = Some (Tuple3 None name beautify) ->
         parse_blob self data
         = (Ok VNone,
            [mkLog WARNING "blob '%s' [%s] not supported"
               [VStr (str name);
                VStr (hex (int_from_bytes_little (firstn 4 data)))]])).
Proof.
  split; [vm_compute; reflexivity|].
  split.
  { apply (parse_blob_pair _ _ None "client_dh_inner_data_v_0_1_317").
    rewrite callbacks_lookup. vm_compute. reflexivity. }
  split.
  { rewrite parse_blob_unknown.
    - vm_compute. reflexivity.
    - apply (bool_decide_eq_false_1 _). exact init_callbacks_nonempty.
    - rewrite callbacks_lookup. vm_compute. reflexivity. }
  split.
  - exact parse_blob_unknown.
  - exact parse_blob_unsupported.
Qed.

(** C5. The registry entry of 0x475cdbd5 is written with two
    components, [(chat_photo_layer115_struct, 'chat_photo_layer115')],
    as are 193 more entries: for every buffer with such a tag
    [parse_blob] raises [ValueError] instead of returning.  And a
    [user_empty] buffer
    that stops after its tag makes the decoder raise [StreamError],
    which [parse_blob] does not catch. *)
Theorem parse_blob_raises :
  dict_display_get 0x475cdbd5 tdss_callbacks
  = Some (Tuple2 (Some "chat_photo_layer115_struct") "chat_photo_layer115")
  /\ parse_blob (fst __init__) (bytes_of [0xd5; 0xdb; 0x5c; 0x47]) = (Raise ValueError, [])
  /\ (forall (data : list byte) (blob_parser : option string) (name : string),
         dict_display_get (int_from_bytes_little (firstn 4 data)) tdss_callbacks
         = Some (Tuple2 blob_parser name) ->
         parse_blob (fst __init__) data = (Raise ValueError, []))
  /\ List.length
       (List.filter (fun kv => match snd kv with Tuple2 _ _ => true | _ => false end)
               tdss_callbacks) = 194%nat
  /\ parse_blob (fst __init__) (bytes_of [0xba; 0x50; 0x02; 0x20]) = (Raise StreamError, []).
Proof.
  split; [vm_compute; reflexivity|].
  split.
  { apply (parse_blob_pair _ _ (Some "chat_photo_layer115_struct") "chat_photo_layer115").
    rewrite callbacks_lookup. vm_compute. reflexivity. }
  split.
  { intros data blob_parser name H.
    apply (parse_blob_pair _ _ blob_parser name).
    rewrite callbacks_lookup. exact H. }
  split; [vm_compute; reflexivity|].
  erewrite parse_blob_decoder.
  2:{ rewrite callbacks_lookup. vm_compute. reflexivity. }
  2:{ vm_compute. reflexivity. }
  vm_compute. reflexivity.
Qed.


(** C8 (as amended). The buffer made of the vector marker 0x1cb5c415,
    the count 2 and two [peer_user] encodings yields no record at the
    top-level entry point: the registry entry of the marker is
    [(None, '_vector', None)], so [parse_blob] logs that the blob is not
    supported and returns [None].  Each [peer_user] encoding, the tag
    0x9db1bc6d followed by a 4-byte user id, decodes on its own to a
    [peer_user] record whose [user_id] is the encoded value. *)
Theorem vector_of_peers_at_top_level :
  parse_blob (fst __init__)
    (bytes_of [0x15; 0xc4; 0xb5; 0x1c;  0x02; 0x00; 0x00; 0x00;
               0x6d; 0xbc; 0xb1; 0x9d;  0x05; 0x00; 0x00; 0x00;
               0x6d; 0xbc; 0xb1; 0x9d;  0x07; 0x00; 0x00; 0x00])
  = (Ok VNone,
     [mkLog WARNING "blob '%s' [%s] not supported"
        [VStr (str "_vector"); VStr (str "0x1cb5c415")]])
  /\ forall b0 b1 b2 b3 : byte,
      parse_blob (fst __init__) (bytes_of [0x6d; 0xbc; 0xb1; 0x9d] ++ [b0; b1; b2; b3])
      = (Ok (VContainer
               [ ("_io", VStream); ("sname", VStr (str "peer_user"));
                 ("signature", VInt 0x9db1bc6d);
                 ("user_id", VInt (int_from_bytes_little [b0; b1; b2; b3])) ]),
         []).
Proof.
  split.
  - erewrite parse_blob_unsupported.
    2:{ rewrite callbacks_lookup. vm_compute. reflexivity. }
    vm_compute. reflexivity.
  - intros b0 b1 b2 b3.
    rewrite (parse_blob_decoder _ _ "peer_user_struct" "peer_user" VNone peer_user_struct).
    2:{ rewrite callbacks_lookup. vm_compute. reflexivity. }
    2:{ reflexivity. }
    unfold parse, peer_user_struct. rewrite Struct_run.
    named reflexivity.
    named (unfold Hex, Const;
           erewrite bind_Ok by (apply Int32ul_at; cbn; lia);
           vm_compute; reflexivity).
    named (apply Int32ul_at; cbn; lia).
    cbn [parse_subcons ret].
    unfold word_at. cbn [skipn firstn bytes_of map app].
    reflexivity.
Qed.

(** C3. When the registry gives a decoder for the tag, the decoder
    returns a record (a [Struct]'s [Container], which holds the stream
    as [_io]) without an [UNPARSED] entry and the stream stops
    short of, or beyond, the end of the input, [parse_blob] logs the
    error "Not all data parsed" with the missed bytes and returns that
    record. *)
Theorem length_mismatch_returns_record :
  forall (self : tblob) (data : list byte) (f name : string) (beautify : value)
         (p : Parser) (obj : container) (s : BytesIO) (l : list log_record),
    _callbacks self !! int_from_bytes_little (firstn 4 data)
    = Some (Tuple3 (Some f) name beautify) ->
    call_blob_parser f = Ok p ->
    parse p data = (Ok (VContainer obj), s, l) ->
    dict_get "_io" obj = Some VStream ->
    dict_get "UNPARSED" obj = None ->
    tell s <> List.length data ->
    parse_blob self data
    = (Ok (VContainer obj),
       l ++ [mkLog ERROR
               "Not all data parsed for object: %s [0x%x], input: %d, parsed: %d, missed: %s"
               [VStr (str name); VInt (int_from_bytes_little (firstn 4 data));
                VInt (Z.of_nat (List.length data)); VInt (Z.of_nat (tell s));
                VBytes (skipn (tell s) data)]]).
Proof.
  intros self data f name beautify p obj s l Hentry Hcall Hparse Hio Hun Hlen.
  rewrite (parse_blob_decoder self data f name beautify p Hentry Hcall).
  rewrite Hparse. unfold after_parse, getattr_or_None. rewrite Hun, Hio.
  cbn [default truthy].
  assert (E : Nat.eqb (List.length data) (tell s) = false)
    by (apply Nat.eqb_neq; congruence).
  rewrite E. reflexivity.
Qed.


End Decoder.

(** * Instances *)

(** The dispatcher with the open parts of the section filled in by the
    samples. *)
Abbreviation sample_parse_blob :=
  (parse_blob sample_tag_map sample_tag_map sample_tag_map sample_tag_map
     sample_tag_map sample_adjusted sample_other_struct).

(** C8, as stated, fails: the vector buffer gives no record, hence no
    sequence of length 2. *)
Lemma vector_at_top_level_is_no_record :
  sample_parse_blob (fst __init__)
    (bytes_of [0x15; 0xc4; 0xb5; 0x1c;  0x02; 0x00; 0x00; 0x00;
               0x6d; 0xbc; 0xb1; 0x9d;  0x05; 0x00; 0x00; 0x00;
               0x6d; 0xbc; 0xb1; 0x9d;  0x07; 0x00; 0x00; 0x00])
  = (Ok VNone,
     [mkLog WARNING "blob '%s' [%s] not supported"
        [VStr (str "_vector"); VStr (str "0x1cb5c415")]]).
Proof. vm_compute. reflexivity. Qed.

Lemma length_mismatch_returns_record_witness :
  let data := bytes_of [0xba; 0x50; 0x02; 0x20;  0x01; 0x00; 0x00; 0x00;  0xff] in
  sample_parse_blob (fst __init__) data
  = (Ok (VContainer
           [ ("_io", VStream); ("sname", VStr (str "user_empty"));
             ("signature", VInt 0x200250ba);
             ("id", VInt 1) ]),
     [mkLog ERROR
        "Not all data parsed for object: %s [0x%x], input: %d, parsed: %d, missed: %s"
        [VStr (str "user_empty"); VInt 0x200250ba; VInt 9; VInt 8;
         VBytes (bytes_of [0xff])]]).
Proof.
  intros data.
  apply (length_mismatch_returns_record
           sample_tag_map sample_tag_map sample_tag_map sample_tag_map
           sample_tag_map sample_adjusted sample_other_struct
           (fst __init__) data "user_empty_struct" "user_empty" VNone
           user_empty_struct
           [ ("_io", VStream); ("sname", VStr (str "user_empty"));
             ("signature", VInt 0x200250ba);
             ("id", VInt 1) ]
           (mkIO data 8) []).
  - rewrite callbacks_lookup. vm_compute. reflexivity.
  - reflexivity.
  - vm_compute. reflexivity.
  - reflexivity.
  - reflexivity.
  - vm_compute. intros H. discriminate H.
Defined.


Lemma length_prefixed_consumption_witness :
  let data := bytes_of [0x05; 0x68; 0x65; 0x6c; 0x6c; 0x6f; 0x00; 0x00] in
  first_byte data 0 = Some 5
  /\ exists l, tstring_struct [] (mkIO data 0)
               = (Ok (tstring_record data 0 5),
                  mkIO data (0 + Z.to_nat (prefixed_size 5 (prefixed_length data 0 5))), l).
Proof.
  intros data. split; [reflexivity|].
  apply (proj1 (proj1 length_prefixed_consumption data 0%nat [] 5 eq_refl)).
  vm_compute. intros H. discriminate H.
Defined.

Lemma invalid_utf8_is_not_fatal_witness :
  let data := bytes_of [0x02; 0xc3; 0x28; 0x00] in
  first_byte data 0 = Some 2
  /\ tstring_struct [] (mkIO data 0)
     = (Ok (tstring_record data 0 2), mkIO data 4,
        [mkLog ERROR "unable to decode string: %s" [VBytes (bytes_of [0xc3; 0x28])]]).
Proof.
  intros data. split; [reflexivity|].
  apply (proj1 (proj1 (proj2 invalid_utf8_is_not_fatal) data 0%nat [] 2 eq_refl
                  ltac:(vm_compute; intros H; discriminate H))).
Defined.

Lemma tbool_struct_decodes_witness :
  let data := bytes_of [0x37; 0x97; 0x79; 0xbc] in
  (0 + 4 <= List.length data)%nat
  /\ tbool_struct [] (mkIO data 0)
     = (Ok (tbool_record (word_at data 0)), mkIO data 4, []).
Proof.
  intros data. split; [vm_compute; lia|].
  apply (proj1 (proj1 tbool_struct_decodes data 0%nat [] ltac:(vm_compute; lia))).
Defined.



(** The same for a [message_service_layer48] to the channel 9, decoded
    through the dispatcher: no sender is derived, where the negated
    channel id was meant. *)
Example message_service_layer48_to_channel :
  let data := bytes_of [0x07; 0x96; 0x6b; 0xc0;  0; 0; 0; 0;  0x01; 0; 0; 0;
                        0x32; 0xe5; 0xdd; 0xbd;  0x09; 0; 0; 0;
                        0; 0; 0; 0;  0xb0; 0xf7; 0xae; 0xb6] in
  exists v,
    sample_parse_blob (fst __init__) data = (Ok v, [])
    /\ path_get ["to_id"; "to_id"; "channel_id"] v = Ok (VInt 9)
    /\ path_get ["action"; "action"; "sname"] v = Ok (VStr (str "message_action_empty"))
    /\ getitem "from_id" v = Ok VNone
    /\ getitem "from_id_adjusted" v = Ok VNone.
Proof.
  intros data. eexists.
  split; [vm_compute; reflexivity|].
  repeat split; vm_compute; reflexivity.
Qed.

(** * Further properties: [tdb.py], [logger.py], [build_callbacks.py]
    and more of [tblob.py] *)

(** One named subcon of a [Struct] that returns without logging. *)
Tactic Notation "named" tactic3(t) :=
  erewrite parse_subcons_named by t; simpl (dict_set _ _ _).

(** ** [escape_csv_string] *)

Lemma str_lstrip_idem chars s :
  str_lstrip chars (str_lstrip chars s) = str_lstrip chars s.
Proof.
  induction s as [|c s IH]; simpl; [reflexivity|].
  destruct (existsb (N.eqb c) chars) eqn:E; [exact IH|].
  simpl. rewrite E. reflexivity.
Qed.

(** What [str_lstrip] drops is a prefix. *)
Lemma str_lstrip_suffix chars s :
  exists p, s = p ++ str_lstrip chars s.
Proof.
  induction s as [|c s [p IH]]; simpl.
  - exists []. reflexivity.
  - destruct (existsb (N.eqb c) chars).
    + exists (c :: p). simpl. f_equal. exact IH.
    + exists []. reflexivity.
Qed.

Lemma str_lstrip_starts_clean chars s : starts_clean chars (str_lstrip chars s).
Proof.
  induction s as [|c s IH]; simpl; [exact I|].
  destruct (existsb (N.eqb c) chars) eqn:E; [exact IH|exact E].
Qed.

Lemma str_lstrip_clean chars s : starts_clean chars s -> str_lstrip chars s = s.
Proof.
  destruct s as [|c s]; simpl; [reflexivity|]. intros ->. reflexivity.
Qed.

Lemma starts_clean_prefix chars s t :
  starts_clean chars (s ++ t) -> starts_clean chars s.
Proof. destruct s; simpl; [intros _; exact I|exact id]. Qed.

(** [str_strip] leaves a string that neither starts nor ends with one
    of [chars]. *)
Lemma str_strip_clean chars s :
  starts_clean chars (str_strip chars s)
  /\ starts_clean chars (rev (str_strip chars s)).
Proof.
  unfold str_strip, str_rstrip. split.
  - destruct (str_lstrip_suffix chars (rev (str_lstrip chars s))) as [p Hp].
    apply (starts_clean_prefix _ _ (rev p)).
    rewrite <- rev_app_distr, <- Hp, rev_involutive.
    apply str_lstrip_starts_clean.
  - rewrite rev_involutive. apply str_lstrip_starts_clean.
Qed.

Lemma str_replace_clean chars old new s :
  existsb (N.eqb old) chars = true ->
  starts_clean chars s -> starts_clean chars (str_replace old new s).
Proof.
  intros Hold. destruct s as [|c s]; simpl; [exact id|].
  intros Hc. destruct (N.eqb_spec c old) as [->|_]; [congruence|exact Hc].
Qed.

Lemma str_replace_rev old new s :
  rev (str_replace old new s) = str_replace old new (rev s).
Proof. unfold str_replace. symmetry. apply map_rev. Qed.

Lemma str_replace_idem old new s :
  new <> old ->
  str_replace old new (str_replace old new s) = str_replace old new s.
Proof.
  intros Hne. unfold str_replace. rewrite map_map. apply map_ext. intros c.
  destruct (N.eqb_spec c old) as [->|Hc].
  - destruct (N.eqb_spec new old); [contradiction|reflexivity].
  - destruct (N.eqb_spec c old); [contradiction|reflexivity].
Qed.

Lemma str_replace_not_In old new s :
  new <> old -> ~ In old (str_replace old new s).
Proof.
  intros Hne Hin. unfold str_replace in Hin. apply in_map_iff in Hin.
  destruct Hin as [c [Hc _]].
  destruct (N.eqb_spec c old); congruence.
Qed.

(** Stripping takes the wrapping off a clean string again. *)
Lemma str_strip_wrapped chars c body :
  existsb (N.eqb c) chars = true ->
  starts_clean chars body ->
  starts_clean chars (rev body) ->
  str_strip chars ([c] ++ body ++ [c]) = body.
Proof.
  intros Hc Hhead Hlast. unfold str_strip, str_rstrip.
  cbn [app str_lstrip]. rewrite Hc.
  destruct body as [|a body].
  - cbn [app str_lstrip rev]. rewrite Hc. reflexivity.
  - cbn [starts_clean] in Hhead. cbn [app str_lstrip]. rewrite Hhead.
    change (a :: body ++ [c]) with ((a :: body) ++ [c]).
    rewrite rev_app_distr. change (rev [c]) with [c].
    cbn [app str_lstrip]. rewrite Hc.
    rewrite (str_lstrip_clean _ _ Hlast). apply rev_involutive.
Qed.

(** X1. Escaping is idempotent: a field that went through
    [escape_csv_string] comes out of it unchanged, and so does the
    empty string. *)
Theorem escape_csv_string_idempotent :
  forall s : pystr,
    exists r, escape_csv_string (VStr s) = Ok r
              /\ escape_csv_string (VStr r) = Ok r.
Proof.
  intros s. destruct s as [|c0 s0]; [exists []; split; reflexivity|].
  set (s := c0 :: s0).
  set (body := str_replace dquote squote (str_strip [dquote; squote] s)).
  exists ([dquote] ++ body ++ [dquote]). split; [reflexivity|].
  assert (Hq : existsb (N.eqb dquote) [dquote; squote] = true) by reflexivity.
  destruct (str_strip_clean [dquote; squote] s) as [Hhead Hlast].
  assert (Hstrip : str_strip [dquote; squote] ([dquote] ++ body ++ [dquote]) = body).
  { apply str_strip_wrapped; [exact Hq| |].
    - apply str_replace_clean; assumption.
    - unfold body. rewrite str_replace_rev. apply str_replace_clean; assumption. }
  unfold escape_csv_string. simpl (truthy _). cbv iota.
  rewrite Hstrip. unfold body at 1. rewrite str_replace_idem by discriminate.
  reflexivity.
Qed.

(** X2. What [escape_csv_string] makes of a string is empty, for the
    empty string, or a field between two double quotes that holds no
    double quote itself and neither starts nor ends with an
    apostrophe. *)
Theorem escape_csv_string_quotes :
  forall s : pystr,
    (s = [] /\ escape_csv_string (VStr s) = Ok [])
    \/ (s <> []
        /\ exists body,
            escape_csv_string (VStr s) = Ok ([dquote] ++ body ++ [dquote])
            /\ ~ In dquote body
            /\ hd_error body <> Some squote
            /\ hd_error (rev body) <> Some squote
            /\ (List.length body <= List.length s)%nat).
Proof.
  intros s. destruct s as [|c0 s0]; [left; split; reflexivity|].
  right. split; [discriminate|].
  set (s := c0 :: s0).
  exists (str_replace dquote squote (str_strip [dquote; squote] s)).
  destruct (str_strip_clean [dquote; squote] s) as [Hhead Hlast].
  assert (Hq : existsb (N.eqb dquote) [dquote; squote] = true) by reflexivity.
  split; [reflexivity|]. split; [apply str_replace_not_In; discriminate|].
  assert (Hclean : forall t, starts_clean [dquote; squote] t -> hd_error t <> Some squote).
  { intros [|a t]; simpl; [discriminate|]. intros Ha [= ->]. discriminate Ha. }
  split; [|split].
  - apply Hclean, str_replace_clean; assumption.
  - apply Hclean. rewrite str_replace_rev. apply str_replace_clean; assumption.
  - unfold str_replace. rewrite length_map.
    unfold str_strip, str_rstrip. rewrite length_rev.
    destruct (str_lstrip_suffix [dquote; squote] (rev (str_lstrip [dquote; squote] s)))
      as [p Hp].
    destruct (str_lstrip_suffix [dquote; squote] s) as [p' Hp'].
    apply (f_equal (@List.length N)) in Hp, Hp'.
    rewrite length_app in Hp, Hp'. rewrite length_rev in Hp. lia.
Qed.

(** ** [tmessage.dialog_and_sequence] *)

(** A number has more than 32 bits exactly when its absolute value is
    2^32 or more. *)
Lemma bit_length_wide (z : Z) : 32 < bit_length z <-> 2 ^ 32 <= Z.abs z.
Proof.
  unfold bit_length. destruct (Z.eqb_spec z 0) as [->|Hz].
  - simpl. split; lia.
  - assert (Hpos : 0 < Z.abs z) by lia.
    pose proof (Z.log2_lt_pow2 (Z.abs z) 32 Hpos) as H. lia.
Qed.

Lemma land_low_word (z : Z) : Z.land z 0xFFFFFFFF = z mod 2 ^ 32.
Proof. change 0xFFFFFFFF with (Z.ones 32). apply Z.land_ones. lia. Qed.

Lemma high_word (z : Z) :
  Z.land (Z.shiftr z 32) 0xFFFFFFFF = (z / 2 ^ 32) mod 2 ^ 32.
Proof. rewrite land_low_word, Z.shiftr_div_pow2 by lia. reflexivity. Qed.

(** X3. For a message id of more than 32 bits, whenever
    [dialog_and_sequence] returns, the dialog and the sequence number
    are the high and the low 32-bit word of the id (they put the id
    back together, modulo 2^64), the dialog is positive and the row's
    [uid] is its negation. *)
Theorem dialog_and_sequence_wide_mid :
  forall (self : tmessage) (dialog msg_seq : Z),
    2 ^ 32 <= Z.abs (tmessage_mid self) ->
    dialog_and_sequence self = Ok (dialog, msg_seq) ->
    0 < dialog < 2 ^ 32
    /\ 0 <= msg_seq < 2 ^ 32
    /\ tmessage_uid self = - dialog
    /\ tmessage_mid self mod 2 ^ 64 = dialog * 2 ^ 32 + msg_seq.
Proof.
  intros self dialog msg_seq Hwide. apply bit_length_wide in Hwide.
  unfold dialog_and_sequence. apply Z.ltb_lt in Hwide. rewrite Hwide.
  rewrite high_word, land_low_word.
  destruct (Z.ltb_spec (tmessage_uid self) 0) as [Hneg|Hpos]; [|discriminate].
  cbn [negb].
  destruct (Z.eqb_spec ((tmessage_mid self / 2 ^ 32) mod 2 ^ 32) (-1 * tmessage_uid self))
    as [Heq|Hne]; [|discriminate].
  cbn [negb]. intros [= <- <-].
  pose proof (Z.mod_pos_bound (tmessage_mid self / 2 ^ 32) (2 ^ 32) ltac:(lia)) as Hd.
  pose proof (Z.mod_pos_bound (tmessage_mid self) (2 ^ 32) ltac:(lia)) as Hq.
  repeat split; try lia.
  change (2 ^ 64) with (2 ^ 32 * 2 ^ 32).
  rewrite Z.rem_mul_r by lia. lia.
Qed.

(** X4. [dialog_and_sequence] raises nothing but [AssertionError], and
    raises it exactly when, for an id of more than 32 bits, [uid] is
    not the negated high word of the id, and when, for a shorter id,
    [uid] is 0.  The dialog it returns is never negative, and is the
    absolute value of [uid] when both numbers have at most 32 bits. *)
Theorem dialog_and_sequence_asserts :
  forall self : tmessage,
    let mid := tmessage_mid self in
    let uid := tmessage_uid self in
    (dialog_and_sequence self = Raise AssertionError
     <-> (if 32 <? bit_length mid
          then 0 <= uid \/ (mid / 2 ^ 32) mod 2 ^ 32 <> - uid
          else uid = 0))
    /\ (forall e, dialog_and_sequence self = Raise e -> e = AssertionError)
    /\ (forall dialog msg_seq,
           dialog_and_sequence self = Ok (dialog, msg_seq) ->
           0 <= dialog
           /\ (Z.abs mid < 2 ^ 32 -> Z.abs uid < 2 ^ 32 ->
               dialog = Z.abs uid
               /\ msg_seq = if 0 <? mid then mid else - mid - 210000)).
Proof.
  intros self mid uid. unfold dialog_and_sequence. fold mid uid.
  rewrite high_word, land_low_word.
  pose proof (Z.mod_pos_bound (mid / 2 ^ 32) (2 ^ 32) ltac:(lia)) as Hd.
  pose proof (Z.mod_pos_bound (uid / 2 ^ 32) (2 ^ 32) ltac:(lia)) as Hu.
  rewrite (high_word uid).
  destruct (32 <? bit_length mid) eqn:Hmid.
  - apply Z.ltb_lt, bit_length_wide in Hmid.
    destruct (Z.ltb_spec uid 0) as [Hneg|Hpos]; cbn [negb].
    + destruct (Z.eqb_spec ((mid / 2 ^ 32) mod 2 ^ 32) (-1 * uid)) as [Heq|Hne];
        cbn [negb].
      * split; [split; [discriminate|lia]|]. split; [discriminate|].
        intros dialog msg_seq [= <- <-]. split; lia.
      * split; [split; [intros _; right; lia|reflexivity]|].
        split; [intros e [= <-]; reflexivity|discriminate].
    + split; [split; [intros _; left; lia|reflexivity]|].
      split; [intros e [= <-]; reflexivity|discriminate].
  - apply Z.ltb_ge in Hmid.
    assert (Hnarrow : Z.abs mid < 2 ^ 32).
    { destruct (Z.lt_ge_cases (Z.abs mid) (2 ^ 32)) as [H|H]; [exact H|].
      apply bit_length_wide in H. lia. }
    destruct (Z.eqb_spec uid 0) as [Hz|Hnz].
    + split; [split; [intros _; exact Hz|reflexivity]|].
      split; [intros e [= <-]; reflexivity|discriminate].
    + split; [split; [discriminate|contradiction]|]. split; [discriminate|].
      intros dialog msg_seq [= <- <-].
      destruct (32 <? bit_length uid) eqn:Huid.
      * apply Z.ltb_lt, bit_length_wide in Huid. split; [lia|]. intros _ Hlt. lia.
      * destruct (Z.ltb_spec uid 0); (split; [lia|]); intros _ _;
          (split; [lia|]); destruct (0 <? mid); lia.
Qed.

Lemma dialog_and_sequence_wide_mid_witness :
  let self := mk_tmessage (5 * 2 ^ 32 + 7) (-5) 0 0 0 VNone 0 0 0 VNone 0 0 in
  2 ^ 32 <= Z.abs (tmessage_mid self)
  /\ dialog_and_sequence self = Ok (5, 7)
  /\ tmessage_mid self mod 2 ^ 64 = 5 * 2 ^ 32 + 7.
Proof.
  intros self.
  assert (Hwide : 2 ^ 32 <= Z.abs (tmessage_mid self)) by (vm_compute; discriminate).
  assert (Hrun : dialog_and_sequence self = Ok (5, 7)) by reflexivity.
  split; [exact Hwide|]. split; [exact Hrun|].
  exact (proj2 (proj2 (proj2 (dialog_and_sequence_wide_mid self 5 7 Hwide Hrun)))).
Defined.

(** ** Timestamps *)

Lemma word_at_range data pos : 0 <= word_at data pos < 2 ^ 32.
Proof.
  unfold word_at.
  pose proof (int_from_bytes_little_bounds (firstn 4 (skipn pos data))) as H.
  assert (Hlen : (List.length (firstn 4 (skipn pos data)) <= 4)%nat)
    by apply firstn_le_length.
  assert (Hpow : 256 ^ Z.of_nat (List.length (firstn 4 (skipn pos data))) <= 256 ^ 4)
    by (apply Z.pow_le_mono_r; lia).
  change (256 ^ 4) with (2 ^ 32) in Hpow. lia.
Qed.

(** X5. [ttimestamp_struct] reads one 4-byte little-endian word as
    [epoch] and stores the ISO date of that second as [date]; with
    fewer than 4 bytes left it raises [StreamError].  [to_date] of the
    decoded [epoch] is that same date string, except for the epoch 0,
    which [to_date] turns into the empty string although the record's
    [date] is the first second of 1970. *)
Theorem ttimestamp_struct_and_to_date :
  forall (data : list byte) (pos : nat) (ctx : context),
    let epoch := word_at data pos in
    ((pos + 4 <= List.length data)%nat ->
     ttimestamp_struct ctx (mkIO data pos)
     = (Ok (VContainer [ ("_io", VStream); ("epoch", VInt epoch);
                         ("date", VStr (utc_isoformat epoch)) ]),
        mkIO data (pos + 4), [])
     /\ to_date (VInt epoch) = Ok (if epoch =? 0 then [] else utc_isoformat epoch))
    /\ ((List.length data - pos < 4)%nat ->
        exists p', ttimestamp_struct ctx (mkIO data pos)
                   = (Raise StreamError, mkIO data p', []))
    /\ utc_isoformat 0 = str "1970-01-01T00:00:00".
Proof.
  intros data pos ctx epoch. split; [|split; [|reflexivity]].
  - intros H. split.
    + unfold ttimestamp_struct. rewrite Struct_run.
      named (apply Int32ul_at; exact H).
      named reflexivity.
      reflexivity.
    + pose proof (word_at_range data pos) as Hr. fold epoch in Hr.
      unfold to_date. cbn [truthy as_int].
      destruct (Z.eqb_spec epoch 0) as [->|Hz]; [reflexivity|]. cbn [negb].
      destruct (Z.leb_spec (-62135596800) epoch); [|lia].
      destruct (Z.leb_spec epoch 253402300799); [reflexivity|lia].
  - intros H. unfold ttimestamp_struct. rewrite Struct_run.
    destruct (FormatField_ul_short 4 [("_io", VStream)] data pos H) as [p' E].
    erewrite parse_subcons_Raise by exact E. exists p'. reflexivity.
Qed.

(** ** Tag-dispatched unions *)

Lemma Peek_Int32ul_at ctx data pos :
  (pos + 4 <= List.length data)%nat ->
  Peek Int32ul ctx (mkIO data pos) = (Ok (VInt (word_at data pos)), mkIO data pos, []).
Proof. intros H. unfold Peek. rewrite (Int32ul_at _ _ _ H). reflexivity. Qed.

Lemma Peek_Int32ul_short ctx data pos :
  (List.length data - pos < 4)%nat ->
  Peek Int32ul ctx (mkIO data pos) = (Ok VNone, mkIO data pos, []).
Proof.
  intros H. unfold Peek.
  destruct (FormatField_ul_short 4 ctx data pos H) as [p' E].
  unfold Int32ul. rewrite E. reflexivity.
Qed.

(** The tag of a record: [Hex(Const(sig, Int32ul))]. *)
Lemma Const_Int32ul_run (sig : Z) ctx data pos :
  ((pos + 4 <= List.length data)%nat ->
   Hex (Const sig Int32ul) ctx (mkIO data pos)
   = (if word_at data pos =? sig then Ok (VInt (word_at data pos)) else Raise ConstError,
      mkIO data (pos + 4), []))
  /\ ((List.length data - pos < 4)%nat ->
      exists p', Hex (Const sig Int32ul) ctx (mkIO data pos)
                 = (Raise StreamError, mkIO data p', [])).
Proof.
  unfold Hex, Const. split; intros H.
  - erewrite bind_Ok by (apply Int32ul_at; exact H). cbn [py_eq].
    destruct (word_at data pos =? sig); reflexivity.
  - destruct (FormatField_ul_short 4 ctx data pos H) as [p' E].
    exists p'. apply bind_Raise. exact E.
Qed.

(** A [*_structures(name)] method over the tag map [cases]: the tag is
    peeked, the [Switch] runs the decoder of the tag where the tag was
    peeked, and without a decoder for the tag nothing is read. *)
Lemma structures_run (name : string) (cases : list (Z * Parser)) ctx data pos :
  let structures :=
    Struct [ "_signature" /: Peek Int32ul;
             name /: Switch (this ["_signature"]) cases ] in
  let obj sig := [("_io", VStream); ("_signature", sig)] in
  let w := word_at data pos in
  ((pos + 4 <= List.length data)%nat ->
   structures ctx (mkIO data pos)
   = (v <- default Pass (dict_display_get w cases) (obj (VInt w)) ;;
      ret (VContainer (dict_set name v (obj (VInt w))))) (mkIO data pos))
  /\ ((List.length data - pos < 4)%nat ->
      structures ctx (mkIO data pos)
      = (Ok (VContainer (dict_set name VNone (obj VNone))), mkIO data pos, [])).
Proof.
  intros structures obj w. unfold structures. rewrite Struct_run. split; intros H.
  - named (apply Peek_Int32ul_at; exact H).
    cbn [parse_subcons]. unfold bind.
    assert (Hsw : Switch (this ["_signature"]) cases
                    [("_io", VStream); ("_signature", VInt (word_at data pos))]
                    (mkIO data pos)
                  = default Pass (dict_display_get w cases) (obj (VInt w)) (mkIO data pos)).
    { unfold Switch. erewrite bind_Ok by reflexivity. reflexivity. }
    rewrite Hsw.
    destruct (default Pass (dict_display_get w cases) (obj (VInt w)) (mkIO data pos))
      as [[[v|e] s'] l]; [|reflexivity].
    unfold emit, ret. cbn [fst snd]. reflexivity.
  - named (apply Peek_Int32ul_short; exact H). reflexivity.
Qed.

Lemma dict_display_get_absent {V : Type} (k : Z) (d : list (Z * V)) :
  ~ In k (map fst d) -> dict_display_get k d = None.
Proof.
  unfold dict_display_get. generalize (@None V).
  induction d as [|[k' v] d IH]; intros acc Hin; [reflexivity|].
  cbn [fold_left fst snd]. cbn [map fst In] in Hin.
  destruct (Z.eqb_spec k k') as [->|_]; [exfalso; apply Hin; left; reflexivity|].
  apply IH. intros H. apply Hin. right. exact H.
Qed.

Lemma structures_unknown_tag (name : string) (cases : list (Z * Parser)) ctx data pos :
  let structures :=
    Struct [ "_signature" /: Peek Int32ul;
             name /: Switch (this ["_signature"]) cases ] in
  ((List.length data - pos < 4)%nat ->
   structures ctx (mkIO data pos) = skipped name VNone data pos)
  /\ ((pos + 4 <= List.length data)%nat ->
      ~ In (word_at data pos) (map fst cases) ->
      structures ctx (mkIO data pos) = skipped name (VInt (word_at data pos)) data pos).
Proof.
  intros structures.
  destruct (structures_run name cases ctx data pos) as [Hrun Hshort].
  split; [exact Hshort|].
  intros H Hin. unfold structures. rewrite (Hrun H).
  rewrite (dict_display_get_absent _ _ Hin). reflexivity.
Qed.

(** X6. A tag-dispatched union ([peer_structures],
    [file_location_structures], [user_status_structures],
    [user_profile_photo_structures], [input_sticker_set_structures] and
    the unions of the message structures) does not fail on a tag it has
    no decoder for, nor where fewer than four bytes are left: it returns
    a record with [None] under the field's name and leaves the stream
    where it was. *)
Theorem structures_skip_unknown_tag :
  forall (name : string) (data : list byte) (pos : nat) (ctx : context),
    let w := word_at data pos in
    let s := mkIO data pos in
    ((List.length data - pos < 4)%nat ->
     peer_structures name ctx s = skipped name VNone data pos
     /\ file_location_structures name ctx s = skipped name VNone data pos
     /\ user_status_structures name ctx s = skipped name VNone data pos
     /\ user_profile_photo_structures name ctx s = skipped name VNone data pos
     /\ input_sticker_set_structures name ctx s = skipped name VNone data pos
     /\ forall tag_map : list (Z * Parser),
         message_action_structures tag_map name ctx s = skipped name VNone data pos
         /\ message_fwd_header_structures tag_map name ctx s = skipped name VNone data pos
         /\ message_media_structures tag_map name ctx s = skipped name VNone data pos
         /\ reply_markup_structures tag_map name ctx s = skipped name VNone data pos
         /\ message_entity_structures tag_map name ctx s = skipped name VNone data pos)
    /\ ((pos + 4 <= List.length data)%nat ->
        (~ In w [0xbddde532; 0xbad0e5bb; 0x9db1bc6d] ->
         peer_structures name ctx s = skipped name (VInt w) data pos)
        /\ (~ In w [0xbc7fc6cd; 0x091d11eb; 0x53d69076; 0x55555554; 0x7c596b46] ->
            file_location_structures name ctx s = skipped name (VInt w) data pos)
        /\ (~ In w [0xe26f42f1; 0xedb93949; 0x008c703f; 0x07bf09fc; 0x09d05049; 0x77ebc742] ->
            user_status_structures name ctx s = skipped name (VInt w) data pos)
        /\ (~ In w [0x69d3ab26; 0xecd75d8c; 0xd559d8c8; 0x4f11bae1; 0x990d1493] ->
            user_profile_photo_structures name ctx s = skipped name (VInt w) data pos)
        /\ (~ In w [0x028703c8; 0xe67f520e; 0xffb62b95; 0x9de7a269; 0x861cc8a0] ->
            input_sticker_set_structures name ctx s = skipped name (VInt w) data pos)
        /\ forall tag_map : list (Z * Parser),
            ~ In w (map fst tag_map) ->
            message_action_structures tag_map name ctx s = skipped name (VInt w) data pos
            /\ message_fwd_header_structures tag_map name ctx s
               = skipped name (VInt w) data pos
            /\ message_media_structures tag_map name ctx s = skipped name (VInt w) data pos
            /\ reply_markup_structures tag_map name ctx s = skipped name (VInt w) data pos
            /\ message_entity_structures tag_map name ctx s
               = skipped name (VInt w) data pos).
Proof.
  intros name data pos ctx w s. split.
  - intros H.
    repeat match goal with
           | |- _ /\ _ => split
           | |- forall _ : list (Z * Parser), _ => intros tag_map
           | |- _ = skipped _ _ _ _ =>
               exact (proj1 (structures_unknown_tag name _ ctx data pos) H)
           end.
  - intros H.
    repeat match goal with
           | |- _ /\ _ => split
           | |- forall _ : list (Z * Parser), _ => intros tag_map
           | |- _ -> _ => intros Hin
           | |- _ = skipped _ _ _ _ =>
               apply (proj2 (structures_unknown_tag name _ ctx data pos) H); exact Hin
           end.
Qed.

Lemma dict_set_fresh {V : Type} (k : string) (v : V) (d : list (string * V)) :
  dict_get k d = None -> dict_set k v d = d ++ [(k, v)].
Proof.
  induction d as [|[k' v'] d IH]; simpl; [reflexivity|].
  destruct (String.eqb k k'); [discriminate|]. intros H. rewrite (IH H). reflexivity.
Qed.

(** A word of 2^24 or more has its four bytes in the buffer. *)
Lemma word_at_full data pos :
  2 ^ 24 <= word_at data pos -> (pos + 4 <= List.length data)%nat.
Proof.
  intros Hw. unfold word_at in Hw.
  pose proof (int_from_bytes_little_bounds (firstn 4 (skipn pos data))) as Hb.
  rewrite length_firstn, length_skipn in Hb.
  destruct (le_lt_dec (pos + 4) (List.length data)) as [H|H]; [exact H|exfalso].
  assert (Hpow : 256 ^ Z.of_nat (Nat.min 4 (List.length data - pos)) <= 256 ^ 3)
    by (apply Z.pow_le_mono_r; lia).
  change (256 ^ 3) with (2 ^ 24) in Hpow. lia.
Qed.

(** A structure of a name, its tag and one 4-byte number
    ([peer_user_struct], [user_empty_struct], ...). *)
Lemma id_struct_run (sname field : string) (sig : Z) ctx data pos :
  field <> "_io" -> field <> "sname" -> field <> "signature" ->
  let p := Struct [ "sname" /: Computed (text sname);
                    "signature" /: Hex (Const sig Int32ul);
                    field /: Int32ul ] in
  word_at data pos = sig ->
  ((pos + 8 <= List.length data)%nat ->
   p ctx (mkIO data pos)
   = (Ok (id_record sname field sig (word_at data (pos + 4))), mkIO data (pos + 8), []))
  /\ ((List.length data - pos < 8)%nat ->
      exists p', p ctx (mkIO data pos) = (Raise StreamError, mkIO data p', [])).
Proof.
  intros H1 H2 H3 p Hw. unfold p. rewrite Struct_run.
  named reflexivity.
  assert (Hfresh : forall v : value,
             dict_set field v [ ("_io", VStream); ("sname", VStr (str sname));
                                ("signature", VInt sig) ]
             = [ ("_io", VStream); ("sname", VStr (str sname));
                 ("signature", VInt sig); (field, v) ]).
  { intros v.
    rewrite dict_set_fresh; [reflexivity|]. cbn [dict_get].
    apply String.eqb_neq in H1, H2, H3. rewrite H1, H2, H3. reflexivity. }
  match goal with
  | |- context [parse_subcons _ ?obj _] =>
      destruct (Const_Int32ul_run sig obj data pos) as [C1 C2]
  end.
  rewrite Hw, Z.eqb_refl in C1.
  split; intros H.
  - named (apply C1; lia).
    erewrite parse_subcons_named by (apply Int32ul_at; lia).
    rewrite Hfresh. cbn [parse_subcons ret].
    replace (pos + 4 + 4)%nat with (pos + 8)%nat by lia. reflexivity.
  - destruct (le_lt_dec (pos + 4) (List.length data)) as [H4|H4].
    + named (apply C1; lia).
      match goal with
      | |- context [parse_subcons _ ?obj _] =>
          destruct (FormatField_ul_short 4 obj data (pos + 4)) as [p' E]; [lia|]
      end.
      erewrite parse_subcons_Raise by exact E. exists p'. reflexivity.
    + destruct C2 as [p' E]; [lia|].
      erewrite parse_subcons_Raise by exact E. exists p'. reflexivity.
Qed.

Lemma peer_structures_run (name : string) ctx data pos (sname field : string) :
  In (word_at data pos, sname, field) peer_tags ->
  ((pos + 8 <= List.length data)%nat ->
   peer_structures name ctx (mkIO data pos)
   = (Ok (VContainer
            (dict_set name
               (id_record sname field (word_at data pos) (word_at data (pos + 4)))
               [("_io", VStream); ("_signature", VInt (word_at data pos))])),
      mkIO data (pos + 8), []))
  /\ ((List.length data - pos < 8)%nat ->
      exists p', peer_structures name ctx (mkIO data pos)
                 = (Raise StreamError, mkIO data p', [])).
Proof.
  intros Hin.
  assert (H4 : (pos + 4 <= List.length data)%nat).
  { apply word_at_full.
    cbn [peer_tags In] in Hin.
    destruct Hin as [E|[E|[E|[]]]]; injection E as E _ _; rewrite <- E; lia. }
  destruct (structures_run name
              [ (0xbddde532, LazyBound (fun _ => peer_channel_struct));
                (0xbad0e5bb, LazyBound (fun _ => peer_chat_struct));
                (0x9db1bc6d, LazyBound (fun _ => peer_user_struct)) ]
              ctx data pos) as [Hrun _].
  specialize (Hrun H4). cbv zeta in Hrun.
  change (Struct _) with (peer_structures name) in Hrun. rewrite Hrun. clear Hrun.
  set (obj := [("_io", VStream); ("_signature", VInt (word_at data pos))]).
  cbn [peer_tags In] in Hin.
  assert (Hcase : forall (sn f : string) (sig : Z) (sc : Parser),
             sc = Struct [ "sname" /: Computed (text sn);
                           "signature" /: Hex (Const sig Int32ul);
                           f /: Int32ul ] ->
             f <> "_io" -> f <> "sname" -> f <> "signature" ->
             word_at data pos = sig ->
             ((pos + 8 <= List.length data)%nat ->
              (v <- sc obj ;; ret (VContainer (dict_set name v obj))) (mkIO data pos)
              = (Ok (VContainer
                       (dict_set name (id_record sn f sig (word_at data (pos + 4))) obj)),
                 mkIO data (pos + 8), []))
             /\ ((List.length data - pos < 8)%nat ->
                 exists p', (v <- sc obj ;; ret (VContainer (dict_set name v obj)))
                              (mkIO data pos)
                            = (Raise StreamError, mkIO data p', []))).
  { intros sn f sig sc -> F1 F2 F3 Hw.
    destruct (id_struct_run sn f sig obj data pos F1 F2 F3 Hw) as [R1 R2].
    split; intros H.
    - erewrite bind_Ok by (apply R1; exact H). reflexivity.
    - destruct (R2 H) as [p' E']. exists p'. apply bind_Raise. exact E'. }
  destruct Hin as [E|[E|[E|[]]]]; injection E as Ew <- <-; rewrite <- Ew;
    cbn [dict_display_get fold_left fst snd Z.eqb Pos.eqb default from_option];
    unfold LazyBound, id; cbn beta;
    (apply Hcase; [reflexivity|discriminate|discriminate|discriminate|symmetry; exact Ew]).
Qed.

(** X7. On one of its three tags [peer_structures] reads eight bytes,
    the tag and the id, and returns the peer's record under the field's
    name; with the tag but fewer than eight bytes left it raises
    [StreamError]. *)
Theorem peer_structures_known_tag :
  forall (name : string) (data : list byte) (pos : nat) (ctx : context)
         (sname field : string),
    let w := word_at data pos in
    In (w, sname, field)
       [ (0xbddde532, "peer_channel", "channel_id");
         (0xbad0e5bb, "peer_chat", "chat_id");
         (0x9db1bc6d, "peer_user", "user_id") ] ->
    (pos + 4 <= List.length data)%nat
    /\ ((pos + 8 <= List.length data)%nat ->
        peer_structures name ctx (mkIO data pos)
        = (Ok (VContainer
                 (dict_set name
                    (VContainer [ ("_io", VStream); ("sname", VStr (str sname));
                                  ("signature", VInt w);
                                  (field, VInt (word_at data (pos + 4))) ])
                    [("_io", VStream); ("_signature", VInt w)])),
           mkIO data (pos + 8), []))
    /\ ((List.length data - pos < 8)%nat ->
        exists p', peer_structures name ctx (mkIO data pos)
                   = (Raise StreamError, mkIO data p', [])).
Proof.
  intros name data pos ctx sname field w Hin.
  split; [|exact (peer_structures_run name ctx data pos sname field Hin)].
  apply word_at_full. cbn [In] in Hin. fold w.
  destruct Hin as [E|[E|[E|[]]]]; injection E as E _ _; rewrite <- E; lia.
Qed.

Lemma peer_structures_known_tag_witness :
  let data := bytes_of [0x6d; 0xbc; 0xb1; 0x9d;  0x05; 0x00; 0x00; 0x00] in
  peer_structures "to_id" [] (mkIO data 0)
  = (Ok (VContainer
           [ ("_io", VStream); ("_signature", VInt 0x9db1bc6d);
             ("to_id",
              VContainer [ ("_io", VStream); ("sname", VStr (str "peer_user"));
                           ("signature", VInt 0x9db1bc6d); ("user_id", VInt 5) ]) ]),
     mkIO data 8, []).
Proof.
  intros data.
  assert (Hin : In (word_at data 0, "peer_user", "user_id")
                   [ (0xbddde532, "peer_channel", "channel_id");
                     (0xbad0e5bb, "peer_chat", "chat_id");
                     (0x9db1bc6d, "peer_user", "user_id") ])
    by (right; right; left; reflexivity).
  assert (Hlen : (0 + 8 <= List.length data)%nat) by (vm_compute; lia).
  exact (proj1 (proj2 (peer_structures_known_tag "to_id" data 0 [] "peer_user" "user_id" Hin))
           Hlen).
Defined.

(** ** [tmessage.to_id_and_type] on a decoded peer *)

(** X8. For a message whose [to_id] was decoded by [peer_structures],
    [to_id_and_type] gives the channel id and 'channel' for a channel,
    the user id and 'chat' for a user, and [(None, None)] for a
    [peer_chat]; where the peer's tag was none of the three (the decoder
    stored [None]) it raises [AttributeError]. *)
Theorem to_id_and_type_of_decoded_peer :
  forall (self : tmessage) (data : list byte) (pos : nat) (ctx : context)
         (to_id : value) (s' : BytesIO) (l : list log_record),
    peer_structures "to_id" ctx (mkIO data pos) = (Ok to_id, s', l) ->
    getattr (tmessage_blob self) "to_id" = Ok to_id ->
    let w := word_at data pos in
    to_id_and_type self
    = if w =? 0xbddde532 then Ok (VInt (word_at data (pos + 4)), VStr (str "channel"))
      else if w =? 0x9db1bc6d then Ok (VInt (word_at data (pos + 4)), VStr (str "chat"))
      else if w =? 0xbad0e5bb then Ok (VNone, VNone)
      else Raise AttributeError.
Proof.
  intros self data pos ctx to_id s' l Hrun Hget w.
  unfold to_id_and_type. rewrite Hget. cbn [and_then].
  assert (Hknown : forall sname field,
             In (w, sname, field) peer_tags ->
             to_id = VContainer
                       [ ("_io", VStream); ("_signature", VInt w);
                         ("to_id", id_record sname field w (word_at data (pos + 4))) ]).
  { intros sname field Hin.
    destruct (peer_structures_run "to_id" ctx data pos sname field Hin) as [R1 R2].
    destruct (le_lt_dec (pos + 8) (List.length data)) as [H|H].
    - rewrite (R1 H) in Hrun. injection Hrun as <- _ _. reflexivity.
    - destruct R2 as [p' E]; [lia|]. rewrite E in Hrun. discriminate Hrun. }
  destruct (Z.eqb_spec w 0xbddde532) as [E1|N1].
  { rewrite (Hknown "peer_channel" "channel_id") by (left; rewrite E1; reflexivity).
    reflexivity. }
  destruct (Z.eqb_spec w 0x9db1bc6d) as [E2|N2].
  { rewrite (Hknown "peer_user" "user_id") by (right; right; left; rewrite E2; reflexivity).
    reflexivity. }
  destruct (Z.eqb_spec w 0xbad0e5bb) as [E3|N3].
  { rewrite (Hknown "peer_chat" "chat_id") by (right; left; rewrite E3; reflexivity).
    reflexivity. }
  assert (Hskip : exists sig,
             to_id = VContainer [ ("_io", VStream); ("_signature", sig); ("to_id", VNone) ]).
  { destruct (structures_unknown_tag "to_id"
                [ (0xbddde532, LazyBound (fun _ => peer_channel_struct));
                  (0xbad0e5bb, LazyBound (fun _ => peer_chat_struct));
                  (0x9db1bc6d, LazyBound (fun _ => peer_user_struct)) ]
                ctx data pos) as [S1 S2].
    cbv zeta in S1, S2. change (Struct _) with (peer_structures "to_id") in S1, S2.
    destruct (le_lt_dec (pos + 4) (List.length data)) as [H|H].
    - rewrite S2 in Hrun; [|exact H|].
      + injection Hrun as <- _ _. eexists. reflexivity.
      + cbn [map fst In]. fold w. intros [?|[?|[?|[]]]]; congruence.
    - rewrite S1 in Hrun by lia. injection Hrun as <- _ _. eexists. reflexivity. }
  destruct Hskip as [sig ->]. reflexivity.
Qed.

Lemma to_id_and_type_of_decoded_peer_witness :
  let data := bytes_of [0x32; 0xe5; 0xdd; 0xbd;  0x09; 0x00; 0x00; 0x00] in
  exists to_id,
    peer_structures "to_id" [] (mkIO data 0) = (Ok to_id, mkIO data 8, [])
    /\ to_id_and_type
         (mk_tmessage 1 9 0 0 0 (VContainer [("_io", VStream); ("to_id", to_id)])
                      0 0 0 VNone 0 0)
       = Ok (VInt 9, VStr (str "channel")).
Proof.
  intros data.
  assert (Hrun : exists to_id,
             peer_structures "to_id" [] (mkIO data 0) = (Ok to_id, mkIO data 8, []))
    by (eexists; vm_compute; reflexivity).
  destruct Hrun as [to_id Hrun]. exists to_id. split; [exact Hrun|].
  exact (to_id_and_type_of_decoded_peer
           (mk_tmessage 1 9 0 0 0 (VContainer [("_io", VStream); ("to_id", to_id)])
                        0 0 0 VNone 0 0)
           data 0 [] to_id (mkIO data 8) [] Hrun eq_refl).
Defined.

(** ** [tmessage.message_content] and [tuser] on decoded records *)

Lemma getattr_or_None_of_getattr (v x : value) (name : string) :
  getattr v name = Ok x -> getattr_or_None v name = x.
Proof.
  destruct v; try discriminate. cbn [getattr getattr_or_None].
  destruct (dict_get name fields); [|discriminate]. intros [= ->]. reflexivity.
Qed.

(** What [tstring_struct] returns holds the payload as [_value] and
    what [decode_tstring] makes of it as [string]. *)
Lemma tstring_struct_returns ctx s v s' l :
  tstring_struct ctx s = (Ok v, s', l) ->
  exists payload,
    v <> VContainer []
    /\ getattr v "_value" = Ok (VBytes payload)
    /\ getattr v "string" = Ok (decoded_text payload).
Proof.
  destruct s as [data pos]. intros H.
  destruct (first_byte data pos) as [c|] eqn:Hc.
  - destruct (tstring_struct_decodes_prefixed data pos ctx c Hc) as [_ Hret].
    destruct (Hret v s' l H) as [-> _].
    eexists. split; [discriminate|]. split; reflexivity.
  - destruct (prefixed_eof ctx data pos Hc) as [E _]. rewrite E in H. discriminate H.
Qed.

Lemma utf8_decode_None_nonempty (payload : list byte) :
  utf8_decode payload = None -> payload <> [].
Proof. intros H ->. discriminate H. Qed.

(** X9. For a message whose text was decoded by [tstring_struct],
    [message_content] is the escaped text when the payload is valid
    UTF-8; when it is not, the decoder kept the raw bytes and
    [message_content] raises [TypeError]. *)
Theorem message_content_of_decoded_text :
  forall (self : tmessage) (ctx : context) (s s' : BytesIO) (l : list log_record)
         (message : value),
    tstring_struct ctx s = (Ok message, s', l) ->
    getattr (tmessage_blob self) "message" = Ok message ->
    exists payload,
      getattr message "_value" = Ok (VBytes payload)
      /\ message_content self
         = match utf8_decode payload with
           | Some text => escape_csv_string (VStr text)
           | None => Raise TypeError
           end.
Proof.
  intros self ctx s s' l message Hrun Hget.
  destruct (tstring_struct_returns ctx s message s' l Hrun) as (payload & Hne & Hval & Hstr).
  exists payload. split; [exact Hval|].
  unfold message_content. rewrite (getattr_or_None_of_getattr _ _ _ Hget).
  assert (Htruthy : truthy message = true).
  { destruct message; try discriminate Hval.
    destruct fields; [contradiction|reflexivity]. }
  rewrite Htruthy, Hstr. cbn [and_then]. unfold decoded_text.
  destruct (utf8_decode payload) eqn:Hutf; [reflexivity|].
  apply utf8_decode_None_nonempty in Hutf.
  destruct payload; [contradiction|reflexivity].
Qed.

Lemma message_content_of_decoded_text_witness :
  let data := bytes_of [0x02; 0xc3; 0x28; 0x00] in
  exists message l,
    tstring_struct [] (mkIO data 0) = (Ok message, mkIO data 4, l)
    /\ message_content
         (mk_tmessage 1 9 0 0 0 (VContainer [("_io", VStream); ("message", message)])
                      0 0 0 VNone 0 0)
       = Raise TypeError.
Proof.
  intros data.
  assert (Hrun : exists message l,
             tstring_struct [] (mkIO data 0) = (Ok message, mkIO data 4, l)
             /\ getattr message "_value" = Ok (VBytes (bytes_of [0xc3; 0x28])))
    by (do 2 eexists; split; vm_compute; reflexivity).
  destruct Hrun as (message & l & Hrun & Hval). exists message, l.
  split; [exact Hrun|].
  destruct (message_content_of_decoded_text
              (mk_tmessage 1 9 0 0 0 (VContainer [("_io", VStream); ("message", message)])
                           0 0 0 VNone 0 0)
              [] (mkIO data 0) (mkIO data 4) l message Hrun eq_refl)
    as (payload & Hval' & Hcontent).
  rewrite Hval in Hval'. injection Hval' as <-. exact Hcontent.
Defined.

(** The values of the fields that flag-gated decoding reads: what the
    field's subcon returned. *)
Lemma decode_gated_values (flags : Z) (table : list (string * string * Z * Parser)) :
  NoDup (map (fun e => fst (fst (fst e))) table) ->
  (forall name flag mask sc, In (name, flag, mask, sc) table -> never_None sc) ->
  forall obj s obj' s' l,
    (forall name flag mask sc, In (name, flag, mask, sc) table -> dict_get name obj = None) ->
    decode_gated flags table obj s = (Ok obj', s', l) ->
    forall name flag mask sc,
      In (name, flag, mask, sc) table ->
      Z.land flags mask = mask ->
      exists x ctx s0 s1 l0,
        dict_get name obj' = Some x /\ sc ctx s0 = (Ok x, s1, l0).
Proof.
  induction table as [|[[[name flag] mask] sc] table IH];
    intros Hnodup Hnever obj s obj' s' l Hfresh H n f m c Hin Hbit; [destruct Hin|].
  cbn [decode_gated] in H. apply bind_Ok_inv in H.
  destruct H as (v & s1 & l1 & l2 & Hv & Hrest & ->).
  cbn [map fst] in Hnodup. apply NoDup_cons in Hnodup.
  destruct Hnodup as [Hnotin Hnodup].
  assert (Hfresh' : forall n f m c, In (n, f, m, c) table ->
                                    dict_get n (dict_set name v obj) = None).
  { intros n' f' m' c' Hin'. rewrite dict_get_set_ne.
    - apply (Hfresh n' f' m' c'). right. exact Hin'.
    - intros ->. apply Hnotin. apply list_elem_of_In.
      apply (in_map (fun e => fst (fst (fst e))) _ _ Hin'). }
  destruct Hin as [Hin|Hin].
  - inversion Hin; subst n f m c.
    apply Z.eqb_eq in Hbit. rewrite Hbit in Hv.
    exists v, obj, s, s1, l1. split; [|exact Hv].
    destruct (decode_gated_spec flags table Hnodup
                (fun n f m c Hin => Hnever n f m c (or_intror Hin))
                (dict_set name v obj) s1 obj' s' l2 Hfresh' Hrest) as (_ & Hkeep & _).
    apply Hkeep, dict_get_set_eq.
  - exact (IH Hnodup (fun n f m c Hin => Hnever n f m c (or_intror Hin))
              (dict_set name v obj) s1 obj' s' l2 Hfresh' Hrest n f m c Hin Hbit).
Qed.

(** The record [user_struct] returns: its flags and optional fields. *)
Lemma user_struct_returns data v s l :
  parse user_struct data = (Ok v, s, l) ->
  exists obj,
    v = VContainer obj
    /\ dict_get "flags" obj = Some (FlagsEnum_decode (word_at data 4) user_struct_flags)
    /\ forall name flag mask sc,
        In (name, flag, mask, sc) user_struct_optional ->
        exists x, dict_get name obj = Some x
                  /\ (Z.land (word_at data 4) mask <> mask -> x = VNone)
                  /\ (Z.land (word_at data 4) mask = mask ->
                      exists ctx s0 s1 l0, sc ctx s0 = (Ok x, s1, l0)).
Proof.
  unfold parse. intros Hv.
  destruct (user_struct_run [] data 0) as [Hok Hbad].
  destruct (classic_header data 0) as [H|H].
  2:{ destruct (Hbad H) as (e & s1 & l1 & E). rewrite E in Hv. discriminate. }
  rewrite (Hok H) in Hv. apply bind_Ok_inv in Hv.
  destruct Hv as (obj & s1 & l1 & l2 & Hgated & Hret & _).
  inversion Hret; subst v s l2. clear Hret.
  exists obj. split; [reflexivity|].
  assert (Hnodup : NoDup (map (fun e => fst (fst (fst e))) user_struct_optional))
    by (apply (bool_decide_unpack _); vm_compute; exact I).
  assert (Hfresh : forall name flag mask sc,
             In (name, flag, mask, sc) user_struct_optional ->
             dict_get name (user_struct_fixed data 0) = None).
  { unfold user_struct_optional. cbn [In]. intros name flag mask sc Hin.
    repeat (destruct Hin as [Hin|Hin]; [inversion Hin; subst; reflexivity|]).
    destruct Hin. }
  destruct (decode_gated_spec (word_at data 4) user_struct_optional Hnodup
              user_struct_optional_never_None _ _ _ _ _ Hfresh Hgated)
    as (_ & Hkeep & Hopt).
  split; [apply Hkeep; reflexivity|].
  intros name flag mask sc Hin.
  destruct (Hopt name flag mask sc Hin) as (x & Hx & Hiff).
  exists x. split; [exact Hx|]. split; [apply Hiff|].
  intros Hbit.
  destruct (decode_gated_values (word_at data 4) user_struct_optional Hnodup
              user_struct_optional_never_None _ _ _ _ _ Hfresh Hgated
              name flag mask sc Hin Hbit) as (x' & ctx & s0 & s1' & l0 & Hx' & Hsc).
  rewrite Hx in Hx'. injection Hx' as <-. eauto.
Qed.

(** One of the four string properties of a [tuser] over a record of
    [user_struct]. *)
Lemma flagged_string_of_user_struct data v s l (self : tuser) (flag field : string)
    (mask : Z) :
  parse user_struct data = (Ok v, s, l) ->
  tuser_blob self = v ->
  In (field, flag, mask, tstring_struct) user_struct_optional ->
  if Z.land (word_at data 4) mask =? mask
  then exists payload,
      path_get [field; "_value"] v = Ok (VBytes payload)
      /\ flagged_string flag field self = Ok (decoded_text payload)
  else getitem field v = Ok VNone
       /\ flagged_string flag field self = Ok (VStr []).
Proof.
  intros Hv Hblob Hin.
  destruct (user_struct_returns data v s l Hv) as (obj & -> & Hflags & Hopt).
  destruct (Hopt field flag mask tstring_struct Hin) as (x & Hx & Hclear & Hset).
  destruct (user_struct_flags_lookup (word_at data 4) field flag mask tstring_struct Hin)
    as [Hflag _].
  unfold flagged_string. rewrite Hblob. cbn [getattr and_then].
  rewrite Hflags. unfold FlagsEnum_decode. cbn [getattr and_then].
  rewrite Hflag. cbn [and_then truthy].
  destruct (Z.eqb_spec (Z.land (word_at data 4) mask) mask) as [Hbit|Hbit].
  - destruct (Hset Hbit) as (ctx & s0 & s1 & l0 & Hsc).
    destruct (tstring_struct_returns ctx s0 x s1 l0 Hsc) as (payload & _ & Hval & Hstr).
    exists payload. rewrite Hx. cbn [and_then]. split; [|exact Hstr].
    cbn [path_get getitem]. rewrite Hx.
    destruct x; try discriminate Hval. cbn [getattr] in Hval. cbn [getitem].
    destruct (dict_get "_value" fields); [|discriminate Hval].
    injection Hval as ->. reflexivity.
  - rewrite (Hclear Hbit) in Hx. cbn [getitem]. rewrite Hx. split; reflexivity.
Qed.

(** X10. On a record that [user_struct] returned, the properties
    [first_name], [last_name], [username] and [phone] of a [tuser] never
    raise: each is the decoded string of its field when the field's flag
    bit is set in the flags word, and the empty string when it is clear;
    hence [dict_id] returns too. *)
Theorem tuser_strings_of_user_struct :
  forall (self : tuser) (data : list byte) (v : value) (s : BytesIO)
         (l : list log_record),
    parse user_struct data = (Ok v, s, l) ->
    tuser_blob self = v ->
    let flags := word_at data 4 in
    let decoded (mask : Z) (field : string) (got : result value) : Prop :=
      if Z.land flags mask =? mask
      then exists payload,
          path_get [field; "_value"] v = Ok (VBytes payload)
          /\ got = Ok (decoded_text payload)
      else getitem field v = Ok VNone /\ got = Ok (VStr []) in
    decoded 2 "first_name" (first_name self)
    /\ decoded 4 "last_name" (last_name self)
    /\ decoded 8 "username" (username self)
    /\ decoded 16 "phone" (phone self)
    /\ exists dictid, dict_id self = Ok dictid.
Proof.
  intros self data v s l Hv Hblob flags decoded.
  assert (H1 := flagged_string_of_user_struct data v s l self "has_first_name" "first_name" 2
                  Hv Hblob ltac:(cbn; tauto)).
  assert (H2 := flagged_string_of_user_struct data v s l self "has_last_name" "last_name" 4
                  Hv Hblob ltac:(cbn; tauto)).
  assert (H3 := flagged_string_of_user_struct data v s l self "has_username" "username" 8
                  Hv Hblob ltac:(cbn; tauto)).
  assert (H4 := flagged_string_of_user_struct data v s l self "has_phone" "phone" 16
                  Hv Hblob ltac:(cbn; tauto)).
  fold (first_name self) in H1. fold (last_name self) in H2.
  fold (username self) in H3. fold (phone self) in H4.
  repeat split; try assumption.
  assert (R : forall mask field got, decoded mask field got -> exists x, got = Ok x).
  { intros mask field got. unfold decoded.
    destruct (Z.land flags mask =? mask).
    - intros (payload & _ & ->). eauto.
    - intros [_ ->]. eauto. }
  destruct (R _ _ _ H1) as [f Hf]. destruct (R _ _ _ H2) as [n Hn].
  destruct (R _ _ _ H3) as [u Hu]. destruct (R _ _ _ H4) as [p Hp].
  unfold dict_id. rewrite Hu, Hf, Hn, Hp. cbn [and_then].
  destruct (truthy u), (truthy f), (truthy n), (truthy p); cbn [and_then]; eauto.
Qed.

Lemma tuser_strings_of_user_struct_witness :
  let data := bytes_of [0xc1; 0x58; 0x84; 0x93;  0x02; 0; 0; 0;  0x07; 0; 0; 0;
                        0x02; 0x61; 0x62; 0x00] in
  exists v l,
    parse user_struct data = (Ok v, mkIO data 16, l)
    /\ first_name (mk_tuser 7 VNone 0 v) = Ok (VStr (str "ab"))
    /\ last_name (mk_tuser 7 VNone 0 v) = Ok (VStr []).
Proof.
  intros data.
  assert (Hrun : exists v l,
             parse user_struct data = (Ok v, mkIO data 16, l)
             /\ path_get ["first_name"; "_value"] v = Ok (VBytes (bytes_of [0x61; 0x62])))
    by (do 2 eexists; split; vm_compute; reflexivity).
  destruct Hrun as (v & l & Hrun & Hval). exists v, l. split; [exact Hrun|].
  pose proof (tuser_strings_of_user_struct (mk_tuser 7 VNone 0 v) data v (mkIO data 16) l
                Hrun eq_refl) as T.
  cbv zeta in T. destruct T as (T1 & T2 & _).
  change (Z.land (word_at data 4) 2 =? 2) with true in T1.
  change (Z.land (word_at data 4) 4 =? 4) with false in T2.
  cbv iota in T1, T2.
  destruct T1 as (payload & Hval' & T1). rewrite Hval in Hval'. injection Hval' as <-.
  split; [exact T1|exact (proj2 T2)].
Defined.

(** X11. A record of [user_empty_struct] has no [flags]: on it the
    properties [first_name], [last_name], [username] and [phone] of a
    [tuser], and with them [dict_id], raise [AttributeError]; [is_self]
    is [False]. *)
Theorem tuser_strings_of_user_empty :
  forall (self : tuser) (data : list byte) (v : value) (s : BytesIO)
         (l : list log_record),
    parse user_empty_struct data = (Ok v, s, l) ->
    tuser_blob self = v ->
    first_name self = Raise AttributeError
    /\ last_name self = Raise AttributeError
    /\ username self = Raise AttributeError
    /\ phone self = Raise AttributeError
    /\ dict_id self = Raise AttributeError
    /\ is_self self = VBool false.
Proof.
  intros self data v s l Hv Hblob.
  unfold parse, user_empty_struct in Hv. rewrite Struct_run in Hv.
  destruct (parse_subcons _ _ _) as [[[obj|e] s1] l1] eqn:Hsub in Hv; [|discriminate Hv].
  injection Hv as <- _ _.
  assert (Hflags : dict_get "flags" obj = None).
  { rewrite (parse_subcons_preserves _ _ _ _ _ _ "flags" Hsub); [reflexivity|].
    cbn. intros [H|[H|[H|[]]]]; discriminate H. }
  assert (Hraise : forall flag field, flagged_string flag field self = Raise AttributeError).
  { intros flag field. unfold flagged_string. rewrite Hblob. cbn [getattr].
    rewrite Hflags. reflexivity. }
  unfold first_name, last_name, username, phone, dict_id, is_self.
  unfold username. rewrite !Hraise, Hblob. cbn [and_then getattr_or_None].
  rewrite Hflags. repeat split; reflexivity.
Qed.

Lemma tuser_strings_of_user_empty_witness :
  let data := bytes_of [0xba; 0x50; 0x02; 0x20;  0x07; 0; 0; 0] in
  exists v,
    parse user_empty_struct data = (Ok v, mkIO data 8, [])
    /\ username (mk_tuser 7 VNone 0 v) = Raise AttributeError.
Proof.
  intros data.
  assert (Hrun : exists v, parse user_empty_struct data = (Ok v, mkIO data 8, []))
    by (eexists; vm_compute; reflexivity).
  destruct Hrun as (v & Hrun). exists v. split; [exact Hrun|].
  exact (proj1 (proj2 (proj2 (tuser_strings_of_user_empty (mk_tuser 7 VNone 0 v) data v
                                (mkIO data 8) [] Hrun eq_refl)))).
Defined.

(** ** [tchat.chat_type] *)

(** X12. [chat_type] raises nothing but [AssertionError], and raises it
    exactly when the chat has flags with both [broadcast] and
    [megagroup] set; without flags it is the empty string, and otherwise
    one of the twelve strings made of the kind ([1-N], [N-N], [?-?]), of
    [pub] or [prv], and of an optional [left]. *)
Theorem chat_type_values :
  forall self : tchat,
    let flags := getattr_or_None (tchat_blob self) "flags" in
    let broadcast := truthy (getattr_or_None flags "broadcast") in
    let megagroup := truthy (getattr_or_None flags "megagroup") in
    (chat_type self = Raise AssertionError
     <-> truthy flags = true /\ broadcast = true /\ megagroup = true)
    /\ (forall e, chat_type self = Raise e -> e = AssertionError)
    /\ (truthy flags = false -> chat_type self = Ok [])
    /\ (forall ct,
           chat_type self = Ok ct ->
           truthy flags = true ->
           exists kind access left,
             ct = str kind ++ str access ++ str left
             /\ kind = (if broadcast then "1-N" else if megagroup then "N-N" else "?-?")
             /\ access = (if truthy (getattr_or_None flags "has_username")
                          then " pub" else " prv")
             /\ left = (if truthy (getattr_or_None flags "left") then " left" else "")).
Proof.
  intros self flags broadcast megagroup. unfold chat_type. fold flags.
  fold broadcast megagroup.
  destruct (truthy flags).
  2:{ split; [split; [discriminate|intros [H _]; discriminate H]|].
      split; [discriminate|]. split; [reflexivity|]. discriminate. }
  destruct broadcast, megagroup; cbn [and_then].
  - split; [split; [auto|reflexivity]|].
    split; [intros e [= <-]; reflexivity|]. split; discriminate.
  - split; [split; [discriminate|intros (_ & _ & H); discriminate H]|].
    split; [discriminate|]. split; [discriminate|].
    intros ct [= <-] _. do 3 eexists. split; [|repeat split].
    destruct (truthy (getattr_or_None flags "has_username")),
      (truthy (getattr_or_None flags "left")); reflexivity.
  - split; [split; [discriminate|intros (_ & H & _); discriminate H]|].
    split; [discriminate|]. split; [discriminate|].
    intros ct [= <-] _. do 3 eexists. split; [|repeat split].
    destruct (truthy (getattr_or_None flags "has_username")),
      (truthy (getattr_or_None flags "left")); reflexivity.
  - split; [split; [discriminate|intros (_ & H & _); discriminate H]|].
    split; [discriminate|]. split; [discriminate|].
    intros ct [= <-] _. do 3 eexists. split; [|repeat split].
    destruct (truthy (getattr_or_None flags "has_username")),
      (truthy (getattr_or_None flags "left")); reflexivity.
Qed.

(** ** [configure_logging] and [build_callbacks.py] *)

(** X13. More [-v] options never make the logger less verbose: from no
    option ([ERROR]) the level goes down to [WARNING], [INFO] and, from
    three options on, [DEBUG].  A negative verbosity, which none of the
    tests of [configure_logging] catches, leaves the initial [DEBUG]. *)
Theorem configure_logging_monotone :
  (forall v w : Z,
      0 <= v <= w ->
      levelno (configure_logging (Some w)) <= levelno (configure_logging (Some v)))
  /\ configure_logging None = configure_logging (Some 0)
  /\ (forall v : Z, configure_logging (Some v) = DEBUG <-> v < 0 \/ 3 <= v)
  /\ (forall v : option Z, configure_logging v = ERROR <-> v = None \/ v = Some 0).
Proof.
  assert (Hcases : forall v,
             (v < 0 /\ configure_logging (Some v) = DEBUG)
             \/ (v = 0 /\ configure_logging (Some v) = ERROR)
             \/ (v = 1 /\ configure_logging (Some v) = WARNING)
             \/ (v = 2 /\ configure_logging (Some v) = INFO)
             \/ (3 <= v /\ configure_logging (Some v) = DEBUG)).
  { intros v. unfold configure_logging.
    destruct (Z.eqb_spec v 0); [right; left; split; [assumption|reflexivity]|].
    destruct (Z.eqb_spec v 1); [right; right; left; split; [assumption|reflexivity]|].
    destruct (Z.eqb_spec v 2);
      [right; right; right; left; split; [assumption|reflexivity]|].
    destruct (Z.leb_spec 3 v);
      [right; right; right; right; split; [assumption|reflexivity]|].
    left. split; [lia|reflexivity]. }
  split; [|split; [reflexivity|split]].
  - intros v w H.
    destruct (Hcases v) as [[? ->]|[[? ->]|[[? ->]|[[? ->]|[? ->]]]]];
      destruct (Hcases w) as [[? ->]|[[? ->]|[[? ->]|[[? ->]|[? ->]]]]];
      cbn [levelno]; lia.
  - intros v.
    destruct (Hcases v) as [[? ->]|[[? ->]|[[? ->]|[[? ->]|[? ->]]]]];
      split; intros; first [reflexivity | discriminate | lia | exfalso; lia].
  - intros [v|]; [|split; auto].
    destruct (Hcases v) as [[? E]|[[? E]|[[? E]|[[? E]|[? E]]]]]; rewrite E;
      (split; [first [discriminate | intros _; right; f_equal; assumption]
              |first [intros _; reflexivity
                     |intros [Hv|Hv]; [discriminate Hv|exfalso; injection Hv; lia]]]).
Qed.

(** X14. The key [build_callbacks.py] writes for a 32-bit Java
    constructor constant is the constant's unsigned 32-bit form: it
    lies below 2^32, is the constant itself when that is not negative
    and the constant plus 2^32 when it is, reads back as the constant,
    and two different constants never get one key. *)
Theorem value_hex_unsigned :
  forall value : Z,
    - 2 ^ 31 <= value < 2 ^ 31 ->
    0 <= value_hex value < 2 ^ 32
    /\ value_hex value = (if value <? 0 then value + 2 ^ 32 else value)
    /\ (if 2 ^ 31 <=? value_hex value then value_hex value - 2 ^ 32 else value_hex value)
       = value
    /\ forall value' : Z,
        - 2 ^ 31 <= value' < 2 ^ 31 ->
        value_hex value = value_hex value' -> value = value'.
Proof.
  assert (Hform : forall v, - 2 ^ 31 <= v < 2 ^ 31 ->
                            value_hex v = if v <? 0 then v + 2 ^ 32 else v).
  { intros v Hv. unfold value_hex. change (Z.shiftl 1 32) with (2 ^ 32).
    destruct (Z.ltb_spec v 0).
    - apply Z.mod_small. lia.
    - rewrite <- (Z.mod_small v (2 ^ 32)) at 2 by lia.
      rewrite <- Z.add_mod_idemp_r, Z.mod_same, Z.add_0_r by lia. reflexivity. }
  intros value Hv. pose proof (Hform value Hv) as E.
  split; [|split; [exact E|split]].
  - rewrite E. destruct (value <? 0) eqn:Hneg; [apply Z.ltb_lt in Hneg|apply Z.ltb_ge in Hneg]; lia.
  - rewrite E. destruct (Z.ltb_spec value 0);
      destruct (Z.leb_spec (2 ^ 31) (value + 2 ^ 32));
      destruct (Z.leb_spec (2 ^ 31) value); lia.
  - intros value' Hv' Heq. rewrite E, (Hform value' Hv') in Heq.
    destruct (Z.ltb_spec value 0); destruct (Z.ltb_spec value' 0); lia.
Qed.

Lemma value_hex_unsigned_witness :
  - 2 ^ 31 <= -427863538 < 2 ^ 31 /\ value_hex (-427863538) = 0xe67f520e.
Proof.
  assert (H : - 2 ^ 31 <= -427863538 < 2 ^ 31) by lia.
  split; [exact H|].
  exact (proj1 (proj2 (value_hex_unsigned (-427863538) H))).
Defined.

(** ** Length-prefixed values: alignment and truncation *)

Lemma prefixed_size_aligned (c L : Z) :
  0 <= L -> exists k, 0 < k /\ prefixed_size c L = 4 * k.
Proof.
  intros HL. unfold prefixed_size.
  assert (Hpad : forall x, 0 <= x ->
                           exists k, 0 <= k /\ (x = 0 \/ 0 < k)
                                     /\ x + (4 - x mod 4) mod 4 = 4 * k).
  { intros x Hx.
    pose proof (Z.div_mod x 4 ltac:(lia)) as Hdm.
    pose proof (Z.mod_pos_bound x 4 ltac:(lia)) as Hr.
    assert (Hq : 0 <= x / 4) by (apply Z.div_pos; lia).
    destruct (Z.eq_dec (x mod 4) 0) as [E|E].
    - exists (x / 4). rewrite E. change ((4 - 0) mod 4) with 0. lia.
    - exists (x / 4 + 1). rewrite (Z.mod_small (4 - x mod 4) 4) by lia. lia. }
  destruct (c <? 254).
  - destruct (Hpad (1 + L) ltac:(lia)) as (k & Hk & Hpos & E).
    exists k. split; [lia|]. rewrite <- E. lia.
  - destruct (Hpad L HL) as (k & Hk & _ & E).
    exists (k + 1). split; [lia|]. lia.
Qed.

(** Where [tstring_struct] and [tbytes_struct] stop when they return. *)
Lemma tstring_struct_stops ctx data pos v s' l :
  tstring_struct ctx (mkIO data pos) = (Ok v, s', l) ->
  exists c,
    first_byte data pos = Some c
    /\ s' = mkIO data (pos + Z.to_nat (prefixed_size c (prefixed_length data pos c))).
Proof.
  intros Hrun. destruct (first_byte data pos) as [c|] eqn:Hc.
  2:{ destruct (prefixed_eof ctx data pos Hc) as [E _]. rewrite E in Hrun.
      discriminate Hrun. }
  exists c. split; [reflexivity|].
  destruct (tstring_struct_run ctx data pos c Hc) as [Hok Hbad]. cbv zeta in Hok, Hbad.
  destruct (Z.le_gt_cases
              (Z.of_nat pos + prefixed_size c (prefixed_length data pos c))
              (Z.of_nat (List.length data))) as [Hfit|Hfit].
  - rewrite (Hok Hfit) in Hrun. injection Hrun as _ <- _. reflexivity.
  - destruct (Hbad Hfit) as (e & s1 & l1 & E). rewrite E in Hrun. discriminate Hrun.
Qed.

Lemma tbytes_struct_stops ctx data pos v s' l :
  tbytes_struct ctx (mkIO data pos) = (Ok v, s', l) ->
  exists c,
    first_byte data pos = Some c
    /\ s' = mkIO data (pos + Z.to_nat (prefixed_size c (prefixed_length data pos c))).
Proof.
  intros Hrun. destruct (first_byte data pos) as [c|] eqn:Hc.
  2:{ destruct (prefixed_eof ctx data pos Hc) as [_ E]. rewrite E in Hrun.
      discriminate Hrun. }
  exists c. split; [reflexivity|].
  destruct (tbytes_struct_run ctx data pos c Hc) as [Hok Hbad]. cbv zeta in Hok, Hbad.
  destruct (Z.le_gt_cases
              (Z.of_nat pos + prefixed_size c (prefixed_length data pos c))
              (Z.of_nat (List.length data))) as [Hfit|Hfit].
  - rewrite (Hok Hfit) in Hrun. injection Hrun as _ <- _. reflexivity.
  - destruct (Hbad Hfit) as (e & s1 & l1 & E). rewrite E in Hrun. discriminate Hrun.
Qed.

(** X15. Whenever [tstring_struct] or [tbytes_struct] returns, it has
    read a positive multiple of four bytes of the same buffer: a stream
    that is 4-byte aligned before a length-prefixed value is aligned
    after it. *)
Theorem prefixed_values_are_aligned :
  forall (ctx : context) (s s' : BytesIO) (v : value) (l : list log_record),
    tstring_struct ctx s = (Ok v, s', l) \/ tbytes_struct ctx s = (Ok v, s', l) ->
    getvalue s' = getvalue s
    /\ exists k : nat, (0 < k)%nat /\ tell s' = (tell s + 4 * k)%nat.
Proof.
  intros ctx [data pos] s' v l Hrun.
  assert (Hstop : exists c,
             first_byte data pos = Some c
             /\ s' = mkIO data
                       (pos + Z.to_nat (prefixed_size c (prefixed_length data pos c)))).
  { destruct Hrun as [Hrun|Hrun];
      [exact (tstring_struct_stops ctx data pos v s' l Hrun)
      |exact (tbytes_struct_stops ctx data pos v s' l Hrun)]. }
  destruct Hstop as (c & Hc & ->). cbn [getvalue tell]. split; [reflexivity|].
  pose proof (first_byte_range _ _ _ Hc) as Hrange.
  destruct (prefixed_size_aligned c (prefixed_length data pos c)) as (k & Hk & E).
  { apply prefixed_length_nonneg. lia. }
  exists (Z.to_nat k). rewrite E. split; lia.
Qed.

Lemma prefixed_values_are_aligned_witness :
  let data := bytes_of [0x05; 0x68; 0x65; 0x6c; 0x6c; 0x6f; 0x00; 0x00] in
  exists v l k,
    tstring_struct [] (mkIO data 0) = (Ok v, mkIO data 8, l)
    /\ (0 < k)%nat /\ 8%nat = (0 + 4 * k)%nat.
Proof.
  intros data.
  assert (Hrun : exists v l, tstring_struct [] (mkIO data 0) = (Ok v, mkIO data 8, l))
    by (do 2 eexists; vm_compute; reflexivity).
  destruct Hrun as (v & l & Hrun).
  destruct (prefixed_values_are_aligned [] (mkIO data 0) (mkIO data 8) v l
              (or_introl Hrun)) as (_ & k & Hk & E).
  exists v, l, k. split; [exact Hrun|]. split; [exact Hk|exact E].
Defined.

(** A length-prefixed value that does not fit in the buffer: the
    decoder runs off the end. *)
Lemma tstring_struct_truncated ctx data pos c :
  first_byte data pos = Some c ->
  Z.of_nat (List.length data)
  < Z.of_nat pos + prefixed_size c (prefixed_length data pos c) ->
  exists s' l, tstring_struct ctx (mkIO data pos) = (Raise StreamError, s', l).
Proof.
  intros Hc Hshort.
  set (L := prefixed_length data pos c) in *.
  set (size := prefixed_size c L) in *.
  pose proof (first_byte_range _ _ _ Hc) as Hrange.
  assert (HL : 0 <= L) by (apply prefixed_length_nonneg; lia).
  pose proof (prefixed_size_split c L HL) as Hsplit. fold size in Hsplit.
  pose proof (prefixed_size_nonneg c L HL) as Hsize. fold size in Hsize.
  set (hdr := if c <? 254 then 1%nat else 4%nat) in *.
  set (pad := Z.to_nat (if c <? 254 then (4 - (1 + L) mod 4) mod 4
                        else (4 - L mod 4) mod 4)) in *.
  unfold tstring_struct. rewrite Struct_run.
  named reflexivity.
  match goal with
  | |- context [parse_subcons (_ :: _ :: _ :: ?rest) ?obj _] =>
      destruct (prefix_run "_len" rest obj data pos c Hc) as [P1 P2]
  end.
  fold L hdr in P1, P2. cbv zeta in P1, P2.
  destruct (le_lt_dec (pos + hdr) (List.length data)) as [Hh|Hh].
  2:{ destruct (P2 Hh) as [p' E]. rewrite E. eauto. }
  rewrite (P1 Hh). simpl (dict_set _ _ _).
  destruct (le_lt_dec (pos + hdr + Z.to_nat L) (List.length data)) as [Hp|Hp].
  2:{ destruct (Bytes_short (this ["_len"])
                  [("_io", VStream); ("_sname", VStr (str "tstring")); ("_check", VInt c);
                   ("_pl", VInt (if c <? 254 then c else word_at data pos));
                   ("_len", VInt L)] data (pos + hdr) L) as [p' E];
        [reflexivity | exact HL | lia |].
      erewrite parse_subcons_Raise by exact E. eauto. }
  named (apply Bytes_enough with (L := L); [reflexivity | exact HL | exact Hp]).
  erewrite parse_subcons_named_emit.
  2:{ unfold Computed. erewrite bind_Ok by reflexivity. apply decode_tstring_run. }
  simpl (dict_set _ _ _).
  match goal with
  | |- context [parse_subcons [(None, _)] ?obj (mkIO _ ?p)] =>
      destruct (align_run "_len" obj data p c L) as [_ A2];
        [reflexivity | reflexivity |]
  end.
  fold pad in A2. cbv zeta in A2.
  destruct A2 as [p' E]; [lia|].
  erewrite parse_subcons_Raise by exact E. cbn [emit fst snd]. eauto.
Qed.

Lemma tbytes_struct_truncated ctx data pos c :
  first_byte data pos = Some c ->
  Z.of_nat (List.length data)
  < Z.of_nat pos + prefixed_size c (prefixed_length data pos c) ->
  exists s' l, tbytes_struct ctx (mkIO data pos) = (Raise StreamError, s', l).
Proof.
  intros Hc Hshort.
  set (L := prefixed_length data pos c) in *.
  set (size := prefixed_size c L) in *.
  pose proof (first_byte_range _ _ _ Hc) as Hrange.
  assert (HL : 0 <= L) by (apply prefixed_length_nonneg; lia).
  pose proof (prefixed_size_split c L HL) as Hsplit. fold size in Hsplit.
  pose proof (prefixed_size_nonneg c L HL) as Hsize. fold size in Hsize.
  set (hdr := if c <? 254 then 1%nat else 4%nat) in *.
  set (pad := Z.to_nat (if c <? 254 then (4 - (1 + L) mod 4) mod 4
                        else (4 - L mod 4) mod 4)) in *.
  unfold tbytes_struct. rewrite Struct_run.
  named reflexivity.
  match goal with
  | |- context [parse_subcons (_ :: _ :: _ :: ?rest) ?obj _] =>
      destruct (prefix_run "len" rest obj data pos c Hc) as [P1 P2]
  end.
  fold L hdr in P1, P2. cbv zeta in P1, P2.
  destruct (le_lt_dec (pos + hdr) (List.length data)) as [Hh|Hh].
  2:{ destruct (P2 Hh) as [p' E]. rewrite E. eauto. }
  rewrite (P1 Hh). simpl (dict_set _ _ _).
  destruct (le_lt_dec (pos + hdr + Z.to_nat L) (List.length data)) as [Hp|Hp].
  2:{ destruct (Bytes_short (this ["len"])
                  [("_io", VStream); ("_sname", VStr (str "tbytes")); ("_check", VInt c);
                   ("_pl", VInt (if c <? 254 then c else word_at data pos));
                   ("len", VInt L)] data (pos + hdr) L) as [p' E];
        [reflexivity | exact HL | lia |].
      unfold Hex. erewrite parse_subcons_Raise by exact E. eauto. }
  unfold Hex.
  named (apply Bytes_enough with (L := L); [reflexivity | exact HL | exact Hp]).
  match goal with
  | |- context [parse_subcons [(None, _)] ?obj (mkIO _ ?p)] =>
      destruct (align_run "len" obj data p c L) as [_ A2];
        [reflexivity | reflexivity |]
  end.
  fold pad in A2. cbv zeta in A2.
  destruct A2 as [p' E]; [lia|].
  erewrite parse_subcons_Raise by exact E. eauto.
Qed.

(** X16. How [tstring_struct] and [tbytes_struct] fail on a buffer that
    ends too early: with no byte left they raise [TypeError] (the
    peeked byte is [None], and [None >= 254] is no comparison), leaving
    the stream where it was; with the first byte there but not the whole
    value they raise [StreamError]. *)
Theorem prefixed_value_cut_short :
  forall (data : list byte) (pos : nat) (ctx : context),
    (first_byte data pos = None ->
     tstring_struct ctx (mkIO data pos) = (Raise TypeError, mkIO data pos, [])
     /\ tbytes_struct ctx (mkIO data pos) = (Raise TypeError, mkIO data pos, []))
    /\ (forall c : Z,
           first_byte data pos = Some c ->
           Z.of_nat (List.length data)
           < Z.of_nat pos + prefixed_size c (prefixed_length data pos c) ->
           (exists s' l, tstring_struct ctx (mkIO data pos) = (Raise StreamError, s', l))
           /\ (exists s' l, tbytes_struct ctx (mkIO data pos) = (Raise StreamError, s', l))).
Proof.
  intros data pos ctx. split.
  - exact (prefixed_eof ctx data pos).
  - intros c Hc Hshort. split.
    + exact (tstring_struct_truncated ctx data pos c Hc Hshort).
    + exact (tbytes_struct_truncated ctx data pos c Hc Hshort).
Qed.

(** ** The dispatcher on more inputs *)

Section Dispatcher.

(** What the section [Decoder] leaves open. *)
Variables action_map fwd_map media_map reply_map entity_map : list (Z * Parser).
Variable adjusted : exn + Parser.
Variable other_struct : string -> Parser.

Abbreviation dispatch :=
  (parse_blob action_map fwd_map media_map reply_map entity_map adjusted other_struct).
Abbreviation decoder_of :=
  (call_blob_parser action_map fwd_map media_map reply_map entity_map adjusted
     other_struct).

(** X17. [input_sticker_set_animated_emoji_struct] has no [signature]
    subcon: it returns its record without reading anything.  So
    [input_sticker_set_structures] leaves the stream on the tag
    0x028703c8, where on the tag of [input_sticker_set_empty] it moves
    past the tag; and [parse_blob], given a buffer with the tag
    0x028703c8 and that decoder, returns the record and logs that none
    of the bytes was parsed. *)
Theorem input_sticker_set_animated_emoji_reads_nothing :
  let record :=
    VContainer [ ("_io", VStream);
                 ("sname", VStr (str "input_sticker_set_animated_emoji")) ] in
  (forall (ctx : context) (s : BytesIO),
      input_sticker_set_animated_emoji_struct ctx s = (Ok record, s, []))
  /\ (forall (name : string) (data : list byte) (pos : nat) (ctx : context),
         word_at data pos = 0x028703c8 ->
         input_sticker_set_structures name ctx (mkIO data pos)
         = (Ok (VContainer
                  (dict_set name record
                     [("_io", VStream); ("_signature", VInt 0x028703c8)])),
            mkIO data pos, []))
  /\ (forall (name : string) (data : list byte) (pos : nat) (ctx : context),
         word_at data pos = 0xffb62b95 ->
         input_sticker_set_structures name ctx (mkIO data pos)
         = (Ok (VContainer
                  (dict_set name
                     (VContainer [ ("_io", VStream);
                                   ("sname", VStr (str "input_sticker_set_empty"));
                                   ("signature", VInt 0xffb62b95) ])
                     [("_io", VStream); ("_signature", VInt 0xffb62b95)])),
            mkIO data (pos + 4), []))
  /\ (forall data : list byte,
         other_struct "input_sticker_set_animated_emoji_struct"
         = input_sticker_set_animated_emoji_struct ->
         int_from_bytes_little (firstn 4 data) = 0x028703c8 ->
         dispatch (fst __init__) data
         = (Ok record,
            [mkLog ERROR
               "Not all data parsed for object: %s [0x%x], input: %d, parsed: %d, missed: %s"
               [VStr (str "input_sticker_set_animated_emoji"); VInt 0x028703c8;
                VInt (Z.of_nat (List.length data)); VInt 0; VBytes data]])).
Proof.
  intros record.
  assert (Hnothing : forall ctx s,
             input_sticker_set_animated_emoji_struct ctx s = (Ok record, s, [])).
  { intros ctx s. reflexivity. }
  assert (Hunion : forall name data pos ctx (w : Z) (sc : Parser) v p',
             word_at data pos = w ->
             2 ^ 24 <= w ->
             dict_display_get w
               [ (0x028703c8, LazyBound (fun _ => input_sticker_set_animated_emoji_struct));
                 (0xe67f520e, LazyBound (fun _ => input_sticker_set_dice_struct));
                 (0xffb62b95, LazyBound (fun _ => input_sticker_set_empty_struct));
                 (0x9de7a269, LazyBound (fun _ => input_sticker_set_id_struct));
                 (0x861cc8a0, LazyBound (fun _ => input_sticker_set_short_name_struct)) ]
             = Some sc ->
             sc [("_io", VStream); ("_signature", VInt w)] (mkIO data pos)
             = (Ok v, mkIO data p', []) ->
             input_sticker_set_structures name ctx (mkIO data pos)
             = (Ok (VContainer (dict_set name v [("_io", VStream); ("_signature", VInt w)])),
                mkIO data p', [])).
  { intros name data pos ctx w sc v p' Hw Hbig Hsc Hrun.
    assert (H4 : (pos + 4 <= List.length data)%nat)
      by (apply word_at_full; rewrite Hw; exact Hbig).
    destruct (structures_run name
                [ (0x028703c8, LazyBound (fun _ => input_sticker_set_animated_emoji_struct));
                  (0xe67f520e, LazyBound (fun _ => input_sticker_set_dice_struct));
                  (0xffb62b95, LazyBound (fun _ => input_sticker_set_empty_struct));
                  (0x9de7a269, LazyBound (fun _ => input_sticker_set_id_struct));
                  (0x861cc8a0, LazyBound (fun _ => input_sticker_set_short_name_struct)) ]
                ctx data pos) as [R _].
    specialize (R H4). cbv zeta in R.
    change (Struct _) with (input_sticker_set_structures name) in R.
    rewrite R, Hw, Hsc. cbn [default from_option]. unfold id.
    erewrite bind_Ok by exact Hrun. reflexivity. }
  split; [exact Hnothing|]. split; [|split].
  - intros name data pos ctx Hw.
    apply (Hunion name data pos ctx 0x028703c8
             (LazyBound (fun _ => input_sticker_set_animated_emoji_struct)));
      [exact Hw | lia | reflexivity | apply Hnothing].
  - intros name data pos ctx Hw.
    assert (H4 : (pos + 4 <= List.length data)%nat)
      by (apply word_at_full; rewrite Hw; lia).
    apply (Hunion name data pos ctx 0xffb62b95
             (LazyBound (fun _ => input_sticker_set_empty_struct)));
      [exact Hw | lia | reflexivity |].
    unfold LazyBound, input_sticker_set_empty_struct. rewrite Struct_run.
    named reflexivity.
    match goal with
    | |- context [parse_subcons _ ?obj _] =>
        destruct (Const_Int32ul_run 0xffb62b95 obj data pos) as [C _]
    end.
    rewrite Hw in C.
    named (apply C; exact H4). reflexivity.
  - intros data Hother Hsig.
    rewrite (parse_blob_decoder action_map fwd_map media_map reply_map entity_map adjusted
               other_struct (fst __init__) data
               "input_sticker_set_animated_emoji_struct" "input_sticker_set_animated_emoji"
               VNone input_sticker_set_animated_emoji_struct).
    2:{ rewrite callbacks_lookup, Hsig. vm_compute. reflexivity. }
    2:{ unfold call_blob_parser. cbn [dict_get embedded_structs String.eqb Ascii.eqb Bool.eqb].
        rewrite Hother. reflexivity. }
    unfold parse. rewrite Hnothing, Hsig.
    assert (Hlen : Nat.eqb (List.length data) 0 = false).
    { destruct data; [discriminate Hsig|reflexivity]. }
    unfold after_parse. cbn [getattr_or_None dict_get String.eqb Ascii.eqb Bool.eqb
                             default from_option truthy record tell].
    rewrite Hlen. reflexivity.
Qed.

Lemma emit_emit {A : Type} (l1 l2 : list log_record)
    (x : result A * BytesIO * list log_record) :
  emit l1 (emit l2 x) = emit (l1 ++ l2) x.
Proof. unfold emit. cbn [fst snd]. rewrite app_assoc. reflexivity. Qed.

(** The subcons of a [Struct] run one after the other. *)
Lemma parse_subcons_app (front back : list subcon) :
  forall obj s,
    parse_subcons (front ++ back) obj s
    = match parse_subcons front obj s with
      | (Ok obj', s', l) => emit l (parse_subcons back obj' s')
      | (Raise e, s', l) => (Raise e, s', l)
      end.
Proof.
  induction front as [|[name sc] front IH]; intros obj s.
  - cbn [app parse_subcons ret]. rewrite emit_nil. reflexivity.
  - cbn [app parse_subcons]. unfold bind.
    destruct (sc obj s) as [[[v|e] s1] l1]; [|reflexivity].
    destruct name as [n|]; rewrite IH;
      (destruct (parse_subcons front _ s1) as [[[obj'|e] s2] l2];
       [cbn [emit fst snd]; rewrite emit_emit; reflexivity|reflexivity]).
Qed.

Lemma GreedyBytes_run ctx data pos :
  (pos <= List.length data)%nat ->
  GreedyBytes ctx (mkIO data pos)
  = (Ok (VBytes (skipn pos data)), mkIO data (List.length data), []).
Proof.
  intros H. unfold GreedyBytes, bind, stream_read_all. cbn [getvalue tell emit ret fst snd].
  rewrite length_skipn. replace (pos + (List.length data - pos))%nat with (List.length data) by lia.
  reflexivity.
Qed.

(** X18. A decoder whose last subcon is ['UNPARSED' / GreedyBytes]
    ([message_secret_struct] and four more message structures): when
    the subcons before it return inside the buffer, [parse_blob] returns
    the record with the bytes they left as [UNPARSED], logs the warning
    about unparsed data exactly when there are such bytes, and never
    logs that not all data was parsed. *)
Theorem unparsed_field_takes_the_rest :
  forall (self : tblob) (data : list byte) (f name : string) (beautify : value)
         (fields : list subcon) (obj : container) (pos : nat) (l : list log_record),
    _callbacks self !! int_from_bytes_little (firstn 4 data)
    = Some (Tuple3 (Some f) name beautify) ->
    decoder_of f = Ok (Struct (fields ++ [ "UNPARSED" /: GreedyBytes ])) ->
    parse_subcons fields [("_io", VStream)] (mkIO data 0) = (Ok obj, mkIO data pos, l) ->
    dict_get "_io" obj = Some VStream ->
    (pos <= List.length data)%nat ->
    dispatch self data
    = (Ok (VContainer (dict_set "UNPARSED" (VBytes (skipn pos data)) obj)),
       l ++ (if (pos <? List.length data)%nat
             then [mkLog WARNING
                     "Object: %s [0x%x] contains unparsed data [%d bytes], see UPARSED field"
                     [VStr (str name); VInt (int_from_bytes_little (firstn 4 data));
                      VInt (Z.of_nat (List.length data - pos))]]
             else [])).
Proof.
  intros self data f name beautify fields obj pos l Hentry Hcall Hrun Hio Hpos.
  rewrite (parse_blob_decoder action_map fwd_map media_map reply_map entity_map adjusted
             other_struct self data f name beautify _ Hentry Hcall).
  unfold parse. rewrite Struct_run, parse_subcons_app, Hrun.
  erewrite parse_subcons_named by (apply GreedyBytes_run; exact Hpos).
  cbn [parse_subcons ret emit fst snd tell]. rewrite app_nil_r.
  unfold after_parse. cbn [getattr_or_None].
  rewrite dict_get_set_eq, dict_get_set_ne, Hio by discriminate.
  cbn [default from_option]. unfold id. cbn [truthy py_len].
  rewrite length_skipn, Nat.eqb_refl. cbn [negb].
  destruct (Nat.ltb_spec pos (List.length data)) as [Hlt|Hge].
  - destruct (Nat.eqb_spec (List.length data - pos) 0) as [E|_]; [lia|]. cbn [negb].
    destruct (Z.eqb_spec (Z.of_nat (List.length data - pos)) 0) as [E|_]; [lia|].
    reflexivity.
  - destruct (Nat.eqb_spec (List.length data - pos) 0) as [_|N]; [|lia].
    cbn [negb]. rewrite app_nil_r. reflexivity.
Qed.

(** Looking a key up needs only the entries that could hold it. *)
Lemma dict_display_get_filter {V : Type} (P : Z -> bool) (k : Z) (d : list (Z * V)) :
  P k = true ->
  dict_display_get k d = dict_display_get k (List.filter (fun kv => P (fst kv)) d).
Proof.
  intros HP. unfold dict_display_get. generalize (@None V).
  induction d as [|[k' v] d IH]; intros acc; [reflexivity|].
  cbn [List.filter fold_left fst snd].
  destruct (P k') eqn:HP'.
  - cbn [fold_left fst snd]. apply IH.
  - destruct (Z.eqb_spec k k') as [->|_]; [congruence|]. apply IH.
Qed.

(** X19. A buffer of fewer than four bytes never gives a record.  Its
    tag is the number its bytes spell, below 2^24; five registry keys
    are that small.  For the key of [user_status_offline], the one of
    them with a decoder, the decoder runs off the end of the buffer and
    [parse_blob] raises [StreamError]; for the other four [parse_blob]
    logs that the blob is not supported; else, as for the empty buffer,
    it logs the unknown signature; it returns [None] in both cases. *)
Theorem parse_blob_short_buffer :
  forall data : list byte,
    (List.length data < 4)%nat ->
    let signature := int_from_bytes_little (firstn 4 data) in
    dispatch (fst __init__) data
    = if signature =? 0x008c703f then (Raise StreamError, [])
      else match dict_display_get signature
                   [ (0x004a8537, "secure_password_kdf_algo_unknown");
                     (0x00be3dfa, "secure_value_error_front_side");
                     (0x007efe0e, "storage_file_jpeg");
                     (0x00f49ca0, "updates_difference") ] with
           | Some name =>
               (Ok VNone,
                [mkLog WARNING "blob '%s' [%s] not supported"
                   [VStr (str name); VStr (hex signature)]])
           | None =>
               (Ok VNone, [mkLog ERROR "unknown signature %s" [VStr (hex signature)]])
           end.
Proof.
  intros data Hlen signature.
  assert (Hsmall : (signature <? 2 ^ 24) = true).
  { apply Z.ltb_lt. unfold signature.
    pose proof (int_from_bytes_little_bounds (firstn 4 data)) as Hb.
    rewrite length_firstn in Hb.
    assert (Hpow : 256 ^ Z.of_nat (Nat.min 4 (List.length data)) <= 256 ^ 3)
      by (apply Z.pow_le_mono_r; lia).
    change (256 ^ 3) with (2 ^ 24) in Hpow. lia. }
  assert (Hlookup : _callbacks (fst __init__) !! signature
                    = dict_display_get signature
                        [ (0x004a8537, Tuple3 None "secure_password_kdf_algo_unknown" VNone);
                          (0x00be3dfa, Tuple3 None "secure_value_error_front_side" VNone);
                          (0x007efe0e, Tuple3 None "storage_file_jpeg" VNone);
                          (0x00f49ca0, Tuple3 None "updates_difference" VNone);
                          (0x008c703f,
                           Tuple3 (Some "user_status_offline_struct")
                                  "user_status_offline" VNone) ]).
  { rewrite callbacks_lookup.
    rewrite (dict_display_get_filter (fun z => z <? 2 ^ 24) _ _ Hsmall).
    apply (f_equal (dict_display_get signature)). vm_compute. reflexivity. }
  unfold dict_display_get in Hlookup |- *. cbn [fold_left fst snd] in Hlookup |- *.
  destruct (Z.eqb_spec signature 0x008c703f) as [E5|N5].
  - rewrite (parse_blob_decoder action_map fwd_map media_map reply_map entity_map adjusted
               other_struct (fst __init__) data "user_status_offline_struct"
               "user_status_offline" VNone user_status_offline_struct);
      [|exact Hlookup|reflexivity].
    unfold parse, user_status_offline_struct. rewrite Struct_run.
    named reflexivity.
    match goal with
    | |- context [parse_subcons _ ?obj _] =>
        destruct (Const_Int32ul_run 0x008c703f obj data 0) as [_ C]
    end.
    destruct C as [p' E]; [lia|].
    erewrite parse_subcons_Raise by exact E. reflexivity.
  - destruct (Z.eqb_spec signature 0x00f49ca0) as [E4|N4];
      [exact (parse_blob_unsupported action_map fwd_map media_map reply_map entity_map
                adjusted other_struct (fst __init__) data _ _ Hlookup)|].
    destruct (Z.eqb_spec signature 0x007efe0e) as [E3|N3];
      [exact (parse_blob_unsupported action_map fwd_map media_map reply_map entity_map
                adjusted other_struct (fst __init__) data _ _ Hlookup)|].
    destruct (Z.eqb_spec signature 0x00be3dfa) as [E2|N2];
      [exact (parse_blob_unsupported action_map fwd_map media_map reply_map entity_map
                adjusted other_struct (fst __init__) data _ _ Hlookup)|].
    destruct (Z.eqb_spec signature 0x004a8537) as [E1|N1];
      [exact (parse_blob_unsupported action_map fwd_map media_map reply_map entity_map
                adjusted other_struct (fst __init__) data _ _ Hlookup)|].
    apply parse_blob_unknown; [|exact Hlookup].
    intros Hempty. pose proof init_callbacks_nonempty as Hne.
    apply bool_decide_eq_false in Hne. contradiction.
Qed.

End Dispatcher.

(** A [message_secret] with two bytes after its last field. *)
Lemma unparsed_field_takes_the_rest_witness :
  let data := bytes_of [0xfa; 0x55; 0x55; 0x55;  0; 0; 0; 0;  0x01; 0; 0; 0;
                        0; 0; 0; 0;  0x02; 0; 0; 0;
                        0x6d; 0xbc; 0xb1; 0x9d;  0x05; 0; 0; 0;
                        0; 0; 0; 0;  0x01; 0x61; 0; 0;
                        0x15; 0xc4; 0xb5; 0x1c;  0; 0; 0; 0;
                        0xde; 0xad] in
  exists obj,
    parse_blob sample_tag_map sample_tag_map sample_tag_map sample_tag_map sample_tag_map
      sample_adjusted (fun _ => message_secret_struct sample_tag_map sample_tag_map)
      (fst __init__) data
    = (Ok (VContainer (dict_set "UNPARSED" (VBytes (bytes_of [0xde; 0xad])) obj)),
       [mkLog WARNING
          "Object: %s [0x%x] contains unparsed data [%d bytes], see UPARSED field"
          [VStr (str "message_secret"); VInt 0x555555fa; VInt 2]]).
Proof.
  intros data.
  assert (Hrun : exists obj,
             parse_subcons (message_secret_fields sample_tag_map sample_tag_map)
               [("_io", VStream)] (mkIO data 0)
             = (Ok obj, mkIO data 44, [])
             /\ dict_get "_io" obj = Some VStream)
    by (eexists; split; vm_compute; reflexivity).
  destruct Hrun as (obj & Hrun & Hio). exists obj.
  assert (Hentry : _callbacks (fst __init__) !! int_from_bytes_little (firstn 4 data)
                   = Some (Tuple3 (Some "message_secret_struct") "message_secret" VNone))
    by (rewrite callbacks_lookup; vm_compute; reflexivity).
  assert (Hpos : (44 <= List.length data)%nat) by (vm_compute; lia).
  exact (unparsed_field_takes_the_rest
           sample_tag_map sample_tag_map sample_tag_map sample_tag_map sample_tag_map
           sample_adjusted (fun _ => message_secret_struct sample_tag_map sample_tag_map)
           (fst __init__) data "message_secret_struct" "message_secret" VNone
           (message_secret_fields sample_tag_map sample_tag_map) obj 44 []
           Hentry eq_refl Hrun Hio Hpos).
Defined.

Lemma parse_blob_short_buffer_witness :
  (List.length (@nil byte) < 4)%nat
  /\ sample_parse_blob (fst __init__) []
     = (Ok VNone, [mkLog ERROR "unknown signature %s" [VStr (str "0x0")]]).
Proof.
  assert (H : (List.length (@nil byte) < 4)%nat) by (cbn; lia).
  split; [exact H|].
  exact (parse_blob_short_buffer
           sample_tag_map sample_tag_map sample_tag_map sample_tag_map sample_tag_map
           sample_adjusted sample_other_struct [] H).
Defined.

(** ** The registry *)

Lemma nodupb_NoDup (l : list string) : nodupb l = true -> NoDup l.
Proof.
  induction l as [|x l IH]; cbn [nodupb]; intros H; [constructor|].
  apply andb_prop in H. destruct H as [Hx Hl].
  apply NoDup_cons. split; [|exact (IH Hl)].
  intros Hin. apply list_elem_of_In in Hin. apply negb_true_iff in Hx.
  assert (E : existsb (String.eqb x) l = true).
  { apply existsb_exists. exists x. split; [exact Hin|apply String.eqb_refl]. }
  congruence.
Qed.

(** X20. The registry [tdss_callbacks] is consistent: no tag is written
    twice (a repeated key would silently drop the earlier entry), every
    tag is a positive 32-bit number, no name is used for two tags, every
    decoder is the method named after its entry, [<name>_struct], and
    no entry sets the third component, so the [beautify] branch of
    [parse_blob] is never taken. *)
Theorem tdss_callbacks_consistent :
  NoDup (map fst tdss_callbacks)
  /\ NoDup (map (fun kv => blob_tuple_name (snd kv)) tdss_callbacks)
  /\ (forall (signature : Z) (t : blob_tuple),
         In (signature, t) tdss_callbacks ->
         0 < signature < 2 ^ 32
         /\ (forall blob_parser, blob_tuple_parser t = Some blob_parser ->
                                 blob_parser = (blob_tuple_name t ++ "_struct")%string)
         /\ (forall blob_parser name beautify,
                t = Tuple3 blob_parser name beautify -> truthy beautify = false)).
Proof.
  split; [exact tdss_callbacks_keys_NoDup|]. split.
  - apply nodupb_NoDup. vm_compute. reflexivity.
  - assert (Hall : forallb
                     (fun kv : Z * blob_tuple =>
                        (0 <? fst kv) && (fst kv <? 2 ^ 32)
                        && match blob_tuple_parser (snd kv) with
                           | Some f => String.eqb f (blob_tuple_name (snd kv) ++ "_struct")
                           | None => true
                           end
                        && match snd kv with
                           | Tuple3 _ _ beautify => negb (truthy beautify)
                           | Tuple2 _ _ => true
                           end)
                     tdss_callbacks = true)
      by (vm_compute; reflexivity).
    intros signature t Hin.
    rewrite forallb_forall in Hall. specialize (Hall _ Hin). cbn [fst snd] in Hall.
    apply andb_prop in Hall. destruct Hall as [Hall Hb].
    apply andb_prop in Hall. destruct Hall as [Hall Hf].
    apply andb_prop in Hall. destruct Hall as [Hlo Hhi].
    apply Z.ltb_lt in Hlo, Hhi.
    split; [lia|]. split.
    + intros blob_parser Hp. rewrite Hp in Hf. apply String.eqb_eq in Hf. exact Hf.
    + intros blob_parser name beautify ->. apply negb_true_iff in Hb. exact Hb.
Qed.

(** ** The [users] table *)

Section UsersTable.

Variables action_map fwd_map media_map reply_map entity_map : list (Z * Parser).
Variable adjusted : exn + Parser.
Variable other_struct : string -> Parser.
Variable int_of_text : value -> result Z.

Abbreviation dispatch :=
  (parse_blob action_map fwd_map media_map reply_map entity_map adjusted other_struct).
Abbreviation the_user :=
  (row_user action_map fwd_map media_map reply_map entity_map adjusted other_struct).
Abbreviation the_owner :=
  (row_is_self action_map fwd_map media_map reply_map entity_map adjusted other_struct).
Abbreviation round :=
  (users_entry action_map fwd_map media_map reply_map entity_map adjusted other_struct
     int_of_text).
Abbreviation rounds :=
  (users_entries action_map fwd_map media_map reply_map entity_map adjusted other_struct
     int_of_text).
Abbreviation parse_table_users :=
  (__parse_table_users action_map fwd_map media_map reply_map entity_map adjusted
     other_struct int_of_text).

(** A round that returns has stored the row's user under a new, non-zero
    [uid] that is the [id] of the blob. *)
Lemma users_entry_returns (blob_parser : tblob) (t t' : gmap Z tuser) (b b' : bool)
    (entry : users_row) (l : list log_record) :
  round blob_parser (t, b) entry = (Ok (t', b'), l) ->
  row_uid entry <> 0
  /\ t !! row_uid entry = None
  /\ exists user id,
      the_user blob_parser entry = Some user
      /\ getattr (tuser_blob user) "id" = Ok id
      /\ py_int int_of_text id = Ok (row_uid entry)
      /\ t' = <[row_uid entry := user]> t
      /\ b' = (b || the_owner blob_parser entry)
      /\ b && the_owner blob_parser entry = false.
Proof.
  unfold users_entry, row_is_self, row_user.
  destruct (Z.eqb_spec (row_uid entry) 0) as [|Hnz]; [discriminate|].
  destruct (bool_decide (is_Some (t !! row_uid entry))) eqn:Hsome; [discriminate|].
  apply bool_decide_eq_false in Hsome.
  assert (Hnone : t !! row_uid entry = None).
  { destruct (t !! row_uid entry) eqn:E; [exfalso; apply Hsome; eauto|reflexivity]. }
  destruct (dispatch blob_parser (row_data entry)) as [[blob|e] lg]; [|discriminate].
  unfold tuser__init__.
  destruct (getattr blob "id") as [id|e] eqn:Hid; [|discriminate]. cbn [and_then].
  destruct (py_int int_of_text id) as [n|e] eqn:Hint; [|discriminate]. cbn [and_then].
  destruct (Z.eqb_spec (row_uid entry) n) as [<-|]; [|discriminate].
  set (user := mk_tuser (row_uid entry) (row_name entry) (row_status entry) blob).
  intros H. split; [exact Hnz|]. split; [exact Hnone|].
  exists user, id. split; [reflexivity|]. split; [exact Hid|]. split; [exact Hint|].
  destruct (truthy (is_self user)), b; try discriminate H;
    injection H as <- <- _; repeat split; reflexivity.
Qed.

(** The loop, from the state [(t, b)]. *)
Lemma users_entries_returns (blob_parser : tblob) (entries : list users_row) :
  forall (t t' : gmap Z tuser) (b b' : bool) (l : list log_record),
    rounds blob_parser (t, b) entries = (Ok tt, (t', b'), l) ->
    NoDup (map row_uid entries)
    /\ (forall entry,
           In entry entries ->
           row_uid entry <> 0
           /\ t !! row_uid entry = None
           /\ exists user id,
               the_user blob_parser entry = Some user
               /\ t' !! row_uid entry = Some user
               /\ getattr (tuser_blob user) "id" = Ok id
               /\ py_int int_of_text id = Ok (row_uid entry))
    /\ (forall uid, ~ In uid (map row_uid entries) -> t' !! uid = t !! uid)
    /\ ((if b then 1 else 0) + List.length (List.filter (the_owner blob_parser) entries)
        = if b' then 1 else 0)%nat.
Proof.
  induction entries as [|entry entries IH]; intros t t' b b' l H.
  - cbn in H. injection H as <- <- _.
    split; [constructor|]. split; [intros ? []|]. split; [reflexivity|].
    cbn. destruct b; reflexivity.
  - cbn [users_entries] in H.
    destruct (round blob_parser (t, b) entry) as [[[t1 b1]|e] l1] eqn:Hround;
      [|discriminate H].
    destruct (rounds blob_parser (t1, b1) entries) as [[r [t2 b2]] l2] eqn:Hrest.
    injection H as -> <- <- _.
    destruct (users_entry_returns _ _ _ _ _ _ _ Hround)
      as (Hnz & Hnone & user & id & Huser & Hid & Hint & -> & -> & Hone).
    destruct (IH _ _ _ _ _ Hrest) as (Hnodup & Hrows & Hkeep & Hcount).
    assert (Hfresh : ~ In (row_uid entry) (map row_uid entries)).
    { intros Hin. apply in_map_iff in Hin. destruct Hin as (e' & He' & Hin).
      destruct (Hrows e' Hin) as (_ & Hnew & _).
      rewrite He', lookup_insert_eq in Hnew. discriminate Hnew. }
    split; [|split; [|split]].
    + cbn [map]. apply NoDup_cons. split; [|exact Hnodup].
      intros Hin. apply Hfresh. apply list_elem_of_In. exact Hin.
    + intros e' [<-|Hin].
      * split; [exact Hnz|]. split; [exact Hnone|].
        exists user, id. split; [exact Huser|].
        split; [|split; assumption].
        rewrite (Hkeep _ Hfresh). apply lookup_insert_eq.
      * destruct (Hrows e' Hin) as (Hnz' & Hnew & Hu).
        split; [exact Hnz'|]. split; [|exact Hu].
        destruct (Z.eq_dec (row_uid entry) (row_uid e')) as [E|N].
        -- rewrite E, lookup_insert_eq in Hnew. discriminate Hnew.
        -- rewrite lookup_insert_ne in Hnew by exact N. exact Hnew.
    + intros uid Hnot. cbn [map In] in Hnot.
      rewrite Hkeep by (intros Hin; apply Hnot; right; exact Hin).
      apply lookup_insert_ne. intros E. apply Hnot. left. exact E.
    + cbn [List.filter].
      destruct (the_owner blob_parser entry), b; cbn [orb andb] in Hone, Hcount |- *;
        try discriminate Hone; cbn [List.length]; lia.
Qed.

(** X21. When [__parse_table_users], started on the empty table,
    returns, the rows had pairwise different, non-zero [uid]s; the table
    holds exactly these [uid]s, each with the user made of its row and of
    the record [parse_blob] decoded from the row's blob, a record whose
    [id] is the [uid]; and exactly one row is the owner of the account
    ([is_self]). *)
Theorem parse_table_users_returns :
  forall (blob_parser : tblob) (entries : list users_row) (table : gmap Z tuser)
         (l : list log_record),
    parse_table_users blob_parser ∅ entries = (Ok tt, table, l) ->
    NoDup (map row_uid entries)
    /\ ~ In 0 (map row_uid entries)
    /\ (forall uid, is_Some (table !! uid) <-> In uid (map row_uid entries))
    /\ (forall entry,
           In entry entries ->
           exists user id,
             the_user blob_parser entry = Some user
             /\ table !! row_uid entry = Some user
             /\ getattr (tuser_blob user) "id" = Ok id
             /\ py_int int_of_text id = Ok (row_uid entry))
    /\ List.length (List.filter (the_owner blob_parser) entries) = 1%nat.
Proof.
  intros blob_parser entries table l H. unfold __parse_table_users in H.
  destruct (rounds blob_parser (∅, false) entries) as [[r [t b]] l'] eqn:Hloop.
  destruct r as [[]|e]; [|discriminate H].
  destruct b; [|discriminate H]. injection H as <- _.
  destruct (users_entries_returns _ _ _ _ _ _ _ Hloop) as (Hnodup & Hrows & Hkeep & Hcount).
  split; [exact Hnodup|]. split; [|split; [|split]].
  - intros Hin. apply in_map_iff in Hin. destruct Hin as (e & He & Hin).
    destruct (Hrows e Hin) as (Hnz & _). contradiction.
  - intros uid. split.
    + intros Hsome.
      destruct (in_dec Z.eq_dec uid (map row_uid entries)) as [Hin|Hnot]; [exact Hin|].
      rewrite (Hkeep uid Hnot), lookup_empty in Hsome. destruct Hsome as [? Hsome].
      discriminate Hsome.
    + intros Hin. apply in_map_iff in Hin. destruct Hin as (e & <- & Hin).
      destruct (Hrows e Hin) as (_ & _ & user & id & _ & Hu & _). eauto.
  - intros entry Hin. destruct (Hrows entry Hin) as (_ & _ & Hu). exact Hu.
  - cbn in Hcount. exact Hcount.
Qed.

Lemma users_entries_app (blob_parser : tblob) (before after : list users_row) :
  forall st,
    rounds blob_parser st (before ++ after)
    = match rounds blob_parser st before with
      | (Ok _, st', l) =>
          let '(r, st'', l') := rounds blob_parser st' after in (r, st'', l ++ l')
      | (Raise e, st', l) => (Raise e, st', l)
      end.
Proof.
  induction before as [|entry before IH]; intros st.
  - cbn [app users_entries].
    destruct (rounds blob_parser st after) as [[r st''] l']. reflexivity.
  - cbn [app users_entries].
    destruct (round blob_parser st entry) as [[st1|e] l1]; [|reflexivity].
    rewrite IH.
    destruct (rounds blob_parser st1 before) as [[[[]|e] st2] l2]; [|reflexivity].
    destruct (rounds blob_parser st2 after) as [[r st3] l3].
    rewrite app_assoc. reflexivity.
Qed.

(** X22. A row whose blob [parse_blob] cannot decode (it returns
    [None], as it does for an unknown and for an unsupported tag) stops
    [__parse_table_users]: the [tuser] cannot be made of [None], the
    method raises [AttributeError], the rows after it are not looked at
    and the table keeps the users of the rows before it. *)
Theorem parse_table_users_undecoded_blob :
  forall (blob_parser : tblob) (before after : list users_row) (entry : users_row)
         (t : gmap Z tuser) (b : bool) (l lg : list log_record),
    rounds blob_parser (∅, false) before = (Ok tt, (t, b), l) ->
    row_uid entry <> 0 ->
    ~ In (row_uid entry) (map row_uid before) ->
    dispatch blob_parser (row_data entry) = (Ok VNone, lg) ->
    parse_table_users blob_parser ∅ (before ++ entry :: after)
    = (Raise AttributeError, t,
       l ++ mkLog INFO "parsing users, entry uid: %s" [VInt (row_uid entry)] :: lg).
Proof.
  intros blob_parser before after entry t b l lg Hbefore Hnz Hnew Hblob.
  destruct (users_entries_returns _ _ _ _ _ _ _ Hbefore) as (_ & _ & Hkeep & _).
  assert (Hnone : t !! row_uid entry = None)
    by (rewrite (Hkeep _ Hnew); apply lookup_empty).
  assert (Hround : round blob_parser (t, b) entry
                   = (Raise AttributeError,
                      mkLog INFO "parsing users, entry uid: %s" [VInt (row_uid entry)]
                      :: lg)).
  { unfold users_entry.
    destruct (Z.eqb_spec (row_uid entry) 0) as [|_]; [contradiction|].
    rewrite Hnone.
    rewrite (bool_decide_eq_false_2 (is_Some None)) by (intros [? H]; discriminate H).
    rewrite Hblob. reflexivity. }
  unfold __parse_table_users. rewrite users_entries_app, Hbefore.
  cbn [users_entries]. rewrite Hround. reflexivity.
Qed.

End UsersTable.

(** One row: the owner, user 7, without names. *)
Lemma parse_table_users_returns_witness :
  let row := mk_users_row 7 (VStr (str "owner")) 0
               (bytes_of [0xc1; 0x58; 0x84; 0x93;  0x00; 0x04; 0; 0;  0x07; 0; 0; 0]) in
  exists table l user,
    __parse_table_users sample_tag_map sample_tag_map sample_tag_map sample_tag_map
      sample_tag_map sample_adjusted sample_other_struct (fun _ => Raise ValueError)
      (fst __init__) ∅ [row]
    = (Ok tt, table, l)
    /\ table !! 7 = Some user
    /\ getattr (tuser_blob user) "id" = Ok (VInt 7).
Proof.
  intros row.
  assert (Hblob : exists blob,
             sample_parse_blob (fst __init__) (row_data row) = (Ok blob, [])
             /\ getattr blob "id" = Ok (VInt 7)
             /\ truthy (is_self (mk_tuser 7 (VStr (str "owner")) 0 blob)) = true).
  { eexists. split; [|split].
    - erewrite parse_blob_decoder.
      2:{ rewrite callbacks_lookup. vm_compute. reflexivity. }
      2:{ reflexivity. }
      vm_compute. reflexivity.
    - reflexivity.
    - reflexivity. }
  destruct Hblob as (blob & Hblob & Hid & Hself).
  assert (Hrun : __parse_table_users sample_tag_map sample_tag_map sample_tag_map
                   sample_tag_map sample_tag_map sample_adjusted sample_other_struct
                   (fun _ => Raise ValueError) (fst __init__) ∅ [row]
                 = (Ok tt, <[7 := mk_tuser 7 (VStr (str "owner")) 0 blob]> ∅,
                    [mkLog INFO "parsing users, entry uid: %s" [VInt 7]])).
  { unfold __parse_table_users, users_entries, users_entry.
    change (row_uid row) with 7. cbn [Z.eqb].
    rewrite lookup_empty.
    rewrite (bool_decide_eq_false_2 (is_Some None)) by (intros [? H]; discriminate H).
    rewrite Hblob. unfold tuser__init__. rewrite Hid. cbn [and_then py_int Z.eqb Pos.eqb].
    change (row_name row) with (VStr (str "owner")). change (row_status row) with 0.
    rewrite Hself. reflexivity. }
  destruct (parse_table_users_returns
              sample_tag_map sample_tag_map sample_tag_map sample_tag_map sample_tag_map
              sample_adjusted sample_other_struct (fun _ => Raise ValueError)
              (fst __init__) [row] _ _ Hrun)
    as (_ & _ & _ & Hrows & _).
  destruct (Hrows row (or_introl eq_refl)) as (user & id & _ & Hu & Hi & Hint).
  do 3 eexists. split; [exact Hrun|]. split; [exact Hu|].
  destruct id as [|b|z| | | | |]; cbn in Hint; try discriminate Hint.
  - destruct b; discriminate Hint.
  - injection Hint as ->. exact Hi.
Defined.

(** After the owner's row, a row whose blob has the unknown tag
    0xdeadbeef. *)
Lemma parse_table_users_undecoded_blob_witness :
  let owner := mk_users_row 7 (VStr (str "owner")) 0
                 (bytes_of [0xc1; 0x58; 0x84; 0x93;  0x00; 0x04; 0; 0;  0x07; 0; 0; 0]) in
  let unknown := mk_users_row 8 VNone 0 (bytes_of [0xef; 0xbe; 0xad; 0xde]) in
  exists table l,
    table !! 7 <> None
    /\ table !! 8 = None
    /\ __parse_table_users sample_tag_map sample_tag_map sample_tag_map sample_tag_map
         sample_tag_map sample_adjusted sample_other_struct (fun _ => Raise ValueError)
         (fst __init__) ∅ [owner; unknown; owner]
       = (Raise AttributeError, table, l).
Proof.
  intros owner unknown.
  assert (Hblob : exists blob,
             sample_parse_blob (fst __init__) (row_data owner) = (Ok blob, [])
             /\ getattr blob "id" = Ok (VInt 7)
             /\ truthy (is_self (mk_tuser 7 (VStr (str "owner")) 0 blob)) = true).
  { eexists. split; [|split].
    - erewrite parse_blob_decoder.
      2:{ rewrite callbacks_lookup. vm_compute. reflexivity. }
      2:{ reflexivity. }
      vm_compute. reflexivity.
    - reflexivity.
    - reflexivity. }
  destruct Hblob as (blob & Hblob & Hid & Hself).
  assert (Hbefore : users_entries sample_tag_map sample_tag_map sample_tag_map
                      sample_tag_map sample_tag_map sample_adjusted sample_other_struct
                      (fun _ => Raise ValueError) (fst __init__) (∅, false) [owner]
                    = (Ok tt, (<[7 := mk_tuser 7 (VStr (str "owner")) 0 blob]> ∅, true),
                       [mkLog INFO "parsing users, entry uid: %s" [VInt 7]])).
  { unfold users_entries, users_entry.
    change (row_uid owner) with 7. cbn [Z.eqb].
    rewrite lookup_empty.
    rewrite (bool_decide_eq_false_2 (is_Some None)) by (intros [? H]; discriminate H).
    rewrite Hblob. unfold tuser__init__. rewrite Hid. cbn [and_then py_int Z.eqb Pos.eqb].
    change (row_name owner) with (VStr (str "owner")). change (row_status owner) with 0.
    rewrite Hself. reflexivity. }
  assert (Hunknown : sample_parse_blob (fst __init__) (row_data unknown)
                     = (Ok VNone,
                        [mkLog ERROR "unknown signature %s" [VStr (str "0xdeadbeef")]])).
  { apply parse_blob_unknown.
    - intros Hempty. pose proof init_callbacks_nonempty as Hne.
      apply bool_decide_eq_false in Hne. contradiction.
    - rewrite callbacks_lookup. vm_compute. reflexivity. }
  do 2 eexists. split; [|split].
  3:{ exact (parse_table_users_undecoded_blob
               sample_tag_map sample_tag_map sample_tag_map sample_tag_map sample_tag_map
               sample_adjusted sample_other_struct (fun _ => Raise ValueError)
               (fst __init__) [owner] [owner] unknown _ _ _ _
               Hbefore ltac:(discriminate)
               ltac:(cbn; intros [H|[]]; discriminate H) Hunknown). }
  - rewrite lookup_insert_eq. discriminate.
  - rewrite lookup_insert_ne by discriminate. apply lookup_empty.
Defined.
